(** * Timestamp handling of the transcoding driver: a shallow embedding

    The development follows three translation units of the driver:
    - [fftools/ffmpeg_dec.c]      (module [Dec]):     decoder stage,
    - [fftools/ffmpeg_demux.c]    (module [Demux]):   demuxer stage,
    - [fftools/ffmpeg_mux_init.c] (module [MuxInit]): output set-up.

    C integers are mathematical integers ([Z]) with the wrap-around of the
    C type written out where the code computes; structs are records; calls
    into libraries whose sources are not part of the three units are either
    members of the interface [LibAVUtil] or functions of an explicit
    collaborator state. *)

From Stdlib Require Import ZArith List Bool Lia String.
Import ListNotations.
Open Scope Z_scope.

(** ** Machine integers *)

Definition INT_MAX   : Z := 2147483647.
Definition INT64_MAX : Z := 9223372036854775807.
Definition INT64_MIN : Z := -9223372036854775808.

(** Two's-complement reduction of a mathematical integer to [w] bits. *)
Definition wrap (w z : Z) : Z := (z + 2 ^ (w - 1)) mod 2 ^ w - 2 ^ (w - 1).
Definition int32 (z : Z) : Z := wrap 32 z.
Definition int64 (z : Z) : Z := wrap 64 z.

Definition in_int64 (z : Z) : Prop := INT64_MIN <= z <= INT64_MAX.

(** Modelled from the spec: the sentinel NOPTS, "a reserved value distinct
    from any representable instant"; libavutil/avutil.h, which declares
    AV_NOPTS_VALUE, is not among the sources.  It is the most negative
    64-bit integer. *)
Definition AV_NOPTS_VALUE : Z := INT64_MIN.

(** Modelled from the spec: AV_TIME_BASE, "the canonical internal tb
    {1, 1_000_000}"; declared in libavutil/avutil.h. *)
Definition AV_TIME_BASE : Z := 1000000.

(** C truth value of an [int]. *)
Definition truthy (z : Z) : bool := negb (z =? 0).
Definition of_bool (b : bool) : Z := if b then 1 else 0.

(** [AVERROR(e)] is [-e] on the platforms the driver is built for; the
    special codes are tags built by FFERRTAG. *)
Definition EAGAIN : Z := 11.
Definition ENOMEM : Z := 12.
Definition EINVAL : Z := 22.
Definition AVERROR (e : Z) : Z := - e.
Definition AVERROR_EOF : Z := -541478725.

(** ** Rationals and the libavutil interface *)

Record AVRational : Type := mkQ { num : Z; den : Z }.

Definition AVRational_eqb (a b : AVRational) : bool :=
  (num a =? num b) && (den a =? den b).

Definition AV_TIME_BASE_Q : AVRational := mkQ 1 AV_TIME_BASE.

(** enum AVRounding, as the bit patterns the code ors together. *)
Definition AV_ROUND_ZERO     : Z := 0.
Definition AV_ROUND_INF      : Z := 1.
Definition AV_ROUND_DOWN     : Z := 2.
Definition AV_ROUND_UP       : Z := 3.
Definition AV_ROUND_NEAR_INF : Z := 5.
Definition AV_ROUND_PASS_MINMAX : Z := 8192.

(** The functions of libavutil/mathematics.c and libavutil/rational.c that
    the three units call.  Their sources are not part of the units, so the
    embedding is parametric in them.  [av_rescale_delta] takes the value
    behind its [last] pointer and returns the result together with the value
    it leaves there. *)
Class LibAVUtil : Type := {
  av_rescale       : Z -> Z -> Z -> Z;
  av_rescale_q     : Z -> AVRational -> AVRational -> Z;
  av_rescale_q_rnd : Z -> AVRational -> AVRational -> Z -> Z;
  av_rescale_delta : AVRational -> Z -> AVRational -> Z -> Z -> AVRational
                     -> Z * Z;
  av_compare_ts    : Z -> AVRational -> Z -> AVRational -> Z;
  av_mul_q         : AVRational -> AVRational -> AVRational;
  av_inv_q         : AVRational -> AVRational
}.

(** The driver's floating-point arithmetic.  The per-stream option
    [ts_scale] is a [double], the thresholds [dts_delta_threshold] and
    [dts_error_threshold] are [float]s; the three expressions in which the
    demuxer uses them are the members of this interface. *)
Class FloatArith : Type := {
  double : Type;
  float  : Type;
  (** [(int64_t)(ts * scale)], the effect of [ts *= scale] *)
  scale_int64 : Z -> double -> Z;
  (** [x > 1LL * thr * AV_TIME_BASE] *)
  exceeds_seconds : Z -> float -> bool;
  (** [- video_delay * AV_TIME_BASE / av_q2d(rate)], stored in an int64_t *)
  video_delay_dts : Z -> AVRational -> Z
}.

(** Modelled from the spec: [gcd] of the timestamp algebra ("gcd/reduce for
    time-base construction"); av_gcd of libavutil/mathematics.c is not among
    the sources.  The greatest common divisor of the absolute values. *)
Definition av_gcd (a b : Z) : Z := Z.gcd a b.

(** *** A reference instance of the interface

    Modelled from the spec: [rescale(t, from_tb, to_tb, rounding)] of the
    timestamp algebra: exact rational rescaling with the named rounding
    mode, NOPTS passed through under PassMinmax, saturating at the 64-bit
    bounds.  It instantiates the interface wherever a closed instance is
    needed. *)
Module Model.

Definition saturate (z : Z) : Z := Z.max INT64_MIN (Z.min INT64_MAX z).

Definition ceil_div (p q : Z) : Z := - ((- p) / q).

Definition round_div (mode p q : Z) : Z :=
  if mode =? AV_ROUND_ZERO then p ÷ q
  else if mode =? AV_ROUND_INF then (if p <? 0 then p / q else ceil_div p q)
  else if mode =? AV_ROUND_DOWN then p / q
  else if mode =? AV_ROUND_UP then ceil_div p q
  else (if p <? 0 then ceil_div (2 * p - q) (2 * q) else (2 * p + q) / (2 * q)).

Definition av_rescale_rnd (a b c rnd : Z) : Z :=
  if (c <=? 0) || (b <? 0) then INT64_MIN
  else if Z.testbit rnd 13 && ((a =? INT64_MIN) || (a =? INT64_MAX)) then a
  else saturate (round_div (Z.land rnd 8191) (a * b) c).

Definition rescale_q_rnd (a : Z) (bq cq : AVRational) (rnd : Z) : Z :=
  av_rescale_rnd a (int64 (num bq * den cq)) (int64 (num cq * den bq)) rnd.

Definition rescale_q (a : Z) (bq cq : AVRational) : Z :=
  rescale_q_rnd a bq cq AV_ROUND_NEAR_INF.

Definition clip (x lo hi : Z) : Z := Z.max lo (Z.min hi x).

(** Modelled from the spec: [rescale_delta], the "stateful rescale for
    audio; state preserves a per-stream accumulator so that successive
    samples remain contiguous across non-exact rescales; reset when the
    caller signals a gap". *)
Definition rescale_delta (in_tb : AVRational) (in_ts : Z) (fs_tb : AVRational)
    (duration last : Z) (out_tb : AVRational) : Z * Z :=
  let simple := (rescale_q in_ts in_tb out_tb,
                 int64 (rescale_q in_ts in_tb fs_tb + duration)) in
  if (last =? AV_NOPTS_VALUE) || (duration =? 0)
     || (num in_tb * den out_tb <=? num out_tb * den in_tb)
  then simple
  else
    let a := Z.shiftr (rescale_q_rnd (2 * in_ts - 1) in_tb fs_tb AV_ROUND_DOWN) 1 in
    let b := Z.shiftr (rescale_q_rnd (2 * in_ts + 1) in_tb fs_tb AV_ROUND_UP + 1) 1 in
    if (last <? 2 * a - b) || (last >? 2 * b - a) then simple
    else
      let this := clip last a b in
      (rescale_q this fs_tb out_tb, int64 (this + duration)).

Definition compare_ts (a : Z) (atb : AVRational) (b : Z) (btb : AVRational) : Z :=
  Z.sgn (a * num atb * den btb - b * num btb * den atb).

Definition mul_q (a b : AVRational) : AVRational :=
  let n := num a * num b in
  let d := den a * den b in
  let g := Z.gcd n d in
  if g =? 0 then mkQ 0 0 else mkQ (n / g) (d / g).

Definition inv_q (a : AVRational) : AVRational := mkQ (den a) (num a).

Definition libavutil : LibAVUtil := {|
  av_rescale       := fun a b c => av_rescale_rnd a b c AV_ROUND_NEAR_INF;
  av_rescale_q     := rescale_q;
  av_rescale_q_rnd := rescale_q_rnd;
  av_rescale_delta := rescale_delta;
  av_compare_ts    := compare_ts;
  av_mul_q         := mul_q;
  av_inv_q         := inv_q
|}.

(** Scale factors and thresholds that are whole numbers, with exact
    arithmetic. *)
Definition floatarith : FloatArith := {|
  double := Z;
  float  := Z;
  scale_int64 := fun ts scale => int64 (ts * scale);
  exceeds_seconds := fun x thr => x >? thr * AV_TIME_BASE;
  video_delay_dts := fun delay rate =>
    if num rate =? 0 then 0 else int64 ((- delay * AV_TIME_BASE * den rate) ÷ num rate)
|}.

End Model.

(** enum AVMediaType. *)
Inductive AVMediaType : Type :=
| AVMEDIA_TYPE_UNKNOWN | AVMEDIA_TYPE_VIDEO | AVMEDIA_TYPE_AUDIO
| AVMEDIA_TYPE_DATA | AVMEDIA_TYPE_SUBTITLE | AVMEDIA_TYPE_ATTACHMENT.

Definition AVMediaType_eqb (a b : AVMediaType) : bool :=
  match a, b with
  | AVMEDIA_TYPE_UNKNOWN, AVMEDIA_TYPE_UNKNOWN
  | AVMEDIA_TYPE_VIDEO, AVMEDIA_TYPE_VIDEO
  | AVMEDIA_TYPE_AUDIO, AVMEDIA_TYPE_AUDIO
  | AVMEDIA_TYPE_DATA, AVMEDIA_TYPE_DATA
  | AVMEDIA_TYPE_SUBTITLE, AVMEDIA_TYPE_SUBTITLE
  | AVMEDIA_TYPE_ATTACHMENT, AVMEDIA_TYPE_ATTACHMENT => true
  | _, _ => false
  end.

(** The macros FFMAX and FFABS of libavutil/common.h. *)
Definition FFMAX (a b : Z) : Z := if a >? b then a else b.
Definition FFABS (a : Z) : Z := if a >=? 0 then a else - a.

(** How a call into the driver ends: it returns, it leaves the process
    through [exit_program(status)] or [report_and_exit(status)], it fails an
    [av_assert0], or the bound put on a [while (1)] loop is used up. *)
Inductive outcome : Type :=
| Returns (ret : Z)
| Exits (status : Z)
| Aborts
| OutOfFuel.

(** ** The decoder stage: fftools/ffmpeg_dec.c *)
Module Dec.

(** Frame flags and the codec id tested by [decode_video]
    (libavutil/frame.h, libavcodec/codec_id.h). *)
Definition AV_FRAME_FLAG_CORRUPT         : Z := 1.
Definition AV_FRAME_FLAG_TOP_FIELD_FIRST : Z := 16.
Definition AV_CODEC_ID_H264              : Z := 27.

(** FrameData, the record behind [frame->opaque_ref]. *)
Record FrameData : Type := mkFrameData {
  fd_pts : Z;
  fd_tb  : AVRational;
  fd_idx : Z
}.

(** The fields of AVFrame that the unit reads or writes. *)
Record AVFrame : Type := mkFrame {
  pts                   : Z;
  duration              : Z;
  time_base             : AVRational;
  sample_rate           : Z;
  nb_samples            : Z;
  repeat_pict           : Z;
  best_effort_timestamp : Z;
  flags                 : Z;
  decode_error_flags    : Z;
  format                : Z;
  sample_aspect_ratio   : AVRational;
  opaque_ref            : option FrameData
}.

Definition set_pts (f : AVFrame) (v : Z) : AVFrame :=
  mkFrame v (duration f) (time_base f) (sample_rate f) (nb_samples f)
    (repeat_pict f) (best_effort_timestamp f) (flags f) (decode_error_flags f)
    (format f) (sample_aspect_ratio f) (opaque_ref f).
Definition set_duration (f : AVFrame) (v : Z) : AVFrame :=
  mkFrame (pts f) v (time_base f) (sample_rate f) (nb_samples f)
    (repeat_pict f) (best_effort_timestamp f) (flags f) (decode_error_flags f)
    (format f) (sample_aspect_ratio f) (opaque_ref f).
Definition set_time_base (f : AVFrame) (v : AVRational) : AVFrame :=
  mkFrame (pts f) (duration f) v (sample_rate f) (nb_samples f)
    (repeat_pict f) (best_effort_timestamp f) (flags f) (decode_error_flags f)
    (format f) (sample_aspect_ratio f) (opaque_ref f).
Definition set_flags (f : AVFrame) (v : Z) : AVFrame :=
  mkFrame (pts f) (duration f) (time_base f) (sample_rate f) (nb_samples f)
    (repeat_pict f) (best_effort_timestamp f) v (decode_error_flags f)
    (format f) (sample_aspect_ratio f) (opaque_ref f).
Definition set_sample_aspect_ratio (f : AVFrame) (v : AVRational) : AVFrame :=
  mkFrame (pts f) (duration f) (time_base f) (sample_rate f) (nb_samples f)
    (repeat_pict f) (best_effort_timestamp f) (flags f) (decode_error_flags f)
    (format f) v (opaque_ref f).
Definition set_opaque_ref (f : AVFrame) (v : option FrameData) : AVFrame :=
  mkFrame (pts f) (duration f) (time_base f) (sample_rate f) (nb_samples f)
    (repeat_pict f) (best_effort_timestamp f) (flags f) (decode_error_flags f)
    (format f) (sample_aspect_ratio f) v.

(** The packet fields the unit looks at. *)
Record AVPacket : Type := mkPacket {
  size : Z
}.

(** [ist->dec_ctx]. *)
Record AVCodecContext : Type := mkCodecContext {
  codec_type     : AVMediaType;
  codec_id       : Z;
  ctx_framerate  : AVRational;
  has_b_frames   : Z;
  pkt_timebase   : AVRational;
  frame_num      : Z
}.

(** [input_files[i]]: the one field the unit reads. *)
Record InputFile : Type := mkInputFile {
  format_nots : bool
}.

(** The fields of AVSubtitle that the unit reads or writes;
    [end_display_time] is a [uint32_t]. *)
Record AVSubtitle : Type := mkSubtitle {
  subtitle_pts     : Z;
  end_display_time : Z;
  num_rects        : Z
}.

Definition set_end_display_time (sub : AVSubtitle) (v : Z) : AVSubtitle :=
  mkSubtitle (subtitle_pts sub) v (num_rects sub).

(** A subtitle as [avsubtitle_free] leaves it. *)
Definition blank_subtitle : AVSubtitle := mkSubtitle 0 0 0.

(** An entry of [ist->outputs]: what [process_subtitle] asks of it. *)
Record OutputStream : Type := mkOutputStream {
  enc            : bool;
  ost_type       : AVMediaType;
  ost_file_index : Z
}.

(** InputStream as this unit sees it.  [st_*] are fields of [ist->st],
    [video_delay] is [ist->par->video_delay], [hwaccel_retrieve_data] and
    [sub2video_sub_queue] tell whether the pointer is set, [prev_sub_*] are
    the fields of [ist->prev_sub]. *)
Record InputStream : Type := mkInputStream {
  file_index                   : Z;
  dec_ctx                      : AVCodecContext;
  st_avg_frame_rate            : AVRational;
  st_sample_aspect_ratio       : AVRational;
  video_delay                  : Z;
  framerate                    : AVRational;
  top_field_first              : Z;
  hwaccel_retrieve_data        : bool;
  hwaccel_pix_fmt              : Z;
  want_frame_data              : bool;
  nb_filters                   : Z;
  outputs                      : list OutputStream;
  ist_pkt                      : AVPacket;
  fix_sub_duration             : Z;
  prev_sub_got_output          : Z;
  prev_sub_ret                 : Z;
  prev_sub_subtitle            : AVSubtitle;
  sub2video_sub_queue          : bool;
  last_frame_tb                : AVRational;
  last_frame_sample_rate       : Z;
  last_frame_pts               : Z;
  last_frame_duration_est      : Z;
  filter_in_rescale_delta_last : Z;
  ist_nb_samples               : Z;
  samples_decoded              : Z;
  frames_decoded               : Z;
  decode_errors                : Z
}.

Definition set_video_delay (i : InputStream) (v : Z) : InputStream :=
  mkInputStream (file_index i) (dec_ctx i) (st_avg_frame_rate i)
    (st_sample_aspect_ratio i) v (framerate i) (top_field_first i)
    (hwaccel_retrieve_data i) (hwaccel_pix_fmt i) (want_frame_data i)
    (nb_filters i) (outputs i) (ist_pkt i) (fix_sub_duration i)
    (prev_sub_got_output i) (prev_sub_ret i) (prev_sub_subtitle i)
    (sub2video_sub_queue i) (last_frame_tb i) (last_frame_sample_rate i)
    (last_frame_pts i) (last_frame_duration_est i)
    (filter_in_rescale_delta_last i) (ist_nb_samples i) (samples_decoded i)
    (frames_decoded i) (decode_errors i).
Definition set_prev_sub_got_output (i : InputStream) (v : Z) : InputStream :=
  mkInputStream (file_index i) (dec_ctx i) (st_avg_frame_rate i)
    (st_sample_aspect_ratio i) (video_delay i) (framerate i)
    (top_field_first i) (hwaccel_retrieve_data i) (hwaccel_pix_fmt i)
    (want_frame_data i) (nb_filters i) (outputs i) (ist_pkt i)
    (fix_sub_duration i) v (prev_sub_ret i) (prev_sub_subtitle i)
    (sub2video_sub_queue i) (last_frame_tb i) (last_frame_sample_rate i)
    (last_frame_pts i) (last_frame_duration_est i)
    (filter_in_rescale_delta_last i) (ist_nb_samples i) (samples_decoded i)
    (frames_decoded i) (decode_errors i).
Definition set_prev_sub_ret (i : InputStream) (v : Z) : InputStream :=
  mkInputStream (file_index i) (dec_ctx i) (st_avg_frame_rate i)
    (st_sample_aspect_ratio i) (video_delay i) (framerate i)
    (top_field_first i) (hwaccel_retrieve_data i) (hwaccel_pix_fmt i)
    (want_frame_data i) (nb_filters i) (outputs i) (ist_pkt i)
    (fix_sub_duration i) (prev_sub_got_output i) v (prev_sub_subtitle i)
    (sub2video_sub_queue i) (last_frame_tb i) (last_frame_sample_rate i)
    (last_frame_pts i) (last_frame_duration_est i)
    (filter_in_rescale_delta_last i) (ist_nb_samples i) (samples_decoded i)
    (frames_decoded i) (decode_errors i).
Definition set_prev_sub_subtitle (i : InputStream) (v : AVSubtitle) : InputStream :=
  mkInputStream (file_index i) (dec_ctx i) (st_avg_frame_rate i)
    (st_sample_aspect_ratio i) (video_delay i) (framerate i)
    (top_field_first i) (hwaccel_retrieve_data i) (hwaccel_pix_fmt i)
    (want_frame_data i) (nb_filters i) (outputs i) (ist_pkt i)
    (fix_sub_duration i) (prev_sub_got_output i) (prev_sub_ret i) v
    (sub2video_sub_queue i) (last_frame_tb i) (last_frame_sample_rate i)
    (last_frame_pts i) (last_frame_duration_est i)
    (filter_in_rescale_delta_last i) (ist_nb_samples i) (samples_decoded i)
    (frames_decoded i) (decode_errors i).
Definition set_sub2video_sub_queue (i : InputStream) (v : bool) : InputStream :=
  mkInputStream (file_index i) (dec_ctx i) (st_avg_frame_rate i)
    (st_sample_aspect_ratio i) (video_delay i) (framerate i)
    (top_field_first i) (hwaccel_retrieve_data i) (hwaccel_pix_fmt i)
    (want_frame_data i) (nb_filters i) (outputs i) (ist_pkt i)
    (fix_sub_duration i) (prev_sub_got_output i) (prev_sub_ret i)
    (prev_sub_subtitle i) v (last_frame_tb i) (last_frame_sample_rate i)
    (last_frame_pts i) (last_frame_duration_est i)
    (filter_in_rescale_delta_last i) (ist_nb_samples i) (samples_decoded i)
    (frames_decoded i) (decode_errors i).
Definition set_last_frame_tb (i : InputStream) (v : AVRational) : InputStream :=
  mkInputStream (file_index i) (dec_ctx i) (st_avg_frame_rate i)
    (st_sample_aspect_ratio i) (video_delay i) (framerate i)
    (top_field_first i) (hwaccel_retrieve_data i) (hwaccel_pix_fmt i)
    (want_frame_data i) (nb_filters i) (outputs i) (ist_pkt i)
    (fix_sub_duration i) (prev_sub_got_output i) (prev_sub_ret i)
    (prev_sub_subtitle i) (sub2video_sub_queue i) v
    (last_frame_sample_rate i) (last_frame_pts i)
    (last_frame_duration_est i) (filter_in_rescale_delta_last i)
    (ist_nb_samples i) (samples_decoded i) (frames_decoded i)
    (decode_errors i).
Definition set_last_frame_sample_rate (i : InputStream) (v : Z) : InputStream :=
  mkInputStream (file_index i) (dec_ctx i) (st_avg_frame_rate i)
    (st_sample_aspect_ratio i) (video_delay i) (framerate i)
    (top_field_first i) (hwaccel_retrieve_data i) (hwaccel_pix_fmt i)
    (want_frame_data i) (nb_filters i) (outputs i) (ist_pkt i)
    (fix_sub_duration i) (prev_sub_got_output i) (prev_sub_ret i)
    (prev_sub_subtitle i) (sub2video_sub_queue i) (last_frame_tb i) v
    (last_frame_pts i) (last_frame_duration_est i)
    (filter_in_rescale_delta_last i) (ist_nb_samples i) (samples_decoded i)
    (frames_decoded i) (decode_errors i).
Definition set_last_frame_pts (i : InputStream) (v : Z) : InputStream :=
  mkInputStream (file_index i) (dec_ctx i) (st_avg_frame_rate i)
    (st_sample_aspect_ratio i) (video_delay i) (framerate i)
    (top_field_first i) (hwaccel_retrieve_data i) (hwaccel_pix_fmt i)
    (want_frame_data i) (nb_filters i) (outputs i) (ist_pkt i)
    (fix_sub_duration i) (prev_sub_got_output i) (prev_sub_ret i)
    (prev_sub_subtitle i) (sub2video_sub_queue i) (last_frame_tb i)
    (last_frame_sample_rate i) v (last_frame_duration_est i)
    (filter_in_rescale_delta_last i) (ist_nb_samples i) (samples_decoded i)
    (frames_decoded i) (decode_errors i).
Definition set_last_frame_duration_est (i : InputStream) (v : Z) : InputStream :=
  mkInputStream (file_index i) (dec_ctx i) (st_avg_frame_rate i)
    (st_sample_aspect_ratio i) (video_delay i) (framerate i)
    (top_field_first i) (hwaccel_retrieve_data i) (hwaccel_pix_fmt i)
    (want_frame_data i) (nb_filters i) (outputs i) (ist_pkt i)
    (fix_sub_duration i) (prev_sub_got_output i) (prev_sub_ret i)
    (prev_sub_subtitle i) (sub2video_sub_queue i) (last_frame_tb i)
    (last_frame_sample_rate i) (last_frame_pts i) v
    (filter_in_rescale_delta_last i) (ist_nb_samples i) (samples_decoded i)
    (frames_decoded i) (decode_errors i).
Definition set_filter_in_rescale_delta_last (i : InputStream) (v : Z) : InputStream :=
  mkInputStream (file_index i) (dec_ctx i) (st_avg_frame_rate i)
    (st_sample_aspect_ratio i) (video_delay i) (framerate i)
    (top_field_first i) (hwaccel_retrieve_data i) (hwaccel_pix_fmt i)
    (want_frame_data i) (nb_filters i) (outputs i) (ist_pkt i)
    (fix_sub_duration i) (prev_sub_got_output i) (prev_sub_ret i)
    (prev_sub_subtitle i) (sub2video_sub_queue i) (last_frame_tb i)
    (last_frame_sample_rate i) (last_frame_pts i)
    (last_frame_duration_est i) v (ist_nb_samples i) (samples_decoded i)
    (frames_decoded i) (decode_errors i).
Definition set_ist_nb_samples (i : InputStream) (v : Z) : InputStream :=
  mkInputStream (file_index i) (dec_ctx i) (st_avg_frame_rate i)
    (st_sample_aspect_ratio i) (video_delay i) (framerate i)
    (top_field_first i) (hwaccel_retrieve_data i) (hwaccel_pix_fmt i)
    (want_frame_data i) (nb_filters i) (outputs i) (ist_pkt i)
    (fix_sub_duration i) (prev_sub_got_output i) (prev_sub_ret i)
    (prev_sub_subtitle i) (sub2video_sub_queue i) (last_frame_tb i)
    (last_frame_sample_rate i) (last_frame_pts i)
    (last_frame_duration_est i) (filter_in_rescale_delta_last i) v
    (samples_decoded i) (frames_decoded i) (decode_errors i).
Definition set_samples_decoded (i : InputStream) (v : Z) : InputStream :=
  mkInputStream (file_index i) (dec_ctx i) (st_avg_frame_rate i)
    (st_sample_aspect_ratio i) (video_delay i) (framerate i)
    (top_field_first i) (hwaccel_retrieve_data i) (hwaccel_pix_fmt i)
    (want_frame_data i) (nb_filters i) (outputs i) (ist_pkt i)
    (fix_sub_duration i) (prev_sub_got_output i) (prev_sub_ret i)
    (prev_sub_subtitle i) (sub2video_sub_queue i) (last_frame_tb i)
    (last_frame_sample_rate i) (last_frame_pts i)
    (last_frame_duration_est i) (filter_in_rescale_delta_last i)
    (ist_nb_samples i) v (frames_decoded i) (decode_errors i).
Definition set_frames_decoded (i : InputStream) (v : Z) : InputStream :=
  mkInputStream (file_index i) (dec_ctx i) (st_avg_frame_rate i)
    (st_sample_aspect_ratio i) (video_delay i) (framerate i)
    (top_field_first i) (hwaccel_retrieve_data i) (hwaccel_pix_fmt i)
    (want_frame_data i) (nb_filters i) (outputs i) (ist_pkt i)
    (fix_sub_duration i) (prev_sub_got_output i) (prev_sub_ret i)
    (prev_sub_subtitle i) (sub2video_sub_queue i) (last_frame_tb i)
    (last_frame_sample_rate i) (last_frame_pts i)
    (last_frame_duration_est i) (filter_in_rescale_delta_last i)
    (ist_nb_samples i) (samples_decoded i) v (decode_errors i).
Definition set_decode_errors (i : InputStream) (v : Z) : InputStream :=
  mkInputStream (file_index i) (dec_ctx i) (st_avg_frame_rate i)
    (st_sample_aspect_ratio i) (video_delay i) (framerate i)
    (top_field_first i) (hwaccel_retrieve_data i) (hwaccel_pix_fmt i)
    (want_frame_data i) (nb_filters i) (outputs i) (ist_pkt i)
    (fix_sub_duration i) (prev_sub_got_output i) (prev_sub_ret i)
    (prev_sub_subtitle i) (sub2video_sub_queue i) (last_frame_tb i)
    (last_frame_sample_rate i) (last_frame_pts i)
    (last_frame_duration_est i) (filter_in_rescale_delta_last i)
    (ist_nb_samples i) (samples_decoded i) (frames_decoded i) v.

Section Timestamps.
Context {U : LibAVUtil}.

(** [audio_samplerate_update], lines 81-91: the time base derived from the
    previous denominator and the new sample rate.  [prev / gcd] is a 64-bit
    quotient, the product is stored in the [int] field [den].  (C leaves a
    division by zero undefined; here it follows [Z.quot].) *)
Definition samplerate_tb (prev sr : Z) : AVRational :=
  let gcd := av_gcd prev sr in
  if prev ÷ gcd >=? INT_MAX ÷ sr
  then mkQ 1 28224000
  else mkQ 1 (int32 (prev ÷ gcd * sr)).

(** Lines 95-96: the test that keeps the frame's own time base. *)
Definition keep_frame_tb (frame_tb tb_new : AVRational) : bool :=
  (num frame_tb =? 1) && (den frame_tb >? den tb_new)
  && (Z.rem (den frame_tb) (den tb_new) =? 0).

Definition audio_samplerate_update (ist : InputStream) (frame : AVFrame)
  : InputStream * AVRational :=
  let prev := den (last_frame_tb ist) in
  let sr   := sample_rate frame in
  if sample_rate frame =? last_frame_sample_rate ist
  then (ist, last_frame_tb ist)
  else
    let tb_new := samplerate_tb prev sr in
    let tb_new :=
      if keep_frame_tb (time_base frame) tb_new then time_base frame
      else tb_new in
    let ist1 :=
      if negb (last_frame_pts ist =? AV_NOPTS_VALUE)
      then set_last_frame_pts ist
             (av_rescale_q (last_frame_pts ist) (last_frame_tb ist) tb_new)
      else ist in
    let ist2 :=
      set_last_frame_duration_est ist1
        (av_rescale_q (last_frame_duration_est ist1) (last_frame_tb ist1)
           tb_new) in
    let ist3 := set_last_frame_tb ist2 tb_new in
    let ist4 := set_last_frame_sample_rate ist3 (sample_rate frame) in
    (ist4, last_frame_tb ist4).

(** [audio_ts_process], line 122: the predicted pts. *)
Definition pts_pred (ist : InputStream) : Z :=
  if last_frame_pts ist =? AV_NOPTS_VALUE then 0
  else int64 (last_frame_pts ist + last_frame_duration_est ist).

(** [audio_ts_process], lines 125-133: fill in a missing pts, or detect a
    gap and reset the conversion state. *)
Definition audio_ts_predict (ist : InputStream) (tb : AVRational)
    (frame : AVFrame) : InputStream * AVFrame :=
  if pts frame =? AV_NOPTS_VALUE
  then (ist, set_time_base (set_pts frame (pts_pred ist)) tb)
  else if negb (last_frame_pts ist =? AV_NOPTS_VALUE)
          && (pts frame >?
              av_rescale_q_rnd (pts_pred ist) tb (time_base frame) AV_ROUND_UP)
  then (set_filter_in_rescale_delta_last ist AV_NOPTS_VALUE, frame)
  else (ist, frame).

(** [audio_ts_process], lines 135-146. *)
Definition audio_ts_rescale (ist : InputStream) (tb tb_filter : AVRational)
    (frame : AVFrame) : InputStream * AVFrame :=
  let '(p, last) :=
    av_rescale_delta (time_base frame) (pts frame) tb (nb_samples frame)
      (filter_in_rescale_delta_last ist) tb in
  let ist1 := set_filter_in_rescale_delta_last ist last in
  let frame1 := set_pts frame p in
  let ist2 := set_last_frame_pts ist1 (pts frame1) in
  let ist3 := set_last_frame_duration_est ist2
                (av_rescale_q (nb_samples frame1) tb_filter tb) in
  let frame2 := set_pts frame1 (av_rescale_q (pts frame1) tb tb_filter) in
  let frame3 := set_duration frame2 (nb_samples frame2) in
  (ist3, set_time_base frame3 tb_filter).

Definition audio_ts_process (ist : InputStream) (frame : AVFrame)
  : InputStream * AVFrame :=
  let tb_filter := mkQ 1 (sample_rate frame) in
  let '(ist1, tb) := audio_samplerate_update ist frame in
  let '(ist2, frame1) := audio_ts_predict ist1 tb frame in
  audio_ts_rescale ist2 tb tb_filter frame1.

Section Video.
Variable input_files : list InputFile.

Definition ifile_of (ist : InputStream) : InputFile :=
  nth (Z.to_nat (file_index ist)) input_files (mkInputFile false).

Definition codec_duration_of (ist : InputStream) (frame : AVFrame) : Z :=
  if truthy (den (ctx_framerate (dec_ctx ist)))
     && truthy (num (ctx_framerate (dec_ctx ist)))
  then
    let fields := int32 (repeat_pict frame + 2) in
    let field_rate := av_mul_q (ctx_framerate (dec_ctx ist)) (mkQ 2 1) in
    av_rescale_q fields (av_inv_q field_rate) (time_base frame)
  else 0.

Definition video_duration_estimate (ist : InputStream) (frame : AVFrame) : Z :=
  let ifile := ifile_of ist in
  let codec_duration := codec_duration_of ist frame in
  if (duration frame >? 0)
     && (negb (format_nots ifile) || truthy (num (framerate ist)))
  then duration frame
  else if (codec_duration >? 0) && format_nots ifile
  then codec_duration
  else if negb (pts frame =? AV_NOPTS_VALUE)
          && negb (last_frame_pts ist =? AV_NOPTS_VALUE)
          && (pts frame >? last_frame_pts ist)
  then int64 (pts frame - last_frame_pts ist)
  else if duration frame >? 0 then duration frame
  else if codec_duration >? 0 then codec_duration
  else if truthy (num (st_avg_frame_rate ist))
          && truthy (den (st_avg_frame_rate ist))
  then
    let d := av_rescale_q 1 (av_inv_q (st_avg_frame_rate ist))
               (time_base frame) in
    if d >? 0 then d else FFMAX (last_frame_duration_est ist) 1
  else FFMAX (last_frame_duration_est ist) 1.

End Video.
End Timestamps.

(** The calls the unit makes into the codec and the filter network. *)
Inductive Call : Type :=
| Call_avcodec_send_packet (pkt : option AVPacket)
| Call_avcodec_receive_frame
| Call_hwaccel_retrieve_data (frame : AVFrame)
| Call_ifilter_send_frame (i : Z) (frame : AVFrame) (keep : bool)
| Call_ifilter_send_eof (i : Z) (end_pts : Z) (tb : AVRational)
| Call_avcodec_decode_subtitle2 (pkt : AVPacket)
| Call_sub2video_update (heartbeat_pts : Z) (sub : option AVSubtitle)
| Call_av_buffersrc_add_frame (i : Z)
| Call_av_fifo_write (sub : AVSubtitle)
| Call_enc_subtitle (file : Z) (oidx : nat) (sub : AVSubtitle)
| Call_avsubtitle_free (sub : AVSubtitle).

Definition uint32 (z : Z) : Z := z mod 2 ^ 32.
Definition uint64 (z : Z) : Z := z mod 2 ^ 64.

(** A frame as [av_frame_unref] leaves it. *)
Definition blank_frame : AVFrame :=
  mkFrame AV_NOPTS_VALUE 0 (mkQ 0 1) 0 0 0 AV_NOPTS_VALUE 0 0 (-1) (mkQ 0 1)
    None.

Section Decode.
Context {U : LibAVUtil}.

(** Globals of the driver. *)
Variable input_files : list InputFile.
Variable exit_on_error : bool.

(** [decode_audio] and [send_frame_to_filters] read a local [int ret] that
    no statement has written; [indeterminate] is the value found there. *)
Variable indeterminate : Z.

(** The codec and the filter network, as functions of their state [W]. *)
Variable W : Type.
Variable avcodec_send_packet   : W -> option AVPacket -> W * Z.
Variable avcodec_receive_frame : W -> W * Z * AVFrame.
Variable codec_frame_num       : W -> Z.
Variable av_buffer_allocz_ok   : W -> bool.
Variable hwaccel_retrieve_data_cb : W -> AVFrame -> W * Z * AVFrame.
Variable ifilter_send_frame    : W -> Z -> AVFrame -> bool -> W * Z.
Variable ifilter_send_eof      : W -> Z -> Z -> AVRational -> W * Z.

(** The subtitle decoder, the sub-to-video renderer (which owns
    [ist->sub2video.frame] and [ist->sub2video.end_pts]), the filter
    sources, the subtitle queue and the subtitle encoders. *)
Variable avcodec_decode_subtitle2 : W -> AVPacket -> W * Z * AVSubtitle * Z.
Variable sub2video_frame          : W -> bool.
Variable sub2video_end_pts        : W -> Z.
Variable sub2video_update         : W -> Z -> option AVSubtitle -> W.
Variable av_buffersrc_add_frame   : W -> Z -> W * Z.
Variable av_fifo_alloc2_ok        : W -> bool.
Variable av_fifo_write            : W -> AVSubtitle -> W * Z.
Variable enc_subtitle             : W -> Z -> nat -> AVSubtitle -> W.
Variable avsubtitle_free          : W -> AVSubtitle -> W.

(** The decoder's stream state, the collaborators' state, and the calls
    made so far (latest first). *)
Record State : Type := mkState {
  ist   : InputStream;
  world : W;
  calls : list Call
}.

Definition called (s : State) (c : Call) (w : W) : State :=
  mkState (ist s) w (c :: calls s).
Definition with_ist (s : State) (i : InputStream) : State :=
  mkState i (world s) (calls s).

(** [check_decode_result]; [Some status] when it leaves the process. *)
Definition check_decode_result (s : State) (frame : AVFrame)
    (got_output : bool) (ret : Z) : option Z * State :=
  let s1 :=
    if ret <? 0
    then with_ist s (set_decode_errors (ist s)
                       (uint64 (decode_errors (ist s) + 1)))
    else s in
  if (ret <? 0) && exit_on_error then (Some 1, s1)
  else if got_output
          && negb (AVMediaType_eqb (codec_type (dec_ctx (ist s1)))
                     AVMEDIA_TYPE_SUBTITLE)
          && (truthy (decode_error_flags frame)
              || truthy (Z.land (flags frame) AV_FRAME_FLAG_CORRUPT))
          && exit_on_error
  then (Some 1, s1)
  else (None, s1).

(** [sub2video_flush]: the loop over the filters; the results of
    [av_buffersrc_add_frame] are only logged. *)
Fixpoint flush_filters (n : nat) (i : Z) (s : State) : State :=
  match n with
  | O => s
  | S n' =>
      let '(w, _) := av_buffersrc_add_frame (world s) i in
      flush_filters n' (i + 1) (called s (Call_av_buffersrc_add_frame i) w)
  end.

Definition sub2video_flush (s : State) : State :=
  let s1 :=
    if sub2video_end_pts (world s) <? INT64_MAX
    then called s (Call_sub2video_update INT64_MAX None)
           (sub2video_update (world s) INT64_MAX None)
    else s in
  flush_filters (Z.to_nat (nb_filters (ist s1))) 0 s1.

(** [process_subtitle], lines 362-368: the subtitle goes to every output
    that encodes subtitles. *)
Fixpoint encode_subtitle (l : list OutputStream) (oidx : nat) (s : State)
    (subtitle : AVSubtitle) : State :=
  match l with
  | [] => s
  | ost :: rest =>
      let s1 :=
        if negb (enc ost)
           || negb (AVMediaType_eqb (ost_type ost) AVMEDIA_TYPE_SUBTITLE)
        then s
        else called s (Call_enc_subtitle (ost_file_index ost) oidx subtitle)
               (enc_subtitle (world s) (ost_file_index ost) oidx subtitle) in
      encode_subtitle rest (S oidx) s1 subtitle
  end.

(** The label [out] of [process_subtitle]. *)
Definition process_subtitle_out (s : State) (subtitle : AVSubtitle)
    (got_output : Z) (free_sub : bool) (ret : Z)
  : outcome * State * AVSubtitle * Z :=
  if free_sub
  then (Returns ret,
        called s (Call_avsubtitle_free subtitle)
          (avsubtitle_free (world s) subtitle),
        blank_subtitle, got_output)
  else (Returns ret, s, subtitle, got_output).

(** [process_subtitle]; the subtitle and [got_output] are returned as the
    call leaves them behind its pointers.  [end] is an [int], compared with
    the [uint32_t] [end_display_time] as an unsigned number. *)
Definition process_subtitle (s : State) (subtitle : AVSubtitle)
    (got_output : Z) : outcome * State * AVSubtitle * Z :=
  let i := ist s in
  let '(s1, subtitle1, got1, ret1, end_) :=
    if truthy (fix_sub_duration i) then
      let end_ :=
        if truthy (prev_sub_got_output i)
        then int32 (av_rescale
                      (int64 (subtitle_pts subtitle
                              - subtitle_pts (prev_sub_subtitle i)))
                      1000 AV_TIME_BASE)
        else 1 in
      let prev :=
        if truthy (prev_sub_got_output i)
           && (uint32 end_ <? end_display_time (prev_sub_subtitle i))
        then set_end_display_time (prev_sub_subtitle i) (uint32 end_)
        else prev_sub_subtitle i in
      (with_ist s
         (set_prev_sub_subtitle
            (set_prev_sub_ret (set_prev_sub_got_output i got_output) 0)
            subtitle),
       prev, prev_sub_got_output i, prev_sub_ret i, end_)
    else (s, subtitle, got_output, 0, 1) in
  if truthy (fix_sub_duration i) && (end_ <=? 0)
  then process_subtitle_out s1 subtitle1 got1 true ret1
  else if negb (truthy got1) then (Returns ret1, s1, subtitle1, got1)
  else
    let queued :=
      if sub2video_frame (world s1)
      then inr (called s1 (Call_sub2video_update INT64_MIN (Some subtitle1))
                  (sub2video_update (world s1) INT64_MIN (Some subtitle1)),
                true, ret1)
      else if truthy (nb_filters (ist s1)) then
        if negb (sub2video_sub_queue (ist s1))
           && negb (av_fifo_alloc2_ok (world s1))
        then inl (Exits (AVERROR ENOMEM), s1)
        else
          let s2 := with_ist s1 (set_sub2video_sub_queue (ist s1) true) in
          let '(w, r) := av_fifo_write (world s2) subtitle1 in
          let s3 := called s2 (Call_av_fifo_write subtitle1) w in
          if r <? 0 then inl (Exits 1, s3) else inr (s3, false, r)
      else inr (s1, true, ret1) in
    match queued with
    | inl (o, s2) => (o, s2, subtitle1, got1)
    | inr (s2, free_sub, ret2) =>
        if negb (truthy (num_rects subtitle1))
        then process_subtitle_out s2 subtitle1 got1 free_sub ret2
        else
          process_subtitle_out
            (encode_subtitle (outputs (ist s2)) O s2 subtitle1)
            subtitle1 got1 free_sub ret2
    end.

(** [send_frame_to_filters]: [n] filters remain, [i] is the next one. *)
Fixpoint send_frame_loop (n : nat) (i ret : Z) (s : State) (frame : AVFrame)
  : Z * State :=
  match n with
  | O => (ret, s)
  | S n' =>
      let keep := i <? nb_filters (ist s) - 1 in
      let '(w, r) := ifilter_send_frame (world s) i frame keep in
      let s1 := called s (Call_ifilter_send_frame i frame keep) w in
      let r1 := if r =? AVERROR_EOF then 0 else r in
      if r1 <? 0 then (r1, s1) else send_frame_loop n' (i + 1) r1 s1 frame
  end.

Definition send_frame_to_filters (s : State) (frame : AVFrame) : Z * State :=
  send_frame_loop (Z.to_nat (nb_filters (ist s))) 0 indeterminate s frame.

Definition decode_audio (s : State) (decoded_frame : AVFrame) : Z * State :=
  let i1 := set_samples_decoded (ist s)
              (uint64 (samples_decoded (ist s) + nb_samples decoded_frame)) in
  let i2 := set_frames_decoded i1 (uint64 (frames_decoded i1 + 1)) in
  let '(i3, frame) := audio_ts_process i2 decoded_frame in
  let i4 := set_ist_nb_samples i3 (nb_samples frame) in
  let '(err, s1) := send_frame_to_filters (with_ist s i4) frame in
  (if err <? 0 then err else indeterminate, s1).

Definition decode_video (s : State) (frame : AVFrame) : Z * State :=
  let i0 := ist s in
  let i1 :=
    if (video_delay i0 <? has_b_frames (dec_ctx i0))
       && (codec_id (dec_ctx i0) =? AV_CODEC_ID_H264)
    then set_video_delay i0 (has_b_frames (dec_ctx i0))
    else i0 in
  let frame1 :=
    if top_field_first i1 >=? 0
    then set_flags frame (Z.lor (flags frame) AV_FRAME_FLAG_TOP_FIELD_FIRST)
    else frame in
  let i2 := set_frames_decoded i1 (uint64 (frames_decoded i1 + 1)) in
  let s2 := with_ist s i2 in
  let '(s3, err, frame2) :=
    if hwaccel_retrieve_data i2 && (format frame1 =? hwaccel_pix_fmt i2)
    then
      let '(w, e, f) := hwaccel_retrieve_data_cb (world s2) frame1 in
      (called s2 (Call_hwaccel_retrieve_data frame1) w, e, f)
    else (s2, 0, frame1) in
  if err <? 0 then (err, s3)
  else
    let frame3 := set_pts frame2 (best_effort_timestamp frame2) in
    let frame4 :=
      if truthy (num (framerate i2))
      then set_time_base
             (set_duration (set_pts frame3 AV_NOPTS_VALUE) 1)
             (av_inv_q (framerate i2))
      else frame3 in
    let frame5 :=
      if pts frame4 =? AV_NOPTS_VALUE
      then set_pts frame4 (pts_pred (ist s3))
      else frame4 in
    let i5 := set_last_frame_duration_est (ist s3)
                (video_duration_estimate input_files (ist s3) frame5) in
    let i6 := set_last_frame_pts i5 (pts frame5) in
    let i7 := set_last_frame_tb i6 (time_base frame5) in
    let frame6 :=
      if truthy (num (st_sample_aspect_ratio i7))
      then set_sample_aspect_ratio frame5 (st_sample_aspect_ratio i7)
      else frame5 in
    let '(err1, s4) := send_frame_to_filters (with_ist s3 i7) frame6 in
    (if err1 <? 0 then err1 else 0, s4).

(** [send_filter_eof]. *)
Fixpoint send_filter_eof_loop (n : nat) (i : Z) (s : State) : Z * State :=
  match n with
  | O => (0, s)
  | S n' =>
      let end_pts :=
        if last_frame_pts (ist s) =? AV_NOPTS_VALUE then AV_NOPTS_VALUE
        else int64 (last_frame_pts (ist s) + last_frame_duration_est (ist s)) in
      let '(w, r) :=
        ifilter_send_eof (world s) i end_pts (last_frame_tb (ist s)) in
      let s1 := called s (Call_ifilter_send_eof i end_pts
                            (last_frame_tb (ist s))) w in
      if r <? 0 then (r, s1) else send_filter_eof_loop n' (i + 1) s1
  end.

Definition send_filter_eof (s : State) : Z * State :=
  send_filter_eof_loop (Z.to_nat (nb_filters (ist s))) 0 s.

(** The [while (1)] loop of [dec_packet]; each turn reads one frame from
    the codec, [fuel] bounds the number of turns. *)
Fixpoint receive_frames (fuel : nat) (pkt : option AVPacket) (no_eof : bool)
    (s : State) : outcome * State :=
  match fuel with
  | O => (OutOfFuel, s)
  | S fuel' =>
      let dec := dec_ctx (ist s) in
      let '(w, ret, frame) := avcodec_receive_frame (world s) in
      let s1 := called s Call_avcodec_receive_frame w in
      let '(leaves, s2) :=
        if negb (ret =? AVERROR_EOF) && negb (ret =? AVERROR EAGAIN)
        then check_decode_result s1 frame (ret >=? 0) ret
        else (None, s1) in
      match leaves with
      | Some status => (Exits status, s2)
      | None =>
          if ret =? AVERROR EAGAIN then
            match pkt with
            | Some _ => (Returns 0, s2)
            | None => (Aborts, s2)
            end
          else if ret =? AVERROR_EOF then
            if negb no_eof then
              let '(r, s3) := send_filter_eof s2 in
              if r <? 0 then (Exits 1, s3) else (Returns AVERROR_EOF, s3)
            else (Returns AVERROR_EOF, s2)
          else if ret <? 0 then
            if exit_on_error then (Exits 1, s2) else (Returns ret, s2)
          else
            let tagged :=
              if want_frame_data (ist s2) then
                match opaque_ref frame with
                | Some _ => inl Aborts
                | None =>
                    if av_buffer_allocz_ok (world s2)
                    then inr (set_opaque_ref frame
                                (Some (mkFrameData (pts frame)
                                         (pkt_timebase dec)
                                         (codec_frame_num (world s2) - 1))))
                    else inl (Exits (AVERROR ENOMEM))
                end
              else inr frame in
            match tagged with
            | inl o => (o, s2)
            | inr frame1 =>
                let frame2 := set_time_base frame1 (pkt_timebase dec) in
                let '(r, s3) :=
                  if AVMediaType_eqb (codec_type dec) AVMEDIA_TYPE_AUDIO
                  then decode_audio s2 frame2
                  else decode_video s2 frame2 in
                if r <? 0 then (Exits 1, s3)
                else receive_frames fuel' pkt no_eof s3
            end
      end
  end.

Definition transcode_subtitles (s : State) (pkt : AVPacket)
  : outcome * State :=
  let '(w, ret, subtitle, got_output) :=
    avcodec_decode_subtitle2 (world s) pkt in
  let s1 := called s (Call_avcodec_decode_subtitle2 pkt) w in
  if (ret <? 0) && exit_on_error then (Exits 1, s1)
  else
    let '(leaves, s2) :=
      check_decode_result s1 blank_frame (truthy got_output) ret in
    match leaves with
    | Some status => (Exits status, s2)
    | None =>
        if (ret <? 0) || negb (truthy got_output) then
          let s3 := if size pkt =? 0 then sub2video_flush s2 else s2 in
          (Returns (if ret <? 0 then ret else AVERROR_EOF), s3)
        else
          let s3 :=
            with_ist s2 (set_frames_decoded (ist s2)
                           (uint64 (frames_decoded (ist s2) + 1))) in
          let '(o, s4, _, _) := process_subtitle s3 subtitle got_output in
          (o, s4)
    end.

Definition dec_packet (fuel : nat) (s : State) (pkt : option AVPacket)
    (no_eof : bool) : outcome * State :=
  let dec := dec_ctx (ist s) in
  if AVMediaType_eqb (codec_type dec) AVMEDIA_TYPE_SUBTITLE
  then transcode_subtitles s
         (match pkt with Some p => p | None => ist_pkt (ist s) end)
  else if match pkt with Some p => size p =? 0 | None => false end
  then (Returns 0, s)
  else
    let '(w, ret) := avcodec_send_packet (world s) pkt in
    let s1 := called s (Call_avcodec_send_packet pkt) w in
    if (ret <? 0)
       && negb ((ret =? AVERROR_EOF)
                && match pkt with Some _ => false | None => true end)
    then
      if exit_on_error then (Exits 1, s1)
      else
        let s2 :=
          if negb (ret =? AVERROR_EOF)
          then with_ist s1 (set_decode_errors (ist s1)
                              (uint64 (decode_errors (ist s1) + 1)))
          else s1 in
        (Returns ret, s2)
    else receive_frames fuel pkt no_eof s1.

End Decode.

Arguments mkState {W}.
Arguments ist {W}.
Arguments world {W}.
Arguments calls {W}.
Arguments called {W}.
Arguments with_ist {W}.
Arguments dec_packet {U} input_files exit_on_error indeterminate {W}.
Arguments receive_frames {U} input_files exit_on_error indeterminate {W}.
Arguments decode_audio {U} indeterminate {W}.
Arguments decode_video {U} input_files indeterminate {W}.
Arguments process_subtitle {U W}.
Arguments transcode_subtitles {U} exit_on_error {W}.

End Dec.

(** ** The demuxer stage: fftools/ffmpeg_demux.c *)
Module Demux.

(** Constants of libavformat/avformat.h, libavcodec/defs.h,
    libavcodec/codec_desc.h, libavcodec/codec_id.h and ffmpeg.h. *)
Definition AVDISCARD_ALL            : Z := 48.
Definition AVFMT_NOTIMESTAMPS       : Z := 128.
Definition AVFMT_TS_DISCONT         : Z := 512.
Definition AV_CODEC_PROP_FIELDS     : Z := 16.
Definition AV_CODEC_ID_DVB_SUBTITLE : Z := 94209.
Definition DECODING_FOR_OST         : Z := 1.
Definition DECODING_FOR_FILTER      : Z := 2.
Definition DECODER_FLAG_FIX_SUB_DURATION : Z := 1.
Definition DECODER_FLAG_TS_UNRELIABLE    : Z := 2.
Definition DECODER_FLAG_FRAMERATE_FORCED : Z := 4.
Definition DECODER_FLAG_TOP_FIELD_FIRST  : Z := 8.
Definition PKT_OPAQUE_SUB_HEARTBEAT : Z := 1.

Record Timestamp : Type := mkTimestamp { ts : Z; tb : AVRational }.

(** [ds->bsf]: the two time bases of the filter chain. *)
Record AVBSFContext : Type := mkBSF {
  time_base_in  : AVRational;
  time_base_out : AVRational
}.

(** FrameData, as far as [ist_dts_update] fills it. *)
Record FrameData : Type := mkFrameData { dts_est : Z }.

Section Structs.
Context {F : FloatArith}.

(** The packet fields the unit reads or writes. *)
Record AVPacket : Type := mkPacket {
  pts          : Z;
  dts          : Z;
  duration     : Z;
  time_base    : AVRational;
  stream_index : Z;
  size         : Z;
  flags        : Z;
  opaque       : Z
}.

Definition set_pts (p : AVPacket) (v : Z) : AVPacket :=
  mkPacket v (dts p) (duration p) (time_base p) (stream_index p) (size p)
    (flags p) (opaque p).
Definition set_dts (p : AVPacket) (v : Z) : AVPacket :=
  mkPacket (pts p) v (duration p) (time_base p) (stream_index p) (size p)
    (flags p) (opaque p).
Definition set_time_base (p : AVPacket) (v : AVRational) : AVPacket :=
  mkPacket (pts p) (dts p) (duration p) v (stream_index p) (size p)
    (flags p) (opaque p).
Definition set_stream_index (p : AVPacket) (v : Z) : AVPacket :=
  mkPacket (pts p) (dts p) (duration p) (time_base p) v (size p) (flags p)
    (opaque p).
Definition set_opaque (p : AVPacket) (v : Z) : AVPacket :=
  mkPacket (pts p) (dts p) (duration p) (time_base p) (stream_index p)
    (size p) (flags p) v.

(** InputStream as this unit sees it: [st_*] are fields of [ist->st],
    [par_*] of [ist->par]; [dec] is the id of the decoder found for the
    stream's codec, if any. *)
Record InputStream : Type := mkInputStream {
  index                  : Z;
  st_id                  : Z;
  st_time_base           : AVRational;
  st_pts_wrap_bits       : Z;
  st_avg_frame_rate      : AVRational;
  st_discard             : Z;
  st_parser_repeat_pict  : option Z;
  st_codecpar_codec_type : AVMediaType;
  par_codec_type         : AVMediaType;
  par_video_delay        : Z;
  par_sample_rate        : Z;
  par_frame_size         : Z;
  par_framerate          : AVRational;
  user_set_discard       : Z;
  decoding_needed        : Z;
  dec                    : option Z;
  fix_sub_duration       : Z;
  top_field_first        : Z;
  framerate              : AVRational;
  decoder_opts           : list (string * string);
  outputs                : list Z;
  filters                : list Z
}.

Definition set_st_discard (i : InputStream) (v : Z) : InputStream :=
  mkInputStream (index i) (st_id i) (st_time_base i) (st_pts_wrap_bits i)
    (st_avg_frame_rate i) v (st_parser_repeat_pict i)
    (st_codecpar_codec_type i) (par_codec_type i) (par_video_delay i)
    (par_sample_rate i) (par_frame_size i) (par_framerate i)
    (user_set_discard i) (decoding_needed i) (dec i) (fix_sub_duration i)
    (top_field_first i) (framerate i) (decoder_opts i) (outputs i)
    (filters i).
Definition set_decoding_needed (i : InputStream) (v : Z) : InputStream :=
  mkInputStream (index i) (st_id i) (st_time_base i) (st_pts_wrap_bits i)
    (st_avg_frame_rate i) (st_discard i) (st_parser_repeat_pict i)
    (st_codecpar_codec_type i) (par_codec_type i) (par_video_delay i)
    (par_sample_rate i) (par_frame_size i) (par_framerate i)
    (user_set_discard i) v (dec i) (fix_sub_duration i) (top_field_first i)
    (framerate i) (decoder_opts i) (outputs i) (filters i).
Definition set_decoder_opts (i : InputStream) (v : (list (string * string))) : InputStream :=
  mkInputStream (index i) (st_id i) (st_time_base i) (st_pts_wrap_bits i)
    (st_avg_frame_rate i) (st_discard i) (st_parser_repeat_pict i)
    (st_codecpar_codec_type i) (par_codec_type i) (par_video_delay i)
    (par_sample_rate i) (par_frame_size i) (par_framerate i)
    (user_set_discard i) (decoding_needed i) (dec i) (fix_sub_duration i)
    (top_field_first i) (framerate i) v (outputs i) (filters i).
Definition set_outputs (i : InputStream) (v : (list Z)) : InputStream :=
  mkInputStream (index i) (st_id i) (st_time_base i) (st_pts_wrap_bits i)
    (st_avg_frame_rate i) (st_discard i) (st_parser_repeat_pict i)
    (st_codecpar_codec_type i) (par_codec_type i) (par_video_delay i)
    (par_sample_rate i) (par_frame_size i) (par_framerate i)
    (user_set_discard i) (decoding_needed i) (dec i) (fix_sub_duration i)
    (top_field_first i) (framerate i) (decoder_opts i) v (filters i).
Definition set_filters (i : InputStream) (v : (list Z)) : InputStream :=
  mkInputStream (index i) (st_id i) (st_time_base i) (st_pts_wrap_bits i)
    (st_avg_frame_rate i) (st_discard i) (st_parser_repeat_pict i)
    (st_codecpar_codec_type i) (par_codec_type i) (par_video_delay i)
    (par_sample_rate i) (par_frame_size i) (par_framerate i)
    (user_set_discard i) (decoding_needed i) (dec i) (fix_sub_duration i)
    (top_field_first i) (framerate i) (decoder_opts i) (outputs i) v.

Record DemuxStream : Type := mkDemuxStream {
  ist                  : InputStream;
  sch_idx_stream       : Z;
  sch_idx_dec          : Z;
  ts_scale             : double;
  discard              : bool;
  finished             : bool;
  streamcopy_needed    : bool;
  have_sub2video       : bool;
  wrap_correction_done : bool;
  saw_first_ts         : bool;
  first_dts            : Z;
  next_dts             : Z;
  ds_dts               : Z;
  codec_desc_props     : option Z;
  dec_opts_flags       : Z;
  dec_opts_framerate   : AVRational;
  dec_name             : option (Z * Z);
  bsf                  : option AVBSFContext
}.

Definition set_ist (s : DemuxStream) (v : InputStream) : DemuxStream :=
  mkDemuxStream v (sch_idx_stream s) (sch_idx_dec s) (ts_scale s)
    (discard s) (finished s) (streamcopy_needed s) (have_sub2video s)
    (wrap_correction_done s) (saw_first_ts s) (first_dts s) (next_dts s)
    (ds_dts s) (codec_desc_props s) (dec_opts_flags s)
    (dec_opts_framerate s) (dec_name s) (bsf s).
Definition set_sch_idx_stream (s : DemuxStream) (v : Z) : DemuxStream :=
  mkDemuxStream (ist s) v (sch_idx_dec s) (ts_scale s) (discard s)
    (finished s) (streamcopy_needed s) (have_sub2video s)
    (wrap_correction_done s) (saw_first_ts s) (first_dts s) (next_dts s)
    (ds_dts s) (codec_desc_props s) (dec_opts_flags s)
    (dec_opts_framerate s) (dec_name s) (bsf s).
Definition set_sch_idx_dec (s : DemuxStream) (v : Z) : DemuxStream :=
  mkDemuxStream (ist s) (sch_idx_stream s) v (ts_scale s) (discard s)
    (finished s) (streamcopy_needed s) (have_sub2video s)
    (wrap_correction_done s) (saw_first_ts s) (first_dts s) (next_dts s)
    (ds_dts s) (codec_desc_props s) (dec_opts_flags s)
    (dec_opts_framerate s) (dec_name s) (bsf s).
Definition set_discard (s : DemuxStream) (v : bool) : DemuxStream :=
  mkDemuxStream (ist s) (sch_idx_stream s) (sch_idx_dec s) (ts_scale s) v
    (finished s) (streamcopy_needed s) (have_sub2video s)
    (wrap_correction_done s) (saw_first_ts s) (first_dts s) (next_dts s)
    (ds_dts s) (codec_desc_props s) (dec_opts_flags s)
    (dec_opts_framerate s) (dec_name s) (bsf s).
Definition set_finished (s : DemuxStream) (v : bool) : DemuxStream :=
  mkDemuxStream (ist s) (sch_idx_stream s) (sch_idx_dec s) (ts_scale s)
    (discard s) v (streamcopy_needed s) (have_sub2video s)
    (wrap_correction_done s) (saw_first_ts s) (first_dts s) (next_dts s)
    (ds_dts s) (codec_desc_props s) (dec_opts_flags s)
    (dec_opts_framerate s) (dec_name s) (bsf s).
Definition set_streamcopy_needed (s : DemuxStream) (v : bool) : DemuxStream :=
  mkDemuxStream (ist s) (sch_idx_stream s) (sch_idx_dec s) (ts_scale s)
    (discard s) (finished s) v (have_sub2video s) (wrap_correction_done s)
    (saw_first_ts s) (first_dts s) (next_dts s) (ds_dts s)
    (codec_desc_props s) (dec_opts_flags s) (dec_opts_framerate s)
    (dec_name s) (bsf s).
Definition set_have_sub2video (s : DemuxStream) (v : bool) : DemuxStream :=
  mkDemuxStream (ist s) (sch_idx_stream s) (sch_idx_dec s) (ts_scale s)
    (discard s) (finished s) (streamcopy_needed s) v
    (wrap_correction_done s) (saw_first_ts s) (first_dts s) (next_dts s)
    (ds_dts s) (codec_desc_props s) (dec_opts_flags s)
    (dec_opts_framerate s) (dec_name s) (bsf s).
Definition set_wrap_correction_done (s : DemuxStream) (v : bool) : DemuxStream :=
  mkDemuxStream (ist s) (sch_idx_stream s) (sch_idx_dec s) (ts_scale s)
    (discard s) (finished s) (streamcopy_needed s) (have_sub2video s) v
    (saw_first_ts s) (first_dts s) (next_dts s) (ds_dts s)
    (codec_desc_props s) (dec_opts_flags s) (dec_opts_framerate s)
    (dec_name s) (bsf s).
Definition set_saw_first_ts (s : DemuxStream) (v : bool) : DemuxStream :=
  mkDemuxStream (ist s) (sch_idx_stream s) (sch_idx_dec s) (ts_scale s)
    (discard s) (finished s) (streamcopy_needed s) (have_sub2video s)
    (wrap_correction_done s) v (first_dts s) (next_dts s) (ds_dts s)
    (codec_desc_props s) (dec_opts_flags s) (dec_opts_framerate s)
    (dec_name s) (bsf s).
Definition set_first_dts (s : DemuxStream) (v : Z) : DemuxStream :=
  mkDemuxStream (ist s) (sch_idx_stream s) (sch_idx_dec s) (ts_scale s)
    (discard s) (finished s) (streamcopy_needed s) (have_sub2video s)
    (wrap_correction_done s) (saw_first_ts s) v (next_dts s) (ds_dts s)
    (codec_desc_props s) (dec_opts_flags s) (dec_opts_framerate s)
    (dec_name s) (bsf s).
Definition set_next_dts (s : DemuxStream) (v : Z) : DemuxStream :=
  mkDemuxStream (ist s) (sch_idx_stream s) (sch_idx_dec s) (ts_scale s)
    (discard s) (finished s) (streamcopy_needed s) (have_sub2video s)
    (wrap_correction_done s) (saw_first_ts s) (first_dts s) v (ds_dts s)
    (codec_desc_props s) (dec_opts_flags s) (dec_opts_framerate s)
    (dec_name s) (bsf s).
Definition set_ds_dts (s : DemuxStream) (v : Z) : DemuxStream :=
  mkDemuxStream (ist s) (sch_idx_stream s) (sch_idx_dec s) (ts_scale s)
    (discard s) (finished s) (streamcopy_needed s) (have_sub2video s)
    (wrap_correction_done s) (saw_first_ts s) (first_dts s) (next_dts s) v
    (codec_desc_props s) (dec_opts_flags s) (dec_opts_framerate s)
    (dec_name s) (bsf s).
Definition set_dec_opts_flags (s : DemuxStream) (v : Z) : DemuxStream :=
  mkDemuxStream (ist s) (sch_idx_stream s) (sch_idx_dec s) (ts_scale s)
    (discard s) (finished s) (streamcopy_needed s) (have_sub2video s)
    (wrap_correction_done s) (saw_first_ts s) (first_dts s) (next_dts s)
    (ds_dts s) (codec_desc_props s) v (dec_opts_framerate s) (dec_name s)
    (bsf s).
Definition set_dec_opts_framerate (s : DemuxStream) (v : AVRational) : DemuxStream :=
  mkDemuxStream (ist s) (sch_idx_stream s) (sch_idx_dec s) (ts_scale s)
    (discard s) (finished s) (streamcopy_needed s) (have_sub2video s)
    (wrap_correction_done s) (saw_first_ts s) (first_dts s) (next_dts s)
    (ds_dts s) (codec_desc_props s) (dec_opts_flags s) v (dec_name s)
    (bsf s).
Definition set_dec_name (s : DemuxStream) (v : (option (Z * Z))) : DemuxStream :=
  mkDemuxStream (ist s) (sch_idx_stream s) (sch_idx_dec s) (ts_scale s)
    (discard s) (finished s) (streamcopy_needed s) (have_sub2video s)
    (wrap_correction_done s) (saw_first_ts s) (first_dts s) (next_dts s)
    (ds_dts s) (codec_desc_props s) (dec_opts_flags s)
    (dec_opts_framerate s) v (bsf s).

Record InputFile : Type := mkInputFile {
  file_index           : Z;
  streams              : list DemuxStream;
  start_time_effective : Z;
  ts_offset            : Z;
  iformat_flags        : Z
}.

Definition set_streams (x : InputFile) (v : (list DemuxStream)) : InputFile :=
  mkInputFile (file_index x) v (start_time_effective x) (ts_offset x)
    (iformat_flags x).

Record Demuxer : Type := mkDemuxer {
  f                   : InputFile;
  ts_offset_discont   : Z;
  last_ts             : Z;
  loop                : Z;
  have_audio_dec      : bool;
  d_duration          : Timestamp;
  min_pts             : Timestamp;
  max_pts             : Timestamp;
  pkt_heartbeat       : option AVPacket;
  nb_streams_used     : Z;
  nb_streams_finished : Z
}.

Definition set_f (d : Demuxer) (v : InputFile) : Demuxer :=
  mkDemuxer v (ts_offset_discont d) (last_ts d) (loop d) (have_audio_dec d)
    (d_duration d) (min_pts d) (max_pts d) (pkt_heartbeat d)
    (nb_streams_used d) (nb_streams_finished d).
Definition set_ts_offset_discont (d : Demuxer) (v : Z) : Demuxer :=
  mkDemuxer (f d) v (last_ts d) (loop d) (have_audio_dec d) (d_duration d)
    (min_pts d) (max_pts d) (pkt_heartbeat d) (nb_streams_used d)
    (nb_streams_finished d).
Definition set_last_ts (d : Demuxer) (v : Z) : Demuxer :=
  mkDemuxer (f d) (ts_offset_discont d) v (loop d) (have_audio_dec d)
    (d_duration d) (min_pts d) (max_pts d) (pkt_heartbeat d)
    (nb_streams_used d) (nb_streams_finished d).
Definition set_have_audio_dec (d : Demuxer) (v : bool) : Demuxer :=
  mkDemuxer (f d) (ts_offset_discont d) (last_ts d) (loop d) v
    (d_duration d) (min_pts d) (max_pts d) (pkt_heartbeat d)
    (nb_streams_used d) (nb_streams_finished d).
Definition set_min_pts (d : Demuxer) (v : Timestamp) : Demuxer :=
  mkDemuxer (f d) (ts_offset_discont d) (last_ts d) (loop d)
    (have_audio_dec d) (d_duration d) v (max_pts d) (pkt_heartbeat d)
    (nb_streams_used d) (nb_streams_finished d).
Definition set_max_pts (d : Demuxer) (v : Timestamp) : Demuxer :=
  mkDemuxer (f d) (ts_offset_discont d) (last_ts d) (loop d)
    (have_audio_dec d) (d_duration d) (min_pts d) v (pkt_heartbeat d)
    (nb_streams_used d) (nb_streams_finished d).
Definition set_pkt_heartbeat (d : Demuxer) (v : (option AVPacket)) : Demuxer :=
  mkDemuxer (f d) (ts_offset_discont d) (last_ts d) (loop d)
    (have_audio_dec d) (d_duration d) (min_pts d) (max_pts d) v
    (nb_streams_used d) (nb_streams_finished d).
Definition set_nb_streams_used (d : Demuxer) (v : Z) : Demuxer :=
  mkDemuxer (f d) (ts_offset_discont d) (last_ts d) (loop d)
    (have_audio_dec d) (d_duration d) (min_pts d) (max_pts d)
    (pkt_heartbeat d) v (nb_streams_finished d).
Definition set_nb_streams_finished (d : Demuxer) (v : Z) : Demuxer :=
  mkDemuxer (f d) (ts_offset_discont d) (last_ts d) (loop d)
    (have_audio_dec d) (d_duration d) (min_pts d) (max_pts d)
    (pkt_heartbeat d) (nb_streams_used d) v.
End Structs.

(** A packet as [av_packet_alloc] and [av_packet_unref] leave it. *)
Definition blank_packet : AVPacket :=
  mkPacket AV_NOPTS_VALUE AV_NOPTS_VALUE 0 (mkQ 0 1) 0 0 0 0.

(** [a[n] = v]; the list is left alone when [n] is not an index of it. *)
Fixpoint list_set {A : Type} (l : list A) (n : nat) (v : A) : list A :=
  match l, n with
  | [], _ => []
  | _ :: t, O => v :: t
  | h :: t, S n' => h :: list_set t n' v
  end.

Definition is_audio_or_video (t : AVMediaType) : bool :=
  AVMediaType_eqb t AVMEDIA_TYPE_VIDEO || AVMediaType_eqb t AVMEDIA_TYPE_AUDIO.

Section Timestamps.
Context {U : LibAVUtil} {F : FloatArith}.

(** Globals of the driver (ffmpeg.h). *)
Variable copy_ts : bool.
Variable dts_delta_threshold : float.
Variable dts_error_threshold : float.

(** [ts_discontinuity_detect], lines 198-209: whether the correction is
    switched off for this packet. *)
Definition disable_discontinuity_correction (ds : DemuxStream)
    (fmt_is_discont : bool) (pkt : AVPacket) (pkt_dts : Z) : bool :=
  if copy_ts && negb (next_dts ds =? AV_NOPTS_VALUE) && fmt_is_discont
     && (st_pts_wrap_bits (ist ds) <? 60)
  then
    let wrap_dts :=
      av_rescale_q_rnd
        (int64 (dts pkt + Z.shiftl 1 (st_pts_wrap_bits (ist ds))))
        (time_base pkt) AV_TIME_BASE_Q
        (Z.lor AV_ROUND_NEAR_INF AV_ROUND_PASS_MINMAX) in
    if FFABS (int64 (wrap_dts - next_dts ds))
       <? FFABS (int64 (pkt_dts - next_dts ds)) ÷ 10
    then false else copy_ts
  else copy_ts.

(** Lines 216-223 and 247-253: move the discontinuity offset by [delta] and
    take [delta] out of the packet's own timestamps. *)
Definition correct_discontinuity (d : Demuxer) (pkt : AVPacket) (delta : Z)
  : Demuxer * AVPacket :=
  let d1 := set_ts_offset_discont d (int64 (ts_offset_discont d - delta)) in
  let pkt1 :=
    set_dts pkt
      (int64 (dts pkt - av_rescale_q delta AV_TIME_BASE_Q (time_base pkt))) in
  let pkt2 :=
    if negb (pts pkt1 =? AV_NOPTS_VALUE)
    then set_pts pkt1
           (int64 (pts pkt1
                   - av_rescale_q delta AV_TIME_BASE_Q (time_base pkt1)))
    else pkt1 in
  (d1, pkt2).

(** Lines 226-241: a container without discontinuities; timestamps that
    are too far from the prediction are dropped. *)
Definition drop_invalid_ts (ds : DemuxStream) (pkt : AVPacket) (delta : Z)
  : AVPacket :=
  let pkt1 :=
    if exceeds_seconds (FFABS delta) dts_error_threshold
    then set_dts pkt AV_NOPTS_VALUE
    else pkt in
  if negb (pts pkt1 =? AV_NOPTS_VALUE)
  then
    let pkt_pts := av_rescale_q (pts pkt1) (time_base pkt1) AV_TIME_BASE_Q in
    let delta1 := int64 (pkt_pts - next_dts ds) in
    if exceeds_seconds (FFABS delta1) dts_error_threshold
    then set_pts pkt1 AV_NOPTS_VALUE
    else pkt1
  else pkt1.

Definition ts_discontinuity_detect (d : Demuxer) (ds : DemuxStream)
    (pkt : AVPacket) : Demuxer * AVPacket :=
  let fmt_is_discont :=
    truthy (Z.land (iformat_flags (f d)) AVFMT_TS_DISCONT) in
  let pkt_dts :=
    av_rescale_q_rnd (dts pkt) (time_base pkt) AV_TIME_BASE_Q
      (Z.lor AV_ROUND_NEAR_INF AV_ROUND_PASS_MINMAX) in
  let disabled :=
    disable_discontinuity_correction ds fmt_is_discont pkt pkt_dts in
  let '(d1, pkt1) :=
    if negb (next_dts ds =? AV_NOPTS_VALUE) && negb disabled then
      let delta := int64 (pkt_dts - next_dts ds) in
      if fmt_is_discont then
        if exceeds_seconds (FFABS delta) dts_delta_threshold
           || (int64 (pkt_dts + AV_TIME_BASE ÷ 10) <? ds_dts ds)
        then correct_discontinuity d pkt delta
        else (d, pkt)
      else (d, drop_invalid_ts ds pkt delta)
    else if (next_dts ds =? AV_NOPTS_VALUE) && negb copy_ts
            && fmt_is_discont && negb (last_ts d =? AV_NOPTS_VALUE) then
      let delta := int64 (pkt_dts - last_ts d) in
      if exceeds_seconds (FFABS delta) dts_delta_threshold
      then correct_discontinuity d pkt delta
      else (d, pkt)
    else (d, pkt) in
  (set_last_ts d1 (av_rescale_q (dts pkt1) (time_base pkt1) AV_TIME_BASE_Q),
   pkt1).

(** [ts_discontinuity_process], lines 263-271: the offset found so far is
    applied to the packet. *)
Definition apply_ts_offset_discont (d : Demuxer) (pkt : AVPacket) : AVPacket :=
  let offset :=
    av_rescale_q (ts_offset_discont d) AV_TIME_BASE_Q (time_base pkt) in
  let pkt1 :=
    if negb (dts pkt =? AV_NOPTS_VALUE)
    then set_dts pkt (int64 (dts pkt + offset)) else pkt in
  if negb (pts pkt1 =? AV_NOPTS_VALUE)
  then set_pts pkt1 (int64 (pts pkt1 + offset)) else pkt1.

Definition ts_discontinuity_process (d : Demuxer) (ds : DemuxStream)
    (pkt : AVPacket) : Demuxer * AVPacket :=
  let pkt1 := apply_ts_offset_discont d pkt in
  if is_audio_or_video (par_codec_type (ist ds))
     && negb (dts pkt1 =? AV_NOPTS_VALUE)
  then ts_discontinuity_detect d ds pkt1
  else (d, pkt1).

Definition ist_dts_update (ds : DemuxStream) (pkt : AVPacket)
  : DemuxStream * FrameData :=
  let i := ist ds in
  let to_q (t : Z) := av_rescale_q t (time_base pkt) AV_TIME_BASE_Q in
  let ds1 :=
    if negb (saw_first_ts ds) then
      let d0 :=
        if truthy (num (st_avg_frame_rate i))
        then video_delay_dts (par_video_delay i) (st_avg_frame_rate i)
        else 0 in
      let d1 :=
        if negb (pts pkt =? AV_NOPTS_VALUE)
        then int64 (d0 + to_q (pts pkt)) else d0 in
      set_saw_first_ts (set_ds_dts (set_first_dts ds d1) d1) true
    else ds in
  let ds2 :=
    if next_dts ds1 =? AV_NOPTS_VALUE
    then set_next_dts ds1 (ds_dts ds1) else ds1 in
  let ds3 :=
    if negb (dts pkt =? AV_NOPTS_VALUE)
    then set_next_dts (set_ds_dts ds2 (to_q (dts pkt))) (to_q (dts pkt))
    else ds2 in
  let ds4 := set_ds_dts ds3 (next_dts ds3) in
  let advance (by_ : Z) := set_next_dts ds4 (int64 (next_dts ds4 + by_)) in
  let ds5 :=
    match par_codec_type i with
    | AVMEDIA_TYPE_AUDIO =>
        if truthy (par_sample_rate i)
        then advance (int64 (AV_TIME_BASE * par_frame_size i)
                      ÷ par_sample_rate i)
        else advance (to_q (duration pkt))
    | AVMEDIA_TYPE_VIDEO =>
        if truthy (num (framerate i)) then
          let next :=
            av_rescale_q (next_dts ds4) AV_TIME_BASE_Q
              (av_inv_q (framerate i)) in
          set_next_dts ds4
            (av_rescale_q (int64 (next + 1)) (av_inv_q (framerate i))
               AV_TIME_BASE_Q)
        else if truthy (duration pkt) then advance (to_q (duration pkt))
        else if negb (num (par_framerate i) =? 0) then
          let field_rate := av_mul_q (par_framerate i) (mkQ 2 1) in
          let fields :=
            match codec_desc_props ds4, st_parser_repeat_pict i with
            | Some props, Some repeat_pict =>
                if truthy (Z.land props AV_CODEC_PROP_FIELDS)
                then int32 (1 + repeat_pict) else 2
            | _, _ => 2
            end in
          advance (av_rescale_q fields (av_inv_q field_rate) AV_TIME_BASE_Q)
        else ds4
    | _ => ds4
    end in
  (ds5, mkFrameData (ds_dts ds5)).

(** [ts_fixup], lines 364-380: wrap correction.  ([1LL << -1], which C
    leaves undefined, is [0] here.) *)
Definition wrap_correction (ds : DemuxStream) (start_time : Z)
    (pkt : AVPacket) : DemuxStream * AVPacket :=
  let bits := st_pts_wrap_bits (ist ds) in
  if negb (wrap_correction_done ds)
     && negb (start_time =? AV_NOPTS_VALUE) && (bits <? 64)
  then
    let stime  := av_rescale_q start_time AV_TIME_BASE_Q (time_base pkt) in
    let stime2 := int64 (stime + Z.shiftl 1 bits) in
    let half   := int64 (stime + Z.shiftl 1 (bits - 1)) in
    let ds1 := set_wrap_correction_done ds true in
    let '(ds2, pkt1) :=
      if (stime2 >? stime) && negb (dts pkt =? AV_NOPTS_VALUE)
         && (dts pkt >? half)
      then (set_wrap_correction_done ds1 false,
            set_dts pkt (int64 (dts pkt - Z.shiftl 1 bits)))
      else (ds1, pkt) in
    if (stime2 >? stime) && negb (pts pkt1 =? AV_NOPTS_VALUE)
       && (pts pkt1 >? half)
    then (set_wrap_correction_done ds2 false,
          set_pts pkt1 (int64 (pts pkt1 - Z.shiftl 1 bits)))
    else (ds2, pkt1)
  else (ds, pkt).

(** Lines 382-385: the demuxer-wide [ts_offset]. *)
Definition apply_ts_offset (ifile : InputFile) (pkt : AVPacket) : AVPacket :=
  let off := av_rescale_q (ts_offset ifile) AV_TIME_BASE_Q (time_base pkt) in
  let pkt1 :=
    if negb (dts pkt =? AV_NOPTS_VALUE)
    then set_dts pkt (int64 (dts pkt + off)) else pkt in
  if negb (pts pkt1 =? AV_NOPTS_VALUE)
  then set_pts pkt1 (int64 (pts pkt1 + off)) else pkt1.

(** Lines 387-390: the per-stream [ts_scale]. *)
Definition apply_ts_scale (ds : DemuxStream) (pkt : AVPacket) : AVPacket :=
  let pkt1 :=
    if negb (pts pkt =? AV_NOPTS_VALUE)
    then set_pts pkt (scale_int64 (pts pkt) (ts_scale ds)) else pkt in
  if negb (dts pkt1 =? AV_NOPTS_VALUE)
  then set_dts pkt1 (scale_int64 (dts pkt1) (ts_scale ds)) else pkt1.

(** Lines 392-416: the duration of earlier loop iterations and the
    smallest / largest pts seen. *)
Definition apply_loop_duration (d : Demuxer) (pkt : AVPacket)
  : Demuxer * AVPacket :=
  let dur :=
    av_rescale_q (ts (d_duration d)) (tb (d_duration d)) (time_base pkt) in
  let '(d2, pkt1) :=
    if negb (pts pkt =? AV_NOPTS_VALUE) then
      let pkt_duration := if have_audio_dec d then 0 else duration pkt in
      let pkt1 := set_pts pkt (int64 (pts pkt + dur)) in
      let end_ := int64 (pts pkt1 + pkt_duration) in
      let d1 :=
        if (ts (max_pts d) =? AV_NOPTS_VALUE)
           || (av_compare_ts (ts (max_pts d)) (tb (max_pts d)) end_
                 (time_base pkt1) <? 0)
        then set_max_pts d (mkTimestamp end_ (time_base pkt1)) else d in
      let d2 :=
        if (ts (min_pts d1) =? AV_NOPTS_VALUE)
           || (av_compare_ts (ts (min_pts d1)) (tb (min_pts d1)) (pts pkt1)
                 (time_base pkt1) >? 0)
        then set_min_pts d1 (mkTimestamp (pts pkt1) (time_base pkt1)) else d1 in
      (d2, pkt1)
    else (d, pkt) in
  let pkt2 :=
    if negb (dts pkt1 =? AV_NOPTS_VALUE)
    then set_dts pkt1 (int64 (dts pkt1 + dur)) else pkt1 in
  (d2, pkt2).

(** [ts_fixup], lines 349-390: the steps that need the stream and the
    file only. *)
Definition ts_fixup_stream (ifile : InputFile) (ds : DemuxStream)
    (pkt : AVPacket) : DemuxStream * AVPacket :=
  let pkt0 := set_time_base pkt (st_time_base (ist ds)) in
  let '(ds1, pkt1) := wrap_correction ds (start_time_effective ifile) pkt0 in
  let pkt2 := apply_ts_offset ifile pkt1 in
  let pkt3 := apply_ts_scale ds1 pkt2 in
  (ds1, pkt3).

(** [ts_fixup].  The caller has checked that [pkt->stream_index] is an
    index of [ifile->streams]; for any other index the result is [None]. *)
Definition ts_fixup (d : Demuxer) (pkt : AVPacket)
  : option (Z * Demuxer * AVPacket * FrameData) :=
  if stream_index pkt <? 0 then None else
  match nth_error (streams (f d)) (Z.to_nat (stream_index pkt)) with
  | None => None
  | Some ds =>
      let '(ds1, pkt3) := ts_fixup_stream (f d) ds pkt in
      let '(d1, pkt4) := apply_loop_duration d pkt3 in
      let '(d2, pkt5) := ts_discontinuity_process d1 ds1 pkt4 in
      let '(ds2, fd) := ist_dts_update ds1 pkt5 in
      let d3 :=
        set_f d2 (set_streams (f d2)
                    (list_set (streams (f d2))
                       (Z.to_nat (stream_index pkt)) ds2)) in
      Some (0, d3, pkt5, fd)
  end.

End Timestamps.

(** Nodes of the scheduler graph (SCH_DSTREAM, SCH_DEC). *)
Inductive SchedulerNode : Type :=
| SCH_DSTREAM (file : Z) (stream : Z)
| SCH_DEC (decoder : Z).

Section Scheduling.
Context {U : LibAVUtil} {F : FloatArith}.

(** The calls the unit makes into the scheduler, the bitstream filters and
    the decoder. *)
Inductive Call : Type :=
| Call_sch_demux_send (file : Z) (pkt : AVPacket) (flags : Z)
| Call_av_bsf_send_packet (stream : nat) (pkt : option AVPacket)
| Call_av_bsf_receive_packet (stream : nat)
| Call_sch_add_demux_stream (file : Z)
| Call_sch_add_dec (stream : nat) (send_end_ts : bool)
| Call_sch_connect (src dst : SchedulerNode)
| Call_dec_open (stream : nat) (ds : DemuxStream)
| Call_dec_add_filter (stream : nat) (ifilter : Z).

(** Build option of ffmpeg.h. *)
Variable FFMPEG_OPT_TOP : bool.

(** The scheduler, the filters, the decoders and the allocator, as
    functions of their state [World]. *)
Variable World : Type.
Variable sch_demux_send        : World -> Z -> AVPacket -> Z -> World * Z.
Variable av_packet_rescale_ts  : AVPacket -> AVRational -> AVRational -> AVPacket.
Variable av_bsf_send_packet    : World -> nat -> option AVPacket -> World * Z.
Variable av_bsf_receive_packet : World -> nat -> World * Z * AVPacket.
Variable sch_add_demux_stream  : World -> Z -> World * Z.
Variable sch_add_dec           : World -> nat -> bool -> World * Z.
Variable sch_connect           : World -> SchedulerNode -> SchedulerNode -> World * Z.
Variable dec_open              : World -> nat -> DemuxStream -> World * Z.
Variable dec_add_filter        : World -> nat -> Z -> World * Z.
Variable alloc                 : World -> World * bool.

(** The demuxer, its collaborators, and the calls made so far (latest
    first). *)
Record State : Type := mkState {
  dmx   : Demuxer;
  world : World;
  calls : list Call
}.

Definition called (s : State) (c : Call) (w : World) : State :=
  mkState (dmx s) w (c :: calls s).
Definition with_dmx (s : State) (d : Demuxer) : State :=
  mkState d (world s) (calls s).
Definition with_world (s : State) (w : World) : State :=
  mkState (dmx s) w (calls s).

Definition nb_streams (d : Demuxer) : nat := List.length (streams (f d)).

(** [*ds = v] for the stream at position [i] of [f->streams]. *)
Definition store_stream (d : Demuxer) (i : nat) (v : DemuxStream) : Demuxer :=
  set_f d (set_streams (f d) (list_set (streams (f d)) i v)).

(** [do_send]; [i] is the position of [ds] in [f->streams].  The packet is
    returned as the call leaves it. *)
Definition do_send (s : State) (i : nat) (pkt : AVPacket) (flags : Z)
  : Z * State * AVPacket :=
  let '(w, ret) := sch_demux_send (world s) (file_index (f (dmx s))) pkt flags in
  let s1 := called s (Call_sch_demux_send (file_index (f (dmx s))) pkt flags) w in
  if ret =? AVERROR_EOF then
    let d1 :=
      match nth_error (streams (f (dmx s1))) i with
      | Some ds => store_stream (dmx s1) i (set_finished ds true)
      | None => dmx s1
      end in
    let d2 := set_nb_streams_finished d1 (int32 (nb_streams_finished d1 + 1)) in
    (if nb_streams_finished d2 =? nb_streams_used d2 then AVERROR_EOF else 0,
     with_dmx s1 d2, blank_packet)
  else if ret <? 0 then (ret, s1, pkt)
  else (0, s1, pkt).

(** The heartbeat written for stream [ds1] on behalf of [pkt],
    lines 541-544. *)
Definition heartbeat_for (hb : AVPacket) (ds1 : DemuxStream) (pkt : AVPacket)
  : AVPacket :=
  set_opaque
    (set_stream_index
       (set_time_base (set_pts hb (pts pkt)) (time_base pkt))
       (sch_idx_stream ds1))
    PKT_OPAQUE_SUB_HEARTBEAT.

(** [demux_send], lines 535-549: the loop over the streams of the file;
    [n] streams remain, [i] is the next one.  [Some ret] when the loop
    returns from [demux_send]. *)
Fixpoint send_heartbeats (n i : nat) (s : State) (pkt : AVPacket)
  : option Z * State :=
  match n with
  | O => (None, s)
  | S n' =>
      match nth_error (streams (f (dmx s))) i, pkt_heartbeat (dmx s) with
      | Some ds1, Some hb =>
          if finished ds1 || negb (have_sub2video ds1)
          then send_heartbeats n' (S i) s pkt
          else
            let '(ret, s1, hb1) := do_send s i (heartbeat_for hb ds1 pkt) 0 in
            let s2 := with_dmx s1 (set_pkt_heartbeat (dmx s1) (Some hb1)) in
            if ret <? 0 then (Some ret, s2)
            else send_heartbeats n' (S i) s2 pkt
      | _, _ => (None, s)
      end
  end.

(** [demux_send], lines 565-584: the packets the filter chain gives out. *)
Fixpoint receive_filtered (fuel i : nat) (out : AVBSFContext) (s : State)
  : outcome * State :=
  match fuel with
  | O => (OutOfFuel, s)
  | S fuel' =>
      let '(w, ret, pkt_bsf) := av_bsf_receive_packet (world s) i in
      let s1 := called s (Call_av_bsf_receive_packet i) w in
      if ret =? AVERROR EAGAIN then (Returns 0, s1)
      else if ret <? 0 then (Returns ret, s1)
      else
        let '(r, s2, _) :=
          do_send s1 i (set_time_base pkt_bsf (time_base_out out)) 0 in
        if r <? 0 then (Returns r, s2)
        else receive_filtered fuel' i out s2
  end.

(** [demux_send]; [i] is the position of [ds] in [f->streams]. *)
Definition demux_send (fuel : nat) (s : State) (i : nat)
    (pkt : option AVPacket) (flags : Z) : outcome * State :=
  match nth_error (streams (f (dmx s))) i with
  | None => (Aborts, s)
  | Some ds =>
      match bsf ds, pkt with
      | None, None => (Aborts, s)
      | _, _ =>
          let '(early, s1) :=
            match pkt_heartbeat (dmx s), pkt with
            | Some _, Some p =>
                if negb (pts p =? AV_NOPTS_VALUE)
                then send_heartbeats (nb_streams (dmx s)) 0 s p
                else (None, s)
            | _, _ => (None, s)
            end in
          match early with
          | Some ret => (Returns ret, s1)
          | None =>
              match bsf ds, pkt with
              | Some ctx, _ =>
                  let pkt1 :=
                    option_map
                      (fun p => av_packet_rescale_ts p (time_base p)
                                  (time_base_in ctx)) pkt in
                  let '(w, ret) := av_bsf_send_packet (world s1) i pkt1 in
                  let s2 := called s1 (Call_av_bsf_send_packet i pkt1) w in
                  if ret <? 0 then (Returns ret, s2)
                  else receive_filtered fuel i ctx s2
              | None, Some p =>
                  let '(ret, s2, _) := do_send s1 i p flags in
                  if ret <? 0 then (Returns ret, s2) else (Returns 0, s2)
              | None, None => (Aborts, s1)
              end
          end
      end
  end.

(** [av_dict_set(&opts, key, value, AV_DICT_DONT_OVERWRITE)]. *)
Definition dict_set_dont_overwrite (opts : list (string * string))
    (key value : string) : list (string * string) :=
  if existsb (fun kv => String.eqb (fst kv) key) opts then opts
  else opts ++ [(key, value)].

(** [ist_use], lines 895-939: the decoder node of the stream is created,
    connected and opened. *)
Definition ist_use_decoder (s : State) (i : nat) (ds : DemuxStream)
  : Z * State :=
  let d := dmx s in
  let is_audio :=
    AVMediaType_eqb (st_codecpar_codec_type (ist ds)) AVMEDIA_TYPE_AUDIO in
  let send_end_ts := truthy (loop d) && is_audio in
  let '(w1, ret1) := sch_add_dec (world s) i send_end_ts in
  let s1 := called s (Call_sch_add_dec i send_end_ts) w1 in
  if ret1 <? 0 then (ret1, s1)
  else
    let ds1 := set_sch_idx_dec ds ret1 in
    let s2 := with_dmx s1 (store_stream d i ds1) in
    let src := SCH_DSTREAM (file_index (f d)) (sch_idx_stream ds1) in
    let dst := SCH_DEC (sch_idx_dec ds1) in
    let '(w2, ret2) := sch_connect (world s2) src dst in
    let s3 := called s2 (Call_sch_connect src dst) w2 in
    if ret2 <? 0 then (ret2, s3)
    else
      let flags0 :=
        Z.lor
          (Z.lor
             (of_bool (truthy (fix_sub_duration (ist ds1)))
              * DECODER_FLAG_FIX_SUB_DURATION)
             (of_bool (truthy (Z.land (iformat_flags (f d))
                                 AVFMT_NOTIMESTAMPS))
              * DECODER_FLAG_TS_UNRELIABLE))
          (if FFMPEG_OPT_TOP
           then of_bool (top_field_first (ist ds1) >=? 0)
                * DECODER_FLAG_TOP_FIELD_FIRST
           else 0) in
      let ds2 :=
        if truthy (num (framerate (ist ds1)))
        then set_dec_opts_framerate
               (set_dec_opts_flags ds1
                  (Z.lor flags0 DECODER_FLAG_FRAMERATE_FORCED))
               (framerate (ist ds1))
        else set_dec_opts_framerate (set_dec_opts_flags ds1 flags0)
               (st_avg_frame_rate (ist ds1)) in
      let ds3 :=
        if match dec (ist ds2) with
           | Some id => id =? AV_CODEC_ID_DVB_SUBTITLE
           | None => false
           end
           && truthy (Z.land (decoding_needed (ist ds2)) DECODING_FOR_OST)
        then set_ist ds2
               (set_decoder_opts (ist ds2)
                  (dict_set_dont_overwrite (decoder_opts (ist ds2))
                     "compute_edt" "1"))
        else ds2 in
      let ds4 := set_dec_name ds3 (Some (file_index (f d), index (ist ds3))) in
      let s4 := with_dmx s3 (store_stream (dmx s3) i ds4) in
      let '(w3, ret3) := dec_open (world s4) i ds4 in
      let s5 := called s4 (Call_dec_open i ds4) w3 in
      if ret3 <? 0 then (ret3, s5)
      else
        (0, with_dmx s5
              (set_have_audio_dec (dmx s5)
                 (have_audio_dec (dmx s5) || is_audio))).

(** [ist_use], lines 886-893: the stream is marked as used. *)
Definition mark_used (d : Demuxer) (ds : DemuxStream) (decoding_needed_ : Z)
  : Demuxer * DemuxStream :=
  let '(ds2, d2) :=
    if discard ds
    then (set_discard ds false,
          set_nb_streams_used d (int32 (nb_streams_used d + 1)))
    else (ds, d) in
  let i3 :=
    set_decoding_needed
      (set_st_discard (ist ds2) (user_set_discard (ist ds2)))
      (Z.lor (decoding_needed (ist ds2)) decoding_needed_) in
  (d2,
   set_streamcopy_needed (set_ist ds2 i3)
     (streamcopy_needed ds2 || negb (truthy decoding_needed_))).

(** [ist_use]; [i] is the position of the stream in [f->streams] of its
    file ([None] when there is no such stream). *)
Definition ist_use (s : State) (i : nat) (decoding_needed_ : Z)
  : option (Z * State) :=
  match nth_error (streams (f (dmx s))) i with
  | None => None
  | Some ds =>
      if user_set_discard (ist ds) =? AVDISCARD_ALL
      then Some (AVERROR EINVAL, s)
      else if truthy decoding_needed_
              && match dec (ist ds) with Some _ => false | None => true end
      then Some (AVERROR EINVAL, s)
      else
        let '(early, s1, ds1) :=
          if sch_idx_stream ds <? 0 then
            let '(w, ret) :=
              sch_add_demux_stream (world s) (file_index (f (dmx s))) in
            let s1 := called s (Call_sch_add_demux_stream
                                  (file_index (f (dmx s)))) w in
            if ret <? 0 then (Some ret, s1, ds)
            else (None, s1, set_sch_idx_stream ds ret)
          else (None, s, ds) in
        match early with
        | Some ret => Some (ret, s1)
        | None =>
            let '(d2, ds3) := mark_used (dmx s1) ds1 decoding_needed_ in
            let s3 := with_dmx s1 (store_stream d2 i ds3) in
            if truthy decoding_needed_ && (sch_idx_dec ds3 <? 0)
            then Some (ist_use_decoder s3 i ds3)
            else Some (0, s3)
        end
  end.

(** [ist_output_add]; the output stream is given by its identity [ost]
    and by whether it has an encoder. *)
Definition ist_output_add (s : State) (i : nat) (ost : Z) (ost_enc : bool)
  : option (Z * State) :=
  match ist_use s i (if ost_enc then DECODING_FOR_OST else 0) with
  | None => None
  | Some (ret, s1) =>
      if ret <? 0 then Some (ret, s1)
      else
        let '(w, ok) := alloc (world s1) in
        let s2 := with_world s1 w in
        if negb ok then Some (AVERROR ENOMEM, s2)
        else
          match nth_error (streams (f (dmx s2))) i with
          | None => None
          | Some ds =>
              let ds1 :=
                set_ist ds (set_outputs (ist ds) (outputs (ist ds) ++ [ost])) in
              Some (if ost_enc then sch_idx_dec ds1 else sch_idx_stream ds1,
                    with_dmx s2 (store_stream (dmx s2) i ds1))
          end
  end.

(** [ist_filter_add]. *)
Definition ist_filter_add (s : State) (i : nat) (ifilter : Z)
    (is_simple : bool) : option (Z * State) :=
  match ist_use s i (if is_simple then DECODING_FOR_OST
                     else DECODING_FOR_FILTER) with
  | None => None
  | Some (ret, s1) =>
      if ret <? 0 then Some (ret, s1)
      else
        let '(w, ok) := alloc (world s1) in
        let s2 := with_world s1 w in
        if negb ok then Some (AVERROR ENOMEM, s2)
        else
          match nth_error (streams (f (dmx s2))) i with
          | None => None
          | Some ds =>
              let ds1 :=
                set_ist ds (set_filters (ist ds) (filters (ist ds) ++ [ifilter])) in
              let s3 := with_dmx s2 (store_stream (dmx s2) i ds1) in
              let '(w1, ret1) := dec_add_filter (world s3) i ifilter in
              let s4 := called s3 (Call_dec_add_filter i ifilter) w1 in
              if ret1 <? 0 then Some (ret1, s4)
              else if AVMediaType_eqb (par_codec_type (ist ds1))
                        AVMEDIA_TYPE_SUBTITLE
              then
                let '(early, s5) :=
                  match pkt_heartbeat (dmx s4) with
                  | Some _ => (None, s4)
                  | None =>
                      let '(w2, ok2) := alloc (world s4) in
                      if ok2
                      then (None,
                            with_dmx (with_world s4 w2)
                              (set_pkt_heartbeat (dmx s4) (Some blank_packet)))
                      else (Some (AVERROR ENOMEM), with_world s4 w2)
                  end in
                match early with
                | Some e => Some (e, s5)
                | None =>
                    Some (sch_idx_dec ds1,
                          with_dmx s5
                            (store_stream (dmx s5) i
                               (set_have_sub2video ds1 true)))
                end
              else Some (sch_idx_dec ds1, s4)
          end
  end.

End Scheduling.

Arguments mkState {F World}.
Arguments dmx {F World}.
Arguments world {F World}.
Arguments calls {F World}.
Arguments called {F World}.
Arguments with_dmx {F World}.
Arguments with_world {F World}.
Arguments do_send {F World}.
Arguments send_heartbeats {F World}.
Arguments receive_filtered {F World}.
Arguments demux_send {F World}.
Arguments ist_use_decoder {F} FFMPEG_OPT_TOP {World}.
Arguments ist_use {F} FFMPEG_OPT_TOP {World}.
Arguments ist_output_add {F} FFMPEG_OPT_TOP {World}.
Arguments ist_filter_add {F} FFMPEG_OPT_TOP {World}.

End Demux.

(** ** Output set-up: fftools/ffmpeg_mux_init.c *)
Module MuxInit.

Inductive SyncQueueType : Type := SYNC_QUEUE_PACKETS | SYNC_QUEUE_FRAMES.

(** Modelled from the spec: the sync queue ([sync_queue.c] is not among
    the sources), as far as its set-up goes: "a sync queue holds N streams";
    [add_stream(sync_queue, limit_shortest) -> idx] appends a stream and
    gives its index, [limit_frames(sync_queue, idx, max)] "sets cap". *)
Record SyncQueueStream : Type := mkSqStream {
  limiting   : bool;
  frames_max : option Z
}.

Record SyncQueue : Type := mkSq {
  sq_type     : SyncQueueType;
  buf_size_us : Z;
  sq_streams  : list SyncQueueStream
}.

(** The fields of OutputStream that [setup_sync_queues] reads or writes;
    [codec_type] is [ost->st->codecpar->codec_type], [enc_ctx] and
    [sq_frame] tell whether the pointer is set. *)
Record OutputStream : Type := mkOutputStream {
  codec_type    : AVMediaType;
  enc_ctx       : bool;
  max_frames    : Z;
  sq_idx_encode : Z;
  sq_idx_mux    : Z;
  sq_frame      : bool
}.

Definition set_sq_idx_encode (o : OutputStream) (v : Z) : OutputStream :=
  mkOutputStream (codec_type o) (enc_ctx o) (max_frames o) v (sq_idx_mux o)
    (sq_frame o).
Definition set_sq_idx_mux (o : OutputStream) (v : Z) : OutputStream :=
  mkOutputStream (codec_type o) (enc_ctx o) (max_frames o) (sq_idx_encode o) v
    (sq_frame o).
Definition set_sq_frame (o : OutputStream) (v : bool) : OutputStream :=
  mkOutputStream (codec_type o) (enc_ctx o) (max_frames o) (sq_idx_encode o)
    (sq_idx_mux o) v.

Record OutputFile : Type := mkOutputFile {
  streams   : list OutputStream;
  shortest  : bool;
  sq_encode : option SyncQueue
}.

(** Muxer: the embedded OutputFile [of] and the muxing queue. *)
Record Muxer : Type := mkMuxer {
  of_    : OutputFile;
  sq_mux : option SyncQueue;
  sq_pkt : bool
}.

(** The macros local to [setup_sync_queues]. *)
Definition IS_AV_ENC (ost : OutputStream) : bool :=
  enc_ctx ost
  && (AVMediaType_eqb (codec_type ost) AVMEDIA_TYPE_VIDEO
      || AVMediaType_eqb (codec_type ost) AVMEDIA_TYPE_AUDIO).
Definition IS_INTERLEAVED (type : AVMediaType) : bool :=
  negb (AVMediaType_eqb type AVMEDIA_TYPE_ATTACHMENT).

(** What the first loop computes. *)
Record Counts : Type := mkCounts {
  nb_av_enc           : Z;
  nb_interleaved      : Z;
  limit_frames        : bool;
  limit_frames_av_enc : bool
}.

(** Lines 1075-1087, one turn. *)
Definition count_stream (c : Counts) (ost : OutputStream) : Counts :=
  mkCounts
    (nb_av_enc c + of_bool (IS_AV_ENC ost))
    (nb_interleaved c + of_bool (IS_INTERLEAVED (codec_type ost)))
    (limit_frames c || (max_frames ost <? INT64_MAX))
    (limit_frames_av_enc c
     || ((max_frames ost <? INT64_MAX) && IS_AV_ENC ost)).

Definition reset_sq_idx (ost : OutputStream) : OutputStream :=
  set_sq_idx_mux (set_sq_idx_encode ost (-1)) (-1).

Section SetUp.

(** The allocator, as a function of its state. *)
Variable World : Type.
Variable alloc : World -> World * bool.

Definition sq_alloc (w : World) (type : SyncQueueType) (buf : Z)
  : World * option SyncQueue :=
  let '(w1, ok) := alloc w in
  (w1, if ok then Some (mkSq type buf []) else None).

Definition sq_add_stream (w : World) (sq : SyncQueue) (limiting_ : bool)
  : World * SyncQueue * Z :=
  let '(w1, ok) := alloc w in
  if ok
  then (w1,
        mkSq (sq_type sq) (buf_size_us sq)
          (sq_streams sq ++ [mkSqStream limiting_ None]),
        Z.of_nat (List.length (sq_streams sq)))
  else (w1, sq, AVERROR ENOMEM).

Fixpoint limit_at (l : list SyncQueueStream) (n : nat) (v : Z)
  : list SyncQueueStream :=
  match l, n with
  | [], _ => []
  | h :: t, O => mkSqStream (limiting h) (Some v) :: t
  | h :: t, S n' => h :: limit_at t n' v
  end.

Definition sq_limit_frames (sq : SyncQueue) (idx : Z) (max : Z) : SyncQueue :=
  if idx <? 0 then sq
  else mkSq (sq_type sq) (buf_size_us sq)
         (limit_at (sq_streams sq) (Z.to_nat idx) max).

(** Lines 1101-1119: the streams that are encoded audio or video join the
    queue in front of the encoders.  The result is [Some ret] when the
    loop returns from [setup_sync_queues]. *)
Fixpoint add_encode_streams (shortest_ : bool) (w : World) (sq : SyncQueue)
    (l : list OutputStream)
  : option Z * World * SyncQueue * list OutputStream :=
  match l with
  | [] => (None, w, sq, [])
  | ost :: rest =>
      if negb (IS_AV_ENC ost) then
        let '(r, w1, sq1, rest1) := add_encode_streams shortest_ w sq rest in
        (r, w1, sq1, ost :: rest1)
      else
        let '(w1, sq1, idx) :=
          sq_add_stream w sq (shortest_ || (max_frames ost <? INT64_MAX)) in
        let ost1 := set_sq_idx_encode ost idx in
        if idx <? 0 then (Some idx, w1, sq1, ost1 :: rest)
        else
          let '(w2, ok) := alloc w1 in
          if negb ok then (Some (AVERROR ENOMEM), w2, sq1, ost1 :: rest)
          else
            let ost2 := set_sq_frame ost1 true in
            let sq2 :=
              if negb (max_frames ost2 =? INT64_MAX)
              then sq_limit_frames sq1 (sq_idx_encode ost2) (max_frames ost2)
              else sq1 in
            let '(r, w3, sq3, rest1) :=
              add_encode_streams shortest_ w2 sq2 rest in
            (r, w3, sq3, ost2 :: rest1)
  end.

(** Lines 1133-1147: every interleaved stream joins the queue in front of
    the muxer. *)
Fixpoint add_mux_streams (shortest_ : bool) (w : World) (sq : SyncQueue)
    (l : list OutputStream)
  : option Z * World * SyncQueue * list OutputStream :=
  match l with
  | [] => (None, w, sq, [])
  | ost :: rest =>
      if negb (IS_INTERLEAVED (codec_type ost)) then
        let '(r, w1, sq1, rest1) := add_mux_streams shortest_ w sq rest in
        (r, w1, sq1, ost :: rest1)
      else
        let '(w1, sq1, idx) :=
          sq_add_stream w sq (shortest_ || (max_frames ost <? INT64_MAX)) in
        let ost1 := set_sq_idx_mux ost idx in
        if idx <? 0 then (Some idx, w1, sq1, ost1 :: rest)
        else
          let sq2 :=
            if negb (max_frames ost1 =? INT64_MAX)
            then sq_limit_frames sq1 (sq_idx_mux ost1) (max_frames ost1)
            else sq1 in
          let '(r, w2, sq3, rest1) := add_mux_streams shortest_ w1 sq2 rest in
          (r, w2, sq3, ost1 :: rest1)
  end.

(** Line 1089: the test that lets the function go on to create queues. *)
Definition wants_sync_queues (shortest_ : bool) (c : Counts) : bool :=
  ((nb_interleaved c >? 1) && shortest_)
  || ((nb_interleaved c >? 0) && limit_frames c).

Definition setup_sync_queues (w : World) (mux : Muxer) (buf_size_us_ : Z)
  : Z * World * Muxer :=
  let of0 := of_ mux in
  let c := fold_left count_stream (streams of0) (mkCounts 0 0 false false) in
  let l0 := map reset_sq_idx (streams of0) in
  let mux0 := mkMuxer (mkOutputFile l0 (shortest of0) (sq_encode of0))
                (sq_mux mux) (sq_pkt mux) in
  if negb (wants_sync_queues (shortest of0) c) then (0, w, mux0)
  else
    let '(early, w1, mux1) :=
      if (shortest of0 && (nb_av_enc c >? 1)) || limit_frames_av_enc c then
        match sq_alloc w SYNC_QUEUE_FRAMES buf_size_us_ with
        | (w1, None) =>
            (Some (AVERROR ENOMEM), w1,
             mkMuxer (mkOutputFile l0 (shortest of0) None)
               (sq_mux mux0) (sq_pkt mux0))
        | (w1, Some sq) =>
            let '(r, w2, sq1, l1) :=
              add_encode_streams (shortest of0) w1 sq l0 in
            (r, w2,
             mkMuxer (mkOutputFile l1 (shortest of0) (Some sq1))
               (sq_mux mux0) (sq_pkt mux0))
        end
      else (None, w, mux0) in
    match early with
    | Some ret => (ret, w1, mux1)
    | None =>
        if nb_interleaved c >? nb_av_enc c then
          match sq_alloc w1 SYNC_QUEUE_PACKETS buf_size_us_ with
          | (w2, None) =>
              (AVERROR ENOMEM, w2, mkMuxer (of_ mux1) None (sq_pkt mux1))
          | (w2, Some sq) =>
              let mux2 := mkMuxer (of_ mux1) (Some sq) (sq_pkt mux1) in
              let '(w3, ok) := alloc w2 in
              if negb ok
              then (AVERROR ENOMEM, w3, mkMuxer (of_ mux1) (Some sq) false)
              else
                let '(r, w4, sq1, l2) :=
                  add_mux_streams (shortest of0) w3 sq (streams (of_ mux2)) in
                (match r with Some ret => ret | None => 0 end, w4,
                 mkMuxer
                   (mkOutputFile l2 (shortest of0) (sq_encode (of_ mux2)))
                   (Some sq1) true)
          end
        else (0, w1, mux1)
    end.

End SetUp.

Arguments sq_alloc {World}.
Arguments sq_add_stream {World}.
Arguments add_encode_streams {World}.
Arguments add_mux_streams {World}.
Arguments setup_sync_queues {World}.

End MuxInit.

(** ** The specification's wording, for comparison with the code *)
Module Spec.

(** §4.1: "a new internal time base is chosen as
    [1 / lcm_denominator(prev_den, new_rate)] unless that would overflow; on
    overflow fall back to [1/28_224_000]", read as a statement about the
    time base the stage ends up with. *)
Definition new_internal_tb (prev sr : Z) : AVRational :=
  if prev ÷ Z.gcd prev sr >=? INT_MAX ÷ sr
  then mkQ 1 28224000
  else mkQ 1 (Z.lcm prev sr).

(** §4.1: "If the frame's own time base is strictly finer than the chosen
    one and its denominator divides the chosen denominator, prefer the
    frame's." *)
Definition prefers_frame_tb (frame_tb chosen : AVRational) : bool :=
  (num frame_tb =? 1) && (den frame_tb >? den chosen)
  && (Z.rem (den chosen) (den frame_tb) =? 0).

(** The first entry of a priority chain whose guard holds. *)
Fixpoint first_of (chain : list (bool * Z)) (fallback : Z) : Z :=
  match chain with
  | [] => fallback
  | (guard, v) :: rest => if guard then v else first_of rest fallback
  end.

Section VideoDuration.
Context {U : LibAVUtil}.

(** §4.4, "Video duration estimation": the chain of preferences, with the
    facts it consults as arguments. *)
Definition video_duration
    (frame_duration frame_pts last_pts last_duration_est : Z)
    (has_timestamps framerate_forced : bool)
    (codec_framerate avg_frame_rate : option AVRational)
    (repeat_pict : Z) (frame_tb : AVRational) : Z :=
  let codec_duration :=
    match codec_framerate with
    | Some r =>
        av_rescale_q (int32 (repeat_pict + 2))
          (av_inv_q (av_mul_q r (mkQ 2 1))) frame_tb
    | None => 0
    end in
  let avg_duration :=
    match avg_frame_rate with
    | Some r => av_rescale_q 1 (av_inv_q r) frame_tb
    | None => 0
    end in
  first_of
    [ ((0 <? frame_duration) && (has_timestamps || framerate_forced),
       frame_duration);
      ((0 <? codec_duration) && negb has_timestamps, codec_duration);
      (negb (frame_pts =? AV_NOPTS_VALUE)
       && negb (last_pts =? AV_NOPTS_VALUE) && (last_pts <? frame_pts),
       int64 (frame_pts - last_pts));
      (0 <? frame_duration, frame_duration);
      (0 <? codec_duration, codec_duration);
      (0 <? avg_duration, avg_duration) ]
    (Z.max last_duration_est 1).

End VideoDuration.

Section Demuxer.
Context {U : LibAVUtil} {F : FloatArith}.

(** §4.3, "Timestamp fix-up (per packet), in order": the [ts_scale]
    factor, then the wrap correction, then [ts_offset]. *)
Definition fixup_in_stated_order (ifile : Demux.InputFile)
    (ds : Demux.DemuxStream) (pkt : Demux.AVPacket)
  : Demux.DemuxStream * Demux.AVPacket :=
  let pkt0 := Demux.set_time_base pkt (Demux.st_time_base (Demux.ist ds)) in
  let pkt1 := Demux.apply_ts_scale ds pkt0 in
  let '(ds1, pkt2) :=
    Demux.wrap_correction ds (Demux.start_time_effective ifile) pkt1 in
  (ds1, Demux.apply_ts_offset ifile pkt2).

(** §4.3, "Discontinuity detection": on a container that permits
    discontinuities the offset is moved when "|dts − next_dts| exceeds
    dts_delta_threshold AV_TIME_BASE seconds". *)
Definition discontinuity_corrected (dts_delta_threshold : float)
    (pkt_dts next_dts : Z) : bool :=
  exceeds_seconds (FFABS (int64 (pkt_dts - next_dts))) dts_delta_threshold.

(** §4.3, "Sub-to-video heartbeats": a heartbeat "on each sub-to-video
    input stream". *)
Definition heartbeat_streams (d : Demux.Demuxer) : list Demux.DemuxStream :=
  filter Demux.have_sub2video (Demux.streams (Demux.f d)).

(** The call [c] hands the scheduler a heartbeat for stream [ds] on behalf
    of the packet [pkt]: no payload, the packet's pts and time base, the
    stream's scheduler index, the heartbeat mark. *)
Definition is_heartbeat (pkt : Demux.AVPacket) (ds : Demux.DemuxStream)
    (c : Demux.Call) : Prop :=
  match c with
  | Demux.Call_sch_demux_send _ hb flags =>
      Demux.size hb = 0
      /\ Demux.pts hb = Demux.pts pkt
      /\ Demux.time_base hb = Demux.time_base pkt
      /\ Demux.stream_index hb = Demux.sch_idx_stream ds
      /\ Demux.opaque hb = Demux.PKT_OPAQUE_SUB_HEARTBEAT
      /\ flags = 0
  | _ => False
  end.

(** The two cases in which [ist_use] refuses a stream: the user has
    disabled it, or decoding is asked for and there is no decoder. *)
Definition refused (ds : Demux.DemuxStream) (decoding_needed : Z) : Prop :=
  Demux.user_set_discard (Demux.ist ds) = Demux.AVDISCARD_ALL
  \/ (decoding_needed <> 0 /\ Demux.dec (Demux.ist ds) = None).

(** What taking a stream into use leaves alone in its record. *)
Definition kept (ds ds' : Demux.DemuxStream) : Prop :=
  Demux.outputs (Demux.ist ds') = Demux.outputs (Demux.ist ds)
  /\ Demux.filters (Demux.ist ds') = Demux.filters (Demux.ist ds)
  /\ Demux.par_codec_type (Demux.ist ds')
     = Demux.par_codec_type (Demux.ist ds)
  /\ Demux.have_sub2video ds' = Demux.have_sub2video ds.

(** The streams that get a heartbeat in the code. *)
Definition wants_heartbeat (ds : Demux.DemuxStream) : bool :=
  negb (Demux.finished ds || negb (Demux.have_sub2video ds)).

End Demuxer.

(** C10 as stated, on [setup_sync_queues]: no queue "unless the shortest policy
    is set with more than one interleaved (non-attachment) stream, or at
    least one interleaved stream has a finite max_frames cap". *)
Definition may_create_queues (shortest : bool)
    (l : list MuxInit.OutputStream) : bool :=
  (shortest
   && (1 <? List.length
              (filter (fun o => MuxInit.IS_INTERLEAVED (MuxInit.codec_type o))
                 l))%nat)
  || existsb
       (fun o => MuxInit.IS_INTERLEAVED (MuxInit.codec_type o)
                 && (MuxInit.max_frames o <? INT64_MAX)) l.

(** Two records of the same output stream agree on what the user asked
    for. *)
Definition same_config (o o' : MuxInit.OutputStream) : Prop :=
  MuxInit.codec_type o' = MuxInit.codec_type o
  /\ MuxInit.enc_ctx o' = MuxInit.enc_ctx o
  /\ MuxInit.max_frames o' = MuxInit.max_frames o.

(** What a sync queue holds for a stream that joined it: the limiting flag
    is set when shortest is set or the stream's max_frames is finite, the
    cap is the stream's max_frames when that is finite. *)
Definition queue_entry (shortest : bool) (o : MuxInit.OutputStream)
  : MuxInit.SyncQueueStream :=
  MuxInit.mkSqStream
    (shortest || (MuxInit.max_frames o <? INT64_MAX))
    (if MuxInit.max_frames o <? INT64_MAX then Some (MuxInit.max_frames o)
     else None).

(** The stream [o] has index [idx] in the queue [q]: either it did not
    join, or the queue exists and holds its entry there. *)
Definition registered (shortest : bool) (q : option MuxInit.SyncQueue)
    (idx : Z) (o : MuxInit.OutputStream) : Prop :=
  idx = -1
  \/ (0 <= idx
      /\ exists sq, q = Some sq
           /\ nth_error (MuxInit.sq_streams sq) (Z.to_nat idx)
              = Some (queue_entry shortest o)).

(** A rate is known when neither of its terms is zero. *)
Definition known_rate (r : AVRational) : option AVRational :=
  if truthy (num r) && truthy (den r) then Some r else None.

End Spec.

(** ** Concrete inputs *)
Module Examples.

Definition ctx_audio : Dec.AVCodecContext :=
  Dec.mkCodecContext AVMEDIA_TYPE_AUDIO 0 (mkQ 0 1) 0 (mkQ 1 44100) 0.

(** An audio stream that has seen frames at 44100 Hz, the last one at
    pts 1024 with 1024 samples. *)
Definition ist_44100 : Dec.InputStream :=
  Dec.mkInputStream 0 ctx_audio (mkQ 0 1) (mkQ 0 1) 0 (mkQ 0 1) (-1) false 0
    false 1 [] (Dec.mkPacket 0) 0 0 0 Dec.blank_subtitle false
    (mkQ 1 44100) 44100 1024 1024 2048 1024 2048 2 0.

Definition audio_frame (pts_ sr : Z) (tb_ : AVRational) : Dec.AVFrame :=
  Dec.mkFrame pts_ 0 tb_ sr 1024 0 pts_ 0 0 0 (mkQ 0 1) None.

(** A frame at 48000 Hz whose own time base is twice as fine as
    1/lcm(44100, 48000) = 1/7056000. *)
Definition frame_48000_fine : Dec.AVFrame :=
  audio_frame 655360 48000 (mkQ 1 14112000).

(** A frame at 48000 Hz in the time base of its sample rate. *)
Definition frame_48000 : Dec.AVFrame :=
  audio_frame 2229 48000 (mkQ 1 48000).

(** A video stream of a container with microsecond time base; the user
    asked for timestamps scaled by 2; so far the stream has seen a packet
    at dts 1.9 s and expects the next one at 1.94 s. *)
Definition demux_ist (type : AVMediaType) : Demux.InputStream :=
  Demux.mkInputStream 0 0 (mkQ 1 1000000) 33 (mkQ 25 1) 0 None type type 0 0
    0 (mkQ 25 1) 0 0 (Some 27) 0 (-1) (mkQ 0 1) [] [] [].

Definition demux_stream (type : AVMediaType) (scale : Z)
    (sub2video finished_ : bool) : Demux.DemuxStream (F := Model.floatarith) :=
  Demux.mkDemuxStream (F := Model.floatarith) (demux_ist type) 0 (-1) scale
    false finished_ true sub2video true true 0 1940000 1900000 None 0
    (mkQ 0 1) None None.

Definition no_timestamp : Demux.Timestamp :=
  Demux.mkTimestamp AV_NOPTS_VALUE (mkQ 1 1).

(** A file whose format has the flag [fmt_flags], with [ts_offset] 10. *)
Definition demuxer_of (fmt_flags : Z)
    (l : list (Demux.DemuxStream (F := Model.floatarith)))
    (hb : option Demux.AVPacket) : Demux.Demuxer (F := Model.floatarith) :=
  Demux.mkDemuxer (F := Model.floatarith)
    (Demux.mkInputFile (F := Model.floatarith) 0 l AV_NOPTS_VALUE 10 fmt_flags)
    0 AV_NOPTS_VALUE 0 false (Demux.mkTimestamp 0 (mkQ 1 1)) no_timestamp
    no_timestamp hb 1 0.

Definition demux_packet (pts_ dts_ : Z) : Demux.AVPacket :=
  Demux.mkPacket pts_ dts_ 40000 (mkQ 1 1000000) 0 100 0 0.

(** One video stream with [ts_scale] 2 in a file without special flags. *)
Definition demuxer_scaled : Demux.Demuxer (F := Model.floatarith) :=
  demuxer_of 0 [demux_stream AVMEDIA_TYPE_VIDEO 2 false false] None.

(** One video stream in a file whose format permits discontinuities. *)
Definition demuxer_discont : Demux.Demuxer (F := Model.floatarith) :=
  demuxer_of Demux.AVFMT_TS_DISCONT
    [demux_stream AVMEDIA_TYPE_VIDEO 1 false false] None.

(** The driver's defaults: 10 s and 30 h. *)
Definition default_delta_threshold : Z := 10.
Definition default_error_threshold : Z := 3600 * 30.

Definition fixup_default :=
  Demux.ts_fixup (U := Model.libavutil) (F := Model.floatarith) false
    default_delta_threshold default_error_threshold.

Definition discontinuity_process_default :=
  Demux.ts_discontinuity_process (U := Model.libavutil)
    (F := Model.floatarith) false default_delta_threshold
    default_error_threshold.

(** A scheduler that accepts everything and filters that have nothing to
    give; their state is the number of calls made. *)
Definition accept_send (w : nat) (_ : Z) (_ : Demux.AVPacket) (_ : Z)
  : nat * Z := (S w, 0).
Definition keep_ts (p : Demux.AVPacket) (_ _ : AVRational) : Demux.AVPacket :=
  p.
Definition accept_bsf_send (w : nat) (_ : nat) (_ : option Demux.AVPacket)
  : nat * Z := (S w, 0).
Definition empty_bsf_receive (w : nat) (_ : nat) : nat * Z * Demux.AVPacket :=
  (S w, AVERROR EAGAIN, Demux.blank_packet).

Definition accepting_demux_send :=
  Demux.demux_send (F := Model.floatarith) accept_send keep_ts
    accept_bsf_send empty_bsf_receive.

(** A video stream and two subtitle streams rendered to video, the second
    of which has no consumer left. *)
Definition demuxer_sub2video : Demux.Demuxer (F := Model.floatarith) :=
  demuxer_of 0
    [demux_stream AVMEDIA_TYPE_VIDEO 1 false false;
     Demux.set_sch_idx_stream
       (demux_stream AVMEDIA_TYPE_SUBTITLE 1 true false) 1;
     Demux.set_sch_idx_stream
       (demux_stream AVMEDIA_TYPE_SUBTITLE 1 true true) 2]
    (Some Demux.blank_packet).

Definition demux_state (d : Demux.Demuxer (F := Model.floatarith))
  : @Demux.State Model.floatarith nat :=
  Demux.mkState d O [].

(** An allocator that never fails; its state is the number of
    allocations. *)
Definition alloc_ok (w : nat) : nat * bool := (S w, true).

(** A copied video stream without a frame limit and an attachment with
    one, in a file without [-shortest]. *)
Definition muxer_attachment_limit : MuxInit.Muxer :=
  MuxInit.mkMuxer
    (MuxInit.mkOutputFile
       [MuxInit.mkOutputStream AVMEDIA_TYPE_VIDEO false INT64_MAX 0 0 false;
        MuxInit.mkOutputStream AVMEDIA_TYPE_ATTACHMENT false 5 0 0 false]
       false None)
    None false.

(** An encoded video stream limited to 100 frames and a copied audio
    stream, in a file without [-shortest]. *)
Definition muxer_video_limit : MuxInit.Muxer :=
  MuxInit.mkMuxer
    (MuxInit.mkOutputFile
       [MuxInit.mkOutputStream AVMEDIA_TYPE_VIDEO true 100 0 0 false;
        MuxInit.mkOutputStream AVMEDIA_TYPE_AUDIO false INT64_MAX 0 0 false]
       false None)
    None false.

(** A scheduler and a decoder that accept everything. *)
Definition accept_add_demux_stream (w : nat) (_ : Z) : nat * Z := (S w, 0).
Definition accept_add_dec (w : nat) (_ : nat) (_ : bool) : nat * Z := (S w, 0).
Definition accept_connect (w : nat) (_ _ : Demux.SchedulerNode) : nat * Z :=
  (S w, 0).
Definition accept_dec_open (w : nat)
    (_ : nat) (_ : Demux.DemuxStream (F := Model.floatarith)) : nat * Z :=
  (S w, 0).
Definition accept_add_filter (w : nat) (_ : nat) (_ : Z) : nat * Z := (S w, 0).

(** An audio stream for whose codec no decoder was found. *)
Definition stream_without_decoder : Demux.DemuxStream (F := Model.floatarith) :=
  Demux.set_ist (demux_stream AVMEDIA_TYPE_AUDIO 1 false false)
    (Demux.mkInputStream 0 0 (mkQ 1 1000000) 33 (mkQ 0 1) 0 None
       AVMEDIA_TYPE_AUDIO AVMEDIA_TYPE_AUDIO 0 44100 1024 (mkQ 0 1) 0 0 None 0
       (-1) (mkQ 0 1) [] [] []).

Definition state_without_decoder : @Demux.State Model.floatarith nat :=
  demux_state (demuxer_of 0 [stream_without_decoder] None).

(** A codec that has nothing to give and a filter network that takes
    everything; their state is the number of calls made. *)
Definition idle_send_packet (w : nat) (_ : option Dec.AVPacket) : nat * Z :=
  (S w, 0).
Definition idle_receive_frame (w : nat) : nat * Z * Dec.AVFrame :=
  (S w, AVERROR EAGAIN, audio_frame AV_NOPTS_VALUE 0 (mkQ 0 1)).
Definition idle_hwaccel (w : nat) (fr : Dec.AVFrame) : nat * Z * Dec.AVFrame :=
  (S w, 0, fr).
Definition idle_send_frame (w : nat) (_ : Z) (_ : Dec.AVFrame) (_ : bool)
  : nat * Z := (S w, 0).
Definition idle_send_eof (w : nat) (_ _ : Z) (_ : AVRational) : nat * Z :=
  (S w, 0).
Definition idle_decode_subtitle (w : nat) (_ : Dec.AVPacket)
  : nat * Z * Dec.AVSubtitle * Z := (S w, 0, Dec.blank_subtitle, 0).
Definition idle_sub2video_update (w : nat) (_ : Z)
    (_ : option Dec.AVSubtitle) : nat := S w.
Definition idle_add_frame (w : nat) (_ : Z) : nat * Z := (S w, 0).
Definition idle_fifo_write (w : nat) (_ : Dec.AVSubtitle) : nat * Z :=
  (S w, 0).
Definition idle_enc_subtitle (w : nat) (_ : Z) (_ : nat)
    (_ : Dec.AVSubtitle) : nat := S w.
Definition idle_subtitle_free (w : nat) (_ : Dec.AVSubtitle) : nat := S w.

Definition idle_dec_packet :=
  Dec.dec_packet (U := Model.libavutil) [Dec.mkInputFile false] false 0
    idle_send_packet idle_receive_frame (fun _ => 0) (fun _ => true)
    idle_hwaccel idle_send_frame idle_send_eof idle_decode_subtitle
    (fun _ => false) (fun _ => INT64_MAX) idle_sub2video_update
    idle_add_frame (fun _ => true) idle_fifo_write idle_enc_subtitle
    idle_subtitle_free.

Definition dec_state_44100 : Dec.State nat := Dec.mkState ist_44100 O [].

End Examples.

(** ** The decoder stage, continued: the pixel format callback *)
Module DecFormat.

(** Constants of libavutil/pixfmt.h and libavcodec/codec.h. *)
Definition AV_PIX_FMT_NONE : Z := -1.
Definition AV_CODEC_HW_CONFIG_METHOD_HW_DEVICE_CTX : Z := 1.

(** enum HWAccelID of ffmpeg.h. *)
Inductive HWAccelID : Type := HWACCEL_NONE | HWACCEL_AUTO | HWACCEL_GENERIC.

Definition wants_hw_config (id : HWAccelID) : bool :=
  match id with
  | HWACCEL_GENERIC | HWACCEL_AUTO => true
  | HWACCEL_NONE => false
  end.

(** AVCodecHWConfig, as far as [get_format] reads it. *)
Record AVCodecHWConfig : Type := mkHWConfig {
  hw_pix_fmt     : Z;
  hw_methods     : Z;
  hw_device_type : Z
}.

Section GetFormat.

(** [av_pix_fmt_desc_get(p)->flags & AV_PIX_FMT_FLAG_HWACCEL], the
    configurations [avcodec_get_hw_config(s->codec, i)] gives for
    [i = 0, 1, ...], and [hwaccel_decode_init] of ffmpeg_hw.c as a
    transition of the collaborators' state. *)
Variable pix_fmt_is_hwaccel : Z -> bool.
Variable hw_configs : list AVCodecHWConfig.
Variable W : Type.
Variable hwaccel_decode_init : W -> W * Z.

(** [ist->hwaccel_id] and [ist->hwaccel_device_type], which no other
    function of the unit reads. *)
Variable hwaccel_id : HWAccelID.
Variable hwaccel_device_type : Z.

(** Lines 525-534: the first configuration that works through a device
    context and has the pixel format [p]. *)
Fixpoint find_hw_config (l : list AVCodecHWConfig) (p : Z)
  : option AVCodecHWConfig :=
  match l with
  | [] => None
  | config :: rest =>
      if negb (truthy (Z.land (hw_methods config)
                         AV_CODEC_HW_CONFIG_METHOD_HW_DEVICE_CTX))
      then find_hw_config rest p
      else if hw_pix_fmt config =? p then Some config
      else find_hw_config rest p
  end.

(** [get_format]: the formats the decoder offers, up to the terminating
    AV_PIX_FMT_NONE (the end of the list stands for it as well).  The
    result is the format chosen, the collaborators' state and
    [ist->hwaccel_pix_fmt]. *)
Fixpoint get_format (w : W) (hwaccel_pix_fmt : Z) (pix_fmts : list Z)
  : Z * W * Z :=
  match pix_fmts with
  | [] => (AV_PIX_FMT_NONE, w, hwaccel_pix_fmt)
  | p :: rest =>
      if p =? AV_PIX_FMT_NONE then (AV_PIX_FMT_NONE, w, hwaccel_pix_fmt)
      else if negb (pix_fmt_is_hwaccel p) then (p, w, hwaccel_pix_fmt)
      else
        let config :=
          if wants_hw_config hwaccel_id then find_hw_config hw_configs p
          else None in
        match config with
        | Some c =>
            if hw_device_type c =? hwaccel_device_type then
              let '(w1, ret) := hwaccel_decode_init w in
              if ret <? 0 then
                match hwaccel_id with
                | HWACCEL_GENERIC => (AV_PIX_FMT_NONE, w1, hwaccel_pix_fmt)
                | _ => get_format w1 hwaccel_pix_fmt rest
                end
              else (p, w1, p)
            else get_format w hwaccel_pix_fmt rest
        | None => get_format w hwaccel_pix_fmt rest
        end
  end.

End GetFormat.

Arguments get_format pix_fmt_is_hwaccel hw_configs {W}.

End DecFormat.

(** ** The demuxer stage, continued: fftools/ffmpeg_demux.c *)
Module DemuxThread.
Import Demux.

(** Constants of libavcodec/defs.h and libavutil/error.h. *)
Definition AVDISCARD_DEFAULT : Z := 0.
Definition AVERROR_BUG       : Z := -558323010.

(** AVProgram, as far as [discard_unused_programs] reads or writes it. *)
Record AVProgram : Type := mkProgram {
  program_stream_index : list nat;
  program_discard      : Z
}.

Section Streams.
Context {U : LibAVUtil} {F : FloatArith}.

Definition set_loop (d : Demuxer) (v : Z) : Demuxer :=
  mkDemuxer (f d) (ts_offset_discont d) (last_ts d) v (have_audio_dec d)
    (d_duration d) (min_pts d) (max_pts d) (pkt_heartbeat d)
    (nb_streams_used d) (nb_streams_finished d).
Definition set_d_duration (d : Demuxer) (v : Timestamp) : Demuxer :=
  mkDemuxer (f d) (ts_offset_discont d) (last_ts d) (loop d)
    (have_audio_dec d) v (min_pts d) (max_pts d) (pkt_heartbeat d)
    (nb_streams_used d) (nb_streams_finished d).

(** [ist_find_unused]; [l] is the sequence of input streams that
    [ist_iter] (of ffmpeg.c) goes through.  The result is the position of
    the stream found in that sequence. *)
Fixpoint ist_find_unused (l : list DemuxStream) (type : AVMediaType)
  : option nat :=
  match l with
  | [] => None
  | ds :: rest =>
      if AVMediaType_eqb (par_codec_type (ist ds)) type && discard ds
         && negb (user_set_discard (ist ds) =? AVDISCARD_ALL)
      then Some O
      else option_map S (ist_find_unused rest type)
  end.

(** [discard_unused_programs], lines 624-631: the loop over the streams of
    one program, left at the first stream that is in use.  An index that
    is not one of [ifile->streams] has no meaning in C; the result is
    [None] then. *)
Fixpoint program_discard_of (l : list DemuxStream) (idx : list nat)
  : option Z :=
  match idx with
  | [] => Some AVDISCARD_ALL
  | k :: rest =>
      match nth_error l k with
      | None => None
      | Some ds =>
          if negb (discard ds) then Some AVDISCARD_DEFAULT
          else program_discard_of l rest
      end
  end.

Fixpoint discard_unused_programs (l : list DemuxStream)
    (programs : list AVProgram) : option (list AVProgram) :=
  match programs with
  | [] => Some []
  | p :: rest =>
      match program_discard_of l (program_stream_index p) with
      | None => None
      | Some v =>
          option_map (cons (mkProgram (program_stream_index p) v))
            (discard_unused_programs l rest)
      end
  end.

Section Thread.

(** libavformat and the scheduler, as functions of the collaborators'
    state: [avformat_seek_file] to the start time of the file, and
    [av_bsf_flush] on the filter of a stream. *)
Variable World : Type.
Variable sch_demux_send        : World -> Z -> AVPacket -> Z -> World * Z.
Variable av_packet_rescale_ts  : AVPacket -> AVRational -> AVRational -> AVPacket.
Variable av_bsf_send_packet    : World -> nat -> option AVPacket -> World * Z.
Variable av_bsf_receive_packet : World -> nat -> World * Z * AVPacket.
Variable av_bsf_flush          : World -> nat -> World.
Variable avformat_seek_file    : World -> World * Z.

(** [seek_to_start]. *)
Definition seek_to_start (s : State World) (end_pts : Timestamp)
  : Z * State World :=
  let '(w, ret) := avformat_seek_file (world s) in
  let s1 := with_world s w in
  if ret <? 0 then (ret, s1)
  else
    let d := dmx s1 in
    let d1 :=
      if negb (ts end_pts =? AV_NOPTS_VALUE)
         && ((ts (max_pts d) =? AV_NOPTS_VALUE)
             || (av_compare_ts (ts (max_pts d)) (tb (max_pts d))
                   (ts end_pts) (tb end_pts) <? 0))
      then set_max_pts d end_pts
      else d in
    let d2 :=
      if negb (ts (max_pts d1) =? AV_NOPTS_VALUE) then
        let min_pts_ :=
          if ts (min_pts d1) =? AV_NOPTS_VALUE then 0 else ts (min_pts d1) in
        set_d_duration d1
          (mkTimestamp
             (int64 (ts (max_pts d1)
                     - av_rescale_q min_pts_ (tb (min_pts d1))
                         (tb (max_pts d1))))
             (tb (d_duration d1)))
      else d1 in
    let d3 :=
      set_d_duration d2 (mkTimestamp (ts (d_duration d2)) (tb (max_pts d2))) in
    let d4 := if loop d3 >? 0 then set_loop d3 (loop d3 - 1) else d3 in
    (ret, with_dmx s1 d4).

(** [demux_bsf_flush]: [n] streams remain, [i] is the next one. *)
Fixpoint demux_bsf_flush_loop (fuel n i : nat) (s : State World)
  : outcome * State World :=
  match n with
  | O => (Returns 0, s)
  | S n' =>
      match nth_error (streams (f (dmx s))) i with
      | None => (Returns 0, s)
      | Some ds =>
          match bsf ds with
          | None => demux_bsf_flush_loop fuel n' (S i) s
          | Some _ =>
              match demux_send sch_demux_send av_packet_rescale_ts
                      av_bsf_send_packet av_bsf_receive_packet
                      fuel s i None 0 with
              | (Returns ret, s1) =>
                  let ret1 :=
                    if ret =? AVERROR_EOF then 0
                    else if ret <? 0 then ret else AVERROR_BUG in
                  if ret1 <? 0 then (Returns ret1, s1)
                  else
                    demux_bsf_flush_loop fuel n' (S i)
                      (with_world s1 (av_bsf_flush (world s1) i))
              | (o, s1) => (o, s1)
              end
          end
      end
  end.

Definition demux_bsf_flush (fuel : nat) (s : State World)
  : outcome * State World :=
  demux_bsf_flush_loop fuel (nb_streams (dmx s)) 0 s.

End Thread.
End Streams.

Arguments seek_to_start {U F World}.
Arguments demux_bsf_flush_loop {F World}.
Arguments demux_bsf_flush {F World}.

End DemuxThread.

(** ** Output set-up, continued: fftools/ffmpeg_mux_init.c *)
Module MuxOptions.

Definition uint16 (z : Z) : Z := z mod 2 ^ 16.

(** The macro FFMIN of libavutil/common.h. *)
Definition FFMIN (a b : Z) : Z := if a >? b then b else a.

(** The character [','], code 44. *)
Definition is_comma (c : Ascii.ascii) : bool :=
  Ascii.eqb c (Ascii.ascii_of_nat 44).

(** [strchr(p, ',')]: the part of [p] from its first comma on. *)
Fixpoint strchr_comma (p : string) : option string :=
  match p with
  | EmptyString => None
  | String c rest => if is_comma c then Some p else strchr_comma rest
  end.

Section MatrixCoeffs.

(** [atoi] of the C library. *)
Variable atoi : string -> Z.

(** [parse_matrix_coeffs]: the loop, with [k] coefficients to read after
    the one at [p]; [None] when it leaves through [exit_program(1)].  The
    result is what [dest] holds. *)
Fixpoint parse_matrix_coeffs_from (k : nat) (p : string) : option (list Z) :=
  let coeff := uint16 (atoi p) in
  match k with
  | O => Some [coeff]
  | S k' =>
      match strchr_comma p with
      | Some (String _ rest) =>
          option_map (cons coeff) (parse_matrix_coeffs_from k' rest)
      | _ => None
      end
  end.

Definition parse_matrix_coeffs (str : string) : option (list Z) :=
  parse_matrix_coeffs_from 63 str.

End MatrixCoeffs.

(** AVChapter. *)
Record AVChapter : Type := mkChapter {
  ch_id        : Z;
  ch_time_base : AVRational;
  ch_start     : Z;
  ch_end       : Z;
  ch_metadata  : list (string * string)
}.

Section Chapters.
Context {U : LibAVUtil}.

(** The allocator, as a function of its state. *)
Variable World : Type.
Variable alloc : World -> World * bool.

(** [ifile->ts_offset], [ofile->start_time], [ofile->recording_time]. *)
Variable ts_offset : Z.
Variable start_time : Z.
Variable recording_time : Z.

Definition chapter_ts_off (in_ch : AVChapter) : Z :=
  let start := if start_time =? AV_NOPTS_VALUE then 0 else start_time in
  av_rescale_q (int64 (start - ts_offset)) AV_TIME_BASE_Q
    (ch_time_base in_ch).

Definition chapter_rt (in_ch : AVChapter) : Z :=
  if recording_time =? INT64_MAX then INT64_MAX
  else av_rescale_q recording_time AV_TIME_BASE_Q (ch_time_base in_ch).

(** [copy_chapters], lines 1425-1452: the loop over the chapters of the
    input; [out] is [os->chapters] with its [os->nb_chapters] entries. *)
Fixpoint copy_chapters_loop (w : World) (copy_metadata : bool)
    (l : list AVChapter) (out : list AVChapter)
  : Z * World * list AVChapter :=
  match l with
  | [] => (0, w, out)
  | in_ch :: rest =>
      let ts_off := chapter_ts_off in_ch in
      let rt := chapter_rt in_ch in
      if ch_end in_ch <? ts_off
      then copy_chapters_loop w copy_metadata rest out
      else if negb (rt =? INT64_MAX) && (ch_start in_ch >? int64 (rt + ts_off))
      then (0, w, out)
      else
        let '(w1, ok) := alloc w in
        if negb ok then (AVERROR ENOMEM, w1, out)
        else
          let out_ch :=
            mkChapter (ch_id in_ch) (ch_time_base in_ch)
              (FFMAX 0 (int64 (ch_start in_ch - ts_off)))
              (FFMIN rt (int64 (ch_end in_ch - ts_off)))
              (if copy_metadata then ch_metadata in_ch else []) in
          copy_chapters_loop w1 copy_metadata rest (out ++ [out_ch])
  end.

(** [copy_chapters].  (When [av_realloc_f] fails the array has been freed
    and [os->chapters] still points to it; the list is returned as it
    was.) *)
Definition copy_chapters (w : World) (copy_metadata : bool)
    (in_chapters out : list AVChapter) : Z * World * list AVChapter :=
  let '(w1, ok) := alloc w in
  if negb ok then (AVERROR ENOMEM, w1, out)
  else copy_chapters_loop w1 copy_metadata in_chapters out.

End Chapters.

Arguments copy_chapters_loop {U World}.
Arguments copy_chapters {U World}.

End MuxOptions.

(** ** Output set-up, metadata and dispositions: fftools/ffmpeg_mux_init.c *)
Module MuxMeta.
Import Ascii.

(** [parse_meta_type]: [index] and [stream_spec] are what [*index] and
    [*stream_spec] hold when the function is called; the result is what
    [*type], [*index] and [*stream_spec] hold when it returns, [None] when it
    leaves through [exit_program(1)].  [strtol] is called with base 0; its
    [long] is stored in an [int]. *)
Definition parse_meta_type (strtol : string -> Z) (arg : string)
    (index : Z) (stream_spec : string) : option (ascii * Z * string) :=
  match arg with
  | EmptyString => Some ("g"%char, index, stream_spec)
  | String c rest =>
      if Ascii.eqb c "g" then Some (c, index, stream_spec)
      else if Ascii.eqb c "s" then
        match rest with
        | EmptyString => Some (c, index, EmptyString)
        | String c1 rest1 =>
            if Ascii.eqb c1 ":" then Some (c, index, rest1) else None
        end
      else if Ascii.eqb c "c" || Ascii.eqb c "p" then
        match rest with
        | String c1 rest1 =>
            if Ascii.eqb c1 ":" then Some (c, int32 (strtol rest1), stream_spec)
            else Some (c, index, stream_spec)
        | EmptyString => Some (c, index, stream_spec)
        end
      else None
  end.

(** Flags of libavformat/avformat.h. *)
Definition AV_DISPOSITION_DEFAULT      : Z := 1.
Definition AV_DISPOSITION_ATTACHED_PIC : Z := 1024.

(** The fields of OutputStream that [set_dispositions] reads or writes:
    [codec_type] is [ost->st->codecpar->codec_type], [disposition] the
    string [ost->disposition] when the pointer is set, [st_disposition] is
    [ost->st->disposition]. *)
Record OutputStream : Type := mkOutputStream {
  codec_type     : AVMediaType;
  disposition    : option string;
  source_index   : Z;
  st_disposition : Z
}.

Definition set_st_disposition (o : OutputStream) (v : Z) : OutputStream :=
  mkOutputStream (codec_type o) (disposition o) (source_index o) v.

(** The tests [st->disposition & AV_DISPOSITION_DEFAULT] and
    [st->disposition & AV_DISPOSITION_ATTACHED_PIC]. *)
Definition has_default (o : OutputStream) : bool :=
  truthy (Z.land (st_disposition o) AV_DISPOSITION_DEFAULT).
Definition attached_pic (o : OutputStream) : bool :=
  truthy (Z.land (st_disposition o) AV_DISPOSITION_ATTACHED_PIC).

(** An array of AVMEDIA_TYPE_NB ints, by media type, and [a[type] = v]. *)
Definition array_set (a : AVMediaType -> Z) (type : AVMediaType) (v : Z)
  : AVMediaType -> Z :=
  fun t => if AVMediaType_eqb t type then v else a t.

(** The locals [nb_streams], [have_default] and [have_manual]. *)
Record Tally : Type := mkTally {
  nb_streams   : AVMediaType -> Z;
  have_default : AVMediaType -> Z;
  have_manual  : Z
}.

Section SetDispositions.

(** [input_streams[i]->st->disposition], for every input stream. *)
Variable input_streams : list Z.

(** Setting the option "disposition" of a stream from a string
    ([av_opt_set], or [av_opt_eval_flags] before libavformat 60): the
    result and the disposition of the stream afterwards. *)
Variable av_opt_set : Z -> string -> Z * Z.

(** Lines 1617-1630: the input dispositions are copied.  [None] when the
    code has no meaning in C: AVMEDIA_TYPE_UNKNOWN is -1 and no index of
    the arrays, and [source_index] has to be an index of [input_streams]. *)
Fixpoint copy_dispositions (l : list OutputStream) (t : Tally)
  : option (list OutputStream * Tally) :=
  match l with
  | [] => Some ([], t)
  | ost :: rest =>
      let type := codec_type ost in
      if AVMediaType_eqb type AVMEDIA_TYPE_UNKNOWN then None
      else
        let nb := array_set (nb_streams t) type (nb_streams t type + 1) in
        let hm :=
          Z.lor (have_manual t)
            (of_bool (match disposition ost with
                      | Some _ => true | None => false end)) in
        if source_index ost >=? 0 then
          match nth_error input_streams (Z.to_nat (source_index ost)) with
          | None => None
          | Some disp =>
              let hd :=
                if truthy (Z.land disp AV_DISPOSITION_DEFAULT)
                then array_set (have_default t) type 1
                else have_default t in
              match copy_dispositions rest (mkTally nb hd hm) with
              | None => None
              | Some (rest1, t1) =>
                  Some (set_st_disposition ost disp :: rest1, t1)
              end
          end
        else
          match copy_dispositions rest (mkTally nb (have_default t) hm) with
          | None => None
          | Some (rest1, t1) => Some (ost :: rest1, t1)
          end
  end.

(** Lines 1633-1655: the dispositions set by the user. *)
Fixpoint set_manual (l : list OutputStream) : Z * list OutputStream :=
  match l with
  | [] => (0, [])
  | ost :: rest =>
      match disposition ost with
      | None =>
          let '(ret, rest1) := set_manual rest in (ret, ost :: rest1)
      | Some str =>
          let '(ret, disp) := av_opt_set (st_disposition ost) str in
          let ost1 := set_st_disposition ost disp in
          if ret <? 0 then (ret, ost1 :: rest)
          else let '(ret1, rest1) := set_manual rest in (ret1, ost1 :: rest1)
      end
  end.

(** Lines 1660-1670: a default stream for every type that has none. *)
Fixpoint mark_defaults (nb hd : AVMediaType -> Z) (l : list OutputStream)
  : list OutputStream :=
  match l with
  | [] => []
  | ost :: rest =>
      let type := codec_type ost in
      if (nb type <? 2) || truthy (hd type) || attached_pic ost
      then ost :: mark_defaults nb hd rest
      else
        set_st_disposition ost
          (Z.lor (st_disposition ost) AV_DISPOSITION_DEFAULT)
        :: mark_defaults nb (array_set hd type 1) rest
  end.

Definition set_dispositions (l : list OutputStream)
  : option (Z * list OutputStream) :=
  match copy_dispositions l (mkTally (fun _ => 0) (fun _ => 0) 0) with
  | None => None
  | Some (l1, t) =>
      if truthy (have_manual t) then Some (set_manual l1)
      else Some (0, mark_defaults (nb_streams t) (have_default t) l1)
  end.

End SetDispositions.

End MuxMeta.

(** ** Vocabulary of the further properties *)
Module Props.

(** The calls by which [send_frame_to_filters] offers [frame] to [k]
    filters from filter [i] on, the earliest first, for a stream with [n]
    filters: every filter but the last one is asked to keep a reference of
    its own. *)
Fixpoint frame_offers (n : Z) (frame : Dec.AVFrame) (i : Z) (k : nat)
  : list Dec.Call :=
  match k with
  | O => []
  | S k' =>
      Dec.Call_ifilter_send_frame i frame (negb (i =? n - 1))
      :: frame_offers n frame (i + 1) k'
  end.

(** The calls by which [send_filter_eof] tells [k] filters from filter [i]
    on where the stream ends. *)
Fixpoint eof_offers (end_pts : Z) (tb : AVRational) (i : Z) (k : nat)
  : list Dec.Call :=
  match k with
  | O => []
  | S k' =>
      Dec.Call_ifilter_send_eof i end_pts tb :: eof_offers end_pts tb (i + 1) k'
  end.

Definition is_filter_eof (c : Dec.Call) : bool :=
  match c with
  | Dec.Call_ifilter_send_eof _ _ _ => true
  | _ => false
  end.

Definition is_fifo_write (c : Dec.Call) : bool :=
  match c with
  | Dec.Call_av_fifo_write _ => true
  | _ => false
  end.

Definition is_subtitle_free (c : Dec.Call) : bool :=
  match c with
  | Dec.Call_avsubtitle_free _ => true
  | _ => false
  end.

(** The subtitle a call hands over, if any. *)
Definition call_subtitle (c : Dec.Call) : option Dec.AVSubtitle :=
  match c with
  | Dec.Call_sub2video_update _ (Some sub) => Some sub
  | Dec.Call_av_fifo_write sub => Some sub
  | Dec.Call_enc_subtitle _ _ sub => Some sub
  | Dec.Call_avsubtitle_free sub => Some sub
  | _ => None
  end.

(** A stream as [ist_use] leaves it when it has taken it into use for
    [decoding_needed]. *)
Definition in_use {F : FloatArith} (decoding_needed : Z)
    (ds : Demux.DemuxStream) : Prop :=
  Demux.user_set_discard (Demux.ist ds) <> Demux.AVDISCARD_ALL
  /\ Demux.discard ds = false
  /\ 0 <= Demux.sch_idx_stream ds
  /\ Demux.st_discard (Demux.ist ds) = Demux.user_set_discard (Demux.ist ds)
  /\ Z.lor (Demux.decoding_needed (Demux.ist ds)) decoding_needed
     = Demux.decoding_needed (Demux.ist ds)
  /\ (Demux.streamcopy_needed ds || negb (truthy decoding_needed))
     = Demux.streamcopy_needed ds
  /\ (decoding_needed <> 0 ->
      Demux.dec (Demux.ist ds) <> None /\ 0 <= Demux.sch_idx_dec ds).

(** The number of commas in a string. *)
Fixpoint count_commas (p : string) : nat :=
  match p with
  | EmptyString => O
  | String c rest =>
      (if MuxOptions.is_comma c then 1 else 0) + count_commas rest
  end.

(** A chapter of the output that [copy_chapters] made from one of the
    chapters [l] of the input: it does not start before 0 nor end after the
    recording time, and it has the id, the time base and, when metadata is
    copied, the metadata of a chapter of the input that does not end before
    the start of the output. *)
Definition copied_from {U : LibAVUtil}
    (ts_offset start_time recording_time : Z) (copy_metadata : bool)
    (l : list MuxOptions.AVChapter) (c : MuxOptions.AVChapter) : Prop :=
  0 <= MuxOptions.ch_start c
  /\ MuxOptions.ch_end c <= MuxOptions.chapter_rt recording_time c
  /\ exists in_ch : MuxOptions.AVChapter,
       In in_ch l
       /\ MuxOptions.ch_id c = MuxOptions.ch_id in_ch
       /\ MuxOptions.ch_time_base c = MuxOptions.ch_time_base in_ch
       /\ MuxOptions.ch_metadata c
          = (if copy_metadata then MuxOptions.ch_metadata in_ch else [])
       /\ MuxOptions.chapter_ts_off ts_offset start_time in_ch
          <= MuxOptions.ch_end in_ch.

End Props.

(** ** Further concrete inputs *)
Module Inputs.

Definition ctx_video : Dec.AVCodecContext :=
  Dec.mkCodecContext AVMEDIA_TYPE_VIDEO 0 (mkQ 0 1) 0 (mkQ 1 90000) 0.

(** A video stream with two filters whose last frame was at pts 3600 and
    is taken to last 3600 ticks; [rate] is the frame rate the user forces
    ([0/1] for none). *)
Definition ist_video (rate : AVRational) : Dec.InputStream :=
  Dec.mkInputStream 0 ctx_video (mkQ 25 1) (mkQ 0 1) 0 rate (-1) false 0
    false 2 [] (Dec.mkPacket 0) 0 0 0 Dec.blank_subtitle false
    (mkQ 1 90000) 0 3600 3600 AV_NOPTS_VALUE 0 0 2 0.

Definition video_frame (pts_ duration_ : Z) : Dec.AVFrame :=
  Dec.mkFrame pts_ duration_ (mkQ 1 90000) 0 0 0 pts_ 0 0 0 (mkQ 0 1) None.

Definition dec_state (i : Dec.InputStream) : Dec.State nat :=
  Dec.mkState i O [].

(** A filter network that has finished: every frame is answered with
    EOF. *)
Definition closed_send_frame (w : nat) (_ : Z) (_ : Dec.AVFrame) (_ : bool)
  : nat * Z := (S w, AVERROR_EOF).

(** A codec that has no frame left. *)
Definition drained_receive_frame (w : nat) : nat * Z * Dec.AVFrame :=
  (S w, AVERROR_EOF, Dec.blank_frame).

Definition drained_dec_packet :=
  Dec.dec_packet (U := Model.libavutil) [Dec.mkInputFile false] false 0
    Examples.idle_send_packet drained_receive_frame (fun _ => 0)
    (fun _ => true) Examples.idle_hwaccel Examples.idle_send_frame
    Examples.idle_send_eof Examples.idle_decode_subtitle (fun _ => false)
    (fun _ => INT64_MAX) Examples.idle_sub2video_update
    Examples.idle_add_frame (fun _ => true) Examples.idle_fifo_write
    Examples.idle_enc_subtitle Examples.idle_subtitle_free.

Definition ctx_subtitle : Dec.AVCodecContext :=
  Dec.mkCodecContext AVMEDIA_TYPE_SUBTITLE 0 (mkQ 0 1) 0 (mkQ 1 1000) 0.

(** A subtitle stream with fix_sub_duration and one subtitle encoder; the
    subtitle it holds back starts at second 0 and is to be shown for up to
    5000 ms. *)
Definition ist_subtitle : Dec.InputStream :=
  Dec.mkInputStream 0 ctx_subtitle (mkQ 0 1) (mkQ 0 1) 0 (mkQ 0 1) (-1) false
    0 false 0 [Dec.mkOutputStream true AVMEDIA_TYPE_SUBTITLE 0]
    (Dec.mkPacket 0) 1 1 0 (Dec.mkSubtitle 0 5000 1) false (mkQ 1 1000) 0
    AV_NOPTS_VALUE 0 AV_NOPTS_VALUE 0 0 1 0.

Definition idle_process_subtitle :=
  Dec.process_subtitle (U := Model.libavutil) (fun _ : nat => false)
    Examples.idle_sub2video_update (fun _ => true) Examples.idle_fifo_write
    Examples.idle_enc_subtitle Examples.idle_subtitle_free.

(** A scheduler all of whose consumers are done, and a bitstream filter
    that has a packet to give whenever it is asked. *)
Definition done_send (w : nat) (_ : Z) (_ : Demux.AVPacket) (_ : Z)
  : nat * Z := (S w, AVERROR_EOF).
Definition full_bsf_receive (w : nat) (_ : nat) : nat * Z * Demux.AVPacket :=
  (S w, 0, Demux.blank_packet).

Definition bsf_microseconds : Demux.AVBSFContext :=
  Demux.mkBSF (mkQ 1 1000000) (mkQ 1 1000000).

(** A video stream behind a bitstream filter. *)
Definition demux_stream_bsf : Demux.DemuxStream (F := Model.floatarith) :=
  Demux.mkDemuxStream (F := Model.floatarith)
    (Examples.demux_ist AVMEDIA_TYPE_VIDEO) 0 (-1) 1 false false true false
    true true 0 1940000 1900000 None 0 (mkQ 0 1) None
    (Some bsf_microseconds).

(** A file with that stream and an audio stream, both in use, neither
    finished. *)
Definition demuxer_bsf : Demux.Demuxer (F := Model.floatarith) :=
  Demux.set_nb_streams_used
    (Examples.demuxer_of 0
       [demux_stream_bsf;
        Examples.demux_stream AVMEDIA_TYPE_AUDIO 1 false false] None)
    2.

(** A file with one subtitle stream. *)
Definition demuxer_subtitle : Demux.Demuxer (F := Model.floatarith) :=
  Examples.demuxer_of 0
    [Examples.demux_stream AVMEDIA_TYPE_SUBTITLE 1 false false] None.

Definition accepting_ist_use :=
  Demux.ist_use (F := Model.floatarith) true
    Examples.accept_add_demux_stream Examples.accept_add_dec
    Examples.accept_connect Examples.accept_dec_open.

(** A video stream in use and an audio stream that nothing reads yet. *)
Definition streams_audio_unused
  : list (Demux.DemuxStream (F := Model.floatarith)) :=
  [Examples.demux_stream AVMEDIA_TYPE_VIDEO 1 false false;
   Demux.set_discard
     (Examples.demux_stream AVMEDIA_TYPE_AUDIO 1 false false) true].

Definition state_audio_unused : @Demux.State Model.floatarith nat :=
  Examples.demux_state (Examples.demuxer_of 0 streams_audio_unused None).

(** A program with both streams and a program with the audio stream
    only. *)
Definition two_programs : list DemuxThread.AVProgram :=
  [DemuxThread.mkProgram [0; 1]%nat 0; DemuxThread.mkProgram [1%nat] 0].

(** Two audio streams of an output, made from two input streams without
    dispositions; the user has set no disposition. *)
Definition two_audio_streams : list MuxMeta.OutputStream :=
  [MuxMeta.mkOutputStream AVMEDIA_TYPE_AUDIO None 0 0;
   MuxMeta.mkOutputStream AVMEDIA_TYPE_AUDIO None 1 0].

Definition keep_disposition (d : Z) (_ : string) : Z * Z := (0, d).

End Inputs.

(** * Properties *)

(** ** Machine integers *)

Lemma int64_id (z : Z) : in_int64 z -> int64 z = z.
Proof.
  unfold in_int64, int64, wrap, INT64_MIN, INT64_MAX. intros H.
  change (2 ^ (64 - 1)) with 9223372036854775808.
  change (2 ^ 64) with 18446744073709551616.
  rewrite Z.mod_small; lia.
Qed.

Lemma int32_id (z : Z) : - 2147483648 <= z <= INT_MAX -> int32 z = z.
Proof.
  unfold int32, wrap, INT_MAX. intros H.
  change (2 ^ (32 - 1)) with 2147483648.
  change (2 ^ 32) with 4294967296.
  rewrite Z.mod_small; lia.
Qed.

Lemma FFMAX_max (a b : Z) : FFMAX a b = Z.max a b.
Proof. unfold FFMAX. destruct (Z.gtb_spec a b); lia. Qed.

Lemma rem_zero_divide (a b : Z) : Z.rem a b = 0 <-> (b | a).
Proof.
  destruct (Z.eq_dec b 0) as [->|Hb].
  - rewrite Z.rem_0_r_ext by reflexivity. split.
    + intros ->. exists 0. reflexivity.
    + intros [k Hk]. lia.
  - apply Z.rem_divide. exact Hb.
Qed.

(** Below the overflow test of [audio_samplerate_update] the product is
    the least common multiple and fits an [int]. *)
Lemma samplerate_product_lcm (prev sr : Z) :
  0 < prev -> 0 < sr ->
  prev ÷ Z.gcd prev sr < INT_MAX ÷ sr ->
  prev ÷ Z.gcd prev sr * sr = Z.lcm prev sr
  /\ 0 < Z.lcm prev sr < INT_MAX.
Proof.
  intros Hp Hs Hlt.
  assert (Hg : 0 < Z.gcd prev sr).
  { pose proof (Z.gcd_nonneg prev sr).
    destruct (Z.eq_dec (Z.gcd prev sr) 0) as [E|]; [|lia].
    apply Z.gcd_eq_0_l in E. lia. }
  rewrite !Z.quot_div_nonneg in * by (unfold INT_MAX; lia).
  destruct (Z.gcd_divide_l prev sr) as [p Ep].
  destruct (Z.gcd_divide_r prev sr) as [s Es].
  remember (Z.gcd prev sr) as g eqn:Eg.
  assert (Hq : prev / g = p) by (rewrite Ep at 1; apply Z.div_mul; lia).
  assert (Hsg : sr / g = s) by (rewrite Es at 1; apply Z.div_mul; lia).
  assert (0 < p) by nia.
  assert (0 < s) by nia.
  assert (Hl : Z.lcm prev sr = p * sr).
  { unfold Z.lcm. rewrite <- Eg, Hsg.
    rewrite Z.abs_eq by nia. rewrite Ep, Es. ring. }
  rewrite Hq in *. rewrite Hl. split; [reflexivity|].
  split; [nia|].
  pose proof (Z.mul_div_le INT_MAX sr Hs). nia.
Qed.

(** ** Decoder stage *)
Section DecoderTimestamps.
Context {U : LibAVUtil}.
Import Dec.

Lemma samplerate_tb_lcm (prev sr : Z) :
  0 < prev -> 0 < sr -> samplerate_tb prev sr = Spec.new_internal_tb prev sr.
Proof.
  intros Hp Hs. unfold samplerate_tb, Spec.new_internal_tb, av_gcd.
  destruct (Z.geb_spec (prev ÷ Z.gcd prev sr) (INT_MAX ÷ sr)) as [|Hlt];
    [reflexivity|].
  destruct (samplerate_product_lcm prev sr Hp Hs Hlt) as [E B].
  rewrite E, int32_id by lia. reflexivity.
Qed.

(** What [audio_samplerate_update] leaves behind when the rate changed,
    in terms of the time base [tb_new] it settles on. *)
Lemma audio_samplerate_update_changed (ist : InputStream) (frame : AVFrame) :
  sample_rate frame <> last_frame_sample_rate ist ->
  let cand := samplerate_tb (den (last_frame_tb ist)) (sample_rate frame) in
  let tb_new :=
    if keep_frame_tb (time_base frame) cand then time_base frame else cand in
  let ist' := fst (audio_samplerate_update ist frame) in
  snd (audio_samplerate_update ist frame) = tb_new
  /\ last_frame_tb ist' = tb_new
  /\ last_frame_sample_rate ist' = sample_rate frame
  /\ last_frame_pts ist' =
       (if last_frame_pts ist =? AV_NOPTS_VALUE then AV_NOPTS_VALUE
        else av_rescale_q (last_frame_pts ist) (last_frame_tb ist) tb_new)
  /\ last_frame_duration_est ist' =
       av_rescale_q (last_frame_duration_est ist) (last_frame_tb ist) tb_new
  /\ filter_in_rescale_delta_last ist' = filter_in_rescale_delta_last ist.
Proof.
  intros Hne. cbv zeta. unfold audio_samplerate_update.
  destruct (Z.eqb_spec (sample_rate frame) (last_frame_sample_rate ist))
    as [E|_]; [contradiction|].
  destruct (Z.eqb_spec (last_frame_pts ist) AV_NOPTS_VALUE) as [En|Hn];
    cbn; repeat split; try reflexivity.
  exact En.
Qed.

(** C2, as amended: when the sample rate of an audio frame differs from the
    one seen before (both the previous denominator and the rate being
    positive), the samplerate-derived time base is 1/lcm(prev_den, rate),
    the product prev_den/gcd * rate being exact, or 1/28224000 when
    prev_den/gcd >= INT_MAX/rate; the new internal time base is that one
    unless the frame's own time base is kept in its place, and
    last_frame_pts (when not NOPTS) and last_frame_duration_est are rescaled
    from the old internal time base into the new one. *)
Theorem audio_samplerate_update_new_tb (ist : InputStream) (frame : AVFrame) :
  sample_rate frame <> last_frame_sample_rate ist ->
  0 < den (last_frame_tb ist) ->
  0 < sample_rate frame ->
  let prev := den (last_frame_tb ist) in
  let sr := sample_rate frame in
  let cand :=
    if prev ÷ Z.gcd prev sr >=? INT_MAX ÷ sr
    then mkQ 1 28224000 else mkQ 1 (Z.lcm prev sr) in
  let tb_new :=
    if keep_frame_tb (time_base frame) cand then time_base frame else cand in
  let ist' := fst (audio_samplerate_update ist frame) in
  (prev ÷ Z.gcd prev sr < INT_MAX ÷ sr ->
   prev ÷ Z.gcd prev sr * sr = Z.lcm prev sr /\ Z.lcm prev sr < INT_MAX)
  /\ snd (audio_samplerate_update ist frame) = tb_new
  /\ last_frame_tb ist' = tb_new
  /\ last_frame_sample_rate ist' = sr
  /\ last_frame_pts ist' =
       (if last_frame_pts ist =? AV_NOPTS_VALUE then AV_NOPTS_VALUE
        else av_rescale_q (last_frame_pts ist) (last_frame_tb ist) tb_new)
  /\ last_frame_duration_est ist' =
       av_rescale_q (last_frame_duration_est ist) (last_frame_tb ist) tb_new.
Proof.
  intros Hne Hp Hs. cbv zeta.
  pose proof (audio_samplerate_update_changed ist frame Hne) as H.
  cbv zeta in H. rewrite (samplerate_tb_lcm _ _ Hp Hs) in H.
  unfold Spec.new_internal_tb in H.
  destruct H as (H1 & H2 & H3 & H4 & H5 & _).
  split; [|repeat split; assumption].
  intros Hlt. destruct (samplerate_product_lcm _ _ Hp Hs Hlt) as [E B].
  split; [exact E | lia].
Qed.

Lemma keep_frame_tb_iff (frame_tb cand : AVRational) :
  keep_frame_tb frame_tb cand = true
  <-> num frame_tb = 1 /\ den cand < den frame_tb
      /\ (den cand | den frame_tb).
Proof.
  unfold keep_frame_tb. rewrite !andb_true_iff, !Z.eqb_eq, Z.gtb_lt.
  rewrite rem_zero_divide. tauto.
Qed.

(** C5, as amended: when a new internal audio time base is selected after a
    sample-rate change, the frame's own time base takes the place of the
    samplerate-derived one exactly when its numerator is 1, its denominator
    is strictly larger, and the samplerate-derived denominator divides the
    frame's denominator. *)
Theorem audio_samplerate_update_keeps_frame_tb
    (ist : InputStream) (frame : AVFrame) :
  sample_rate frame <> last_frame_sample_rate ist ->
  let cand := samplerate_tb (den (last_frame_tb ist)) (sample_rate frame) in
  (keep_frame_tb (time_base frame) cand = true
   <-> num (time_base frame) = 1 /\ den cand < den (time_base frame)
       /\ (den cand | den (time_base frame)))
  /\ snd (audio_samplerate_update ist frame) =
       (if keep_frame_tb (time_base frame) cand then time_base frame
        else cand).
Proof.
  intros Hne. cbv zeta. split.
  - apply keep_frame_tb_iff.
  - apply (audio_samplerate_update_changed ist frame Hne).
Qed.

(** C1: the stages of [audio_ts_process].  With pts_pred 0 when
    last_frame_pts is NOPTS and last_frame_pts + last_frame_duration_est
    otherwise: a frame that arrives without pts gets pts_pred and the
    internal time base; otherwise, when last_frame_pts is known and the
    frame's pts is strictly greater than pts_pred rounded up into the
    frame's time base, filter_in_rescale_delta_last is reset to NOPTS; in
    all cases the frame leaves with time base {1, sample_rate} and duration
    nb_samples. *)
Theorem audio_ts_process_stages (ist : InputStream) (frame : AVFrame) :
  let ist1 := fst (audio_samplerate_update ist frame) in
  let tb := snd (audio_samplerate_update ist frame) in
  let pred :=
    if last_frame_pts ist1 =? AV_NOPTS_VALUE then 0
    else int64 (last_frame_pts ist1 + last_frame_duration_est ist1) in
  let gap :=
    negb (pts frame =? AV_NOPTS_VALUE)
    && negb (last_frame_pts ist1 =? AV_NOPTS_VALUE)
    && (pts frame >? av_rescale_q_rnd pred tb (time_base frame) AV_ROUND_UP) in
  let ist2 := fst (audio_ts_predict ist1 tb frame) in
  let frame1 := snd (audio_ts_predict ist1 tb frame) in
  pts frame1 = (if pts frame =? AV_NOPTS_VALUE then pred else pts frame)
  /\ time_base frame1 =
       (if pts frame =? AV_NOPTS_VALUE then tb else time_base frame)
  /\ filter_in_rescale_delta_last ist2 =
       (if gap then AV_NOPTS_VALUE else filter_in_rescale_delta_last ist1)
  /\ audio_ts_process ist frame =
       audio_ts_rescale ist2 tb (mkQ 1 (sample_rate frame)) frame1
  /\ snd (av_rescale_delta (time_base frame1) (pts frame1) tb
            (nb_samples frame1) (filter_in_rescale_delta_last ist2) tb)
     = filter_in_rescale_delta_last (fst (audio_ts_process ist frame))
  /\ time_base (snd (audio_ts_process ist frame)) = mkQ 1 (sample_rate frame)
  /\ duration (snd (audio_ts_process ist frame)) = nb_samples frame.
Proof.
  cbv zeta.
  assert (Hp : audio_ts_process ist frame =
               audio_ts_rescale
                 (fst (audio_ts_predict (fst (audio_samplerate_update ist frame))
                         (snd (audio_samplerate_update ist frame)) frame))
                 (snd (audio_samplerate_update ist frame))
                 (mkQ 1 (sample_rate frame))
                 (snd (audio_ts_predict (fst (audio_samplerate_update ist frame))
                         (snd (audio_samplerate_update ist frame)) frame))).
  { unfold audio_ts_process.
    destruct (audio_samplerate_update ist frame) as [i1 t]. cbn [fst snd].
    destruct (audio_ts_predict i1 t frame) as [i2 f1]. reflexivity. }
  rewrite Hp. clear Hp.
  destruct (audio_samplerate_update ist frame) as [ist1 tb]. cbn [fst snd].
  unfold audio_ts_predict, pts_pred.
  destruct (Z.eqb_spec (pts frame) AV_NOPTS_VALUE) as [En|Hn]; cbn [negb andb].
  - cbn [fst snd]. unfold audio_ts_rescale. cbn [pts time_base set_pts set_time_base
      nb_samples].
    destruct (av_rescale_delta _ _ _ _ _ _) as [p l].
    cbn. repeat split; reflexivity.
  - match goal with
    | |- context [if ?c then (_, _) else (_, _)] => destruct c
    end; cbn [fst snd]; unfold audio_ts_rescale;
      destruct (av_rescale_delta _ _ _ _ _ _) as [p l];
      cbn; repeat split; reflexivity.
Qed.

(** C6: [video_duration_estimate] follows the chain of preferences of the
    specification: the frame's duration when positive and the container has
    timestamps or the framerate is forced; the codec duration ((repeat_pict
    + 2) fields at twice the codec framerate, when that is known) when
    positive and the container lacks timestamps; the distance to the last
    frame's pts when both are known and the frame's is strictly greater;
    then the frame's duration, the codec duration, one frame at
    avg_frame_rate, each if positive; at last max(last_frame_duration_est,
    1). *)
Theorem video_duration_estimate_chain
    (input_files : list InputFile) (ist : InputStream) (frame : AVFrame) :
  video_duration_estimate input_files ist frame =
  Spec.video_duration (duration frame) (pts frame) (last_frame_pts ist)
    (last_frame_duration_est ist)
    (negb (format_nots (ifile_of input_files ist)))
    (truthy (num (framerate ist)))
    (Spec.known_rate (ctx_framerate (dec_ctx ist)))
    (Spec.known_rate (st_avg_frame_rate ist))
    (repeat_pict frame) (time_base frame).
Proof.
  unfold video_duration_estimate, Spec.video_duration, codec_duration_of,
    Spec.known_rate.
  cbn [num den Spec.first_of].
  rewrite (andb_comm (truthy (den (ctx_framerate (dec_ctx ist))))).
  rewrite !Z.gtb_ltb, negb_involutive, FFMAX_max.
  destruct (truthy (num (ctx_framerate (dec_ctx ist)))
            && truthy (den (ctx_framerate (dec_ctx ist))));
  destruct (truthy (num (st_avg_frame_rate ist))
            && truthy (den (st_avg_frame_rate ist)));
  repeat match goal with
         | |- context [if ?c then _ else _] => destruct c; try reflexivity
         end.
Qed.

End DecoderTimestamps.

(** The rate changes from 44100 to 48000 Hz: the internal time base
    becomes 1/7056000. *)
Lemma audio_samplerate_update_new_tb_witness :
  snd (Dec.audio_samplerate_update (U := Model.libavutil)
         Examples.ist_44100 Examples.frame_48000) = mkQ 1 7056000.
Proof.
  assert (H1 : Dec.sample_rate Examples.frame_48000
               <> Dec.last_frame_sample_rate Examples.ist_44100)
    by (cbn; lia).
  assert (H2 : 0 < den (Dec.last_frame_tb Examples.ist_44100)) by (cbn; lia).
  assert (H3 : 0 < Dec.sample_rate Examples.frame_48000) by (cbn; lia).
  destruct (audio_samplerate_update_new_tb (U := Model.libavutil)
              Examples.ist_44100 Examples.frame_48000 H1 H2 H3)
    as (_ & E & _).
  rewrite E. reflexivity.
Defined.

(** C2 as stated fails where the frame's own time base is kept: the
    rate changes from 44100 to 48000 Hz without overflow, and the internal
    time base becomes the frame's 1/14112000, not 1/lcm = 1/7056000. *)
Lemma new_internal_tb_counterexample :
  Dec.sample_rate Examples.frame_48000_fine
    <> Dec.last_frame_sample_rate Examples.ist_44100
  /\ Spec.new_internal_tb (den (Dec.last_frame_tb Examples.ist_44100))
       (Dec.sample_rate Examples.frame_48000_fine) = mkQ 1 7056000
  /\ Dec.last_frame_tb
       (fst (Dec.audio_samplerate_update (U := Model.libavutil)
               Examples.ist_44100 Examples.frame_48000_fine))
     = mkQ 1 14112000
  /\ Dec.last_frame_tb
       (fst (Dec.audio_samplerate_update (U := Model.libavutil)
               Examples.ist_44100 Examples.frame_48000_fine))
     <> Spec.new_internal_tb (den (Dec.last_frame_tb Examples.ist_44100))
          (Dec.sample_rate Examples.frame_48000_fine).
Proof.
  repeat split; try reflexivity; vm_compute; discriminate.
Qed.

(** The frame's time base 1/14112000 is kept in place of 1/7056000. *)
Lemma audio_samplerate_update_keeps_frame_tb_witness :
  snd (Dec.audio_samplerate_update (U := Model.libavutil)
         Examples.ist_44100 Examples.frame_48000_fine) = mkQ 1 14112000.
Proof.
  assert (H1 : Dec.sample_rate Examples.frame_48000_fine
               <> Dec.last_frame_sample_rate Examples.ist_44100)
    by (cbn; lia).
  destruct (audio_samplerate_update_keeps_frame_tb (U := Model.libavutil)
              Examples.ist_44100 Examples.frame_48000_fine H1) as [_ E].
  rewrite E. reflexivity.
Defined.

(** C5 as stated fails on the same frame: 14112000 does not divide
    7056000, so the specification's test does not prefer the frame's time
    base, and yet the code keeps it. *)
Lemma prefers_frame_tb_counterexample :
  Dec.sample_rate Examples.frame_48000_fine
    <> Dec.last_frame_sample_rate Examples.ist_44100
  /\ Dec.samplerate_tb (den (Dec.last_frame_tb Examples.ist_44100))
       (Dec.sample_rate Examples.frame_48000_fine) = mkQ 1 7056000
  /\ Spec.prefers_frame_tb (Dec.time_base Examples.frame_48000_fine)
       (mkQ 1 7056000) = false
  /\ ~ (den (Dec.time_base Examples.frame_48000_fine) | 7056000)
  /\ snd (Dec.audio_samplerate_update (U := Model.libavutil)
            Examples.ist_44100 Examples.frame_48000_fine)
     = Dec.time_base Examples.frame_48000_fine.
Proof.
  split; [vm_compute; discriminate|].
  split; [reflexivity|]. split; [reflexivity|]. split; [|reflexivity].
  intros [k Hk]. cbn in Hk. lia.
Qed.

Section DecoderPackets.
Context {U : LibAVUtil}.
Import Dec.

Variable input_files : list InputFile.
Variable exit_on_error : bool.
Variable indeterminate : Z.
Variable W : Type.
Variable avcodec_send_packet   : W -> option AVPacket -> W * Z.
Variable avcodec_receive_frame : W -> W * Z * AVFrame.
Variable codec_frame_num       : W -> Z.
Variable av_buffer_allocz_ok   : W -> bool.
Variable hwaccel_retrieve_data_cb : W -> AVFrame -> W * Z * AVFrame.
Variable ifilter_send_frame    : W -> Z -> AVFrame -> bool -> W * Z.
Variable ifilter_send_eof      : W -> Z -> Z -> AVRational -> W * Z.
Variable avcodec_decode_subtitle2 : W -> AVPacket -> W * Z * AVSubtitle * Z.
Variable sub2video_frame          : W -> bool.
Variable sub2video_end_pts        : W -> Z.
Variable sub2video_update         : W -> Z -> option AVSubtitle -> W.
Variable av_buffersrc_add_frame   : W -> Z -> W * Z.
Variable av_fifo_alloc2_ok        : W -> bool.
Variable av_fifo_write            : W -> AVSubtitle -> W * Z.
Variable enc_subtitle             : W -> Z -> nat -> AVSubtitle -> W.
Variable avsubtitle_free          : W -> AVSubtitle -> W.

(** C8: for a decoder that is not a subtitle decoder, [dec_packet] with a
    packet of size 0 returns 0 at once: the stream state (with
    last_frame_pts, last_frame_duration_est and
    filter_in_rescale_delta_last), the state of the codec and of the
    filters, and the list of calls made to them are what they were;
    nothing is sent to the codec, no frame is read or passed on, no EOF is
    sent. *)
Theorem dec_packet_skips_empty_packet
    (fuel : nat) (s : State W) (p : AVPacket) (no_eof : bool) :
  codec_type (dec_ctx (ist s)) <> AVMEDIA_TYPE_SUBTITLE ->
  size p = 0 ->
  dec_packet input_files exit_on_error indeterminate
    avcodec_send_packet avcodec_receive_frame codec_frame_num
    av_buffer_allocz_ok hwaccel_retrieve_data_cb ifilter_send_frame
    ifilter_send_eof avcodec_decode_subtitle2 sub2video_frame
    sub2video_end_pts sub2video_update av_buffersrc_add_frame
    av_fifo_alloc2_ok av_fifo_write enc_subtitle avsubtitle_free
    fuel s (Some p) no_eof
  = (Returns 0, s).
Proof.
  intros Hty Hsz. unfold dec_packet.
  destruct (codec_type (dec_ctx (ist s))); try contradiction; cbn;
    rewrite Hsz; reflexivity.
Qed.

End DecoderPackets.

(** An audio decoder handed an empty packet, with no bound left for the
    frame loop. *)
Lemma dec_packet_skips_empty_packet_witness :
  Examples.idle_dec_packet O Examples.dec_state_44100
    (Some (Dec.mkPacket 0)) false
  = (Returns 0, Examples.dec_state_44100).
Proof.
  apply dec_packet_skips_empty_packet.
  - cbn. discriminate.
  - reflexivity.
Defined.

(** ** Demuxer stage: timestamps *)
Section DemuxerTimestamps.
Context {U : LibAVUtil} {F : FloatArith}.
Import Demux.

Variable copy_ts : bool.
Variable dts_delta_threshold : float.
Variable dts_error_threshold : float.

Lemma apply_ts_offset_fields (ifile : InputFile) (pkt : AVPacket) :
  let off := av_rescale_q (ts_offset ifile) AV_TIME_BASE_Q (time_base pkt) in
  pts (apply_ts_offset ifile pkt) =
    (if pts pkt =? AV_NOPTS_VALUE then pts pkt else int64 (pts pkt + off))
  /\ dts (apply_ts_offset ifile pkt) =
    (if dts pkt =? AV_NOPTS_VALUE then dts pkt else int64 (dts pkt + off))
  /\ time_base (apply_ts_offset ifile pkt) = time_base pkt.
Proof.
  cbv zeta. unfold apply_ts_offset.
  destruct (dts pkt =? AV_NOPTS_VALUE) eqn:Ed;
    destruct (pts pkt =? AV_NOPTS_VALUE) eqn:Ep; cbn; rewrite ?Ep, ?Ed; cbn;
    repeat split; reflexivity.
Qed.

Lemma apply_ts_scale_fields (ds : DemuxStream) (pkt : AVPacket) :
  pts (apply_ts_scale ds pkt) =
    (if pts pkt =? AV_NOPTS_VALUE then pts pkt
     else scale_int64 (pts pkt) (ts_scale ds))
  /\ dts (apply_ts_scale ds pkt) =
    (if dts pkt =? AV_NOPTS_VALUE then dts pkt
     else scale_int64 (dts pkt) (ts_scale ds))
  /\ time_base (apply_ts_scale ds pkt) = time_base pkt.
Proof.
  unfold apply_ts_scale.
  destruct (dts pkt =? AV_NOPTS_VALUE) eqn:Ed;
    destruct (pts pkt =? AV_NOPTS_VALUE) eqn:Ep; cbn; rewrite ?Ep, ?Ed; cbn;
    repeat split; reflexivity.
Qed.

Lemma wrap_correction_fields (ds : DemuxStream) (start_time : Z)
    (pkt : AVPacket) :
  let bits := st_pts_wrap_bits (ist ds) in
  let stime := av_rescale_q start_time AV_TIME_BASE_Q (time_base pkt) in
  let checked :=
    negb (wrap_correction_done ds) && negb (start_time =? AV_NOPTS_VALUE)
    && (bits <? 64) in
  let wraps (t : Z) :=
    checked && (int64 (stime + Z.shiftl 1 bits) >? stime)
    && negb (t =? AV_NOPTS_VALUE)
    && (t >? int64 (stime + Z.shiftl 1 (bits - 1))) in
  let ds1 := fst (wrap_correction ds start_time pkt) in
  let pkt1 := snd (wrap_correction ds start_time pkt) in
  pts pkt1 =
    (if wraps (pts pkt) then int64 (pts pkt - Z.shiftl 1 bits) else pts pkt)
  /\ dts pkt1 =
    (if wraps (dts pkt) then int64 (dts pkt - Z.shiftl 1 bits) else dts pkt)
  /\ time_base pkt1 = time_base pkt
  /\ wrap_correction_done ds1 =
    (if checked then negb (wraps (pts pkt) || wraps (dts pkt))
     else wrap_correction_done ds)
  /\ ts_scale ds1 = ts_scale ds.
Proof.
  cbv zeta. unfold wrap_correction.
  destruct (negb (wrap_correction_done ds)
            && negb (start_time =? AV_NOPTS_VALUE)
            && (st_pts_wrap_bits (ist ds) <? 64)); cbn [andb fst snd];
    [|repeat split; reflexivity].
  destruct (int64 _ >? av_rescale_q _ _ _); cbn [andb];
    [|cbn; repeat split; reflexivity].
  destruct (negb (dts pkt =? AV_NOPTS_VALUE)
            && (dts pkt >? _)) eqn:Ed; cbn [fst snd pts set_dts];
  destruct (negb (pts pkt =? AV_NOPTS_VALUE)
            && (pts pkt >? _)) eqn:Ep; cbn; rewrite ?Ed, ?Ep;
    repeat split; reflexivity.
Qed.

(** C4, as amended: the per-packet fix-up first applies the wrap
    correction (to dts and to pts, each when it is known and exceeds the
    start time plus half a wrap period, the start time plus one period
    being strictly greater than the start time; the check is made while the
    stream's wrap_correction_done flag is clear, and the flag ends up set
    only if the check corrected nothing), then adds the demuxer-wide
    ts_offset, and only after that multiplies pts and dts by the stream's
    ts_scale; the packet so obtained goes through the remaining steps. *)
Theorem ts_fixup_steps (d : Demuxer) (pkt : AVPacket) (ds : DemuxStream) :
  0 <= stream_index pkt ->
  nth_error (streams (f d)) (Z.to_nat (stream_index pkt)) = Some ds ->
  let tb := st_time_base (ist ds) in
  let bits := st_pts_wrap_bits (ist ds) in
  let start_time := start_time_effective (f d) in
  let stime := av_rescale_q start_time AV_TIME_BASE_Q tb in
  let checked :=
    negb (wrap_correction_done ds) && negb (start_time =? AV_NOPTS_VALUE)
    && (bits <? 64) in
  let wraps (t : Z) :=
    checked && (int64 (stime + Z.shiftl 1 bits) >? stime)
    && negb (t =? AV_NOPTS_VALUE)
    && (t >? int64 (stime + Z.shiftl 1 (bits - 1))) in
  let unwrap (t : Z) :=
    if wraps t then int64 (t - Z.shiftl 1 bits) else t in
  let off := av_rescale_q (ts_offset (f d)) AV_TIME_BASE_Q tb in
  let shift (t : Z) :=
    if t =? AV_NOPTS_VALUE then t else int64 (t + off) in
  let scale (t : Z) :=
    if t =? AV_NOPTS_VALUE then t else scale_int64 t (ts_scale ds) in
  let ds1 := fst (ts_fixup_stream (f d) ds pkt) in
  let pkt3 := snd (ts_fixup_stream (f d) ds pkt) in
  pts pkt3 = scale (shift (unwrap (pts pkt)))
  /\ dts pkt3 = scale (shift (unwrap (dts pkt)))
  /\ time_base pkt3 = tb
  /\ wrap_correction_done ds1 =
       (if checked then negb (wraps (pts pkt) || wraps (dts pkt))
        else wrap_correction_done ds)
  /\ exists d' fd,
       ts_fixup copy_ts dts_delta_threshold dts_error_threshold d pkt
       = Some (0, d',
               snd (ts_discontinuity_process copy_ts dts_delta_threshold
                      dts_error_threshold
                      (fst (apply_loop_duration d pkt3)) ds1
                      (snd (apply_loop_duration d pkt3))),
               fd).
Proof.
  intros Hidx Hnth. cbv zeta.
  assert (Hfix : exists d' fd,
    ts_fixup copy_ts dts_delta_threshold dts_error_threshold d pkt
    = Some (0, d',
            snd (ts_discontinuity_process copy_ts dts_delta_threshold
                   dts_error_threshold
                   (fst (apply_loop_duration d
                           (snd (ts_fixup_stream (f d) ds pkt))))
                   (fst (ts_fixup_stream (f d) ds pkt))
                   (snd (apply_loop_duration d
                           (snd (ts_fixup_stream (f d) ds pkt))))),
            fd)).
  { unfold ts_fixup.
    destruct (Z.ltb_spec (stream_index pkt) 0); [lia|]. rewrite Hnth.
    destruct (ts_fixup_stream (f d) ds pkt) as [ds1 pkt3]. cbn [fst snd].
    destruct (apply_loop_duration d pkt3) as [d1 pkt4]. cbn [fst snd].
    destruct (ts_discontinuity_process _ _ _ d1 ds1 pkt4) as [d2 pkt5].
    destruct (ist_dts_update ds1 pkt5) as [ds2 fd]. cbn [snd].
    eexists. eexists. reflexivity. }
  unfold ts_fixup_stream in *.
  pose proof (wrap_correction_fields ds (start_time_effective (f d))
                (set_time_base pkt (st_time_base (ist ds)))) as Hw.
  cbv zeta in Hw.
  destruct (wrap_correction ds (start_time_effective (f d))
              (set_time_base pkt (st_time_base (ist ds)))) as [ds1 pkt1].
  cbn [fst snd] in *.
  destruct Hw as (Hw1 & Hw2 & Hw3 & Hw4 & Hw5).
  destruct (apply_ts_offset_fields (f d) pkt1) as (Ho1 & Ho2 & Ho3).
  destruct (apply_ts_scale_fields ds1 (apply_ts_offset (f d) pkt1))
    as (Hs1 & Hs2 & Hs3).
  cbn [time_base set_time_base pts dts] in *.
  rewrite Hs1, Hs2, Hs3, Ho1, Ho2, Ho3, Hw1, Hw2, Hw3, Hw5.
  repeat split; try reflexivity; assumption.
Qed.

Lemma apply_ts_offset_discont_fields (d : Demuxer) (pkt : AVPacket) :
  let off :=
    av_rescale_q (ts_offset_discont d) AV_TIME_BASE_Q (time_base pkt) in
  pts (apply_ts_offset_discont d pkt) =
    (if pts pkt =? AV_NOPTS_VALUE then pts pkt else int64 (pts pkt + off))
  /\ dts (apply_ts_offset_discont d pkt) =
    (if dts pkt =? AV_NOPTS_VALUE then dts pkt else int64 (dts pkt + off))
  /\ time_base (apply_ts_offset_discont d pkt) = time_base pkt.
Proof.
  cbv zeta. unfold apply_ts_offset_discont.
  destruct (dts pkt =? AV_NOPTS_VALUE) eqn:Ed;
    destruct (pts pkt =? AV_NOPTS_VALUE) eqn:Ep; cbn; rewrite ?Ep, ?Ed; cbn;
    repeat split; reflexivity.
Qed.

(** C3, as amended: for an audio or video packet whose dts (with the
    offset found so far applied) is present, when the stream's next_dts is
    known and the correction is not disabled, with delta the packet's dts
    in AV_TIME_BASE units minus next_dts: on a container that permits
    discontinuities, delta is subtracted from ts_offset_discont and (in the
    packet's time base) from the packet's dts and pts exactly when |delta|
    exceeds dts_delta_threshold seconds or the packet's dts plus a tenth of
    a second lies before the stream's last dts; on any other container the
    offset stays, the packet's dts becomes NOPTS exactly when |delta|
    exceeds dts_error_threshold seconds, and a pts that is present becomes
    NOPTS exactly when its distance to next_dts exceeds dts_error_threshold
    seconds.  The offset is added to the timestamps of every later
    packet. *)
Theorem ts_discontinuity_process_correction
    (d : Demuxer) (ds : DemuxStream) (pkt : AVPacket) :
  let pkt1 := apply_ts_offset_discont d pkt in
  let fmt_is_discont :=
    truthy (Z.land (iformat_flags (f d)) AVFMT_TS_DISCONT) in
  let pkt_dts :=
    av_rescale_q_rnd (dts pkt1) (time_base pkt1) AV_TIME_BASE_Q
      (Z.lor AV_ROUND_NEAR_INF AV_ROUND_PASS_MINMAX) in
  let delta := int64 (pkt_dts - next_dts ds) in
  let in_pkt_tb := av_rescale_q delta AV_TIME_BASE_Q (time_base pkt1) in
  let pts_delta :=
    int64 (av_rescale_q (pts pkt1) (time_base pkt1) AV_TIME_BASE_Q
           - next_dts ds) in
  let corrected :=
    exceeds_seconds (FFABS delta) dts_delta_threshold
    || (int64 (pkt_dts + AV_TIME_BASE ÷ 10) <? ds_dts ds) in
  let d' := fst (ts_discontinuity_process copy_ts dts_delta_threshold
                   dts_error_threshold d ds pkt) in
  let pkt' := snd (ts_discontinuity_process copy_ts dts_delta_threshold
                     dts_error_threshold d ds pkt) in
  is_audio_or_video (par_codec_type (ist ds)) = true ->
  dts pkt1 <> AV_NOPTS_VALUE ->
  next_dts ds <> AV_NOPTS_VALUE ->
  disable_discontinuity_correction copy_ts ds fmt_is_discont pkt1 pkt_dts
  = false ->
  (if fmt_is_discont then
     ts_offset_discont d' =
       (if corrected then int64 (ts_offset_discont d - delta)
        else ts_offset_discont d)
     /\ dts pkt' =
       (if corrected then int64 (dts pkt1 - in_pkt_tb) else dts pkt1)
     /\ pts pkt' =
       (if corrected && negb (pts pkt1 =? AV_NOPTS_VALUE)
        then int64 (pts pkt1 - in_pkt_tb) else pts pkt1)
   else
     ts_offset_discont d' = ts_offset_discont d
     /\ dts pkt' =
       (if exceeds_seconds (FFABS delta) dts_error_threshold
        then AV_NOPTS_VALUE else dts pkt1)
     /\ pts pkt' =
       (if negb (pts pkt1 =? AV_NOPTS_VALUE)
           && exceeds_seconds (FFABS pts_delta) dts_error_threshold
        then AV_NOPTS_VALUE else pts pkt1))
  /\ forall later : AVPacket,
       dts (apply_ts_offset_discont d' later) =
         (if dts later =? AV_NOPTS_VALUE then dts later
          else int64 (dts later
                      + av_rescale_q (ts_offset_discont d') AV_TIME_BASE_Q
                          (time_base later)))
       /\ pts (apply_ts_offset_discont d' later) =
         (if pts later =? AV_NOPTS_VALUE then pts later
          else int64 (pts later
                      + av_rescale_q (ts_offset_discont d') AV_TIME_BASE_Q
                          (time_base later))).
Proof.
  cbv zeta. intros Hav Hdts Hnext Hdis.
  split; [|intros later;
           destruct (apply_ts_offset_discont_fields
                       (fst (ts_discontinuity_process copy_ts
                               dts_delta_threshold dts_error_threshold
                               d ds pkt)) later) as (H1 & H2 & _);
           split; assumption].
  unfold ts_discontinuity_process. rewrite Hav.
  apply Z.eqb_neq in Hdts. rewrite Hdts. cbn [negb andb].
  unfold ts_discontinuity_detect. rewrite Hdis.
  apply Z.eqb_neq in Hnext. rewrite Hnext. cbn [negb andb].
  set (pkt1 := apply_ts_offset_discont d pkt) in *.
  destruct (truthy (Z.land (iformat_flags (f d)) AVFMT_TS_DISCONT)).
  - destruct (exceeds_seconds _ dts_delta_threshold || (_ <? ds_dts ds));
      cbn [andb]; [|cbn; repeat split; reflexivity].
    unfold correct_discontinuity. cbn [pts set_dts time_base fst snd].
    destruct (pts pkt1 =? AV_NOPTS_VALUE); cbn; repeat split; reflexivity.
  - unfold drop_invalid_ts. cbn [fst snd].
    destruct (exceeds_seconds _ dts_error_threshold);
      cbn [pts set_dts time_base];
      destruct (pts pkt1 =? AV_NOPTS_VALUE); cbn [negb andb];
      try (cbn; repeat split; reflexivity);
      match goal with
      | |- context [if exceeds_seconds ?x ?y then _ else _] =>
          destruct (exceeds_seconds x y)
      end; cbn; repeat split; reflexivity.
Qed.

End DemuxerTimestamps.

(** A packet at 100 with ts_offset 10 and ts_scale 2 leaves at
    (100 + 10) * 2. *)
Lemma ts_fixup_steps_witness :
  Demux.pts
    (snd (Demux.ts_fixup_stream (U := Model.libavutil)
            (Demux.f Examples.demuxer_scaled)
            (Examples.demux_stream AVMEDIA_TYPE_VIDEO 2 false false)
            (Examples.demux_packet 100 100))) = 220.
Proof.
  assert (H1 : 0 <= Demux.stream_index (Examples.demux_packet 100 100))
    by (cbn; lia).
  assert (H2 : nth_error (Demux.streams (Demux.f Examples.demuxer_scaled))
                 (Z.to_nat (Demux.stream_index
                              (Examples.demux_packet 100 100)))
               = Some (Examples.demux_stream AVMEDIA_TYPE_VIDEO 2 false false))
    by reflexivity.
  destruct (ts_fixup_steps (U := Model.libavutil) (F := Model.floatarith)
              false Examples.default_delta_threshold
              Examples.default_error_threshold
              Examples.demuxer_scaled (Examples.demux_packet 100 100)
              _ H1 H2) as (E & _).
  rewrite E. reflexivity.
Defined.

(** C4 as stated fails on that packet: scaling first and adding the
    offset last would give 100 * 2 + 10 = 210, while the code, and with it
    the packet that [ts_fixup] hands on, has 220. *)
Lemma fixup_order_counterexample :
  Demux.pts
    (snd (Spec.fixup_in_stated_order (U := Model.libavutil)
            (Demux.f Examples.demuxer_scaled)
            (Examples.demux_stream AVMEDIA_TYPE_VIDEO 2 false false)
            (Examples.demux_packet 100 100))) = 210
  /\ option_map (fun r => Demux.pts (snd (fst r)))
       (Examples.fixup_default Examples.demuxer_scaled
          (Examples.demux_packet 100 100)) = Some 220
  /\ snd (Demux.ts_fixup_stream (U := Model.libavutil)
            (Demux.f Examples.demuxer_scaled)
            (Examples.demux_stream AVMEDIA_TYPE_VIDEO 2 false false)
            (Examples.demux_packet 100 100))
     <> snd (Spec.fixup_in_stated_order (U := Model.libavutil)
               (Demux.f Examples.demuxer_scaled)
               (Examples.demux_stream AVMEDIA_TYPE_VIDEO 2 false false)
               (Examples.demux_packet 100 100)).
Proof.
  split; [reflexivity|]. split; [reflexivity|].
  vm_compute. discriminate.
Qed.

(** A packet 0.94 s before the prediction and 0.9 s before the last dts:
    the offset moves by 0.94 s and the packet lands on the prediction. *)
Lemma ts_discontinuity_process_correction_witness :
  Demux.ts_offset_discont
    (fst (Examples.discontinuity_process_default Examples.demuxer_discont
            (Examples.demux_stream AVMEDIA_TYPE_VIDEO 1 false false)
            (Examples.demux_packet 1000000 1000000))) = 940000.
Proof.
  pose proof (ts_discontinuity_process_correction (U := Model.libavutil)
                (F := Model.floatarith) false
                Examples.default_delta_threshold
                Examples.default_error_threshold
                Examples.demuxer_discont
                (Examples.demux_stream AVMEDIA_TYPE_VIDEO 1 false false)
                (Examples.demux_packet 1000000 1000000)) as H.
  cbv zeta in H.
  destruct H as [(E & _) _].
  - reflexivity.
  - vm_compute. discriminate.
  - vm_compute. discriminate.
  - reflexivity.
  - unfold Examples.discontinuity_process_default. rewrite E. reflexivity.
Defined.

(** C3 as stated fails on that packet: the container permits
    discontinuities, next_dts is known, the correction is not disabled and
    |dts - next_dts| = 0.94 s does not exceed the threshold of 10 s, yet
    the offset is moved and the packet's dts and pts are rewritten. *)
Lemma discontinuity_threshold_counterexample :
  let d := Examples.demuxer_discont in
  let ds := Examples.demux_stream AVMEDIA_TYPE_VIDEO 1 false false in
  let pkt := Examples.demux_packet 1000000 1000000 in
  let r := Examples.discontinuity_process_default d ds pkt in
  truthy (Z.land (Demux.iformat_flags (Demux.f d)) Demux.AVFMT_TS_DISCONT)
  = true
  /\ Demux.next_dts ds = 1940000
  /\ Spec.discontinuity_corrected (F := Model.floatarith)
       Examples.default_delta_threshold 1000000 (Demux.next_dts ds) = false
  /\ Demux.ts_offset_discont d = 0
  /\ Demux.ts_offset_discont (fst r) = 940000
  /\ Demux.dts (snd r) = 1940000
  /\ Demux.pts (snd r) = 1940000.
Proof.
  cbv zeta. repeat split; reflexivity.
Qed.

(** ** Demuxer stage: heartbeats *)
Section DemuxerHeartbeats.
Context {F : FloatArith}.
Import Demux.

Variable World : Type.
Variable sch_demux_send        : World -> Z -> AVPacket -> Z -> World * Z.
Variable av_packet_rescale_ts  : AVPacket -> AVRational -> AVRational -> AVPacket.
Variable av_bsf_send_packet    : World -> nat -> option AVPacket -> World * Z.
Variable av_bsf_receive_packet : World -> nat -> World * Z * AVPacket.

Lemma skipn_list_set {A : Type} (l : list A) (i : nat) (v : A) :
  skipn (S i) (list_set l i v) = skipn (S i) l.
Proof.
  revert i. induction l as [|h t IH]; intros [|i]; try reflexivity.
  cbn [list_set]. change (skipn (S (S i)) (h :: ?x)) with (skipn (S i) x).
  apply IH.
Qed.

Lemma skipn_nth_error {A : Type} (l : list A) (i : nat) (x : A) :
  nth_error l i = Some x -> skipn i l = x :: skipn (S i) l.
Proof.
  revert i. induction l as [|h t IH]; intros [|i] H; try discriminate.
  - injection H as ->. reflexivity.
  - cbn in H. apply IH in H. exact H.
Qed.

Lemma skipn_nth_error_none {A : Type} (l : list A) (i : nat) :
  nth_error l i = None -> skipn i l = [].
Proof.
  intros H. apply skipn_all2. apply nth_error_None. exact H.
Qed.

(** [do_send] makes one call, leaves the streams after [i] and the
    heartbeat slot alone, and returns the packet or a blank one. *)
Lemma do_send_effect (s : State World) (i : nat) (pkt : AVPacket) (flags : Z) :
  let r := do_send sch_demux_send s i pkt flags in
  calls (snd (fst r))
  = Call_sch_demux_send (file_index (f (dmx s))) pkt flags :: calls s
  /\ skipn (S i) (streams (f (dmx (snd (fst r)))))
     = skipn (S i) (streams (f (dmx s)))
  /\ pkt_heartbeat (dmx (snd (fst r))) = pkt_heartbeat (dmx s)
  /\ (snd r = pkt \/ snd r = blank_packet).
Proof.
  cbv zeta. unfold do_send.
  destruct (sch_demux_send (world s) (file_index (f (dmx s))) pkt flags)
    as [w ret].
  destruct (ret =? AVERROR_EOF).
  - cbn [fst snd calls called with_dmx dmx].
    destruct (nth_error (streams (f (dmx s))) i) as [ds|];
      cbn -[skipn]; rewrite ?skipn_list_set; repeat split; auto.
  - destruct (ret <? 0); cbn -[skipn]; repeat split; auto.
Qed.

Lemma heartbeat_for_is_heartbeat (hb pkt : AVPacket) (ds : DemuxStream)
    (file : Z) :
  size hb = 0 ->
  Spec.is_heartbeat pkt ds
    (Call_sch_demux_send file (heartbeat_for hb ds pkt) 0).
Proof.
  intros H. cbn. repeat split; try reflexivity. exact H.
Qed.

(** The heartbeat loop, when it runs to its end, has made one heartbeat
    call for each of the streams it visited that has sub-to-video and is
    not finished, in the order of the streams. *)
Lemma send_heartbeats_calls (n : nat) :
  forall (i : nat) (s s' : State World) (p hb : AVPacket),
    pkt_heartbeat (dmx s) = Some hb -> size hb = 0 ->
    send_heartbeats sch_demux_send n i s p = (None, s') ->
    exists hbs : list Call,
      calls s' = rev hbs ++ calls s
      /\ Forall2 (fun ds c => Spec.is_heartbeat p ds c)
           (filter Spec.wants_heartbeat
              (firstn n (skipn i (streams (f (dmx s)))))) hbs.
Proof.
  induction n as [|n IH]; intros i s s' p hb Hhb Hsz Hrun.
  - cbn in Hrun. injection Hrun as <-. exists []. split; [reflexivity|].
    constructor.
  - cbn [send_heartbeats] in Hrun. rewrite Hhb in Hrun.
    destruct (nth_error (streams (f (dmx s))) i) as [ds1|] eqn:Hnth.
    + rewrite (skipn_nth_error _ _ _ Hnth). cbn [firstn filter].
      unfold Spec.wants_heartbeat at 1.
      destruct (finished ds1 || negb (have_sub2video ds1)) eqn:Hskip;
        cbn [negb].
      * apply (IH (S i) s s' p hb Hhb Hsz Hrun).
      * pose proof (do_send_effect s i (heartbeat_for hb ds1 p) 0) as He.
        cbv zeta in He.
        destruct (do_send sch_demux_send s i (heartbeat_for hb ds1 p) 0)
          as [[ret s1] hb1].
        cbn [fst snd] in He. destruct He as (Hc & Hk & Hh & Hp).
        destruct (ret <? 0); [discriminate|].
        assert (Hsz1 : size hb1 = 0)
          by (destruct Hp as [->| ->]; [exact Hsz | reflexivity]).
        destruct (IH (S i)
                    (with_dmx s1 (set_pkt_heartbeat (dmx s1) (Some hb1)))
                    s' p hb1 eq_refl Hsz1 Hrun) as (hbs & Hc' & Hf).
        cbn [with_dmx dmx calls set_pkt_heartbeat f streams] in Hc', Hf.
        exists (Call_sch_demux_send (file_index (f (dmx s)))
                  (heartbeat_for hb ds1 p) 0 :: hbs).
        split.
        -- rewrite Hc', Hc. cbn [rev]. rewrite <- app_assoc. reflexivity.
        -- constructor.
           ++ apply heartbeat_for_is_heartbeat. exact Hsz.
           ++ rewrite <- Hk. exact Hf.
    + injection Hrun as <-. exists []. split; [reflexivity|].
      rewrite (skipn_nth_error_none _ _ Hnth). rewrite firstn_nil.
      constructor.
Qed.

(** When the loop returns from [demux_send], it returns a failure. *)
Lemma send_heartbeats_early (n : nat) :
  forall (j : nat) (t s1 : State World) (p : AVPacket) (ret : Z),
    send_heartbeats sch_demux_send n j t p = (Some ret, s1) -> ret < 0.
Proof.
  induction n as [|n IH]; intros j t s1 p ret Hloop; [discriminate|].
  cbn [send_heartbeats] in Hloop.
  destruct (nth_error (streams (f (dmx t))) j) as [ds1|]; [|discriminate].
  destruct (pkt_heartbeat (dmx t)) as [h|]; [|discriminate].
  destruct (finished ds1 || negb (have_sub2video ds1)).
  - apply (IH _ _ _ _ _ Hloop).
  - destruct (do_send sch_demux_send t j (heartbeat_for h ds1 p) 0)
      as [[r1 t1] h1].
    destruct (Z.ltb_spec r1 0) as [Hlt|Hge].
    + injection Hloop as -> _. exact Hlt.
    + apply (IH _ _ _ _ _ Hloop).
Qed.

Lemma receive_filtered_calls (fuel : nat) :
  forall (i : nat) (out : AVBSFContext) (s s' : State World) (o : outcome),
    receive_filtered sch_demux_send av_bsf_receive_packet fuel i out s
    = (o, s') ->
    exists later : list Call, calls s' = later ++ calls s.
Proof.
  induction fuel as [|fuel IH]; intros i out s s' o Hrun.
  - cbn in Hrun. injection Hrun as _ <-. exists []. reflexivity.
  - cbn [receive_filtered] in Hrun.
    destruct (av_bsf_receive_packet (world s) i) as [[w ret] pkt_bsf].
    destruct (ret =? AVERROR EAGAIN).
    { injection Hrun as _ <-. eexists [_]. reflexivity. }
    destruct (ret <? 0).
    { injection Hrun as _ <-. eexists [_]. reflexivity. }
    pose proof (do_send_effect
                  (called s (Call_av_bsf_receive_packet i) w) i
                  (set_time_base pkt_bsf (time_base_out out)) 0) as He.
    cbv zeta in He.
    destruct (do_send sch_demux_send _ i _ 0) as [[r s2] q].
    cbn [fst snd] in He. destruct He as (Hc & _).
    destruct (r <? 0).
    + injection Hrun as _ <-. rewrite Hc. eexists [_; _]. reflexivity.
    + apply IH in Hrun. destruct Hrun as (later & Hl).
      rewrite Hl, Hc. cbn [called calls]. eexists (later ++ [_; _]).
      rewrite <- app_assoc. reflexivity.
Qed.

(** A scheduler that never reports a failure lets the heartbeat loop run
    to its end. *)
Lemma send_heartbeats_accepted (n : nat) :
  (forall w file q fl, 0 <= snd (sch_demux_send w file q fl)) ->
  forall (j : nat) (t : State World) (p : AVPacket),
    fst (send_heartbeats sch_demux_send n j t p) = None.
Proof.
  intros Hok. induction n as [|n IH]; intros j t p; [reflexivity|].
  cbn [send_heartbeats].
  destruct (nth_error (streams (f (dmx t))) j) as [ds1|]; [|reflexivity].
  destruct (pkt_heartbeat (dmx t)) as [h|]; [|reflexivity].
  destruct (finished ds1 || negb (have_sub2video ds1)); [apply IH|].
  unfold do_send.
  pose proof (Hok (world t) (file_index (f (dmx t)))
                (heartbeat_for h ds1 p) 0) as Hret.
  destruct (sch_demux_send _ _ _ _) as [w ret]. cbn [snd] in Hret.
  destruct (Z.eqb_spec ret AVERROR_EOF) as [->|_];
    [unfold AVERROR_EOF in Hret; lia|].
  destruct (Z.ltb_spec ret 0); [lia|]. cbn. apply IH.
Qed.

(** C7, as amended: when the heartbeat packet is allocated (sub-to-video
    is active on a stream of the input) and [demux_send] is given a packet
    whose pts is present, then, provided none of the heartbeat sends fails,
    the calls it makes start with one zero-payload heartbeat, carrying that
    packet's pts and time base, for each stream of the input that has
    sub-to-video and is not finished, in the order of the streams; this
    holds whatever happens to the packet itself afterwards. *)
Theorem demux_send_heartbeats
    (fuel : nat) (s : State World) (i : nat) (p hb : AVPacket) (flags : Z) :
  (i < nb_streams (dmx s))%nat ->
  pkt_heartbeat (dmx s) = Some hb ->
  size hb = 0 ->
  pts p <> AV_NOPTS_VALUE ->
  fst (send_heartbeats sch_demux_send (nb_streams (dmx s)) 0 s p) = None ->
  exists hbs later : list Call,
    calls (snd (demux_send sch_demux_send av_packet_rescale_ts
                  av_bsf_send_packet av_bsf_receive_packet fuel s i
                  (Some p) flags))
    = later ++ rev hbs ++ calls s
    /\ Forall2 (fun ds c => Spec.is_heartbeat p ds c)
         (filter (fun ds => have_sub2video ds && negb (finished ds))
            (streams (f (dmx s)))) hbs.
Proof.
  intros Hi Hhb Hsz Hpts Hloop. unfold demux_send.
  destruct (nth_error (streams (f (dmx s))) i) as [ds|] eqn:Hnth.
  2:{ apply nth_error_None in Hnth. unfold nb_streams in Hi. lia. }
  rewrite Hhb. apply Z.eqb_neq in Hpts. rewrite Hpts. cbn [negb].
  assert (Hfilter :
    filter (fun ds => have_sub2video ds && negb (finished ds))
      (streams (f (dmx s)))
    = filter Spec.wants_heartbeat
        (firstn (nb_streams (dmx s)) (skipn 0 (streams (f (dmx s)))))).
  { unfold nb_streams. cbn [skipn]. rewrite firstn_all.
    apply filter_ext. intros x. unfold Spec.wants_heartbeat.
    destruct (finished x), (have_sub2video x); reflexivity. }
  rewrite Hfilter.
  destruct (send_heartbeats sch_demux_send (nb_streams (dmx s)) 0 s p)
    as [early s1] eqn:Erun.
  cbn [fst] in Hloop. subst early.
  destruct (send_heartbeats_calls _ _ _ _ _ _ Hhb Hsz Erun) as (hbs & Hc & Hf).
  exists hbs.
  destruct (bsf ds) as [ctx|].
  - destruct (av_bsf_send_packet (world s1) i _) as [w ret].
    destruct (ret <? 0).
    + eexists [_]. split; [|exact Hf]. cbn. rewrite Hc. reflexivity.
    + match goal with
      | |- context [receive_filtered ?a ?b ?c ?d ?e ?g] =>
          destruct (receive_filtered a b c d e g) as [o s2] eqn:Er
      end.
      apply receive_filtered_calls in Er. destruct Er as (later & Hl).
      eexists (later ++ [_]). split; [|exact Hf].
      cbn [snd]. rewrite Hl. cbn [called calls].
      rewrite Hc, <- app_assoc. reflexivity.
  - pose proof (do_send_effect s1 i p flags) as He. cbv zeta in He.
    destruct (do_send sch_demux_send s1 i p flags) as [[ret s2] q].
    cbn [fst snd] in He. destruct He as (Hc2 & _).
    eexists [_]. split; [|exact Hf].
    destruct (ret <? 0); cbn [snd]; rewrite Hc2, Hc; reflexivity.
Qed.

End DemuxerHeartbeats.

(** A packet with pts 1000 on the video stream: one heartbeat goes to the
    first subtitle stream, then the packet itself is sent. *)
Lemma demux_send_heartbeats_witness :
  exists hbs later : list Demux.Call,
    Demux.calls
      (snd (Examples.accepting_demux_send 1%nat
              (Examples.demux_state Examples.demuxer_sub2video) 0%nat
              (Some (Examples.demux_packet 1000 1000)) 0))
    = later ++ rev hbs ++ []
    /\ Forall2
         (fun ds c => Spec.is_heartbeat (Examples.demux_packet 1000 1000) ds c)
         (filter (fun ds => Demux.have_sub2video ds
                            && negb (Demux.finished ds))
            (Demux.streams (Demux.f Examples.demuxer_sub2video))) hbs.
Proof.
  apply (demux_send_heartbeats (F := Model.floatarith) nat
           Examples.accept_send Examples.keep_ts Examples.accept_bsf_send
           Examples.empty_bsf_receive 1%nat
           (Examples.demux_state Examples.demuxer_sub2video) 0%nat
           (Examples.demux_packet 1000 1000) Demux.blank_packet 0).
  - cbn. lia.
  - reflexivity.
  - reflexivity.
  - vm_compute. discriminate.
  - reflexivity.
Defined.

(** C7 as stated fails for a sub-to-video stream that is finished:
    the third stream of the input has sub-to-video, the heartbeat packet is
    allocated and the packet sent has a pts, yet the only calls made are
    the heartbeat for the second stream and the packet itself; none is a
    heartbeat for the third stream. *)
Lemma heartbeat_finished_stream_counterexample :
  let d := Examples.demuxer_sub2video in
  let p := Examples.demux_packet 1000 1000 in
  let sub3 :=
    Demux.set_sch_idx_stream
      (Examples.demux_stream AVMEDIA_TYPE_SUBTITLE 1 true true) 2 in
  let r := Examples.accepting_demux_send 1%nat (Examples.demux_state d)
             0%nat (Some p) 0 in
  In sub3 (Spec.heartbeat_streams d)
  /\ Demux.pkt_heartbeat d <> None
  /\ Demux.pts p <> AV_NOPTS_VALUE
  /\ fst r = Returns 0
  /\ List.length (Demux.calls (snd r)) = 2%nat
  /\ Forall (fun c => ~ Spec.is_heartbeat p sub3 c) (Demux.calls (snd r)).
Proof.
  cbv zeta. split; [cbn; auto|].
  split; [discriminate|]. split; [vm_compute; discriminate|].
  split; [reflexivity|]. split; [reflexivity|].
  repeat constructor; cbn; intros (_ & _ & _ & H & _); discriminate.
Qed.

(** ** Demuxer stage: taking a stream into use *)
Section DemuxerStreams.
Context {F : FloatArith}.
Import Demux.

Variable FFMPEG_OPT_TOP : bool.
Variable World : Type.
Variable sch_add_demux_stream  : World -> Z -> World * Z.
Variable sch_add_dec           : World -> nat -> bool -> World * Z.
Variable sch_connect           : World -> SchedulerNode -> SchedulerNode -> World * Z.
Variable dec_open              : World -> nat -> DemuxStream -> World * Z.
Variable dec_add_filter        : World -> nat -> Z -> World * Z.
Variable alloc                 : World -> World * bool.

Lemma nth_error_list_set {A : Type} (l : list A) (i : nat) (x v : A) :
  nth_error l i = Some x -> nth_error (list_set l i v) i = Some v.
Proof.
  revert i. induction l as [|h t IH]; intros [|i] H; try discriminate.
  - reflexivity.
  - cbn in *. apply IH. exact H.
Qed.

Lemma kept_refl (ds : DemuxStream) : Spec.kept ds ds.
Proof. repeat split; reflexivity. Qed.

Lemma kept_trans (a b c : DemuxStream) :
  Spec.kept a b -> Spec.kept b c -> Spec.kept a c.
Proof.
  intros (A1 & A2 & A3 & A4) (B1 & B2 & B3 & B4).
  repeat split; congruence.
Qed.

Lemma mark_used_effect (d : Demuxer) (ds : DemuxStream) (dn : Z) :
  streams (f (fst (mark_used d ds dn))) = streams (f d)
  /\ pkt_heartbeat (fst (mark_used d ds dn)) = pkt_heartbeat d
  /\ Spec.kept ds (snd (mark_used d ds dn)).
Proof.
  unfold mark_used, Spec.kept. destruct (discard ds); cbn;
    repeat split; reflexivity.
Qed.

(** Creating the decoder node makes at least one call and keeps the
    heartbeat packet and the stream's lists of outputs and filters. *)
Lemma ist_use_decoder_effect (s : State World) (i : nat) (ds ds0 : DemuxStream) :
  nth_error (streams (f (dmx s))) i = Some ds0 ->
  let r := ist_use_decoder FFMPEG_OPT_TOP sch_add_dec sch_connect dec_open
             s i ds in
  (List.length (calls s) < List.length (calls (snd r)))%nat
  /\ pkt_heartbeat (dmx (snd r)) = pkt_heartbeat (dmx s)
  /\ exists ds', nth_error (streams (f (dmx (snd r)))) i = Some ds'
       /\ (ds' = ds0 \/ Spec.kept ds ds').
Proof.
  intros Hnth. cbv zeta. unfold ist_use_decoder.
  destruct (sch_add_dec (world s) i _) as [w1 ret1].
  destruct (ret1 <? 0).
  { cbn. split; [lia|]. split; [reflexivity|]. exists ds0. auto. }
  destruct (sch_connect _ _ _) as [w2 ret2].
  destruct (ret2 <? 0).
  { cbn -[nth_error]. split; [lia|]. split; [reflexivity|]. eexists. split.
    - eapply nth_error_list_set. exact Hnth.
    - right. repeat split; reflexivity. }
  match goal with
  | |- context [dec_open ?w ?j ?x] =>
      destruct (dec_open w j x) as [w3 ret3] eqn:Ed
  end.
  match type of Ed with
  | dec_open _ _ ?x = _ => assert (Ho : Spec.kept ds x)
  end.
  { unfold Spec.kept.
    repeat match goal with
           | |- context [if ?c then _ else _] => destruct c
           end; repeat split; reflexivity. }
  destruct (ret3 <? 0); cbn -[nth_error]; (split; [lia|]);
    (split; [reflexivity|]);
    eexists; (split; [eapply nth_error_list_set, nth_error_list_set, Hnth
                     | right; exact Ho]).
Qed.

(** [ist_use] never forgets a call, keeps the heartbeat packet and the
    stream's lists of outputs and filters, and when it makes no call and is
    not stopped by one of its two tests it returns 0. *)
Lemma ist_use_effect (s s' : State World) (i : nat) (dn ret : Z)
    (ds : DemuxStream) :
  nth_error (streams (f (dmx s))) i = Some ds ->
  ist_use FFMPEG_OPT_TOP sch_add_demux_stream sch_add_dec sch_connect
    dec_open s i dn = Some (ret, s') ->
  (List.length (calls s) <= List.length (calls s'))%nat
  /\ (List.length (calls s) = List.length (calls s') ->
      Spec.refused ds dn \/ ret = 0)
  /\ pkt_heartbeat (dmx s') = pkt_heartbeat (dmx s)
  /\ exists ds', nth_error (streams (f (dmx s'))) i = Some ds'
       /\ Spec.kept ds ds'.
Proof.
  intros Hnth Hrun. unfold ist_use in Hrun. rewrite Hnth in Hrun.
  destruct (Z.eqb_spec (user_set_discard (ist ds)) AVDISCARD_ALL) as [E|N].
  { injection Hrun as <- <-. split; [lia|]. split; [|split].
    - intros _. left. left. exact E.
    - reflexivity.
    - exists ds. split; [exact Hnth|apply kept_refl]. }
  destruct (truthy dn && match dec (ist ds) with
                         | Some _ => false | None => true end) eqn:Eg.
  { injection Hrun as <- <-. split; [lia|]. split; [|split].
    - intros _. left. right. apply andb_true_iff in Eg. destruct Eg as [E1 E2].
      split.
      + unfold truthy in E1. apply negb_true_iff, Z.eqb_neq in E1. exact E1.
      + destruct (dec (ist ds)); [discriminate|reflexivity].
    - reflexivity.
    - exists ds. split; [exact Hnth|apply kept_refl]. }
  assert (Hgo : forall (s1 : State World) (ds1 : DemuxStream),
    calls s1 = calls s \/ (exists c, calls s1 = c :: calls s) ->
    dmx s1 = dmx s ->
    Spec.kept ds ds1 ->
    (let '(d2, ds3) := mark_used (dmx s1) ds1 dn in
     if truthy dn && (sch_idx_dec ds3 <? 0)
     then Some (ist_use_decoder FFMPEG_OPT_TOP sch_add_dec sch_connect
                  dec_open (with_dmx s1 (store_stream d2 i ds3)) i ds3)
     else Some (0, with_dmx s1 (store_stream d2 i ds3))) = Some (ret, s') ->
    (List.length (calls s) <= List.length (calls s'))%nat
    /\ (List.length (calls s) = List.length (calls s') ->
        Spec.refused ds dn \/ ret = 0)
    /\ pkt_heartbeat (dmx s') = pkt_heartbeat (dmx s)
    /\ exists ds', nth_error (streams (f (dmx s'))) i = Some ds'
         /\ Spec.kept ds ds').
  { intros s1 ds1 Hc Hs Ho Hr.
    pose proof (mark_used_effect (dmx s1) ds1 dn) as (Hm1 & Hm2 & Hm3).
    destruct (mark_used (dmx s1) ds1 dn) as [d2 ds3]. cbn [fst snd] in *.
    assert (Hst : nth_error
                    (streams (f (dmx (with_dmx s1 (store_stream d2 i ds3)))))
                    i = Some ds3).
    { cbn -[nth_error]. rewrite Hm1, Hs.
      eapply nth_error_list_set, Hnth. }
    assert (Hlen : (List.length (calls s) <= List.length (calls s1))%nat).
    { destruct Hc as [->|[c ->]]; cbn; lia. }
    assert (Hk : Spec.kept ds ds3) by (eapply kept_trans; eassumption).
    destruct (truthy dn && (sch_idx_dec ds3 <? 0)).
    - destruct (ist_use_decoder_effect _ i ds3 ds3 Hst)
        as (Hl & Hh & ds' & Hn & Hout).
      cbv zeta in Hl, Hn, Hh.
      destruct (ist_use_decoder _ _ _ _ _ i ds3) as [r1 s2].
      injection Hr as <- <-. cbn [snd with_dmx calls dmx] in *.
      split; [lia|]. split; [lia|]. split.
      { rewrite Hh. cbn. rewrite Hm2, Hs. reflexivity. }
      exists ds'. split; [exact Hn|].
      destruct Hout as [-> | Hout]; [exact Hk|].
      eapply kept_trans; eassumption.
    - injection Hr as <- <-. cbn [with_dmx calls dmx].
      split; [exact Hlen|].
      split; [intros _; right; reflexivity|]. split.
      { cbn. rewrite Hm2, Hs. reflexivity. }
      exists ds3. split; [exact Hst|exact Hk]. }
  destruct (sch_idx_stream ds <? 0).
  - destruct (sch_add_demux_stream (world s) (file_index (f (dmx s))))
      as [w ret0].
    destruct (ret0 <? 0).
    { injection Hrun as <- <-. cbn. split; [lia|]. split; [lia|].
      split; [reflexivity|].
      exists ds. split; [exact Hnth|apply kept_refl]. }
    eapply Hgo; [| | |exact Hrun];
      [right; eexists; reflexivity | reflexivity
      | repeat split; reflexivity].
  - eapply Hgo; [| | |exact Hrun];
      [left; reflexivity | reflexivity | apply kept_refl].
Qed.

Lemma ist_use_refused (s : State World) (i : nat) (dn : Z)
    (ds : DemuxStream) :
  nth_error (streams (f (dmx s))) i = Some ds ->
  Spec.refused ds dn ->
  ist_use FFMPEG_OPT_TOP sch_add_demux_stream sch_add_dec sch_connect
    dec_open s i dn = Some (AVERROR EINVAL, s).
Proof.
  intros Hnth Href. unfold ist_use. rewrite Hnth.
  destruct Href as [E|[Hdn Hdec]].
  - rewrite E, Z.eqb_refl. reflexivity.
  - destruct (user_set_discard (ist ds) =? AVDISCARD_ALL); [reflexivity|].
    rewrite Hdec. unfold truthy. apply Z.eqb_neq in Hdn. rewrite Hdn.
    reflexivity.
Qed.

Lemma ist_use_einval_refused (s : State World) (i : nat) (dn : Z)
    (ds : DemuxStream) :
  nth_error (streams (f (dmx s))) i = Some ds ->
  ist_use FFMPEG_OPT_TOP sch_add_demux_stream sch_add_dec sch_connect
    dec_open s i dn = Some (AVERROR EINVAL, s) ->
  Spec.refused ds dn.
Proof.
  intros Hnth Hrun.
  destruct (ist_use_effect _ _ _ _ _ _ Hnth Hrun) as (_ & H & _).
  destruct (H eq_refl) as [Hr|Hz]; [exact Hr|discriminate].
Qed.

Lemma app_one_neq {A : Type} (l : list A) (x : A) : l ++ [x] <> l.
Proof.
  intros H. apply (f_equal (@List.length A)) in H.
  rewrite length_app in H. cbn in H. lia.
Qed.

(** C9: for every input stream, [ist_use] fails with AVERROR(EINVAL) and
    leaves the demuxer, the scheduler and the list of calls made as they
    were (the stream is not marked used, no scheduler stream and no decoder
    node is added) in exactly two cases: the user-set discard policy is
    AVDISCARD_ALL, or decoding is requested and no decoder was found; and
    so do [ist_output_add] and [ist_filter_add], for the kind of decoding
    they request. *)
Theorem ist_use_fails_einval
    (s : State World) (i : nat) (ds : DemuxStream) (dn : Z)
    (ost ifilter : Z) (ost_enc is_simple : bool) :
  nth_error (streams (f (dmx s))) i = Some ds ->
  (ist_use FFMPEG_OPT_TOP sch_add_demux_stream sch_add_dec sch_connect
     dec_open s i dn = Some (AVERROR EINVAL, s)
   <-> user_set_discard (ist ds) = AVDISCARD_ALL
       \/ (dn <> 0 /\ dec (ist ds) = None))
  /\ (ist_output_add FFMPEG_OPT_TOP sch_add_demux_stream sch_add_dec
        sch_connect dec_open alloc s i ost ost_enc
      = Some (AVERROR EINVAL, s)
      <-> user_set_discard (ist ds) = AVDISCARD_ALL
          \/ (ost_enc = true /\ dec (ist ds) = None))
  /\ (ist_filter_add FFMPEG_OPT_TOP sch_add_demux_stream sch_add_dec
        sch_connect dec_open dec_add_filter alloc s i ifilter is_simple
      = Some (AVERROR EINVAL, s)
      <-> user_set_discard (ist ds) = AVDISCARD_ALL
          \/ dec (ist ds) = None).
Proof.
  intros Hnth. split; [|split].
  - split.
    + apply ist_use_einval_refused. exact Hnth.
    + apply ist_use_refused. exact Hnth.
  - assert (Heq : Spec.refused ds (if ost_enc then DECODING_FOR_OST else 0)
                  <-> user_set_discard (ist ds) = AVDISCARD_ALL
                      \/ (ost_enc = true /\ dec (ist ds) = None)).
    { unfold Spec.refused. destruct ost_enc; cbn; intuition discriminate. }
    rewrite <- Heq. clear Heq. unfold ist_output_add. split.
    + intros Hrun.
      destruct (ist_use _ _ _ _ _ s i _) as [[ret s1]|] eqn:Huse;
        [|discriminate].
      destruct (ist_use_effect _ _ _ _ _ _ Hnth Huse)
        as (_ & _ & _ & ds' & Hn & Ho & _).
      destruct (ret <? 0).
      { injection Hrun as -> ->.
        apply (ist_use_einval_refused _ _ _ _ Hnth Huse). }
      destruct (alloc (world s1)) as [w ok]. destruct ok; cbn [negb] in Hrun;
        [|discriminate].
      cbn [with_world dmx] in Hrun. rewrite Hn in Hrun.
      injection Hrun as _ Hs. exfalso.
      apply (f_equal (fun t => nth_error (streams (f (dmx t))) i)) in Hs.
      cbn -[nth_error] in Hs.
      rewrite (nth_error_list_set _ _ _ _ Hn), Hnth in Hs.
      injection Hs as Hs. apply (f_equal (fun x => outputs (ist x))) in Hs.
      cbn in Hs. rewrite Ho in Hs. apply (app_one_neq _ _ Hs).
    + intros Href. rewrite (ist_use_refused _ _ _ _ Hnth Href). reflexivity.
  - assert (Heq : Spec.refused ds (if is_simple then DECODING_FOR_OST
                                   else DECODING_FOR_FILTER)
                  <-> user_set_discard (ist ds) = AVDISCARD_ALL
                      \/ dec (ist ds) = None).
    { unfold Spec.refused. destruct is_simple; cbn; intuition discriminate. }
    rewrite <- Heq. clear Heq. unfold ist_filter_add. split.
    + intros Hrun.
      destruct (ist_use _ _ _ _ _ s i _) as [[ret s1]|] eqn:Huse;
        [|discriminate].
      destruct (ist_use_effect _ _ _ _ _ _ Hnth Huse)
        as (Hle & _ & _ & ds' & Hn & Ho).
      destruct (ret <? 0).
      { injection Hrun as -> ->.
        apply (ist_use_einval_refused _ _ _ _ Hnth Huse). }
      destruct (alloc (world s1)) as [w ok]. destruct ok; cbn [negb] in Hrun;
        [|discriminate].
      cbn [with_world dmx] in Hrun. rewrite Hn in Hrun.
      exfalso.
      assert (Hlen : forall t : State World,
                (List.length (calls s1) < List.length (calls t))%nat ->
                t <> s).
      { intros t Hlt ->. lia. }
      destruct (dec_add_filter _ i ifilter) as [w1 ret1].
      destruct (ret1 <? 0).
      { injection Hrun as _ Hs. revert Hs. apply Hlen. cbn. lia. }
      destruct (AVMediaType_eqb _ AVMEDIA_TYPE_SUBTITLE).
      * cbn [called with_dmx dmx set_pkt_heartbeat pkt_heartbeat] in Hrun.
        destruct (pkt_heartbeat (store_stream (dmx s1) i _)).
        -- injection Hrun as _ Hs. revert Hs. apply Hlen. cbn. lia.
        -- destruct (alloc _) as [w2 ok2]. destruct ok2.
           ++ injection Hrun as _ Hs. revert Hs. apply Hlen. cbn. lia.
           ++ discriminate.
      * injection Hrun as _ Hs. revert Hs. apply Hlen. cbn. lia.
    + intros Href. rewrite (ist_use_refused _ _ _ _ Hnth Href). reflexivity.
Qed.

(** X19: when [ist_filter_add] succeeds on a subtitle stream, the stream
    is marked for sub-to-video and the demuxer has its heartbeat packet, an
    empty one. *)
Lemma ist_filter_add_sub2video
    (s s' : State World) (i : nat) (ds : DemuxStream) (ifilter ret : Z)
    (is_simple : bool) :
  nth_error (streams (f (dmx s))) i = Some ds ->
  par_codec_type (ist ds) = AVMEDIA_TYPE_SUBTITLE ->
  (forall hb, pkt_heartbeat (dmx s) = Some hb -> size hb = 0) ->
  ist_filter_add FFMPEG_OPT_TOP sch_add_demux_stream sch_add_dec
    sch_connect dec_open dec_add_filter alloc s i ifilter is_simple
  = Some (ret, s') ->
  0 <= ret ->
  (exists hb, pkt_heartbeat (dmx s') = Some hb /\ size hb = 0)
  /\ exists ds', nth_error (streams (f (dmx s'))) i = Some ds'
       /\ have_sub2video ds' = true.
Proof.
  intros Hnth Hsub Hhb Hrun Hret. unfold ist_filter_add in Hrun.
  destruct (ist_use _ _ _ _ _ s i _) as [[r s1]|] eqn:Huse; [|discriminate].
  destruct (ist_use_effect _ _ _ _ _ _ Hnth Huse)
    as (_ & _ & Hh & ds' & Hn & _ & _ & Hty & _).
  destruct (Z.ltb_spec r 0). { injection Hrun as -> _. lia. }
  destruct (alloc (world s1)) as [w ok]. destruct ok; cbn [negb] in Hrun.
  2:{ injection Hrun as <- _. unfold AVERROR, ENOMEM in Hret. lia. }
  cbn [with_world dmx] in Hrun. rewrite Hn in Hrun.
  destruct (dec_add_filter _ i ifilter) as [w1 ret1].
  destruct (Z.ltb_spec ret1 0). { injection Hrun as -> _. lia. }
  cbn [par_codec_type ist set_ist set_filters] in Hrun.
  rewrite Hty, Hsub in Hrun. cbn [AVMediaType_eqb] in Hrun.
  cbn [called with_dmx dmx store_stream pkt_heartbeat set_f] in Hrun.
  rewrite Hh in Hrun.
  destruct (pkt_heartbeat (dmx s)) as [hb|] eqn:Ehb.
  - injection Hrun as _ <-. cbn -[nth_error]. split.
    + exists hb. split; [congruence|]. apply Hhb. congruence.
    + eexists. split.
      * eapply nth_error_list_set, nth_error_list_set, Hn.
      * reflexivity.
  - cbn [world called with_dmx] in Hrun.
    destruct (alloc w1) as [w2 ok2]. destruct ok2.
    + injection Hrun as _ <-. cbn -[nth_error]. split.
      * exists blank_packet. split; reflexivity.
      * eexists. split.
        -- eapply nth_error_list_set, nth_error_list_set, Hn.
        -- reflexivity.
    + injection Hrun as <- _. unfold AVERROR, ENOMEM in Hret. lia.
Qed.

End DemuxerStreams.

(** A stream without decoder that an encoder wants to read from. *)
Lemma ist_use_fails_einval_witness :
  Demux.ist_output_add (F := Model.floatarith) true
    Examples.accept_add_demux_stream Examples.accept_add_dec
    Examples.accept_connect Examples.accept_dec_open Examples.alloc_ok
    Examples.state_without_decoder 0%nat 7 true
  = Some (AVERROR EINVAL, Examples.state_without_decoder).
Proof.
  assert (H : nth_error
                (Demux.streams (Demux.f (Demux.dmx
                                           Examples.state_without_decoder)))
                0%nat = Some Examples.stream_without_decoder)
    by reflexivity.
  destruct (ist_use_fails_einval (F := Model.floatarith) true nat
              Examples.accept_add_demux_stream Examples.accept_add_dec
              Examples.accept_connect Examples.accept_dec_open
              Examples.accept_add_filter Examples.alloc_ok
              Examples.state_without_decoder 0%nat
              Examples.stream_without_decoder Demux.DECODING_FOR_OST
              7 0 true true H) as (_ & [_ Hout] & _).
  apply Hout. right. split; reflexivity.
Defined.

(** ** Output set-up *)
Section OutputSetUp.
Import MuxInit.

Variable World : Type.
Variable alloc : World -> World * bool.

Lemma counts_fold (l : list OutputStream) :
  forall c : Counts,
    nb_interleaved (fold_left count_stream l c)
    = nb_interleaved c
      + Z.of_nat (List.length
                    (filter (fun o => IS_INTERLEAVED (codec_type o)) l))
    /\ limit_frames (fold_left count_stream l c)
       = limit_frames c || existsb (fun o => max_frames o <? INT64_MAX) l.
Proof.
  induction l as [|o l IH]; intros c; cbn [fold_left filter existsb].
  - cbn. split; [lia|]. rewrite orb_false_r. reflexivity.
  - destruct (IH (count_stream c o)) as [H1 H2]. rewrite H1, H2.
    cbn [count_stream nb_interleaved limit_frames].
    destruct (IS_INTERLEAVED (codec_type o)); cbn [of_bool List.length];
      (split; [lia|]); rewrite orb_assoc; reflexivity.
Qed.

(** The test of line 1089, in terms of the streams of the file. *)
Lemma wants_sync_queues_streams (shortest_ : bool) (l : list OutputStream) :
  wants_sync_queues shortest_
    (fold_left count_stream l (mkCounts 0 0 false false))
  = (shortest_
     && (1 <? List.length
                (filter (fun o => IS_INTERLEAVED (codec_type o)) l))%nat)
    || ((0 <? List.length
                (filter (fun o => IS_INTERLEAVED (codec_type o)) l))%nat
        && existsb (fun o => max_frames o <? INT64_MAX) l).
Proof.
  unfold wants_sync_queues.
  destruct (counts_fold l (mkCounts 0 0 false false)) as [H1 H2].
  rewrite H1, H2. cbn [nb_interleaved limit_frames orb].
  set (n := List.length _).
  replace (0 + Z.of_nat n >? 1) with (1 <? n)%nat.
  2:{ destruct (Nat.ltb_spec 1 n), (Z.gtb_spec (0 + Z.of_nat n) 1);
        try reflexivity; lia. }
  replace (0 + Z.of_nat n >? 0) with (0 <? n)%nat.
  2:{ destruct (Nat.ltb_spec 0 n), (Z.gtb_spec (0 + Z.of_nat n) 0);
        try reflexivity; lia. }
  rewrite (andb_comm (1 <? n)%nat). reflexivity.
Qed.

Lemma limit_at_last (l : list SyncQueueStream) (e : SyncQueueStream) (v : Z) :
  limit_at (l ++ [e]) (List.length l) v
  = l ++ [mkSqStream (limiting e) (Some v)].
Proof.
  induction l as [|h t IH]; cbn; [reflexivity|]. rewrite IH. reflexivity.
Qed.

(** A stream joins a queue: the queue grows by the stream's entry. *)
Lemma join_queue (shortest_ : bool) (sq : SyncQueue) (o : OutputStream) :
  max_frames o <= INT64_MAX ->
  let idx := Z.of_nat (List.length (sq_streams sq)) in
  let sq1 :=
    mkSq (sq_type sq) (buf_size_us sq)
      (sq_streams sq
       ++ [mkSqStream (shortest_ || (max_frames o <? INT64_MAX)) None]) in
  sq_streams
    (if negb (max_frames o =? INT64_MAX)
     then sq_limit_frames sq1 idx (max_frames o) else sq1)
  = sq_streams sq ++ [Spec.queue_entry shortest_ o].
Proof.
  intros Hmax. cbv zeta. unfold Spec.queue_entry.
  destruct (Z.eqb_spec (max_frames o) INT64_MAX) as [E|N]; cbn [negb].
  - rewrite E. reflexivity.
  - destruct (Z.ltb_spec (max_frames o) INT64_MAX); [|lia].
    unfold sq_limit_frames.
    destruct (Z.ltb_spec (Z.of_nat (List.length (sq_streams sq))) 0); [lia|].
    cbn [sq_streams]. rewrite Nat2Z.id, limit_at_last. reflexivity.
Qed.

Lemma nth_error_app_entry {A : Type} (l extra : list A) (e : A) :
  nth_error ((l ++ [e]) ++ extra) (List.length l) = Some e.
Proof.
  rewrite <- app_assoc. rewrite nth_error_app2 by lia.
  rewrite Nat.sub_diag. reflexivity.
Qed.

Lemma add_encode_streams_early (shortest_ : bool) (l : list OutputStream) :
  forall (w w' : World) (sq sq' : SyncQueue) (l' : list OutputStream) (r : Z),
    add_encode_streams alloc shortest_ w sq l = (Some r, w', sq', l') ->
    r < 0.
Proof.
  induction l as [|o l IH]; intros w w' sq sq' l' r H; [discriminate|].
  cbn [add_encode_streams] in H.
  destruct (IS_AV_ENC o); cbn [negb] in H.
  2:{ destruct (add_encode_streams alloc shortest_ w sq l)
        as [[[r0 w0] sq0] l0] eqn:E.
      injection H as -> _ _ _. apply (IH _ _ _ _ _ _ E). }
  unfold sq_add_stream in H. destruct (alloc w) as [w1 ok]. destruct ok.
  - destruct (Z.ltb_spec (Z.of_nat (List.length (sq_streams sq))) 0); [lia|].
    destruct (alloc w1) as [w2 ok2]. destruct ok2; cbn [negb] in H.
    + match type of H with
      | context [add_encode_streams alloc shortest_ ?a ?b ?c] =>
          destruct (add_encode_streams alloc shortest_ a b c)
            as [[[r0 w0] sq0] l0] eqn:E
      end.
      injection H as -> _ _ _. apply (IH _ _ _ _ _ _ E).
    + injection H as <- _ _ _. reflexivity.
  - cbn in H. injection H as <- _ _ _. reflexivity.
Qed.

Lemma add_mux_streams_early (shortest_ : bool) (l : list OutputStream) :
  forall (w w' : World) (sq sq' : SyncQueue) (l' : list OutputStream) (r : Z),
    add_mux_streams alloc shortest_ w sq l = (Some r, w', sq', l') ->
    r < 0.
Proof.
  induction l as [|o l IH]; intros w w' sq sq' l' r H; [discriminate|].
  cbn [add_mux_streams] in H.
  destruct (IS_INTERLEAVED (codec_type o)); cbn [negb] in H.
  2:{ destruct (add_mux_streams alloc shortest_ w sq l)
        as [[[r0 w0] sq0] l0] eqn:E.
      injection H as -> _ _ _. apply (IH _ _ _ _ _ _ E). }
  unfold sq_add_stream in H. destruct (alloc w) as [w1 ok]. destruct ok.
  - destruct (Z.ltb_spec (Z.of_nat (List.length (sq_streams sq))) 0); [lia|].
    match type of H with
    | context [add_mux_streams alloc shortest_ ?a ?b ?c] =>
        destruct (add_mux_streams alloc shortest_ a b c)
          as [[[r0 w0] sq0] l0] eqn:E
    end.
    injection H as -> _ _ _. apply (IH _ _ _ _ _ _ E).
  - cbn in H. injection H as <- _ _ _. reflexivity.
Qed.

(** The loop over the encoded streams, run to its end: every encoded audio
    or video stream has joined the queue with its entry, the other streams
    are as they were. *)
Lemma add_encode_streams_done (shortest_ : bool) (l : list OutputStream) :
  forall (w w' : World) (sq sq' : SyncQueue) (l' : list OutputStream),
    Forall (fun o => max_frames o <= INT64_MAX) l ->
    add_encode_streams alloc shortest_ w sq l = (None, w', sq', l') ->
    (exists extra, sq_streams sq' = sq_streams sq ++ extra)
    /\ Forall2
         (fun o o' =>
            Spec.same_config o o' /\ sq_idx_mux o' = sq_idx_mux o
            /\ (if IS_AV_ENC o
                then 0 <= sq_idx_encode o'
                     /\ nth_error (sq_streams sq')
                          (Z.to_nat (sq_idx_encode o'))
                        = Some (Spec.queue_entry shortest_ o)
                else sq_idx_encode o' = sq_idx_encode o)) l l'.
Proof.
  induction l as [|o l IH]; intros w w' sq sq' l' Hmax H.
  - injection H as _ <- <-. split; [exists []; rewrite app_nil_r; reflexivity|].
    constructor.
  - inversion Hmax as [|? ? Ho Hl]; subst.
    cbn [add_encode_streams] in H.
    destruct (IS_AV_ENC o) eqn:Eav; cbn [negb] in H.
    2:{ destruct (add_encode_streams alloc shortest_ w sq l)
          as [[[r0 w0] sq0] l0] eqn:E.
        injection H as -> <- <- <-.
        destruct (IH _ _ _ _ _ Hl E) as (Hx & Hf).
        split; [exact Hx|]. constructor; [|exact Hf].
        rewrite Eav. repeat split; reflexivity. }
    unfold sq_add_stream in H. destruct (alloc w) as [w1 ok].
    destruct ok; [|discriminate].
    destruct (Z.ltb_spec (Z.of_nat (List.length (sq_streams sq))) 0); [lia|].
    destruct (alloc w1) as [w2 ok2]. destruct ok2; cbn [negb] in H;
      [|discriminate].
    pose proof (join_queue shortest_ sq o Ho) as Hj. cbv zeta in Hj.
    cbn [max_frames set_sq_frame set_sq_idx_encode sq_idx_encode] in H.
    match type of H with
    | context [add_encode_streams alloc shortest_ _ ?q _] =>
        set (sq2 := q) in *
    end.
    destruct (add_encode_streams alloc shortest_ w2 sq2 l)
      as [[[r0 w0] sq0] l0] eqn:E.
    injection H as -> <- <- <-.
    destruct (IH _ _ _ _ _ Hl E) as ((extra & Hx) & Hf).
    rewrite Hj in Hx. split.
    + exists (Spec.queue_entry shortest_ o :: extra).
      rewrite Hx, <- app_assoc. reflexivity.
    + constructor; [|exact Hf]. rewrite Eav.
      unfold Spec.same_config. cbn -[nth_error Z.of_nat Z.to_nat].
      repeat split; try reflexivity; [lia|].
      rewrite Nat2Z.id, Hx. apply nth_error_app_entry.
Qed.

Lemma add_mux_streams_done (shortest_ : bool) (l : list OutputStream) :
  forall (w w' : World) (sq sq' : SyncQueue) (l' : list OutputStream),
    Forall (fun o => max_frames o <= INT64_MAX) l ->
    add_mux_streams alloc shortest_ w sq l = (None, w', sq', l') ->
    (exists extra, sq_streams sq' = sq_streams sq ++ extra)
    /\ Forall2
         (fun o o' =>
            Spec.same_config o o' /\ sq_idx_encode o' = sq_idx_encode o
            /\ (if IS_INTERLEAVED (codec_type o)
                then 0 <= sq_idx_mux o'
                     /\ nth_error (sq_streams sq')
                          (Z.to_nat (sq_idx_mux o'))
                        = Some (Spec.queue_entry shortest_ o)
                else sq_idx_mux o' = sq_idx_mux o)) l l'.
Proof.
  induction l as [|o l IH]; intros w w' sq sq' l' Hmax H.
  - injection H as _ <- <-. split; [exists []; rewrite app_nil_r; reflexivity|].
    constructor.
  - inversion Hmax as [|? ? Ho Hl]; subst.
    cbn [add_mux_streams] in H.
    destruct (IS_INTERLEAVED (codec_type o)) eqn:Eav; cbn [negb] in H.
    2:{ destruct (add_mux_streams alloc shortest_ w sq l)
          as [[[r0 w0] sq0] l0] eqn:E.
        injection H as -> <- <- <-.
        destruct (IH _ _ _ _ _ Hl E) as (Hx & Hf).
        split; [exact Hx|]. constructor; [|exact Hf].
        rewrite Eav. repeat split; reflexivity. }
    unfold sq_add_stream in H. destruct (alloc w) as [w1 ok].
    destruct ok; [|discriminate].
    destruct (Z.ltb_spec (Z.of_nat (List.length (sq_streams sq))) 0); [lia|].
    pose proof (join_queue shortest_ sq o Ho) as Hj. cbv zeta in Hj.
    cbn [max_frames set_sq_idx_mux sq_idx_mux] in H.
    match type of H with
    | context [add_mux_streams alloc shortest_ _ ?q _] =>
        set (sq2 := q) in *
    end.
    destruct (add_mux_streams alloc shortest_ w1 sq2 l)
      as [[[r0 w0] sq0] l0] eqn:E.
    injection H as -> <- <- <-.
    destruct (IH _ _ _ _ _ Hl E) as ((extra & Hx) & Hf).
    rewrite Hj in Hx. split.
    + exists (Spec.queue_entry shortest_ o :: extra).
      rewrite Hx, <- app_assoc. reflexivity.
    + constructor; [|exact Hf]. rewrite Eav.
      unfold Spec.same_config. cbn -[nth_error Z.of_nat Z.to_nat].
      repeat split; try reflexivity; [lia|].
      rewrite Nat2Z.id, Hx. apply nth_error_app_entry.
Qed.

Lemma Forall2_compose {A : Type} (R S T : A -> A -> Prop) :
  (forall a b c, R a b -> S b c -> T a c) ->
  forall l1 l2 l3, Forall2 R l1 l2 -> Forall2 S l2 l3 -> Forall2 T l1 l3.
Proof.
  intros H l1 l2 l3 H12. revert l3.
  induction H12; intros l3 H23; inversion H23; subst; constructor; eauto.
Qed.

Lemma reset_sq_idx_streams (l : list OutputStream) :
  Forall2 (fun o o' => Spec.same_config o o'
                       /\ sq_idx_encode o' = -1 /\ sq_idx_mux o' = -1)
    l (map reset_sq_idx l).
Proof.
  induction l as [|o l IH]; cbn [map]; constructor; [|exact IH].
  unfold Spec.same_config. cbn. repeat split; reflexivity.
Qed.

Lemma same_config_entry (shortest_ : bool) (o o' : OutputStream) :
  Spec.same_config o o' ->
  Spec.queue_entry shortest_ o' = Spec.queue_entry shortest_ o
  /\ IS_AV_ENC o' = IS_AV_ENC o
  /\ IS_INTERLEAVED (codec_type o') = IS_INTERLEAVED (codec_type o)
  /\ max_frames o' = max_frames o.
Proof.
  intros (H1 & H2 & H3). unfold Spec.queue_entry, IS_AV_ENC.
  rewrite H1, H2, H3. repeat split; reflexivity.
Qed.

Lemma Forall_same_config (l l' : list OutputStream)
    (R : OutputStream -> OutputStream -> Prop) :
  (forall o o', R o o' -> Spec.same_config o o') ->
  Forall2 R l l' ->
  Forall (fun o => max_frames o <= INT64_MAX) l ->
  Forall (fun o => max_frames o <= INT64_MAX) l'.
Proof.
  intros HR H. induction H as [|o o' l l' Hoo _ IH]; intros Hl;
    [constructor|].
  inversion Hl; subst. constructor; [|apply IH; assumption].
  destruct (HR _ _ Hoo) as (_ & _ & ->). assumption.
Qed.

(** C10, as amended: [setup_sync_queues] allocates nothing, touches no
    queue and leaves every stream's sq_idx_encode and sq_idx_mux at -1
    unless shortest is set and the file has more than one interleaved
    (non-attachment) stream, or the file has an interleaved stream and some
    stream of it, of whatever type, has a finite max_frames; and when it
    returns 0, a stream's index in either queue is -1 or the index of an
    entry of that queue whose limiting flag is set exactly when shortest is
    set or the stream's max_frames is finite, and whose frame cap is the
    stream's max_frames exactly when that is finite. *)
Theorem setup_sync_queues_registers
    (w : World) (mux : Muxer) (buf_size_us_ : Z) :
  let l := streams (of_ mux) in
  let shortest_ := shortest (of_ mux) in
  let n :=
    List.length (filter (fun o => IS_INTERLEAVED (codec_type o)) l) in
  Forall (fun o => max_frames o <= INT64_MAX) l ->
  ((shortest_ && (1 <? n)%nat)
   || ((0 <? n)%nat && existsb (fun o => max_frames o <? INT64_MAX) l)
   = false ->
   setup_sync_queues alloc w mux buf_size_us_
   = (0, w,
      mkMuxer
        (mkOutputFile (map reset_sq_idx l) shortest_ (sq_encode (of_ mux)))
        (sq_mux mux) (sq_pkt mux))
   /\ Forall (fun o' => sq_idx_encode o' = -1 /\ sq_idx_mux o' = -1)
        (map reset_sq_idx l))
  /\ forall (w' : World) (mux' : Muxer),
       setup_sync_queues alloc w mux buf_size_us_ = (0, w', mux') ->
       Forall2
         (fun o o' =>
            Spec.same_config o o'
            /\ Spec.registered shortest_ (sq_encode (of_ mux'))
                 (sq_idx_encode o') o
            /\ Spec.registered shortest_ (sq_mux mux') (sq_idx_mux o') o)
         l (streams (of_ mux')).
Proof.
  cbv zeta. intros Hmax. split.
  - intros Hgate. unfold setup_sync_queues.
    rewrite wants_sync_queues_streams, Hgate. cbn [negb]. split;
      [reflexivity|].
    apply Forall_forall. intros o' Hin. apply in_map_iff in Hin.
    destruct Hin as (o & <- & _). split; reflexivity.
  - intros w' mux' Hrun. unfold setup_sync_queues in Hrun.
    pose proof (reset_sq_idx_streams (streams (of_ mux))) as H0.
    set (l0 := map reset_sq_idx (streams (of_ mux))) in *.
    assert (Hmax0 : Forall (fun o => max_frames o <= INT64_MAX) l0).
    { apply (Forall_same_config _ _ _ (fun _ _ H => proj1 H) H0 Hmax). }
    destruct (wants_sync_queues _ _); cbn [negb] in Hrun.
    2:{ injection Hrun as _ <-. cbn [of_ streams sq_encode sq_mux].
        eapply Forall2_impl; [|exact H0].
        intros o o' (Hc & He & Hm). rewrite He, Hm.
        split; [exact Hc|]. split; left; reflexivity. }
    set (sh := shortest (of_ mux)) in *.
    (* the queue in front of the encoders *)
    assert (Henc : exists w1 q1 l1,
      (let '(early, w1', mux1) :=
         (None : option Z, w1,
          mkMuxer (mkOutputFile l1 sh q1) (sq_mux mux) (sq_pkt mux)) in
       match early with
       | Some ret => (ret, w1', mux1)
       | None =>
           if nb_interleaved
                (fold_left count_stream (streams (of_ mux))
                   (mkCounts 0 0 false false))
              >? nb_av_enc
                   (fold_left count_stream (streams (of_ mux))
                      (mkCounts 0 0 false false))
           then
             match sq_alloc alloc w1' SYNC_QUEUE_PACKETS buf_size_us_ with
             | (w2, None) =>
                 (AVERROR ENOMEM, w2, mkMuxer (of_ mux1) None (sq_pkt mux1))
             | (w2, Some sq) =>
                 let mux2 := mkMuxer (of_ mux1) (Some sq) (sq_pkt mux1) in
                 let '(w3, ok) := alloc w2 in
                 if negb ok
                 then (AVERROR ENOMEM, w3, mkMuxer (of_ mux1) (Some sq) false)
                 else
                   let '(r, w4, sq1, l2) :=
                     add_mux_streams alloc sh w3 sq (streams (of_ mux2)) in
                   (match r with Some ret => ret | None => 0 end, w4,
                    mkMuxer (mkOutputFile l2 sh (sq_encode (of_ mux2)))
                      (Some sq1) true)
             end
           else (0, w1', mux1)
       end) = (0, w', mux')
      /\ Forall2
           (fun o o' =>
              Spec.same_config o o' /\ sq_idx_mux o' = -1
              /\ Spec.registered sh q1 (sq_idx_encode o') o)
           (streams (of_ mux)) l1).
    { destruct ((sh && (nb_av_enc _ >? 1)) || limit_frames_av_enc _).
      - unfold sq_alloc at 1 in Hrun. destruct (alloc w) as [w1 ok].
        destruct ok; [|discriminate].
        destruct (add_encode_streams alloc sh w1
                    (mkSq SYNC_QUEUE_FRAMES buf_size_us_ []) l0)
          as [[[r w2] sq1] l1] eqn:E.
        destruct r as [ret|].
        { apply add_encode_streams_early in E. injection Hrun as -> _ _. lia. }
        destruct (add_encode_streams_done _ _ _ _ _ _ _ Hmax0 E) as (_ & Hf).
        exists w2, (Some sq1), l1. split; [exact Hrun|].
        eapply Forall2_compose; [|exact H0|exact Hf].
        intros a b c (Hab & He & Hm) (Hbc & Hm' & Hreg).
        destruct (same_config_entry sh _ _ Hab) as (Hq & Hav & _ & _).
        split; [|split].
        + destruct Hab as (A1 & A2 & A3), Hbc as (B1 & B2 & B3).
          repeat split; congruence.
        + congruence.
        + rewrite Hav in Hreg. destruct (IS_AV_ENC a).
          * right. destruct Hreg as [Hge Hn]. split; [exact Hge|].
            exists sq1. split; [reflexivity|]. rewrite Hn, Hq. reflexivity.
          * left. congruence.
      - exists w, (sq_encode (of_ mux)), l0. split; [exact Hrun|].
        eapply Forall2_impl; [|exact H0].
        intros o o' (Hc & He & Hm). rewrite He.
        split; [exact Hc|]. split; [exact Hm|]. left. reflexivity. }
    clear Hrun. destruct Henc as (w1 & q1 & l1 & Hrun & H1).
    cbn [of_ streams sq_encode sq_pkt] in Hrun.
    assert (Hmax1 : Forall (fun o => max_frames o <= INT64_MAX) l1).
    { apply (Forall_same_config _ _ _ (fun _ _ H => proj1 H) H1 Hmax). }
    destruct (nb_interleaved _ >? nb_av_enc _).
    2:{ injection Hrun as _ <-. cbn [of_ streams sq_encode sq_mux].
        eapply Forall2_impl; [|exact H1].
        intros o o' (Hc & Hm & He). rewrite Hm.
        split; [exact Hc|]. split; [exact He|]. left. reflexivity. }
    unfold sq_alloc in Hrun. destruct (alloc w1) as [w2 ok].
    destruct ok; [|discriminate].
    destruct (alloc w2) as [w3 ok3]. destruct ok3; cbn [negb] in Hrun;
      [|discriminate].
    destruct (add_mux_streams alloc sh w3
                (mkSq SYNC_QUEUE_PACKETS buf_size_us_ []) l1)
      as [[[r w4] sq1] l2] eqn:E.
    destruct r as [ret|].
    { apply add_mux_streams_early in E. injection Hrun as -> _ _. lia. }
    destruct (add_mux_streams_done _ _ _ _ _ _ _ Hmax1 E) as (_ & Hf).
    injection Hrun as _ <-. cbn [of_ streams sq_encode sq_mux].
    eapply Forall2_compose; [|exact H1|exact Hf].
    intros a b c (Hab & Hm & He) (Hbc & He' & Hreg).
    destruct (same_config_entry sh _ _ Hab) as (Hq & _ & Hint & _).
    split; [|split].
    + destruct Hab as (A1 & A2 & A3), Hbc as (B1 & B2 & B3).
      repeat split; congruence.
    + rewrite He'. exact He.
    + rewrite Hint in Hreg. destruct (IS_INTERLEAVED (codec_type a)).
      * right. destruct Hreg as [Hge Hn]. split; [exact Hge|].
        exists sq1. split; [reflexivity|]. rewrite Hn, Hq. reflexivity.
      * left. congruence.
Qed.

End OutputSetUp.

(** An encoded video stream limited to 100 frames next to a copied audio
    stream: both queues are created. *)
Lemma setup_sync_queues_registers_witness :
  let r := MuxInit.setup_sync_queues Examples.alloc_ok O
             Examples.muxer_video_limit 10000000 in
  Forall2
    (fun o o' =>
       Spec.same_config o o'
       /\ Spec.registered false (MuxInit.sq_encode (MuxInit.of_ (snd r)))
            (MuxInit.sq_idx_encode o') o
       /\ Spec.registered false (MuxInit.sq_mux (snd r))
            (MuxInit.sq_idx_mux o') o)
    (MuxInit.streams (MuxInit.of_ Examples.muxer_video_limit))
    (MuxInit.streams (MuxInit.of_ (snd r))).
Proof.
  cbv zeta.
  assert (Hmax : Forall (fun o => MuxInit.max_frames o <= INT64_MAX)
                   (MuxInit.streams
                      (MuxInit.of_ Examples.muxer_video_limit))).
  { repeat constructor; cbn; unfold INT64_MAX; lia. }
  apply (proj2 (setup_sync_queues_registers nat Examples.alloc_ok O
                  Examples.muxer_video_limit 10000000 Hmax)
           (snd (fst (MuxInit.setup_sync_queues Examples.alloc_ok O
                        Examples.muxer_video_limit 10000000)))).
  reflexivity.
Defined.

(** C10 as stated fails when the only frame limit sits on an
    attachment: shortest is not set and no interleaved stream has a finite
    max_frames, yet the queue in front of the muxer is allocated and the
    copied video stream joins it with index 0. *)
Lemma attachment_limit_counterexample :
  let mux := Examples.muxer_attachment_limit in
  let r := MuxInit.setup_sync_queues Examples.alloc_ok O mux 10000000 in
  Spec.may_create_queues (MuxInit.shortest (MuxInit.of_ mux))
    (MuxInit.streams (MuxInit.of_ mux)) = false
  /\ fst (fst r) = 0
  /\ snd (fst r) = 3%nat
  /\ MuxInit.sq_mux (snd r)
     = Some (MuxInit.mkSq MuxInit.SYNC_QUEUE_PACKETS 10000000
               [MuxInit.mkSqStream false None])
  /\ map MuxInit.sq_idx_mux (MuxInit.streams (MuxInit.of_ (snd r)))
     = [0; -1].
Proof.
  cbv zeta. repeat split; reflexivity.
Qed.

(** * Further properties of the three units *)

(** ** Decoder stage: frames, flushing and subtitles *)
Section DecoderCalls.
Context {U : LibAVUtil}.
Import Dec.

Variable input_files : list InputFile.
Variable exit_on_error : bool.
Variable indeterminate : Z.
Variable W : Type.
Variable avcodec_send_packet   : W -> option AVPacket -> W * Z.
Variable avcodec_receive_frame : W -> W * Z * AVFrame.
Variable codec_frame_num       : W -> Z.
Variable av_buffer_allocz_ok   : W -> bool.
Variable hwaccel_retrieve_data_cb : W -> AVFrame -> W * Z * AVFrame.
Variable ifilter_send_frame    : W -> Z -> AVFrame -> bool -> W * Z.
Variable ifilter_send_eof      : W -> Z -> Z -> AVRational -> W * Z.
Variable avcodec_decode_subtitle2 : W -> AVPacket -> W * Z * AVSubtitle * Z.
Variable sub2video_frame          : W -> bool.
Variable sub2video_end_pts        : W -> Z.
Variable sub2video_update         : W -> Z -> option AVSubtitle -> W.
Variable av_buffersrc_add_frame   : W -> Z -> W * Z.
Variable av_fifo_alloc2_ok        : W -> bool.
Variable av_fifo_write            : W -> AVSubtitle -> W * Z.
Variable enc_subtitle             : W -> Z -> nat -> AVSubtitle -> W.
Variable avsubtitle_free          : W -> AVSubtitle -> W.


Lemma send_frame_loop_offers (frame : AVFrame) (n : nat) :
  forall (i ret : Z) (s : State W),
    0 <= i -> i + Z.of_nat n = nb_filters (ist s) ->
    let r := send_frame_loop W ifilter_send_frame n i ret s frame in
    exists k : nat,
      (k <= n)%nat
      /\ calls (snd r)
         = rev (Props.frame_offers (nb_filters (ist s)) frame i k) ++ calls s
      /\ ist (snd r) = ist s
      /\ (0 <= fst r -> k = n)
      /\ ((0 < n)%nat \/ ret <> AVERROR_EOF -> fst r <> AVERROR_EOF).
Proof.
  induction n as [|n IH]; intros i ret s Hi Hn; cbv zeta.
  - exists O. cbn. split; [lia|]. split; [reflexivity|].
    split; [reflexivity|]. split; [reflexivity|].
    intros [H|H]; [lia|exact H].
  - cbn [send_frame_loop].
    destruct (ifilter_send_frame (world s) i frame _) as [w r] eqn:Ecall.
    assert (Hkeep : (i <? nb_filters (ist s) - 1)
                    = negb (i =? nb_filters (ist s) - 1)).
    { destruct (Z.ltb_spec i (nb_filters (ist s) - 1));
        destruct (Z.eqb_spec i (nb_filters (ist s) - 1)); cbn; lia. }
    set (r1 := if r =? AVERROR_EOF then 0 else r).
    assert (Hr1 : r1 <> AVERROR_EOF).
    { unfold r1. destruct (Z.eqb_spec r AVERROR_EOF);
        [unfold AVERROR_EOF; lia | assumption]. }
    destruct (Z.ltb_spec r1 0) as [Hlt|Hge].
    + exists 1%nat. cbn [fst snd calls called ist Props.frame_offers rev app].
      rewrite <- Hkeep. split; [lia|]. split; [reflexivity|].
      split; [reflexivity|]. split; [lia|]. intros _. exact Hr1.
    + destruct (IH (i + 1) r1
                  (called s (Call_ifilter_send_frame i frame
                               (i <? nb_filters (ist s) - 1)) w))
        as (k & Hk & Hc & Hi' & Hall & Heof).
      * lia.
      * cbn [called ist]. lia.
      * exists (S k). cbn [called ist calls] in Hc, Hi'.
        cbn [Props.frame_offers rev]. rewrite <- Hkeep, Hc, <- app_assoc.
        split; [lia|]. split; [reflexivity|]. split; [exact Hi'|].
        split.
        -- intros H. apply Hall in H. lia.
        -- intros _. apply Heof. right. exact Hr1.
Qed.

Lemma send_frame_to_filters_effect (s : State W) (frame : AVFrame) :
  let r := send_frame_to_filters indeterminate W ifilter_send_frame s frame in
  exists k : nat,
    (k <= Z.to_nat (nb_filters (ist s)))%nat
    /\ calls (snd r)
       = rev (Props.frame_offers (nb_filters (ist s)) frame 0 k) ++ calls s
    /\ ist (snd r) = ist s
    /\ (0 <= fst r -> k = Z.to_nat (nb_filters (ist s))).
Proof.
  cbv zeta. unfold send_frame_to_filters.
  destruct (Z.le_gt_cases (nb_filters (ist s)) 0) as [Hle|Hgt].
  - replace (Z.to_nat (nb_filters (ist s))) with O by lia.
    exists O. cbn. repeat split; lia.
  - destruct (send_frame_loop_offers frame (Z.to_nat (nb_filters (ist s)))
                0 indeterminate s) as (k & Hk & Hc & Hi & Hall & _);
      [lia | lia |].
    exists k. auto.
Qed.


(** X3: for a stream with at least one filter, [send_frame_to_filters]
    never returns AVERROR_EOF: a filter that has finished does not stop the
    decoder. *)
Theorem send_frame_to_filters_hides_eof (s : State W) (frame : AVFrame) :
  0 < nb_filters (ist s) ->
  fst (send_frame_to_filters indeterminate W ifilter_send_frame s frame)
  <> AVERROR_EOF.
Proof.
  intros Hgt. unfold send_frame_to_filters.
  destruct (send_frame_loop_offers frame (Z.to_nat (nb_filters (ist s)))
              0 indeterminate s) as (k & _ & _ & _ & _ & Heof);
    [lia | lia |].
  apply Heof. left. lia.
Qed.

Lemma send_filter_eof_loop_offers (n : nat) :
  forall (i : Z) (s : State W),
    let end_pts :=
      if last_frame_pts (ist s) =? AV_NOPTS_VALUE then AV_NOPTS_VALUE
      else int64 (last_frame_pts (ist s) + last_frame_duration_est (ist s)) in
    let r := send_filter_eof_loop W ifilter_send_eof n i s in
    exists k : nat,
      (k <= n)%nat
      /\ calls (snd r)
         = rev (Props.eof_offers end_pts (last_frame_tb (ist s)) i k)
           ++ calls s
      /\ ist (snd r) = ist s
      /\ fst r <= 0
      /\ (fst r = 0 -> k = n).
Proof.
  induction n as [|n IH]; intros i s; cbv zeta.
  - exists O. cbn. repeat split; lia.
  - cbn [send_filter_eof_loop].
    destruct (ifilter_send_eof (world s) i _ _) as [w r].
    destruct (Z.ltb_spec r 0) as [Hlt|Hge].
    + exists 1%nat. cbn. repeat split; lia.
    + match goal with
      | |- context [send_filter_eof_loop W ifilter_send_eof n (i + 1) ?t] =>
          destruct (IH (i + 1) t) as (k & Hk & Hc & Hi & Hle & Hall)
      end.
      exists (S k). cbn [called ist calls] in Hc, Hi.
      cbn [Props.eof_offers rev]. rewrite Hc, <- app_assoc.
      repeat split; auto; lia.
Qed.


(** X5: once [audio_samplerate_update] has seen a frame, a further frame
    with the same sample rate changes nothing: the internal time base and
    the timestamp history stay as the first frame left them. *)
Theorem audio_samplerate_update_stable
    (ist : InputStream) (frame next : AVFrame) :
  sample_rate next = sample_rate frame ->
  audio_samplerate_update (fst (audio_samplerate_update ist frame)) next
  = audio_samplerate_update ist frame.
Proof.
  intros Hsr. unfold audio_samplerate_update at 2 3.
  destruct (sample_rate frame =? last_frame_sample_rate ist) eqn:E.
  - cbn [fst]. unfold audio_samplerate_update. rewrite Hsr, E. reflexivity.
  - cbn [fst]. unfold audio_samplerate_update at 1.
    cbn [last_frame_sample_rate set_last_frame_sample_rate].
    rewrite Hsr, Z.eqb_refl. reflexivity.
Qed.

Ltac split_ifs :=
  repeat match goal with
         | |- context [if ?c then _ else _] => destruct c
         | |- context [match ?x with Some _ => _ | None => _ end] => destruct x
         end.

Lemma check_decode_result_calls (s : State W) (frame : AVFrame)
    (got : bool) (ret : Z) :
  calls (snd (check_decode_result exit_on_error W s frame got ret)) = calls s.
Proof. unfold check_decode_result. split_ifs; reflexivity. Qed.

Lemma flush_filters_no_eof (n : nat) :
  forall (i : Z) (s : State W),
    filter Props.is_filter_eof
      (calls (flush_filters W av_buffersrc_add_frame n i s))
    = filter Props.is_filter_eof (calls s).
Proof.
  induction n as [|n IH]; intros i s; cbn [flush_filters]; [reflexivity|].
  destruct (av_buffersrc_add_frame (world s) i) as [w r].
  rewrite IH. reflexivity.
Qed.

Lemma sub2video_flush_no_eof (s : State W) :
  filter Props.is_filter_eof
    (calls (sub2video_flush W sub2video_end_pts sub2video_update
              av_buffersrc_add_frame s))
  = filter Props.is_filter_eof (calls s).
Proof.
  unfold sub2video_flush. rewrite flush_filters_no_eof.
  split_ifs; reflexivity.
Qed.

Lemma encode_subtitle_no_eof (sub : AVSubtitle) (l : list OutputStream) :
  forall (oidx : nat) (s : State W),
    filter Props.is_filter_eof
      (calls (encode_subtitle W enc_subtitle l oidx s sub))
    = filter Props.is_filter_eof (calls s).
Proof.
  induction l as [|ost rest IH]; intros oidx s; cbn [encode_subtitle];
    [reflexivity|].
  rewrite IH. split_ifs; reflexivity.
Qed.

Lemma process_subtitle_no_eof (s : State W) (sub : AVSubtitle) (got : Z) :
  filter Props.is_filter_eof
    (calls (snd (fst (fst (process_subtitle sub2video_frame sub2video_update
                             av_fifo_alloc2_ok av_fifo_write enc_subtitle
                             avsubtitle_free s sub got)))))
  = filter Props.is_filter_eof (calls s).
Proof.
  unfold process_subtitle, process_subtitle_out.
  destruct (truthy (fix_sub_duration (ist s))); cbn [andb];
    repeat match goal with
           | |- context [av_fifo_write ?w ?x] =>
               destruct (av_fifo_write w x) as [? ?]
           | |- context [if ?c then _ else _] => destruct c
           end;
    cbn [fst snd calls called with_ist filter Props.is_filter_eof];
    rewrite ?encode_subtitle_no_eof; reflexivity.
Qed.

Lemma send_frame_loop_no_eof (frame : AVFrame) (n : nat) :
  forall (i ret : Z) (s : State W),
    filter Props.is_filter_eof
      (calls (snd (send_frame_loop W ifilter_send_frame n i ret s frame)))
    = filter Props.is_filter_eof (calls s).
Proof.
  induction n as [|n IH]; intros i ret s; cbn [send_frame_loop];
    [reflexivity|].
  destruct (ifilter_send_frame (world s) i frame _) as [w r].
  destruct (_ <? 0); [reflexivity|]. rewrite IH. reflexivity.
Qed.

Lemma decode_audio_no_eof (s : State W) (frame : AVFrame) :
  filter Props.is_filter_eof
    (calls (snd (decode_audio indeterminate ifilter_send_frame s frame)))
  = filter Props.is_filter_eof (calls s).
Proof.
  unfold decode_audio, send_frame_to_filters.
  destruct (audio_ts_process _ frame) as [i3 fr].
  match goal with
  | |- context [send_frame_loop W ifilter_send_frame ?n ?i ?r ?t ?f] =>
      pose proof (send_frame_loop_no_eof f n i r t) as H;
      destruct (send_frame_loop W ifilter_send_frame n i r t f) as [e s1]
  end.
  exact H.
Qed.

Lemma decode_video_no_eof (s : State W) (frame : AVFrame) :
  filter Props.is_filter_eof
    (calls (snd (decode_video input_files indeterminate
                   hwaccel_retrieve_data_cb ifilter_send_frame s frame)))
  = filter Props.is_filter_eof (calls s).
Proof.
  unfold decode_video, send_frame_to_filters.
  repeat match goal with
         | |- context [hwaccel_retrieve_data_cb ?w ?x] =>
             destruct (hwaccel_retrieve_data_cb w x) as [[? ?] ?]
         | |- context [send_frame_loop W ifilter_send_frame ?n ?i ?r ?t ?f] =>
             pose proof (send_frame_loop_no_eof f n i r t);
             destruct (send_frame_loop W ifilter_send_frame n i r t f)
         | |- context [if ?c then _ else _] => destruct c
         end; cbn [fst snd] in *; try reflexivity; assumption.
Qed.

Lemma receive_frames_no_eof (pkt : option AVPacket) (fuel : nat) :
  forall s : State W,
    filter Props.is_filter_eof
      (calls (snd (receive_frames input_files exit_on_error indeterminate
                     avcodec_receive_frame codec_frame_num
                     av_buffer_allocz_ok hwaccel_retrieve_data_cb
                     ifilter_send_frame ifilter_send_eof fuel pkt true s)))
    = filter Props.is_filter_eof (calls s).
Proof.
  induction fuel as [|fuel IH]; intros s; cbn [receive_frames];
    [reflexivity|].
  destruct (avcodec_receive_frame (world s)) as [[w ret] frame].
  set (s1 := called s Call_avcodec_receive_frame w).
  assert (H1 : filter Props.is_filter_eof (calls s1)
               = filter Props.is_filter_eof (calls s)) by reflexivity.
  rewrite <- H1. clearbody s1. clear H1.
  assert (Hchk : forall leaves s2,
            (if negb (ret =? AVERROR_EOF) && negb (ret =? AVERROR EAGAIN)
             then check_decode_result exit_on_error W s1 frame (ret >=? 0) ret
             else (None, s1)) = (leaves, s2) ->
            calls s2 = calls s1).
  { intros leaves s2 H.
    destruct (negb (ret =? AVERROR_EOF) && negb (ret =? AVERROR EAGAIN)).
    - rewrite <- (check_decode_result_calls s1 frame (ret >=? 0) ret), H.
      reflexivity.
    - injection H as _ <-. reflexivity. }
  destruct (if negb (ret =? AVERROR_EOF) && negb (ret =? AVERROR EAGAIN)
            then _ else _) as [leaves s2].
  specialize (Hchk leaves s2 eq_refl). rewrite <- Hchk. clear Hchk.
  destruct leaves; [reflexivity|].
  destruct (ret =? AVERROR EAGAIN). { destruct pkt; reflexivity. }
  destruct (ret =? AVERROR_EOF). { reflexivity. }
  destruct (ret <? 0). { destruct exit_on_error; reflexivity. }
  destruct (want_frame_data (ist s2)).
  - destruct (opaque_ref frame); [reflexivity|].
    destruct (av_buffer_allocz_ok (world s2)); [|reflexivity].
    destruct (AVMediaType_eqb _ AVMEDIA_TYPE_AUDIO).
    + match goal with
      | |- context [decode_audio indeterminate ifilter_send_frame ?t ?f] =>
          pose proof (decode_audio_no_eof t f) as H;
          destruct (decode_audio indeterminate ifilter_send_frame t f)
            as [r s3]
      end.
      cbn [snd] in H. rewrite <- H.
      destruct (r <? 0); [reflexivity|apply IH].
    + match goal with
      | |- context [decode_video input_files indeterminate ?h ?g ?t ?f] =>
          pose proof (decode_video_no_eof t f) as H;
          destruct (decode_video input_files indeterminate h g t f)
            as [r s3]
      end.
      cbn [snd] in H. rewrite <- H.
      destruct (r <? 0); [reflexivity|apply IH].
  - destruct (AVMediaType_eqb _ AVMEDIA_TYPE_AUDIO).
    + match goal with
      | |- context [decode_audio indeterminate ifilter_send_frame ?t ?f] =>
          pose proof (decode_audio_no_eof t f) as H;
          destruct (decode_audio indeterminate ifilter_send_frame t f)
            as [r s3]
      end.
      cbn [snd] in H. rewrite <- H.
      destruct (r <? 0); [reflexivity|apply IH].
    + match goal with
      | |- context [decode_video input_files indeterminate ?h ?g ?t ?f] =>
          pose proof (decode_video_no_eof t f) as H;
          destruct (decode_video input_files indeterminate h g t f)
            as [r s3]
      end.
      cbn [snd] in H. rewrite <- H.
      destruct (r <? 0); [reflexivity|apply IH].
Qed.

Lemma transcode_subtitles_no_eof (s : State W) (pkt : AVPacket) :
  filter Props.is_filter_eof
    (calls (snd (transcode_subtitles exit_on_error avcodec_decode_subtitle2
                   sub2video_frame sub2video_end_pts sub2video_update
                   av_buffersrc_add_frame av_fifo_alloc2_ok av_fifo_write
                   enc_subtitle avsubtitle_free s pkt)))
  = filter Props.is_filter_eof (calls s).
Proof.
  unfold transcode_subtitles.
  destruct (avcodec_decode_subtitle2 (world s) pkt) as [[[w ret] sub] got].
  destruct ((ret <? 0) && exit_on_error); [reflexivity|].
  match goal with
  | |- context [check_decode_result exit_on_error W ?t ?f ?g ?r] =>
      pose proof (check_decode_result_calls t f g r) as H;
      destruct (check_decode_result exit_on_error W t f g r) as [leaves s2]
  end.
  cbn [snd called calls] in H.
  destruct leaves; [cbn [snd]; rewrite H; reflexivity|].
  destruct ((ret <? 0) || negb (truthy got)).
  - cbn [snd]. destruct (size pkt =? 0);
      rewrite ?sub2video_flush_no_eof, H; reflexivity.
  - match goal with
    | |- context [process_subtitle ?a ?b ?c ?d ?e ?g ?t ?x ?y] =>
        pose proof (process_subtitle_no_eof t x y) as Hp;
        destruct (process_subtitle a b c d e g t x y) as [[[o s4] x1] g1]
    end.
    cbn [fst snd with_ist calls] in *. rewrite Hp, H. reflexivity.
Qed.




Lemma send_filter_eof_accepted (n : nat) :
  (forall w i e tb, 0 <= snd (ifilter_send_eof w i e tb)) ->
  forall (i : Z) (s : State W),
    let end_pts :=
      if last_frame_pts (ist s) =? AV_NOPTS_VALUE then AV_NOPTS_VALUE
      else int64 (last_frame_pts (ist s) + last_frame_duration_est (ist s)) in
    let r := send_filter_eof_loop W ifilter_send_eof n i s in
    fst r = 0
    /\ calls (snd r)
       = rev (Props.eof_offers end_pts (last_frame_tb (ist s)) i n) ++ calls s
    /\ ist (snd r) = ist s.
Proof.
  intros Hok. induction n as [|n IH]; intros i s; cbv zeta.
  - cbn. auto.
  - cbn [send_filter_eof_loop].
    match goal with
    | |- context [ifilter_send_eof ?w ?j ?e ?t] =>
        pose proof (Hok w j e t) as Hr;
        destruct (ifilter_send_eof w j e t) as [w1 r]
    end.
    cbn [snd] in Hr. destruct (Z.ltb_spec r 0); [lia|].
    match goal with
    | |- context [send_filter_eof_loop W ifilter_send_eof n (i + 1) ?t] =>
        destruct (IH (i + 1) t) as (H0 & Hc & Hi)
    end.
    cbn [called ist calls] in Hc, Hi.
    cbn [Props.eof_offers rev]. rewrite Hc, <- app_assoc. auto.
Qed.

(** X8: when an audio or video decoder is flushed ([dec_packet] without a
    packet), the codec accepts the flush (or has been flushed before) and
    has no frame left, then [dec_packet] returns AVERROR_EOF after exactly
    these calls: the flush, one attempt to read a frame and, unless
    [no_eof] is set, one end-of-stream notification for each filter of the
    stream (the filters taking them). *)
Theorem dec_packet_flush_drains
    (fuel : nat) (s : State W) (no_eof : bool) (w1 w2 : W) (r1 : Z)
    (frame : AVFrame) :
  codec_type (dec_ctx (ist s)) <> AVMEDIA_TYPE_SUBTITLE ->
  avcodec_send_packet (world s) None = (w1, r1) ->
  0 <= r1 \/ r1 = AVERROR_EOF ->
  avcodec_receive_frame w1 = (w2, AVERROR_EOF, frame) ->
  (forall w i e tb, 0 <= snd (ifilter_send_eof w i e tb)) ->
  let end_pts :=
    if last_frame_pts (ist s) =? AV_NOPTS_VALUE then AV_NOPTS_VALUE
    else int64 (last_frame_pts (ist s) + last_frame_duration_est (ist s)) in
  let r := dec_packet input_files exit_on_error indeterminate
             avcodec_send_packet avcodec_receive_frame codec_frame_num
             av_buffer_allocz_ok hwaccel_retrieve_data_cb
             ifilter_send_frame ifilter_send_eof
             avcodec_decode_subtitle2 sub2video_frame
             sub2video_end_pts sub2video_update av_buffersrc_add_frame
             av_fifo_alloc2_ok av_fifo_write enc_subtitle
             avsubtitle_free (S fuel) s None no_eof in
  fst r = Returns AVERROR_EOF
  /\ ist (snd r) = ist s
  /\ calls (snd r)
     = (if no_eof then []
        else rev (Props.eof_offers end_pts (last_frame_tb (ist s)) 0
                    (Z.to_nat (nb_filters (ist s)))))
       ++ Call_avcodec_receive_frame :: Call_avcodec_send_packet None
       :: calls s.
Proof.
  intros Hty Hsend Hr1 Hrecv Hok. cbv zeta. unfold dec_packet.
  assert (Ens : AVMediaType_eqb (codec_type (dec_ctx (ist s)))
                  AVMEDIA_TYPE_SUBTITLE = false).
  { destruct (codec_type (dec_ctx (ist s))); try reflexivity.
    contradiction. }
  rewrite Ens, Hsend.
  assert (Eg : (r1 <? 0) && negb ((r1 =? AVERROR_EOF) && true) = false).
  { destruct Hr1 as [H| ->]; [|reflexivity].
    destruct (Z.ltb_spec r1 0); [lia|reflexivity]. }
  rewrite Eg. cbn [receive_frames called world]. rewrite Hrecv.
  cbn [negb andb Z.eqb AVERROR_EOF AVERROR EAGAIN Z.opp Pos.eqb].
  destruct no_eof; cbn [negb].
  - cbn. auto.
  - unfold send_filter_eof.
    match goal with
    | |- context [send_filter_eof_loop W ifilter_send_eof ?n ?i ?t] =>
        destruct (send_filter_eof_accepted n Hok i t) as (H0 & Hc & Hi);
        destruct (send_filter_eof_loop W ifilter_send_eof n i t) as [r s3]
    end.
    cbn [fst snd called ist calls] in *. subst r. cbn. auto.
Qed.

Lemma receive_frames_flush_fails (no_eof : bool) (fuel : nat) :
  forall s : State W,
    match fst (receive_frames input_files exit_on_error indeterminate
                 avcodec_receive_frame codec_frame_num
                 av_buffer_allocz_ok hwaccel_retrieve_data_cb
                 ifilter_send_frame ifilter_send_eof fuel None no_eof s) with
    | Returns r => r < 0
    | _ => True
    end.
Proof.
  induction fuel as [|fuel IH]; intros s; cbn [receive_frames];
    [exact I|].
  destruct (avcodec_receive_frame (world s)) as [[w ret] frame].
  destruct (if negb (ret =? AVERROR_EOF) && negb (ret =? AVERROR EAGAIN)
            then _ else _) as [leaves s2].
  destruct leaves; [exact I|].
  destruct (ret =? AVERROR EAGAIN); [exact I|].
  destruct (ret =? AVERROR_EOF).
  { destruct no_eof; cbn [negb].
    - cbn. unfold AVERROR_EOF. lia.
    - destruct (send_filter_eof W ifilter_send_eof s2) as [r s3].
      destruct (r <? 0); cbn; [exact I|unfold AVERROR_EOF; lia]. }
  destruct (Z.ltb_spec ret 0).
  { destruct exit_on_error; cbn; [exact I|assumption]. }
  destruct (want_frame_data (ist s2)).
  - destruct (opaque_ref frame); [exact I|].
    destruct (av_buffer_allocz_ok (world s2)); [|exact I].
    destruct (if AVMediaType_eqb _ AVMEDIA_TYPE_AUDIO then _ else _)
      as [r s3].
    destruct (r <? 0); [exact I|apply IH].
  - destruct (if AVMediaType_eqb _ AVMEDIA_TYPE_AUDIO then _ else _)
      as [r s3].
    destruct (r <? 0); [exact I|apply IH].
Qed.

(** X9: flushing an audio or video decoder never returns a value that is
    not negative: [dec_packet] without a packet returns AVERROR_EOF or
    another failure, or does not return. *)
Theorem dec_packet_flush_never_succeeds
    (fuel : nat) (s : State W) (no_eof : bool) :
  codec_type (dec_ctx (ist s)) <> AVMEDIA_TYPE_SUBTITLE ->
  match fst (dec_packet input_files exit_on_error indeterminate
               avcodec_send_packet avcodec_receive_frame codec_frame_num
               av_buffer_allocz_ok hwaccel_retrieve_data_cb
               ifilter_send_frame ifilter_send_eof
               avcodec_decode_subtitle2 sub2video_frame
               sub2video_end_pts sub2video_update av_buffersrc_add_frame
               av_fifo_alloc2_ok av_fifo_write enc_subtitle
               avsubtitle_free fuel s None no_eof) with
  | Returns r => r < 0
  | Exits _ | Aborts | OutOfFuel => True
  end.
Proof.
  intros Hty. unfold dec_packet.
  assert (Ens : AVMediaType_eqb (codec_type (dec_ctx (ist s)))
                  AVMEDIA_TYPE_SUBTITLE = false).
  { destruct (codec_type (dec_ctx (ist s))); try reflexivity.
    contradiction. }
  rewrite Ens.
  destruct (avcodec_send_packet (world s) None) as [w ret].
  destruct (Z.ltb_spec ret 0); cbn [andb].
  - destruct (negb ((ret =? AVERROR_EOF) && true)).
    + destruct exit_on_error; cbn; [exact I|assumption].
    + apply receive_frames_flush_fails.
  - apply receive_frames_flush_fails.
Qed.

Lemma audio_samplerate_update_counters (i : InputStream) (frame : AVFrame) :
  let i' := fst (audio_samplerate_update i frame) in
  samples_decoded i' = samples_decoded i
  /\ frames_decoded i' = frames_decoded i
  /\ decode_errors i' = decode_errors i
  /\ nb_filters i' = nb_filters i.
Proof.
  cbv zeta. unfold audio_samplerate_update.
  destruct (_ =? last_frame_sample_rate i); [auto|].
  destruct (negb (last_frame_pts i =? AV_NOPTS_VALUE)); cbn; auto.
Qed.

Lemma audio_ts_process_counters (i : InputStream) (frame : AVFrame) :
  let r := audio_ts_process i frame in
  samples_decoded (fst r) = samples_decoded i
  /\ frames_decoded (fst r) = frames_decoded i
  /\ decode_errors (fst r) = decode_errors i
  /\ nb_filters (fst r) = nb_filters i
  /\ nb_samples (snd r) = nb_samples frame.
Proof.
  cbv zeta. unfold audio_ts_process.
  pose proof (audio_samplerate_update_counters i frame) as H.
  cbv zeta in H.
  destruct (audio_samplerate_update i frame) as [i1 tb]. cbn [fst] in H.
  destruct H as (H1 & H2 & H3 & H4).
  unfold audio_ts_predict.
  destruct (pts frame =? AV_NOPTS_VALUE).
  - unfold audio_ts_rescale.
    destruct (av_rescale_delta _ _ _ _ _ _) as [p l]. cbn. auto.
  - destruct (_ && _); unfold audio_ts_rescale;
      destruct (av_rescale_delta _ _ _ _ _ _) as [p l]; cbn; auto.
Qed.

(** X10: [decode_audio] counts every frame and its samples, whether or
    not the filters take the frame: samples_decoded grows by the frame's
    nb_samples and frames_decoded by one (as 64-bit unsigned numbers),
    nb_samples records the frame's, and decode_errors is not touched. *)
Theorem decode_audio_counts_frame (s : State W) (frame : AVFrame) :
  let r := decode_audio indeterminate ifilter_send_frame s frame in
  samples_decoded (ist (snd r))
  = uint64 (samples_decoded (ist s) + nb_samples frame)
  /\ frames_decoded (ist (snd r)) = uint64 (frames_decoded (ist s) + 1)
  /\ ist_nb_samples (ist (snd r)) = nb_samples frame
  /\ decode_errors (ist (snd r)) = decode_errors (ist s).
Proof.
  cbv zeta. unfold decode_audio.
  match goal with
  | |- context [audio_ts_process ?i ?f] =>
      pose proof (audio_ts_process_counters i f) as H;
      destruct (audio_ts_process i f) as [i3 fr]
  end.
  cbv zeta in H. cbn [fst snd] in H. destruct H as (H1 & H2 & H3 & H4 & H5).
  match goal with
  | |- context [send_frame_to_filters indeterminate W ifilter_send_frame
                  ?t ?f] =>
      destruct (send_frame_to_filters_effect t f) as (k & _ & _ & Hi & _);
      destruct (send_frame_to_filters indeterminate W ifilter_send_frame t f)
        as [e s1]
  end.
  cbn [fst snd with_ist ist] in *. rewrite Hi. cbn. rewrite H1, H2, H3, H5.
  cbn. auto.
Qed.


Lemma encode_subtitle_calls (sub : AVSubtitle) (l : list OutputStream) :
  forall (oidx : nat) (s : State W),
    ist (encode_subtitle W enc_subtitle l oidx s sub) = ist s
    /\ exists new : list Call,
         calls (encode_subtitle W enc_subtitle l oidx s sub) = new ++ calls s
         /\ Forall (fun c => exists file o, c = Call_enc_subtitle file o sub)
              new.
Proof.
  induction l as [|ost rest IH]; intros oidx s; cbn [encode_subtitle].
  - split; [reflexivity|]. exists []. split; [reflexivity|constructor].
  - match goal with
    | |- context [encode_subtitle W enc_subtitle rest (S oidx) ?t sub] =>
        destruct (IH (S oidx) t) as (Hi & new & Hc & Hf); rewrite Hi, Hc
    end.
    destruct (negb (enc ost) || _).
    + split; [reflexivity|]. exists new. auto.
    + split; [reflexivity|]. cbn [called calls].
      eexists (new ++ [_]). rewrite <- app_assoc. split; [reflexivity|].
      apply Forall_app. split; [exact Hf|].
      constructor; [|constructor]. eexists. eexists. reflexivity.
Qed.

(** X11: with fix_sub_duration, [process_subtitle] delays subtitles by
    one: the subtitle handed in is stored as the previous one (with its
    got_output, and 0 as its result), and whatever the call passes on (to
    sub2video, the queue, the encoders or avsubtitle_free) is the previous
    subtitle, its pts and rectangles untouched and its end_display_time not
    larger than it was. *)
Theorem process_subtitle_fix_sub_duration
    (s : State W) (sub : AVSubtitle) (got : Z) :
  fix_sub_duration (ist s) <> 0 ->
  let prev := prev_sub_subtitle (ist s) in
  let r := process_subtitle sub2video_frame sub2video_update
             av_fifo_alloc2_ok av_fifo_write enc_subtitle avsubtitle_free
             s sub got in
  let s' := snd (fst (fst r)) in
  prev_sub_subtitle (ist s') = sub
  /\ prev_sub_got_output (ist s') = got
  /\ prev_sub_ret (ist s') = 0
  /\ exists new : list Call,
       calls s' = new ++ calls s
       /\ Forall (fun c =>
                    match Props.call_subtitle c with
                    | Some x =>
                        subtitle_pts x = subtitle_pts prev
                        /\ num_rects x = num_rects prev
                        /\ end_display_time x <= end_display_time prev
                    | None => True
                    end) new.
Proof.
  intros Hfix. cbv zeta. unfold process_subtitle.
  assert (Ht : truthy (fix_sub_duration (ist s)) = true).
  { unfold truthy. apply Z.eqb_neq in Hfix. rewrite Hfix. reflexivity. }
  rewrite Ht. cbn [andb].
  set (end_ := if truthy (prev_sub_got_output (ist s)) then _ else 1).
  set (shown := if truthy (prev_sub_got_output (ist s)) && _
                then _ else prev_sub_subtitle (ist s)).
  assert (Hshown : subtitle_pts shown = subtitle_pts (prev_sub_subtitle (ist s))
                   /\ num_rects shown = num_rects (prev_sub_subtitle (ist s))
                   /\ end_display_time shown
                      <= end_display_time (prev_sub_subtitle (ist s))).
  { unfold shown. destruct (truthy (prev_sub_got_output (ist s))); cbn [andb].
    - destruct (Z.ltb_spec (uint32 end_)
                  (end_display_time (prev_sub_subtitle (ist s))));
        cbn; repeat split; lia.
    - repeat split; lia. }
  clearbody shown end_.
  assert (Hone : forall c : Call,
            Props.call_subtitle c = Some shown ->
            match Props.call_subtitle c with
            | Some x =>
                subtitle_pts x = subtitle_pts (prev_sub_subtitle (ist s))
                /\ num_rects x = num_rects (prev_sub_subtitle (ist s))
                /\ end_display_time x
                   <= end_display_time (prev_sub_subtitle (ist s))
            | None => True
            end).
  { intros c ->. exact Hshown. }
  unfold process_subtitle_out.
  destruct (end_ <=? 0).
  { cbn. repeat split. eexists [_]. split; [reflexivity|].
    constructor; [|constructor]. apply Hone. reflexivity. }
  destruct (negb (truthy (prev_sub_got_output (ist s)))).
  { cbn. repeat split. exists []. split; [reflexivity|constructor]. }
  cbn [with_ist world ist].
  destruct (sub2video_frame (world s)).
  - destruct (negb (truthy (num_rects shown))).
    + cbn. repeat split. eexists [_; _]. split; [reflexivity|].
      constructor; [apply Hone; reflexivity|].
      constructor; [apply Hone; reflexivity|constructor].
    + match goal with
      | |- context [encode_subtitle W enc_subtitle ?l ?o ?t ?x] =>
          destruct (encode_subtitle_calls x l o t) as (Hi & new & Hc & Hf);
          set (e := encode_subtitle W enc_subtitle l o t x) in *; clearbody e
      end.
      cbn [called ist calls with_ist] in Hi, Hc.
      cbn [fst snd called ist calls]. rewrite Hi, Hc.
      repeat split. eexists (_ :: new ++ [_]).
      split; [cbn [app]; rewrite <- app_assoc; reflexivity|].
      constructor; [apply Hone; reflexivity|].
      apply Forall_app. split.
      * eapply Forall_impl; [|exact Hf]. intros c (fl & o & ->).
        apply Hone. reflexivity.
      * constructor; [apply Hone; reflexivity|constructor].
  - cbn [nb_filters set_prev_sub_subtitle set_prev_sub_ret
           set_prev_sub_got_output sub2video_sub_queue].
    destruct (truthy (nb_filters (ist s))).
    + destruct (negb (sub2video_sub_queue (ist s))
                && negb (av_fifo_alloc2_ok (world s))).
      { cbn. repeat split. exists []. split; [reflexivity|constructor]. }
      cbn [world with_ist].
      destruct (av_fifo_write (world s) shown) as [w r].
      destruct (r <? 0).
      { cbn. repeat split. eexists [_]. split; [reflexivity|].
        constructor; [apply Hone; reflexivity|constructor]. }
      destruct (negb (truthy (num_rects shown))).
      * cbn. repeat split. eexists [_]. split; [reflexivity|].
        constructor; [apply Hone; reflexivity|constructor].
      * match goal with
        | |- context [encode_subtitle W enc_subtitle ?l ?o ?t ?x] =>
            destruct (encode_subtitle_calls x l o t) as (Hi & new & Hc & Hf);
            set (e := encode_subtitle W enc_subtitle l o t x) in *;
            clearbody e
        end.
        cbn [called ist calls with_ist] in Hi, Hc.
        cbn [fst snd called ist calls with_ist]. rewrite Hi, Hc.
        repeat split. eexists (new ++ [_]).
        rewrite <- app_assoc. split; [reflexivity|].
        apply Forall_app. split.
        -- eapply Forall_impl; [|exact Hf]. intros c (fl & o & ->).
           apply Hone. reflexivity.
        -- constructor; [apply Hone; reflexivity|constructor].
    + destruct (negb (truthy (num_rects shown))).
      * cbn. repeat split. eexists [_]. split; [reflexivity|].
        constructor; [apply Hone; reflexivity|constructor].
      * match goal with
        | |- context [encode_subtitle W enc_subtitle ?l ?o ?t ?x] =>
            destruct (encode_subtitle_calls x l o t) as (Hi & new & Hc & Hf);
            set (e := encode_subtitle W enc_subtitle l o t x) in *;
            clearbody e
        end.
        cbn [called ist calls with_ist] in Hi, Hc.
        cbn [fst snd called ist calls with_ist]. rewrite Hi, Hc.
        repeat split. eexists (_ :: new).
        split; [reflexivity|].
        constructor; [apply Hone; reflexivity|].
        eapply Forall_impl; [|exact Hf]. intros c (fl & o & ->).
        apply Hone. reflexivity.
Qed.

Lemma encode_calls_neither (sub : AVSubtitle) (new : list Call) :
  Forall (fun c => exists file o, c = Call_enc_subtitle file o sub) new ->
  filter Props.is_fifo_write new = []
  /\ filter Props.is_subtitle_free new = [].
Proof.
  induction 1 as [|c l (fl & o & ->) _ [IH1 IH2]]; [auto|].
  cbn. auto.
Qed.

(** X12: [process_subtitle] never frees a subtitle that it has put in the
    queue of the filters, and never frees or queues twice: among the calls
    it makes there is at most one av_fifo_write or avsubtitle_free, and
    exactly one when it returns and had a subtitle to pass on. *)
Theorem process_subtitle_frees_or_queues
    (s : State W) (sub : AVSubtitle) (got : Z) :
  let r := process_subtitle sub2video_frame sub2video_update
             av_fifo_alloc2_ok av_fifo_write enc_subtitle avsubtitle_free
             s sub got in
  let held :=
    if truthy (fix_sub_duration (ist s)) then prev_sub_got_output (ist s)
    else got in
  exists new : list Call,
    calls (snd (fst (fst r))) = new ++ calls s
    /\ (List.length (filter Props.is_fifo_write new)
        + List.length (filter Props.is_subtitle_free new) <= 1)%nat
    /\ (forall ret : Z,
          fst (fst (fst r)) = Returns ret -> held <> 0 ->
          (List.length (filter Props.is_fifo_write new)
           + List.length (filter Props.is_subtitle_free new) = 1)%nat).
Proof.
  cbv zeta. unfold process_subtitle.
  set (fix_ := truthy (fix_sub_duration (ist s))).
  set (pre := if fix_ then _ else (s, sub, got, 0, 1)).
  assert (Hpre : calls (fst (fst (fst (fst pre)))) = calls s
                 /\ snd (fst (fst pre))
                    = (if fix_ then prev_sub_got_output (ist s) else got)).
  { unfold pre. destruct fix_; cbn; auto. }
  destruct pre as [[[[s1 sub1] got1] ret1] end_]. cbn [fst snd] in Hpre.
  destruct Hpre as [Hc1 Hg1]. rewrite <- Hg1, <- Hc1. clear Hg1 Hc1.
  assert (Hheld : got1 <> 0 -> negb (truthy got1) = false).
  { intros H. unfold truthy. apply Z.eqb_neq in H. rewrite H. reflexivity. }
  unfold process_subtitle_out.
  destruct (fix_ && (end_ <=? 0)).
  { cbn. eexists [_]. split; [reflexivity|]. cbn. split; [lia|].
    intros; lia. }
  destruct (negb (truthy got1)) eqn:Eg.
  { cbn. exists []. split; [reflexivity|]. cbn. split; [lia|].
    intros ret _ H. apply Hheld in H. discriminate. }
  clear Hheld Eg.
  destruct (sub2video_frame (world s1)).
  - destruct (negb (truthy (num_rects sub1))).
    + cbn. eexists [_; _]. split; [reflexivity|]. cbn. split; [lia|].
      intros; lia.
    + match goal with
      | |- context [encode_subtitle W enc_subtitle ?l ?o ?t ?x] =>
          destruct (encode_subtitle_calls x l o t) as (Hi & new & Hc & Hf);
          set (e := encode_subtitle W enc_subtitle l o t x) in *; clearbody e
      end.
      destruct (encode_calls_neither _ _ Hf) as [Hn1 Hn2].
      cbn [called ist calls with_ist] in Hi, Hc.
      cbn [fst snd called ist calls]. rewrite Hc.
      eexists (_ :: new ++ [_]).
      split; [cbn [app]; rewrite <- app_assoc; reflexivity|].
      cbn [filter Props.is_fifo_write Props.is_subtitle_free].
      rewrite !filter_app, Hn1, Hn2. cbn. split; [lia|]. intros; lia.
  - destruct (truthy (nb_filters (ist s1))).
    + destruct (negb (sub2video_sub_queue (ist s1))
                && negb (av_fifo_alloc2_ok (world s1))).
      { cbn. exists []. split; [reflexivity|]. cbn. split; [lia|].
        intros; discriminate. }
      cbn [world with_ist].
      destruct (av_fifo_write (world s1) sub1) as [w r].
      destruct (r <? 0).
      { cbn. eexists [_]. split; [reflexivity|]. cbn. split; [lia|].
        intros; discriminate. }
      destruct (negb (truthy (num_rects sub1))).
      * cbn. eexists [_]. split; [reflexivity|]. cbn. split; [lia|].
        intros; lia.
      * match goal with
        | |- context [encode_subtitle W enc_subtitle ?l ?o ?t ?x] =>
            destruct (encode_subtitle_calls x l o t) as (Hi & new & Hc & Hf);
            set (e := encode_subtitle W enc_subtitle l o t x) in *;
            clearbody e
        end.
        destruct (encode_calls_neither _ _ Hf) as [Hn1 Hn2].
        cbn [called ist calls with_ist] in Hi, Hc.
        cbn [fst snd called ist calls with_ist]. rewrite Hc.
        eexists (new ++ [_]).
        split; [rewrite <- app_assoc; reflexivity|].
        rewrite !filter_app, Hn1, Hn2. cbn. split; [lia|]. intros; lia.
    + destruct (negb (truthy (num_rects sub1))).
      * cbn. eexists [_]. split; [reflexivity|]. cbn. split; [lia|].
        intros; lia.
      * match goal with
        | |- context [encode_subtitle W enc_subtitle ?l ?o ?t ?x] =>
            destruct (encode_subtitle_calls x l o t) as (Hi & new & Hc & Hf);
            set (e := encode_subtitle W enc_subtitle l o t x) in *;
            clearbody e
        end.
        destruct (encode_calls_neither _ _ Hf) as [Hn1 Hn2].
        cbn [called ist calls with_ist] in Hi, Hc.
        cbn [fst snd called ist calls with_ist]. rewrite Hc.
        eexists (_ :: new).
        split; [reflexivity|].
        cbn [filter Props.is_fifo_write Props.is_subtitle_free].
        rewrite Hn1, Hn2. cbn. split; [lia|]. intros; lia.
Qed.

End DecoderCalls.

(** ** Demuxer stage: discontinuities and the per-packet fix-up *)
Section DemuxerDiscontinuities.
Context {U : LibAVUtil} {F : FloatArith}.
Import Demux.

Variable copy_ts : bool.
Variable dts_delta_threshold : float.
Variable dts_error_threshold : float.

(** X13: under copy_ts, [ts_discontinuity_detect] leaves the packet and
    the discontinuity offset alone (only last_ts is updated) in each of
    these cases: the format does not permit discontinuities, no dts is
    predicted for the stream, the stream's timestamps have 60 bits or more,
    or the packet's dts moved by one wrap period is not closer to the
    prediction than a tenth of the distance of the dts itself. *)
Theorem ts_discontinuity_detect_copy_ts
    (d : Demuxer) (ds : DemuxStream) (pkt : AVPacket) :
  let fmt_is_discont :=
    truthy (Z.land (iformat_flags (f d)) AVFMT_TS_DISCONT) in
  let rnd := Z.lor AV_ROUND_NEAR_INF AV_ROUND_PASS_MINMAX in
  let pkt_dts := av_rescale_q_rnd (dts pkt) (time_base pkt) AV_TIME_BASE_Q rnd in
  let wrap_dts :=
    av_rescale_q_rnd
      (int64 (dts pkt + Z.shiftl 1 (st_pts_wrap_bits (ist ds))))
      (time_base pkt) AV_TIME_BASE_Q rnd in
  fmt_is_discont = false
  \/ next_dts ds = AV_NOPTS_VALUE
  \/ 60 <= st_pts_wrap_bits (ist ds)
  \/ FFABS (int64 (pkt_dts - next_dts ds)) ÷ 10
     <= FFABS (int64 (wrap_dts - next_dts ds)) ->
  ts_discontinuity_detect true dts_delta_threshold dts_error_threshold
    d ds pkt
  = (set_last_ts d (av_rescale_q (dts pkt) (time_base pkt) AV_TIME_BASE_Q),
     pkt).
Proof.
  cbv zeta. intros H. unfold ts_discontinuity_detect.
  assert (Hd : disable_discontinuity_correction true ds
                 (truthy (Z.land (iformat_flags (f d)) AVFMT_TS_DISCONT)) pkt
                 (av_rescale_q_rnd (dts pkt) (time_base pkt) AV_TIME_BASE_Q
                    (Z.lor AV_ROUND_NEAR_INF AV_ROUND_PASS_MINMAX)) = true).
  { unfold disable_discontinuity_correction. cbn [andb].
    destruct H as [-> | [-> | [H | H]]].
    - rewrite andb_false_r. reflexivity.
    - rewrite Z.eqb_refl. reflexivity.
    - destruct (Z.ltb_spec (st_pts_wrap_bits (ist ds)) 60); [lia|].
      rewrite andb_false_r. reflexivity.
    - destruct (_ && _ && _); [|reflexivity].
      match goal with
      | |- context [?a <? ?b] => destruct (Z.ltb_spec a b); [lia|reflexivity]
      end. }
  rewrite Hd. cbn [negb andb]. rewrite andb_false_r, andb_false_r.
  cbn [andb]. reflexivity.
Qed.

(** X14: for a format that does not permit timestamp discontinuities,
    [ts_discontinuity_detect] never moves a timestamp: the discontinuity
    offset stays, the packet's dts and pts are each kept or dropped
    (NOPTS), nothing else in the packet changes, and last_ts becomes the
    dts the packet leaves with, in AV_TIME_BASE units. *)
Theorem ts_discontinuity_detect_plain_format
    (d : Demuxer) (ds : DemuxStream) (pkt : AVPacket) :
  Z.land (iformat_flags (f d)) AVFMT_TS_DISCONT = 0 ->
  let r := ts_discontinuity_detect copy_ts dts_delta_threshold
             dts_error_threshold d ds pkt in
  fst r
  = set_last_ts d
      (av_rescale_q (dts (snd r)) (time_base (snd r)) AV_TIME_BASE_Q)
  /\ (dts (snd r) = dts pkt \/ dts (snd r) = AV_NOPTS_VALUE)
  /\ (pts (snd r) = pts pkt \/ pts (snd r) = AV_NOPTS_VALUE)
  /\ set_pts (set_dts (snd r) (dts pkt)) (pts pkt) = pkt.
Proof.
  intros Hfmt. cbv zeta. unfold ts_discontinuity_detect.
  rewrite Hfmt. change (truthy 0) with false.
  rewrite !andb_false_r. cbn [andb].
  destruct (negb (next_dts ds =? AV_NOPTS_VALUE) && _).
  - unfold drop_invalid_ts. cbn [fst snd].
    destruct pkt as [p dd du tb si sz fl op].
    destruct (exceeds_seconds _ dts_error_threshold); cbn;
      destruct (p =? AV_NOPTS_VALUE); cbn; auto;
      match goal with
      | |- context [if exceeds_seconds ?x ?y then _ else _] =>
          destruct (exceeds_seconds x y)
      end; cbn; auto.
  - destruct pkt; cbn. auto.
Qed.

(** X15: for a packet that has a dts, [ist_dts_update] makes it the
    stream's dts (in AV_TIME_BASE units), whatever was predicted, and
    reports it as the packet's dts estimate; the stream has then seen its
    first timestamp, a first_dts recorded earlier is kept, and for a stream
    that is neither audio nor video the prediction for the next packet is
    that same dts. *)
Theorem ist_dts_update_packet_dts (ds : DemuxStream) (pkt : AVPacket) :
  dts pkt <> AV_NOPTS_VALUE ->
  let r := ist_dts_update ds pkt in
  ds_dts (fst r) = av_rescale_q (dts pkt) (time_base pkt) AV_TIME_BASE_Q
  /\ dts_est (snd r) = ds_dts (fst r)
  /\ saw_first_ts (fst r) = true
  /\ (saw_first_ts ds = true -> first_dts (fst r) = first_dts ds)
  /\ (is_audio_or_video (par_codec_type (ist ds)) = false ->
      next_dts (fst r) = ds_dts (fst r))
  /\ ist (fst r) = ist ds.
Proof.
  intros Hdts. cbv zeta. unfold ist_dts_update.
  apply Z.eqb_neq in Hdts. rewrite Hdts. cbn [negb].
  destruct (saw_first_ts ds) eqn:Esaw; cbn [negb].
  - destruct (next_dts ds =? AV_NOPTS_VALUE);
      cbn [ist set_ds_dts set_next_dts next_dts];
      destruct (par_codec_type (ist ds)); cbn;
        repeat match goal with
               | |- context [if ?c then _ else _] => destruct c
               | |- context [match ?x with Some _ => _ | None => _ end] =>
                   destruct x
               end; cbn; repeat split; auto; try discriminate.
  - cbn [next_dts set_saw_first_ts set_ds_dts set_first_dts].
    destruct (next_dts ds =? AV_NOPTS_VALUE);
      cbn [ist set_ds_dts set_next_dts next_dts set_saw_first_ts
             set_first_dts];
      destruct (par_codec_type (ist ds)); cbn;
        repeat match goal with
               | |- context [if ?c then _ else _] => destruct c
               | |- context [match ?x with Some _ => _ | None => _ end] =>
                   destruct x
               end; cbn; repeat split; auto; try discriminate.
Qed.

Lemma nth_error_list_set_other {A : Type} (l : list A) (i j : nat) (v : A) :
  i <> j -> nth_error (list_set l i v) j = nth_error l j.
Proof.
  revert i j. induction l as [|h t IH]; intros [|i] [|j] H;
    try reflexivity; try contradiction.
  cbn. apply IH. lia.
Qed.

Lemma length_list_set {A : Type} (l : list A) (i : nat) (v : A) :
  List.length (list_set l i v) = List.length l.
Proof.
  revert i. induction l as [|h t IH]; intros [|i]; try reflexivity.
  cbn. rewrite IH. reflexivity.
Qed.

Lemma apply_loop_duration_streams (d : Demuxer) (pkt : AVPacket) :
  let r := apply_loop_duration d pkt in
  f (fst r) = f d
  /\ stream_index (snd r) = stream_index pkt
  /\ size (snd r) = size pkt
  /\ time_base (snd r) = time_base pkt.
Proof.
  cbv zeta. unfold apply_loop_duration.
  destruct (negb (pts pkt =? AV_NOPTS_VALUE)).
  - repeat match goal with
           | |- context [if ?c then _ else _] => destruct c
           end; cbn; auto.
  - destruct (negb (dts pkt =? AV_NOPTS_VALUE)); cbn; auto.
Qed.

Lemma correct_discontinuity_streams (d : Demuxer) (pkt : AVPacket) (delta : Z) :
  let r := correct_discontinuity d pkt delta in
  f (fst r) = f d
  /\ stream_index (snd r) = stream_index pkt
  /\ size (snd r) = size pkt
  /\ time_base (snd r) = time_base pkt.
Proof.
  cbv zeta. unfold correct_discontinuity. cbn [pts set_dts].
  destruct (negb (pts pkt =? AV_NOPTS_VALUE)); cbn; auto.
Qed.

Lemma ts_discontinuity_process_streams
    (d : Demuxer) (ds : DemuxStream) (pkt : AVPacket) :
  let r := ts_discontinuity_process copy_ts dts_delta_threshold
             dts_error_threshold d ds pkt in
  f (fst r) = f d
  /\ stream_index (snd r) = stream_index pkt
  /\ size (snd r) = size pkt
  /\ time_base (snd r) = time_base pkt.
Proof.
  cbv zeta. unfold ts_discontinuity_process.
  assert (H0 : stream_index (apply_ts_offset_discont d pkt) = stream_index pkt
               /\ size (apply_ts_offset_discont d pkt) = size pkt
               /\ time_base (apply_ts_offset_discont d pkt) = time_base pkt).
  { unfold apply_ts_offset_discont.
    destruct (negb (dts pkt =? AV_NOPTS_VALUE)); cbn [pts set_dts];
      destruct (negb (pts pkt =? AV_NOPTS_VALUE)); cbn; auto. }
  destruct H0 as (A1 & A2 & A3).
  set (pkt1 := apply_ts_offset_discont d pkt) in *. clearbody pkt1.
  destruct (_ && _); [|cbn; auto].
  unfold ts_discontinuity_detect.
  match goal with
  | |- context [if ?c then ?a else ?b] =>
      assert (H : f (fst (if c then a else b)) = f d
                  /\ stream_index (snd (if c then a else b))
                     = stream_index pkt1
                  /\ size (snd (if c then a else b)) = size pkt1
                  /\ time_base (snd (if c then a else b)) = time_base pkt1);
      [|destruct (if c then a else b) as [d1 p1]]
  end.
  { repeat match goal with
           | |- context [correct_discontinuity ?x ?y ?z] =>
               pose proof (correct_discontinuity_streams x y z) as Hcd;
               cbv zeta in Hcd;
               destruct (correct_discontinuity x y z) as [dc pc]
           | |- context [if ?c then _ else _] => destruct c
           end; cbn [fst snd] in *; auto.
    all: unfold drop_invalid_ts, correct_discontinuity;
      repeat match goal with
             | |- context [if ?c then _ else _] => destruct c
             end; cbn; auto. }
  cbn [fst snd] in *. destruct H as (B1 & B2 & B3 & B4).
  cbn. rewrite B1, B2, B3, B4, A1, A2, A3. auto.
Qed.

Lemma ts_fixup_stream_frame (ifile : InputFile) (ds : DemuxStream)
    (pkt : AVPacket) :
  let r := ts_fixup_stream ifile ds pkt in
  ist (fst r) = ist ds
  /\ stream_index (snd r) = stream_index pkt
  /\ size (snd r) = size pkt
  /\ time_base (snd r) = st_time_base (ist ds).
Proof.
  cbv zeta. unfold ts_fixup_stream, wrap_correction, apply_ts_offset,
    apply_ts_scale.
  repeat match goal with
         | |- context [if ?c then _ else _] => destruct c; cbn
         end; auto.
Qed.

Lemma ist_dts_update_frame (ds : DemuxStream) (pkt : AVPacket) :
  let r := ist_dts_update ds pkt in
  ist (fst r) = ist ds /\ dts_est (snd r) = ds_dts (fst r).
Proof.
  cbv zeta. unfold ist_dts_update. cbn [snd fst dts_est].
  split; [|reflexivity].
  repeat match goal with
         | |- context [match par_codec_type ?i with _ => _ end] =>
             destruct (par_codec_type i)
         | |- context [if ?c then _ else _] => destruct c
         | |- context [match ?x with Some _ => _ | None => _ end] =>
             destruct x
         end; reflexivity.
Qed.

(** X16: [ts_fixup] on a packet of stream [n] succeeds and touches no
    other stream: the file has the same number of streams, every stream
    but [n] is what it was and stream [n] keeps its InputStream part; the
    packet keeps its stream index and size and gets the stream's time base,
    and the dts estimate reported with it is the stream's dts. *)
Theorem ts_fixup_other_streams (d : Demuxer) (pkt : AVPacket) (ds : DemuxStream) :
  0 <= stream_index pkt ->
  nth_error (streams (f d)) (Z.to_nat (stream_index pkt)) = Some ds ->
  exists (d' : Demuxer) (pkt' : AVPacket) (fd : FrameData) (ds' : DemuxStream),
    ts_fixup copy_ts dts_delta_threshold dts_error_threshold d pkt
    = Some (0, d', pkt', fd)
    /\ List.length (streams (f d')) = List.length (streams (f d))
    /\ (forall j : nat,
          j <> Z.to_nat (stream_index pkt) ->
          nth_error (streams (f d')) j = nth_error (streams (f d)) j)
    /\ nth_error (streams (f d')) (Z.to_nat (stream_index pkt)) = Some ds'
    /\ ist ds' = ist ds
    /\ dts_est fd = ds_dts ds'
    /\ stream_index pkt' = stream_index pkt
    /\ size pkt' = size pkt
    /\ time_base pkt' = st_time_base (ist ds).
Proof.
  intros Hidx Hnth. unfold ts_fixup.
  destruct (Z.ltb_spec (stream_index pkt) 0); [lia|]. rewrite Hnth.
  pose proof (ts_fixup_stream_frame (f d) ds pkt) as H1. cbv zeta in H1.
  destruct (ts_fixup_stream (f d) ds pkt) as [ds1 pkt3].
  pose proof (apply_loop_duration_streams d pkt3) as H2. cbv zeta in H2.
  destruct (apply_loop_duration d pkt3) as [d1 pkt4].
  pose proof (ts_discontinuity_process_streams d1 ds1 pkt4) as H3.
  cbv zeta in H3.
  destruct (ts_discontinuity_process _ _ _ d1 ds1 pkt4) as [d2 pkt5].
  pose proof (ist_dts_update_frame ds1 pkt5) as H4. cbv zeta in H4.
  destruct (ist_dts_update ds1 pkt5) as [ds2 fd].
  cbn [fst snd] in *.
  destruct H1 as (A1 & A2 & A3 & A4). destruct H2 as (B1 & B2 & B3 & B4).
  destruct H3 as (C1 & C2 & C3 & C4). destruct H4 as (D1 & D2).
  exists (set_f d2 (set_streams (f d2)
                      (list_set (streams (f d2))
                         (Z.to_nat (stream_index pkt)) ds2))),
    pkt5, fd, ds2.
  split; [reflexivity|]. cbn [f set_f streams set_streams].
  rewrite C1, B1. split; [apply length_list_set|]. split.
  { intros j Hj. apply nth_error_list_set_other. lia. }
  split; [eapply nth_error_list_set; exact Hnth|].
  repeat split; congruence.
Qed.

End DemuxerDiscontinuities.

(** ** Demuxer stage: streams in use *)
Section DemuxerReuse.
Context {F : FloatArith}.
Import Demux.

Variable FFMPEG_OPT_TOP : bool.
Variable World : Type.
Variable sch_add_demux_stream  : World -> Z -> World * Z.
Variable sch_add_dec           : World -> nat -> bool -> World * Z.
Variable sch_connect           : World -> SchedulerNode -> SchedulerNode -> World * Z.
Variable dec_open              : World -> nat -> DemuxStream -> World * Z.
Variable dec_add_filter        : World -> nat -> Z -> World * Z.
Variable alloc                 : World -> World * bool.

Lemma list_set_same {A : Type} (l : list A) (i : nat) (x : A) :
  nth_error l i = Some x -> list_set l i x = l.
Proof.
  revert i. induction l as [|h t IH]; intros [|i] H; try discriminate.
  - injection H as ->. reflexivity.
  - cbn in *. rewrite (IH _ H). reflexivity.
Qed.

Lemma list_set_twice {A : Type} (l : list A) (i : nat) (x y : A) :
  list_set (list_set l i x) i y = list_set l i y.
Proof.
  revert i. induction l as [|h t IH]; intros [|i]; try reflexivity.
  cbn. rewrite IH. reflexivity.
Qed.

Lemma mark_used_in_use (d : Demuxer) (ds : DemuxStream) (dn : Z) :
  user_set_discard (ist ds) <> AVDISCARD_ALL ->
  0 <= sch_idx_stream ds ->
  (dn <> 0 -> dec (ist ds) <> None) ->
  let ds' := snd (mark_used d ds dn) in
  user_set_discard (ist ds') <> AVDISCARD_ALL
  /\ discard ds' = false
  /\ 0 <= sch_idx_stream ds'
  /\ st_discard (ist ds') = user_set_discard (ist ds')
  /\ Z.lor (decoding_needed (ist ds')) dn = decoding_needed (ist ds')
  /\ (streamcopy_needed ds' || negb (truthy dn)) = streamcopy_needed ds'
  /\ (dn <> 0 -> dec (ist ds') <> None)
  /\ sch_idx_dec ds' = sch_idx_dec ds.
Proof.
  intros H1 H2 H3. cbv zeta. unfold mark_used.
  destruct (discard ds) eqn:Ed; cbn; rewrite ?Ed;
    (repeat split; auto;
     [ rewrite <- Z.lor_assoc, Z.lor_diag; reflexivity
     | destruct (streamcopy_needed ds), (truthy dn); reflexivity ]).
Qed.

Lemma mark_used_again (d : Demuxer) (ds : DemuxStream) (dn : Z) :
  Props.in_use dn ds -> mark_used d ds dn = (d, ds).
Proof.
  intros (H1 & H2 & H3 & H4 & H5 & H6 & H7). unfold mark_used.
  rewrite H2. destruct ds as [i a b c dd e g h k l m n o p q r t u].
  destruct i. cbn in *. subst. rewrite H5, H6. reflexivity.
Qed.

Lemma ist_use_again (s : State World) (i : nat) (dn : Z) (ds : DemuxStream) :
  nth_error (streams (f (dmx s))) i = Some ds ->
  Props.in_use dn ds ->
  ist_use FFMPEG_OPT_TOP sch_add_demux_stream sch_add_dec sch_connect
    dec_open s i dn = Some (0, s).
Proof.
  intros Hnth Hin. pose proof Hin as (H1 & H2 & H3 & H4 & H5 & H6 & H7).
  unfold ist_use. rewrite Hnth.
  apply Z.eqb_neq in H1. rewrite H1.
  assert (Hg : truthy dn && match dec (ist ds) with
                            | Some _ => false | None => true end = false).
  { unfold truthy. destruct (Z.eqb_spec dn 0); [reflexivity|].
    destruct (H7 n) as [Hd _]. destruct (dec (ist ds)); [reflexivity|].
    contradiction. }
  rewrite Hg. destruct (Z.ltb_spec (sch_idx_stream ds) 0); [lia|].
  rewrite (mark_used_again _ _ _ Hin).
  assert (Hd : truthy dn && (sch_idx_dec ds <? 0) = false).
  { unfold truthy. destruct (Z.eqb_spec dn 0); [reflexivity|].
    destruct (H7 n) as [_ Hd]. cbn.
    destruct (Z.ltb_spec (sch_idx_dec ds) 0); [lia|reflexivity]. }
  rewrite Hd. unfold store_stream. rewrite (list_set_same _ _ _ Hnth).
  destruct s as [d w c]. destruct d as [fl a b c0 e g h k l m n].
  destruct fl. reflexivity.
Qed.

Lemma ist_use_decoder_in_use (s s' : State World) (i : nat) (dn ret : Z)
    (ds ds0 : DemuxStream) :
  nth_error (streams (f (dmx s))) i = Some ds0 ->
  user_set_discard (ist ds) <> AVDISCARD_ALL ->
  discard ds = false ->
  0 <= sch_idx_stream ds ->
  st_discard (ist ds) = user_set_discard (ist ds) ->
  Z.lor (decoding_needed (ist ds)) dn = decoding_needed (ist ds) ->
  (streamcopy_needed ds || negb (truthy dn)) = streamcopy_needed ds ->
  dec (ist ds) <> None ->
  ist_use_decoder FFMPEG_OPT_TOP sch_add_dec sch_connect dec_open s i ds
  = (ret, s') ->
  0 <= ret ->
  exists ds', nth_error (streams (f (dmx s'))) i = Some ds' /\ Props.in_use dn ds'.
Proof.
  intros Hnth H1 H2 H3 H4 H5 H6 H7 Hrun Hret. unfold ist_use_decoder in Hrun.
  destruct (sch_add_dec (world s) i _) as [w1 ret1].
  destruct (Z.ltb_spec ret1 0). { injection Hrun as <- _. lia. }
  destruct (sch_connect _ _ _) as [w2 ret2].
  destruct (Z.ltb_spec ret2 0). { injection Hrun as <- _. lia. }
  match type of Hrun with
  | context [dec_open ?w ?j ?x] =>
      destruct (dec_open w j x) as [w3 ret3] eqn:Ed;
      assert (Hin : Props.in_use dn x)
  end.
  { unfold Props.in_use.
    repeat match goal with
           | |- context [if ?c then _ else _] => destruct c
           end; cbn; repeat split; auto. }
  destruct (Z.ltb_spec ret3 0). { injection Hrun as <- _. lia. }
  injection Hrun as _ <-. eexists. split; [|exact Hin].
  cbn -[nth_error]. eapply nth_error_list_set, nth_error_list_set. exact Hnth.
Qed.

(** A stream that [ist_use] has accepted is in use afterwards. *)
Lemma ist_use_marks_in_use (s s1 : State World) (i : nat) (dn ret : Z) :
  ist_use FFMPEG_OPT_TOP sch_add_demux_stream sch_add_dec sch_connect
    dec_open s i dn = Some (ret, s1) ->
  0 <= ret ->
  exists ds', nth_error (streams (f (dmx s1))) i = Some ds'
              /\ Props.in_use dn ds'.
Proof.
  intros Hrun Hret. unfold ist_use in Hrun.
  destruct (nth_error (streams (f (dmx s))) i) as [ds|] eqn:Hnth;
    [|discriminate].
  destruct (Z.eqb_spec (user_set_discard (ist ds)) AVDISCARD_ALL) as [E|N].
  { injection Hrun as <- _. unfold AVERROR, EINVAL in Hret. lia. }
  destruct (truthy dn && match dec (ist ds) with
                         | Some _ => false | None => true end) eqn:Eg.
  { injection Hrun as <- _. unfold AVERROR, EINVAL in Hret. lia. }
  assert (Hdec : dn <> 0 -> dec (ist ds) <> None).
  { intros Hdn Hnone. rewrite Hnone in Eg. unfold truthy in Eg.
    apply Z.eqb_neq in Hdn. rewrite Hdn in Eg. discriminate. }
  assert (Hgo : forall (t : State World) (ds1 : DemuxStream),
    dmx t = dmx s ->
    user_set_discard (ist ds1) <> AVDISCARD_ALL ->
    0 <= sch_idx_stream ds1 ->
    (dn <> 0 -> dec (ist ds1) <> None) ->
    (let '(d2, ds3) := mark_used (dmx t) ds1 dn in
     if truthy dn && (sch_idx_dec ds3 <? 0)
     then Some (ist_use_decoder FFMPEG_OPT_TOP sch_add_dec sch_connect
                  dec_open (with_dmx t (store_stream d2 i ds3)) i ds3)
     else Some (0, with_dmx t (store_stream d2 i ds3))) = Some (ret, s1) ->
    exists ds', nth_error (streams (f (dmx s1))) i = Some ds'
                /\ Props.in_use dn ds').
  { intros t ds1 Ht A1 A2 A3 Hr.
    pose proof (mark_used_in_use (dmx t) ds1 dn A1 A2 A3) as Hm.
    pose proof (mark_used_effect (dmx t) ds1 dn) as (Hs & _).
    cbv zeta in Hm.
    destruct (mark_used (dmx t) ds1 dn) as [d2 ds3]. cbn [fst snd] in *.
    destruct Hm as (B1 & B2 & B3 & B4 & B5 & B6 & B7 & B8).
    assert (Hst : nth_error
                    (streams (f (dmx (with_dmx t (store_stream d2 i ds3)))))
                    i = Some ds3).
    { cbn -[nth_error]. rewrite Hs, Ht.
      eapply nth_error_list_set, Hnth. }
    destruct (Z.eqb_spec dn 0) as [Hz|Hdn].
    - assert (Etr : truthy dn = false) by (rewrite Hz; reflexivity).
      rewrite Etr in Hr. cbn [andb] in Hr.
      injection Hr as _ <-. exists ds3. split; [exact Hst|].
      unfold Props.in_use. repeat split; auto; contradiction.
    - assert (Etr : truthy dn = true).
      { unfold truthy. apply Z.eqb_neq in Hdn. rewrite Hdn. reflexivity. }
      rewrite Etr in Hr. cbn [andb] in Hr.
      destruct (Z.ltb_spec (sch_idx_dec ds3) 0).
      + injection Hr as Hr.
        apply (ist_use_decoder_in_use _ s1 i dn ret ds3 ds3 Hst B1 B2 B3 B4
                 B5 B6 (B7 Hdn) Hr Hret).
      + injection Hr as _ <-. exists ds3. split; [exact Hst|].
        unfold Props.in_use. repeat split; auto. }
  destruct (Z.ltb_spec (sch_idx_stream ds) 0).
  - destruct (sch_add_demux_stream (world s) (file_index (f (dmx s))))
      as [w ret0].
    destruct (Z.ltb_spec ret0 0). { injection Hrun as <- _. lia. }
    eapply Hgo; [| | | |exact Hrun]; [reflexivity|exact N|cbn; lia|exact Hdec].
  - eapply Hgo; [| | | |exact Hrun]; [reflexivity|exact N|lia|exact Hdec].
Qed.

(** [ist_use] has a result for every stream of the file. *)
Lemma ist_use_total (s : State World) (i : nat) (dn : Z) (ds : DemuxStream) :
  nth_error (streams (f (dmx s))) i = Some ds ->
  exists (ret : Z) (s1 : State World),
    ist_use FFMPEG_OPT_TOP sch_add_demux_stream sch_add_dec sch_connect
      dec_open s i dn = Some (ret, s1).
Proof.
  intros Hnth. unfold ist_use. rewrite Hnth.
  destruct (_ =? AVDISCARD_ALL); [eauto|].
  destruct (truthy dn && _); [eauto|].
  destruct (sch_idx_stream ds <? 0).
  - destruct (sch_add_demux_stream _ _) as [w ret].
    destruct (ret <? 0); [eauto|].
    destruct (mark_used _ _ _) as [d2 ds3].
    destruct (truthy dn && _); [|eauto].
    destruct (ist_use_decoder _ _ _ _ _ _ _). eauto.
  - destruct (mark_used _ _ _) as [d2 ds3].
    destruct (truthy dn && _); [|eauto].
    destruct (ist_use_decoder _ _ _ _ _ _ _). eauto.
Qed.

(** X17: [ist_use] is idempotent: after a call that succeeded, the same
    call again returns 0 and changes nothing, neither in the demuxer (the
    stream is not counted as used a second time) nor in the scheduler (no
    second stream or decoder node; no call is made). *)
Theorem ist_use_idempotent (s s1 : State World) (i : nat) (dn ret : Z) :
  ist_use FFMPEG_OPT_TOP sch_add_demux_stream sch_add_dec sch_connect
    dec_open s i dn = Some (ret, s1) ->
  0 <= ret ->
  ist_use FFMPEG_OPT_TOP sch_add_demux_stream sch_add_dec sch_connect
    dec_open s1 i dn = Some (0, s1).
Proof.
  intros Hrun Hret.
  destruct (ist_use_marks_in_use _ _ _ _ _ Hrun Hret) as (ds' & Hn & Hin).
  apply (ist_use_again s1 i dn ds' Hn Hin).
Qed.

(** X27: [ist_output_add] has a result for every stream of the file.  When
    it fails (a negative result), the stream's list of outputs is what it
    was; when it succeeds, the output stream is the last entry of that list,
    the stream is no longer discarded, and the result is the index of a
    scheduler node that exists: of the decoder when the output encodes, of
    the demuxed stream when it copies.  The list of filters is never
    touched. *)
Theorem ist_output_add_records
    (s : State World) (i : nat) (ds : DemuxStream) (ost : Z)
    (ost_enc : bool) :
  nth_error (streams (f (dmx s))) i = Some ds ->
  exists (ret : Z) (s' : State World) (ds' : DemuxStream),
    ist_output_add FFMPEG_OPT_TOP sch_add_demux_stream sch_add_dec
      sch_connect dec_open alloc s i ost ost_enc = Some (ret, s')
    /\ nth_error (streams (f (dmx s'))) i = Some ds'
    /\ filters (ist ds') = filters (ist ds)
    /\ (ret < 0 -> outputs (ist ds') = outputs (ist ds))
    /\ (0 <= ret ->
        outputs (ist ds') = outputs (ist ds) ++ [ost]
        /\ ret = (if ost_enc then sch_idx_dec ds' else sch_idx_stream ds')
        /\ discard ds' = false).
Proof.
  intros Hnth. unfold ist_output_add.
  set (dn := if ost_enc then DECODING_FOR_OST else 0).
  destruct (ist_use_total s i dn ds Hnth) as (r & s1 & Huse). rewrite Huse.
  destruct (ist_use_effect _ _ _ _ _ _ _ _ _ _ _ _ Hnth Huse)
    as (_ & _ & _ & ds1 & Hn1 & Hk).
  destruct Hk as (K1 & K2 & _ & _).
  destruct (Z.ltb_spec r 0) as [Hlt|Hge].
  { exists r, s1, ds1. split; [reflexivity|]. split; [exact Hn1|].
    split; [exact K2|]. split; [intros _; exact K1|]. intros; lia. }
  destruct (ist_use_marks_in_use _ _ _ _ _ Huse Hge) as (ds2 & Hn2 & Hin).
  rewrite Hn1 in Hn2. injection Hn2 as <-.
  destruct (alloc (world s1)) as [w ok]. destruct ok; cbn [negb].
  2:{ exists (AVERROR ENOMEM), (with_world s1 w), ds1.
      split; [reflexivity|]. split; [exact Hn1|]. split; [exact K2|].
      split; [intros _; exact K1|]. unfold AVERROR, ENOMEM. intros; lia. }
  cbn [with_world dmx]. rewrite Hn1.
  destruct Hin as (_ & I2 & I3 & _ & _ & _ & I7).
  eexists _, _, _. split; [reflexivity|]. split.
  { cbn -[nth_error]. eapply nth_error_list_set. exact Hn1. }
  cbn [ist set_ist filters outputs set_outputs sch_idx_dec sch_idx_stream
       discard].
  split; [exact K2|]. split.
  - intros Hneg. exfalso. destruct ost_enc.
    + assert (Hd : dn <> 0) by (unfold dn, DECODING_FOR_OST; lia).
      destruct (I7 Hd) as [_ Hi].
      change (sch_idx_dec (set_ist ds1 _)) with (sch_idx_dec ds1) in Hneg. lia.
    + change (sch_idx_stream (set_ist ds1 _)) with (sch_idx_stream ds1) in Hneg.
      lia.
  - intros _. rewrite K1. split; [reflexivity|]. split; [reflexivity|].
    exact I2.
Qed.

End DemuxerReuse.

(** ** Demuxer stage: end of stream behind a bitstream filter *)
Section DemuxerFilters.
Context {F : FloatArith}.
Import Demux.

Variable World : Type.
Variable sch_demux_send        : World -> Z -> AVPacket -> Z -> World * Z.
Variable av_packet_rescale_ts  : AVPacket -> AVRational -> AVRational -> AVPacket.
Variable av_bsf_send_packet    : World -> nat -> option AVPacket -> World * Z.
Variable av_bsf_receive_packet : World -> nat -> World * Z * AVPacket.

Lemma do_send_eof (s : State World) (i : nat) (ds : DemuxStream)
    (pkt : AVPacket) (flags : Z) (w : World) :
  nth_error (streams (f (dmx s))) i = Some ds ->
  sch_demux_send (world s) (file_index (f (dmx s))) pkt flags
  = (w, AVERROR_EOF) ->
  - 2147483648 <= nb_streams_finished (dmx s) + 1 <= INT_MAX ->
  let r := do_send sch_demux_send s i pkt flags in
  fst (fst r)
  = (if nb_streams_finished (dmx s) + 1 =? nb_streams_used (dmx s)
     then AVERROR_EOF else 0)
  /\ world (snd (fst r)) = w
  /\ streams (f (dmx (snd (fst r))))
     = list_set (streams (f (dmx s))) i (set_finished ds true)
  /\ file_index (f (dmx (snd (fst r)))) = file_index (f (dmx s))
  /\ nb_streams_finished (dmx (snd (fst r))) = nb_streams_finished (dmx s) + 1
  /\ nb_streams_used (dmx (snd (fst r))) = nb_streams_used (dmx s).
Proof.
  intros Hnth Hsch Hrange. cbv zeta. unfold do_send. rewrite Hsch.
  rewrite Z.eqb_refl. cbn [called dmx]. rewrite Hnth.
  cbn. rewrite (int32_id _ Hrange). repeat split; reflexivity.
Qed.

(** X18: [demux_send] counts a finished stream for every packet the
    scheduler refuses with EOF, not for every stream: when the bitstream
    filter of a stream gives out two packets and the scheduler answers EOF
    to both, nb_streams_finished grows by two; with one other stream in use
    it reaches nb_streams_used, and [demux_send] returns AVERROR_EOF (all
    consumers are done) although stream [i] is the only one that was marked
    finished. *)
Theorem demux_send_counts_every_eof
    (fuel : nat) (s : State World) (i : nat) (ds : DemuxStream)
    (ctx : AVBSFContext) (pkt : option AVPacket) (flags : Z)
    (w1 w2 w3 w4 w5 : World) (r1 ra rb : Z) (pa pb : AVPacket) :
  nth_error (streams (f (dmx s))) i = Some ds ->
  bsf ds = Some ctx ->
  pkt_heartbeat (dmx s) = None ->
  av_bsf_send_packet (world s) i
    (option_map (fun p => av_packet_rescale_ts p (time_base p)
                            (time_base_in ctx)) pkt) = (w1, r1) ->
  0 <= r1 ->
  av_bsf_receive_packet w1 i = (w2, ra, pa) -> 0 <= ra ->
  sch_demux_send w2 (file_index (f (dmx s)))
    (set_time_base pa (time_base_out ctx)) 0 = (w3, AVERROR_EOF) ->
  av_bsf_receive_packet w3 i = (w4, rb, pb) -> 0 <= rb ->
  sch_demux_send w4 (file_index (f (dmx s)))
    (set_time_base pb (time_base_out ctx)) 0 = (w5, AVERROR_EOF) ->
  0 <= nb_streams_finished (dmx s) ->
  nb_streams_used (dmx s) = nb_streams_finished (dmx s) + 2 ->
  nb_streams_used (dmx s) <= INT_MAX ->
  let r := demux_send sch_demux_send av_packet_rescale_ts
             av_bsf_send_packet av_bsf_receive_packet
             (S (S fuel)) s i pkt flags in
  fst r = Returns AVERROR_EOF
  /\ streams (f (dmx (snd r)))
     = list_set (streams (f (dmx s))) i (set_finished ds true)
  /\ nb_streams_finished (dmx (snd r)) = nb_streams_used (dmx s).
Proof.
  intros Hnth Hbsf Hhb Hsend Hr1 Hra Hra0 Hsa Hrb Hrb0 Hsb Hfin Hused Hmax.
  cbv zeta. unfold demux_send. rewrite Hnth, Hbsf, Hhb. rewrite Hsend.
  destruct (Z.ltb_spec r1 0); [lia|].
  cbn [receive_filtered called world]. rewrite Hra.
  destruct (Z.eqb_spec ra (AVERROR EAGAIN));
    [unfold AVERROR, EAGAIN in *; lia|].
  destruct (Z.ltb_spec ra 0); [lia|].
  match goal with
  | |- context [do_send sch_demux_send ?t i ?p 0] =>
      destruct (do_send_eof t i ds p 0 w3) as (A1 & A2 & A3 & A4 & A5 & A6);
        [exact Hnth | exact Hsa | cbn; unfold INT_MAX in *; lia |];
      destruct (do_send sch_demux_send t i p 0) as [[ra' s2] q]
  end.
  cbn [fst snd called dmx] in *.
  assert (ra' = 0).
  { rewrite A1. destruct (Z.eqb_spec (nb_streams_finished (dmx s) + 1)
                            (nb_streams_used (dmx s))); [lia|reflexivity]. }
  clear A1. subst ra'. cbn [Z.ltb Z.compare]. rewrite A2, Hrb.
  destruct (Z.eqb_spec rb (AVERROR EAGAIN));
    [unfold AVERROR, EAGAIN in *; lia|].
  destruct (Z.ltb_spec rb 0); [lia|].
  match goal with
  | |- context [do_send sch_demux_send ?t i ?p 0] =>
      destruct (do_send_eof t i (set_finished ds true) p 0 w5)
        as (B1 & B2 & B3 & B4 & B5 & B6);
        [ cbn [called dmx]; rewrite A3;
          eapply nth_error_list_set; exact Hnth
        | cbn [called dmx world]; rewrite A4; exact Hsb
        | cbn [called dmx]; rewrite A5; unfold INT_MAX in *; lia |];
      destruct (do_send sch_demux_send t i p 0) as [[rb' s3] q3]
  end.
  cbn [fst snd called dmx] in *.
  assert (rb' = AVERROR_EOF).
  { rewrite B1, A5, A6.
    destruct (Z.eqb_spec (nb_streams_finished (dmx s) + 1 + 1)
                (nb_streams_used (dmx s))); [reflexivity|lia]. }
  clear B1. subst rb'. cbn. split; [reflexivity|]. split.
  - rewrite B3, A3, list_set_twice. reflexivity.
  - rewrite B5, A5. lia.
Qed.

End DemuxerFilters.

(** ** Decoder stage: the choice of the pixel format *)
Section PixelFormats.
Import DecFormat.

Variable pix_fmt_is_hwaccel : Z -> bool.
Variable hw_configs : list AVCodecHWConfig.
Variable W : Type.
Variable hwaccel_decode_init : W -> W * Z.
Variable hwaccel_id : HWAccelID.
Variable hwaccel_device_type : Z.

Lemma find_hw_config_some (p : Z) (l : list AVCodecHWConfig)
    (c : AVCodecHWConfig) :
  find_hw_config l p = Some c ->
  In c l /\ hw_pix_fmt c = p
  /\ Z.land (hw_methods c) AV_CODEC_HW_CONFIG_METHOD_HW_DEVICE_CTX <> 0.
Proof.
  induction l as [|h t IH]; intros H; [discriminate|].
  cbn [find_hw_config] in H.
  destruct (truthy (Z.land (hw_methods h) _)) eqn:Em; cbn [negb] in H.
  - destruct (Z.eqb_spec (hw_pix_fmt h) p) as [Ep|Np].
    + injection H as <-. split; [left; reflexivity|]. split; [exact Ep|].
      unfold truthy in Em. apply negb_true_iff, Z.eqb_neq in Em. exact Em.
    + destruct (IH H) as (A & B & C). split; [right; exact A|auto].
  - destruct (IH H) as (A & B & C). split; [right; exact A|auto].
Qed.


End PixelFormats.

(** ** Demuxer stage: programs and unused streams *)
Section DemuxerPrograms.
Context {U : LibAVUtil} {F : FloatArith}.
Import Demux DemuxThread.

Lemma program_discard_of_marks (l : list DemuxStream) (idx : list nat) :
  Forall (fun k => (k < List.length l)%nat) idx ->
  exists v : Z,
    program_discard_of l idx = Some v
    /\ (v = AVDISCARD_ALL \/ v = AVDISCARD_DEFAULT)
    /\ (v = AVDISCARD_ALL <->
        Forall (fun k => exists ds, nth_error l k = Some ds
                                    /\ discard ds = true) idx).
Proof.
  induction 1 as [|k rest Hk _ IH].
  - exists AVDISCARD_ALL. cbn. split; [reflexivity|]. split; [auto|].
    split; [constructor|reflexivity].
  - cbn [program_discard_of].
    destruct (nth_error l k) as [ds|] eqn:Hnth.
    2:{ apply nth_error_None in Hnth. lia. }
    destruct (discard ds) eqn:Ed; cbn [negb].
    + destruct IH as (v & Hv & Hor & Hiff). exists v.
      split; [exact Hv|]. split; [exact Hor|]. rewrite Hiff. split.
      * intros Hall. constructor; [exists ds; auto|exact Hall].
      * intros Hall. inversion Hall. assumption.
    + exists AVDISCARD_DEFAULT. split; [reflexivity|]. split; [auto|].
      split; [discriminate|].
      intros Hall. inversion Hall as [|? ? (ds' & Hn' & Hd') _].
      rewrite Hnth in Hn'. injection Hn' as <-. congruence.
Qed.

(** X21: [discard_unused_programs] gives every program of the file one of
    two marks and keeps its streams: AVDISCARD_ALL when every stream of the
    program is discarded (so also for a program without streams),
    AVDISCARD_DEFAULT as soon as one of them is in use. *)
Theorem discard_unused_programs_marks
    (l : list DemuxStream) (programs : list AVProgram) :
  Forall (fun p => Forall (fun k => (k < List.length l)%nat)
                     (program_stream_index p)) programs ->
  exists programs' : list AVProgram,
    discard_unused_programs l programs = Some programs'
    /\ Forall2
         (fun p p' =>
            program_stream_index p' = program_stream_index p
            /\ (program_discard p' = AVDISCARD_ALL
                \/ program_discard p' = AVDISCARD_DEFAULT)
            /\ (program_discard p' = AVDISCARD_ALL <->
                Forall (fun k => exists ds, nth_error l k = Some ds
                                            /\ discard ds = true)
                  (program_stream_index p)))
         programs programs'.
Proof.
  induction 1 as [|p rest Hp _ IH].
  - exists []. split; [reflexivity|constructor].
  - cbn [discard_unused_programs].
    destruct (program_discard_of_marks l _ Hp) as (v & Hv & Hor & Hiff).
    rewrite Hv. destruct IH as (ps & Hps & Hall). rewrite Hps.
    eexists. split; [reflexivity|]. constructor; [|exact Hall].
    cbn. auto.
Qed.

End DemuxerPrograms.

Section DemuxerUnused.
Context {U : LibAVUtil} {F : FloatArith}.
Import Demux DemuxThread.

Variable FFMPEG_OPT_TOP : bool.
Variable World : Type.
Variable sch_add_demux_stream  : World -> Z -> World * Z.
Variable sch_add_dec           : World -> nat -> bool -> World * Z.
Variable sch_connect           : World -> SchedulerNode -> SchedulerNode -> World * Z.
Variable dec_open              : World -> nat -> DemuxStream -> World * Z.

Lemma AVMediaType_eqb_eq (a b : AVMediaType) :
  AVMediaType_eqb a b = true <-> a = b.
Proof. destruct a, b; cbn; split; intros H; congruence. Qed.

Lemma ist_find_unused_found (type : AVMediaType) (l : list DemuxStream) :
  forall k : nat,
    ist_find_unused l type = Some k ->
    (exists ds : DemuxStream,
       nth_error l k = Some ds
       /\ par_codec_type (ist ds) = type
       /\ discard ds = true
       /\ user_set_discard (ist ds) <> AVDISCARD_ALL)
    /\ forall (j : nat) (ds' : DemuxStream),
         (j < k)%nat -> nth_error l j = Some ds' ->
         par_codec_type (ist ds') <> type \/ discard ds' = false
         \/ user_set_discard (ist ds') = AVDISCARD_ALL.
Proof.
  induction l as [|ds rest IH]; intros k H; [discriminate|].
  cbn [ist_find_unused] in H.
  destruct (AVMediaType_eqb (par_codec_type (ist ds)) type) eqn:Et.
  - destruct (discard ds) eqn:Ed.
    + destruct (Z.eqb_spec (user_set_discard (ist ds)) AVDISCARD_ALL)
        as [Ea|Na]; cbn [andb negb] in H.
      * destruct (ist_find_unused rest type) as [k'|]; [|discriminate].
        injection H as <-. destruct (IH k' eq_refl) as [Hf Hb].
        split; [exact Hf|]. intros [|j] ds' Hj Hn.
        -- injection Hn as <-. auto.
        -- apply (Hb j ds'); [lia|exact Hn].
      * injection H as <-. split.
        -- exists ds. split; [reflexivity|].
           apply AVMediaType_eqb_eq in Et. auto.
        -- intros j ds' Hj. lia.
    + cbn [andb] in H.
      destruct (ist_find_unused rest type) as [k'|]; [|discriminate].
      injection H as <-. destruct (IH k' eq_refl) as [Hf Hb].
      split; [exact Hf|]. intros [|j] ds' Hj Hn.
      * injection Hn as <-. auto.
      * apply (Hb j ds'); [lia|exact Hn].
  - cbn [andb] in H.
    destruct (ist_find_unused rest type) as [k'|]; [|discriminate].
    injection H as <-. destruct (IH k' eq_refl) as [Hf Hb].
    split; [exact Hf|]. intros [|j] ds' Hj Hn.
    + injection Hn as <-. left. intros E.
      apply AVMediaType_eqb_eq in E. congruence.
    + apply (Hb j ds'); [lia|exact Hn].
Qed.

(** X22: the stream [ist_find_unused] finds is the first one of the type
    asked for that is discarded and that the user has not disabled, and
    [ist_use] does not refuse it: taking it into use for stream copy fails
    only when the scheduler cannot add the demuxed stream, and otherwise
    counts one more used stream and leaves it not discarded and marked for
    stream copy. *)
Theorem ist_find_unused_usable (s : State World) (type : AVMediaType)
    (k : nat) :
  ist_find_unused (streams (f (dmx s))) type = Some k ->
  - 2147483648 <= nb_streams_used (dmx s) + 1 <= INT_MAX ->
  (forall (j : nat) (ds' : DemuxStream),
     (j < k)%nat -> nth_error (streams (f (dmx s))) j = Some ds' ->
     par_codec_type (ist ds') <> type \/ discard ds' = false
     \/ user_set_discard (ist ds') = AVDISCARD_ALL)
  /\ exists (ds : DemuxStream) (ret : Z) (s' : State World),
       nth_error (streams (f (dmx s))) k = Some ds
       /\ par_codec_type (ist ds) = type
       /\ ist_use FFMPEG_OPT_TOP sch_add_demux_stream sch_add_dec
            sch_connect dec_open s k 0 = Some (ret, s')
       /\ (ret = 0 \/ (ret < 0 /\ sch_idx_stream ds < 0
                       /\ ret = snd (sch_add_demux_stream (world s)
                                       (file_index (f (dmx s))))))
       /\ (0 <= ret ->
           nb_streams_used (dmx s') = nb_streams_used (dmx s) + 1
           /\ exists ds1 : DemuxStream,
                nth_error (streams (f (dmx s'))) k = Some ds1
                /\ discard ds1 = false
                /\ streamcopy_needed ds1 = true).
Proof.
  intros Hfind Hrange.
  destruct (ist_find_unused_found _ _ _ Hfind)
    as [(ds & Hnth & Hty & Hdis & Huser) Hbefore].
  split; [exact Hbefore|].
  exists ds. unfold ist_use. rewrite Hnth.
  apply Z.eqb_neq in Huser. rewrite Huser.
  change (truthy 0) with false. cbn [andb].
  assert (Hgo : forall (t : State World) (ds1 : DemuxStream),
    dmx t = dmx s -> discard ds1 = true ->
    exists s' : State World,
      (let '(d2, ds3) := mark_used (dmx t) ds1 0 in
       if false && (sch_idx_dec ds3 <? 0)
       then Some (ist_use_decoder FFMPEG_OPT_TOP sch_add_dec sch_connect
                    dec_open (with_dmx t (store_stream d2 k ds3)) k ds3)
       else Some (0, with_dmx t (store_stream d2 k ds3))) = Some (0, s')
      /\ nb_streams_used (dmx s') = nb_streams_used (dmx s) + 1
      /\ exists ds2 : DemuxStream,
           nth_error (streams (f (dmx s'))) k = Some ds2
           /\ discard ds2 = false /\ streamcopy_needed ds2 = true).
  { intros t ds1 Ht Hd. unfold mark_used. rewrite Hd. cbn [andb].
    eexists. split; [reflexivity|]. cbn -[nth_error]. rewrite Ht.
    split; [apply int32_id; exact Hrange|].
    eexists. split; [eapply nth_error_list_set; exact Hnth|].
    cbn. rewrite orb_true_r. auto. }
  destruct (Z.ltb_spec (sch_idx_stream ds) 0) as [Hneg|Hpos].
  - destruct (sch_add_demux_stream (world s) (file_index (f (dmx s))))
      as [w r0] eqn:Eadd. cbn [snd].
    destruct (Z.ltb_spec r0 0) as [Hr|Hr].
    + exists r0. eexists. split; [reflexivity|]. split; [exact Hty|].
      split; [reflexivity|]. split; [right; auto|]. intros; lia.
    + match goal with
      | |- context [mark_used (dmx ?t) ?x 0] =>
          destruct (Hgo t x eq_refl Hdis) as (s' & Hs & Hn & Hds)
      end.
      exists 0, s'. split; [reflexivity|]. split; [exact Hty|].
      split; [exact Hs|]. split; [left; reflexivity|]. intros _. auto.
  - destruct (Hgo s ds eq_refl Hdis) as (s' & Hs & Hn & Hds).
    exists 0, s'. split; [reflexivity|]. split; [exact Hty|].
    split; [exact Hs|]. split; [left; reflexivity|]. intros _. auto.
Qed.

End DemuxerUnused.

(** ** Demuxer stage: the end of a pass over the file *)
Section DemuxerLoop.
Context {U : LibAVUtil} {F : FloatArith}.
Import Demux DemuxThread.

Variable World : Type.
Variable sch_demux_send        : World -> Z -> AVPacket -> Z -> World * Z.
Variable av_packet_rescale_ts  : AVPacket -> AVRational -> AVRational -> AVPacket.
Variable av_bsf_send_packet    : World -> nat -> option AVPacket -> World * Z.
Variable av_bsf_receive_packet : World -> nat -> World * Z * AVPacket.
Variable av_bsf_flush          : World -> nat -> World.
Variable avformat_seek_file    : World -> World * Z.

(** X23: [seek_to_start] returns what [avformat_seek_file] returns and makes
    no other call; when the seek fails the demuxer is untouched.  When it
    succeeds, a positive loop count goes down by one and any other is kept
    (a negative one loops for ever); the largest pts is the one it was or
    the end of the pass just read; the duration added at every loop gets
    the time base of the largest pts, and its value is the distance from
    the smallest to the largest pts when the largest pts is known, and is
    kept otherwise. *)
Theorem seek_to_start_loop (s : State World) (end_pts : Timestamp) :
  let r := seek_to_start avformat_seek_file s end_pts in
  let d := dmx s in
  let d' := dmx (snd r) in
  fst r = snd (avformat_seek_file (world s))
  /\ calls (snd r) = calls s
  /\ (fst r < 0 -> d' = d)
  /\ (0 <= fst r ->
      loop d' = (if loop d >? 0 then loop d - 1 else loop d)
      /\ tb (d_duration d') = tb (max_pts d')
      /\ (max_pts d' = max_pts d \/ max_pts d' = end_pts)
      /\ (ts (max_pts d') = AV_NOPTS_VALUE ->
          ts (max_pts d) = AV_NOPTS_VALUE /\ ts end_pts = AV_NOPTS_VALUE
          /\ ts (d_duration d') = ts (d_duration d))
      /\ (ts (max_pts d') <> AV_NOPTS_VALUE ->
          ts (d_duration d')
          = int64 (ts (max_pts d')
                   - av_rescale_q
                       (if ts (min_pts d) =? AV_NOPTS_VALUE then 0
                        else ts (min_pts d))
                       (tb (min_pts d)) (tb (max_pts d'))))
      /\ f d' = f d /\ min_pts d' = min_pts d
      /\ ts_offset_discont d' = ts_offset_discont d
      /\ nb_streams_finished d' = nb_streams_finished d).
Proof.
  cbv zeta. unfold seek_to_start.
  destruct (avformat_seek_file (world s)) as [w ret]. cbn [snd].
  destruct (Z.ltb_spec ret 0) as [Hlt|Hge].
  { cbn. split; [reflexivity|]. split; [reflexivity|].
    split; [reflexivity|]. intros; lia. }
  cbn [fst snd with_world with_dmx dmx calls].
  split; [reflexivity|]. split; [reflexivity|]. split; [intros; lia|].
  intros _.
  set (d1 := if negb (ts end_pts =? AV_NOPTS_VALUE) && _
             then set_max_pts (dmx s) end_pts else dmx s).
  assert (H1 : (max_pts d1 = max_pts (dmx s) \/ max_pts d1 = end_pts)
               /\ (ts (max_pts d1) = AV_NOPTS_VALUE ->
                   ts (max_pts (dmx s)) = AV_NOPTS_VALUE
                   /\ ts end_pts = AV_NOPTS_VALUE)
               /\ loop d1 = loop (dmx s) /\ f d1 = f (dmx s)
               /\ min_pts d1 = min_pts (dmx s)
               /\ d_duration d1 = d_duration (dmx s)
               /\ ts_offset_discont d1 = ts_offset_discont (dmx s)
               /\ nb_streams_finished d1 = nb_streams_finished (dmx s)).
  { unfold d1.
    destruct (Z.eqb_spec (ts end_pts) AV_NOPTS_VALUE) as [E|N];
      cbn [negb andb].
    - repeat split; auto.
    - destruct (Z.eqb_spec (ts (max_pts (dmx s))) AV_NOPTS_VALUE) as [E1|N1];
        cbn [orb].
      + cbn. repeat split; auto; intros; contradiction.
      + destruct (_ <? 0); cbn; repeat split; auto; intros; contradiction. }
  clearbody d1. destruct H1 as (A1 & A2 & A3 & A4 & A5 & A6 & A7 & A8).
  destruct (Z.eqb_spec (ts (max_pts d1)) AV_NOPTS_VALUE) as [E|N];
    cbn [negb].
  - destruct (loop d1 >? 0) eqn:El; cbn; rewrite <- ?A3, ?El;
      repeat split; auto; try congruence;
      try (apply (proj1 (A2 E))); try (apply (proj2 (A2 E)));
      try (intros; contradiction); cbn; rewrite A6; reflexivity.
  - destruct (loop d1 >? 0) eqn:El; cbn; rewrite <- ?A3, ?A5, ?El;
      repeat split; auto; try congruence; intros; contradiction.
Qed.

Lemma demux_bsf_flush_loop_result (fuel n : nat) :
  forall (i : nat) (s : State World),
    let r := demux_bsf_flush_loop sch_demux_send av_packet_rescale_ts
               av_bsf_send_packet av_bsf_receive_packet av_bsf_flush
               fuel n i s in
    match fst r with
    | Returns ret => ret <= 0 /\ ret <> AVERROR_EOF
    | Exits _ | Aborts | OutOfFuel => True
    end
    /\ (Forall (fun ds => bsf ds = None) (skipn i (streams (f (dmx s)))) ->
        r = (Returns 0, s)).
Proof.
  induction n as [|n IH]; intros i s; cbv zeta.
  - cbn. split; [split; [lia|discriminate]|reflexivity].
  - cbn [demux_bsf_flush_loop].
    destruct (nth_error (streams (f (dmx s))) i) as [ds|] eqn:Hnth.
    2:{ cbn. split; [split; [lia|discriminate]|reflexivity]. }
    rewrite (skipn_nth_error _ _ _ Hnth).
    destruct (bsf ds) as [ctx|] eqn:Eb.
    + split.
      * destruct (demux_send _ _ _ _ fuel s i None 0) as [[ret| | |] s1];
          cbn [fst]; try exact I.
        destruct (Z.eqb_spec ret AVERROR_EOF) as [Ee|Ne].
        { cbn [Z.ltb Z.compare]. apply IH. }
        destruct (Z.ltb_spec ret 0) as [Hlt|Hge].
        -- destruct (Z.ltb_spec ret 0); [|lia]. cbn. split; [lia|exact Ne].
        -- cbn. split; [unfold AVERROR_BUG; lia|discriminate].
      * intros Hall. inversion Hall. congruence.
    + split; [apply IH|]. intros Hall. apply IH. inversion Hall. assumption.
Qed.

(** X24: [demux_bsf_flush] never returns a positive value nor AVERROR_EOF:
    the end of stream that [demux_send] reports for a flushed filter is
    taken as success, and a filter that does not report it is an error of
    its own (AVERROR_BUG).  In a file without bitstream filters it returns 0
    and does nothing. *)
Theorem demux_bsf_flush_result (fuel : nat) (s : State World) :
  let r := demux_bsf_flush sch_demux_send av_packet_rescale_ts
             av_bsf_send_packet av_bsf_receive_packet av_bsf_flush
             fuel s in
  match fst r with
  | Returns ret => ret <= 0 /\ ret <> AVERROR_EOF
  | Exits _ | Aborts | OutOfFuel => True
  end
  /\ (Forall (fun ds => bsf ds = None) (streams (f (dmx s))) ->
      r = (Returns 0, s)).
Proof.
  cbv zeta. unfold demux_bsf_flush.
  apply (demux_bsf_flush_loop_result fuel (nb_streams (dmx s)) 0 s).
Qed.

End DemuxerLoop.

(** ** Output set-up: options *)
Section OutputOptions.
Context {U : LibAVUtil}.
Import MuxOptions.

Variable atoi : string -> Z.

Lemma strchr_comma_none (p : string) :
  strchr_comma p = None -> Props.count_commas p = O.
Proof.
  induction p as [|c rest IH]; [reflexivity|]. cbn.
  destruct (is_comma c); [discriminate|]. exact IH.
Qed.

Lemma strchr_comma_some (p q : string) :
  strchr_comma p = Some q ->
  exists (c : Ascii.ascii) (rest : string),
    q = String c rest /\ Props.count_commas p = S (Props.count_commas rest).
Proof.
  induction p as [|c rest IH]; [discriminate|]. cbn.
  destruct (is_comma c) eqn:Ec.
  - intros H. injection H as <-. exists c, rest. auto.
  - intros H. destruct (IH H) as (c' & rest' & -> & Hn).
    exists c', rest'. auto.
Qed.

Lemma uint16_range (z : Z) : 0 <= uint16 z < 65536.
Proof. unfold uint16. apply Z.mod_pos_bound. reflexivity. Qed.

Lemma parse_matrix_coeffs_from_commas (k : nat) :
  forall p : string,
    ((Props.count_commas p < k)%nat -> parse_matrix_coeffs_from atoi k p = None)
    /\ ((k <= Props.count_commas p)%nat ->
        exists l : list Z,
          parse_matrix_coeffs_from atoi k p = Some l
          /\ List.length l = S k
          /\ nth_error l 0 = Some (uint16 (atoi p))
          /\ Forall (fun z => 0 <= z < 65536) l).
Proof.
  induction k as [|k IH]; intros p.
  - split; [lia|]. intros _. eexists. split; [reflexivity|].
    split; [reflexivity|]. split; [reflexivity|].
    constructor; [apply uint16_range|constructor].
  - cbn [parse_matrix_coeffs_from].
    destruct (strchr_comma p) as [q|] eqn:Eq.
    + destruct (strchr_comma_some _ _ Eq) as (c & rest & -> & Hn).
      destruct (IH rest) as [Hfew Hmany]. split.
      * intros H. rewrite Hfew; [reflexivity|lia].
      * intros H. destruct Hmany as (l & Hl & Hlen & _ & Hall); [lia|].
        rewrite Hl. eexists. split; [reflexivity|].
        split; [cbn; lia|]. split; [reflexivity|].
        constructor; [apply uint16_range|exact Hall].
    + pose proof (strchr_comma_none _ Eq) as Hz. split; [reflexivity|lia].
Qed.

(** X25: [parse_matrix_coeffs] leaves the program exactly when the string
    has fewer than 63 commas; otherwise it fills all 64 coefficients with
    16-bit values, the first one being the number at the start of the
    string reduced to 16 bits. *)
Theorem parse_matrix_coeffs_needs_63_commas (str : string) :
  ((Props.count_commas str < 63)%nat -> parse_matrix_coeffs atoi str = None)
  /\ ((63 <= Props.count_commas str)%nat ->
      exists l : list Z,
        parse_matrix_coeffs atoi str = Some l
        /\ List.length l = 64%nat
        /\ nth_error l 0 = Some (uint16 (atoi str))
        /\ Forall (fun z => 0 <= z < 65536) l).
Proof. apply parse_matrix_coeffs_from_commas. Qed.

Variable World : Type.
Variable alloc : World -> World * bool.
Variable ts_offset : Z.
Variable start_time : Z.
Variable recording_time : Z.

Lemma copy_chapters_loop_appends (copy_metadata : bool)
    (l : list AVChapter) :
  forall (w : World) (out : list AVChapter),
    let r := copy_chapters_loop alloc ts_offset start_time recording_time
               w copy_metadata l out in
    (fst (fst r) = 0 \/ fst (fst r) = AVERROR ENOMEM)
    /\ exists added : list AVChapter,
         snd r = out ++ added
         /\ (List.length added <= List.length l)%nat
         /\ Forall (Props.copied_from ts_offset start_time recording_time
                   copy_metadata l) added.
Proof.
  induction l as [|in_ch rest IH]; intros w out; cbv zeta.
  - cbn. split; [auto|]. exists []. rewrite app_nil_r.
    split; [reflexivity|]. split; [cbn; lia|constructor].
  - assert (Hweak : forall added : list AVChapter,
              Forall (Props.copied_from ts_offset start_time recording_time
                   copy_metadata rest) added ->
              Forall (Props.copied_from ts_offset start_time recording_time
                   copy_metadata (in_ch :: rest)) added).
    { intros added. apply Forall_impl.
      intros c (A & B & x & Hin & C). split; [exact A|]. split; [exact B|].
      exists x. split; [right; exact Hin|exact C]. }
    cbn [copy_chapters_loop].
    destruct (Z.ltb_spec (ch_end in_ch)
                (chapter_ts_off ts_offset start_time in_ch)) as [Hlt|Hge].
    { destruct (IH w out) as (Hret & added & Ha & Hlen & Hall).
      split; [exact Hret|]. exists added. split; [exact Ha|].
      split; [cbn; lia|auto]. }
    destruct (negb (chapter_rt recording_time in_ch =? INT64_MAX) && _).
    { cbn. split; [auto|]. exists []. rewrite app_nil_r.
      split; [reflexivity|]. split; [cbn; lia|constructor]. }
    destruct (alloc w) as [w1 ok]. destruct ok; cbn [negb].
    2:{ cbn. split; [auto|]. exists []. rewrite app_nil_r.
        split; [reflexivity|]. split; [cbn; lia|constructor]. }
    match goal with
    | |- context [copy_chapters_loop alloc _ _ _ w1 _ rest (out ++ [?c])] =>
        destruct (IH w1 (out ++ [c])) as (Hret & added & Ha & Hlen & Hall);
        set (out_ch := c) in *
    end.
    split; [exact Hret|]. exists (out_ch :: added).
    split; [rewrite Ha, <- app_assoc; reflexivity|].
    split; [cbn; lia|]. constructor; [|auto].
    unfold Props.copied_from, out_ch. cbn [ch_start ch_end ch_id ch_time_base
                                       ch_metadata].
    split.
    { rewrite FFMAX_max. lia. }
    split.
    { unfold FFMIN, chapter_rt. cbn [ch_time_base].
      match goal with
      | |- (if ?a >? ?b then _ else _) <= _ =>
          destruct (Z.gtb_spec a b); lia
      end. }
    exists in_ch. split; [left; reflexivity|]. auto.
Qed.


End OutputOptions.

(** ** Output set-up: what the sync queues hold *)
Section OutputQueues.
Import MuxInit.

Variable World : Type.
Variable alloc : World -> World * bool.

Lemma same_config_filters (shortest_ : bool) (l l' : list OutputStream) :
  Forall2 Spec.same_config l l' ->
  map (Spec.queue_entry shortest_) (filter IS_AV_ENC l')
  = map (Spec.queue_entry shortest_) (filter IS_AV_ENC l)
  /\ map (Spec.queue_entry shortest_)
       (filter (fun o => IS_INTERLEAVED (codec_type o)) l')
     = map (Spec.queue_entry shortest_)
         (filter (fun o => IS_INTERLEAVED (codec_type o)) l).
Proof.
  induction 1 as [|o o' l l' Hoo _ [IH1 IH2]]; [split; reflexivity|].
  destruct (same_config_entry shortest_ _ _ Hoo) as (Hq & Hav & Hint & _).
  cbn [filter]. rewrite Hav, Hint. split.
  - destruct (IS_AV_ENC o); cbn [map]; rewrite ?Hq, IH1; reflexivity.
  - destruct (IS_INTERLEAVED (codec_type o)); cbn [map]; rewrite ?Hq, IH2;
      reflexivity.
Qed.

Lemma same_config_indices (l l' : list OutputStream) :
  Forall2 (fun o o' => Spec.same_config o o'
                       /\ sq_idx_encode o' = sq_idx_encode o) l l' ->
  map sq_idx_encode (filter IS_AV_ENC l')
  = map sq_idx_encode (filter IS_AV_ENC l).
Proof.
  induction 1 as [|o o' l l' [Hoo He] _ IH]; [reflexivity|].
  destruct (same_config_entry false _ _ Hoo) as (_ & Hav & _ & _).
  cbn [filter]. rewrite Hav.
  destruct (IS_AV_ENC o); cbn [map]; rewrite ?He, IH; reflexivity.
Qed.

(** The loop over the encoded streams, run to its end: the queue has grown
    by the entries of the encoded audio and video streams, in the order of
    the streams, and each of them has the position of its entry. *)
Lemma add_encode_streams_content (shortest_ : bool) (l : list OutputStream) :
  forall (w w' : World) (sq sq' : SyncQueue) (l' : list OutputStream),
    Forall (fun o => max_frames o <= INT64_MAX) l ->
    add_encode_streams alloc shortest_ w sq l = (None, w', sq', l') ->
    sq' = mkSq (sq_type sq) (buf_size_us sq)
            (sq_streams sq
             ++ map (Spec.queue_entry shortest_) (filter IS_AV_ENC l))
    /\ map sq_idx_encode (filter IS_AV_ENC l')
       = map Z.of_nat (seq (List.length (sq_streams sq))
                         (List.length (filter IS_AV_ENC l)))
    /\ Forall2 (fun o o' => Spec.same_config o o'
                            /\ sq_idx_mux o' = sq_idx_mux o) l l'.
Proof.
  induction l as [|o l IH]; intros w w' sq sq' l' Hmax H.
  - injection H as _ <- <-. cbn. rewrite app_nil_r. destruct sq.
    repeat split; constructor.
  - inversion Hmax as [|? ? Ho Hl]; subst.
    cbn [add_encode_streams] in H. cbn [filter].
    destruct (IS_AV_ENC o) eqn:Eav; cbn [negb] in H.
    2:{ destruct (add_encode_streams alloc shortest_ w sq l)
          as [[[r0 w0] sq0] l0] eqn:E.
        injection H as -> <- <- <-.
        destruct (IH _ _ _ _ _ Hl E) as (Hq & Hi & Hf).
        cbn [filter]. rewrite Eav.
        split; [exact Hq|]. split; [exact Hi|].
        constructor; [|exact Hf]. repeat split; reflexivity. }
    unfold sq_add_stream in H. destruct (alloc w) as [w1 ok].
    destruct ok; [|discriminate].
    destruct (Z.ltb_spec (Z.of_nat (List.length (sq_streams sq))) 0); [lia|].
    destruct (alloc w1) as [w2 ok2]. destruct ok2; cbn [negb] in H;
      [|discriminate].
    pose proof (join_queue shortest_ sq o Ho) as Hj. cbv zeta in Hj.
    cbn [max_frames set_sq_frame set_sq_idx_encode sq_idx_encode] in H.
    match type of H with
    | context [add_encode_streams alloc shortest_ _ ?q _] =>
        assert (Hty : sq_type q = sq_type sq /\ buf_size_us q = buf_size_us sq);
        [|set (sq2 := q) in *]
    end.
    { destruct (negb _); [unfold sq_limit_frames; destruct (_ <? 0)|];
        split; reflexivity. }
    destruct (add_encode_streams alloc shortest_ w2 sq2 l)
      as [[[r0 w0] sq0] l0] eqn:E.
    injection H as -> <- <- <-.
    destruct (IH _ _ _ _ _ Hl E) as (Hq & Hi & Hf).
    destruct Hty as [Ht Hb]. rewrite Ht, Hb, Hj in Hq.
    split; [|split].
    + rewrite Hq. cbn [map]. rewrite <- app_assoc. reflexivity.
    + cbn [filter].
      match goal with
      | |- context [IS_AV_ENC (set_sq_frame ?x ?b)] =>
          change (IS_AV_ENC (set_sq_frame x b)) with (IS_AV_ENC o)
      end.
      rewrite Eav. cbn [map sq_idx_encode List.length seq].
      rewrite Hi, Hj, length_app. cbn [List.length].
      rewrite Nat.add_1_r. reflexivity.
    + constructor; [|exact Hf]. unfold Spec.same_config. cbn.
      repeat split; reflexivity.
Qed.

Lemma add_mux_streams_content (shortest_ : bool) (l : list OutputStream) :
  forall (w w' : World) (sq sq' : SyncQueue) (l' : list OutputStream),
    Forall (fun o => max_frames o <= INT64_MAX) l ->
    add_mux_streams alloc shortest_ w sq l = (None, w', sq', l') ->
    sq' = mkSq (sq_type sq) (buf_size_us sq)
            (sq_streams sq
             ++ map (Spec.queue_entry shortest_)
                  (filter (fun o => IS_INTERLEAVED (codec_type o)) l))
    /\ map sq_idx_mux (filter (fun o => IS_INTERLEAVED (codec_type o)) l')
       = map Z.of_nat
           (seq (List.length (sq_streams sq))
              (List.length
                 (filter (fun o => IS_INTERLEAVED (codec_type o)) l)))
    /\ Forall2 (fun o o' => Spec.same_config o o'
                            /\ sq_idx_encode o' = sq_idx_encode o) l l'.
Proof.
  induction l as [|o l IH]; intros w w' sq sq' l' Hmax H.
  - injection H as _ <- <-. cbn. rewrite app_nil_r. destruct sq.
    repeat split; constructor.
  - inversion Hmax as [|? ? Ho Hl]; subst.
    cbn [add_mux_streams] in H. cbn [filter].
    destruct (IS_INTERLEAVED (codec_type o)) eqn:Eav; cbn [negb] in H.
    2:{ destruct (add_mux_streams alloc shortest_ w sq l)
          as [[[r0 w0] sq0] l0] eqn:E.
        injection H as -> <- <- <-.
        destruct (IH _ _ _ _ _ Hl E) as (Hq & Hi & Hf).
        cbn [filter]. rewrite Eav.
        split; [exact Hq|]. split; [exact Hi|].
        constructor; [|exact Hf]. repeat split; reflexivity. }
    unfold sq_add_stream in H. destruct (alloc w) as [w1 ok].
    destruct ok; [|discriminate].
    destruct (Z.ltb_spec (Z.of_nat (List.length (sq_streams sq))) 0); [lia|].
    pose proof (join_queue shortest_ sq o Ho) as Hj. cbv zeta in Hj.
    cbn [max_frames set_sq_idx_mux sq_idx_mux] in H.
    match type of H with
    | context [add_mux_streams alloc shortest_ _ ?q _] =>
        assert (Hty : sq_type q = sq_type sq /\ buf_size_us q = buf_size_us sq);
        [|set (sq2 := q) in *]
    end.
    { destruct (negb _); [unfold sq_limit_frames; destruct (_ <? 0)|];
        split; reflexivity. }
    destruct (add_mux_streams alloc shortest_ w1 sq2 l)
      as [[[r0 w0] sq0] l0] eqn:E.
    injection H as -> <- <- <-.
    destruct (IH _ _ _ _ _ Hl E) as (Hq & Hi & Hf).
    destruct Hty as [Ht Hb]. rewrite Ht, Hb, Hj in Hq.
    split; [|split].
    + rewrite Hq. cbn [map]. rewrite <- app_assoc. reflexivity.
    + cbn [filter].
      match goal with
      | |- context [codec_type (set_sq_idx_mux ?x ?b)] =>
          change (codec_type (set_sq_idx_mux x b)) with (codec_type o)
      end.
      rewrite Eav.
      cbn [map sq_idx_mux List.length seq].
      rewrite Hi, Hj, length_app. cbn [List.length].
      rewrite Nat.add_1_r. reflexivity.
    + constructor; [|exact Hf]. unfold Spec.same_config. cbn.
      repeat split; reflexivity.
Qed.

Lemma Forall2_same_config_reset (l : list OutputStream) :
  Forall2 Spec.same_config l (map reset_sq_idx l).
Proof.
  induction l as [|o l IH]; cbn [map]; constructor; [|exact IH].
  repeat split; reflexivity.
Qed.

Lemma Forall2_same_config_trans (l1 l2 l3 : list OutputStream) :
  Forall2 Spec.same_config l1 l2 -> Forall2 Spec.same_config l2 l3 ->
  Forall2 Spec.same_config l1 l3.
Proof.
  apply Forall2_compose. intros a b c (A1 & A2 & A3) (B1 & B2 & B3).
  repeat split; congruence.
Qed.

(** X28: when [setup_sync_queues] goes on to create queues and returns 0,
    the queue in front of the encoders is created when shortest is set and
    more than one stream is encoded audio or video, or when such a stream
    has a frame limit; it is a queue of frames that holds one entry for
    every encoded audio or video stream and nothing else, in the order of
    the streams, and the n-th such stream has index n; otherwise
    [sq_encode] is what it was.  The same holds for the queue in front of
    the muxer, a queue of packets for the interleaved streams, which is
    created when the file has more interleaved streams than encoded audio
    and video streams. *)
Theorem setup_sync_queues_queue_contents
    (w w' : World) (mux mux' : Muxer) (buf_size_us_ : Z) :
  let l := streams (of_ mux) in
  let shortest_ := shortest (of_ mux) in
  let c := fold_left count_stream l (mkCounts 0 0 false false) in
  Forall (fun o => max_frames o <= INT64_MAX) l ->
  wants_sync_queues shortest_ c = true ->
  setup_sync_queues alloc w mux buf_size_us_ = (0, w', mux') ->
  (if (shortest_ && (nb_av_enc c >? 1)) || limit_frames_av_enc c
   then sq_encode (of_ mux')
        = Some (mkSq SYNC_QUEUE_FRAMES buf_size_us_
                  (map (Spec.queue_entry shortest_) (filter IS_AV_ENC l)))
        /\ map sq_idx_encode (filter IS_AV_ENC (streams (of_ mux')))
           = map Z.of_nat (seq 0 (List.length (filter IS_AV_ENC l)))
   else sq_encode (of_ mux') = sq_encode (of_ mux))
  /\ (if nb_interleaved c >? nb_av_enc c
      then sq_mux mux'
           = Some (mkSq SYNC_QUEUE_PACKETS buf_size_us_
                     (map (Spec.queue_entry shortest_)
                        (filter (fun o => IS_INTERLEAVED (codec_type o)) l)))
           /\ sq_pkt mux' = true
           /\ map sq_idx_mux
                (filter (fun o => IS_INTERLEAVED (codec_type o))
                   (streams (of_ mux')))
              = map Z.of_nat
                  (seq 0 (List.length
                            (filter (fun o => IS_INTERLEAVED (codec_type o))
                               l)))
      else sq_mux mux' = sq_mux mux /\ sq_pkt mux' = sq_pkt mux).
Proof.
  cbv zeta. intros Hmax Hwants Hrun. unfold setup_sync_queues in Hrun.
  rewrite Hwants in Hrun. cbn [negb] in Hrun.
  pose proof (Forall2_same_config_reset (streams (of_ mux))) as H0.
  set (l0 := map reset_sq_idx (streams (of_ mux))) in *.
  set (sh := shortest (of_ mux)) in *.
  set (c := fold_left count_stream (streams (of_ mux))
              (mkCounts 0 0 false false)) in *.
  assert (Hmax0 : Forall (fun o => max_frames o <= INT64_MAX) l0).
  { apply (Forall_same_config _ _ _ (fun _ _ H => H) H0 Hmax). }
  destruct ((sh && (nb_av_enc c >? 1)) || limit_frames_av_enc c).
  - unfold sq_alloc at 1 in Hrun. destruct (alloc w) as [w1 ok].
    destruct ok.
    2:{ injection Hrun as Hr _ _. unfold AVERROR, ENOMEM in Hr. lia. }
    destruct (add_encode_streams alloc sh w1
                (mkSq SYNC_QUEUE_FRAMES buf_size_us_ []) l0)
      as [[[r w2] sq1] l1] eqn:E.
    destruct r as [ret|].
    { apply add_encode_streams_early in E. injection Hrun as -> _ _. lia. }
    destruct (add_encode_streams_content _ _ _ _ _ _ _ Hmax0 E)
      as (Hq & Hi & Hf).
    cbn [sq_type buf_size_us sq_streams app List.length] in Hq, Hi.
    assert (H1 : Forall2 Spec.same_config (streams (of_ mux)) l1).
    { eapply Forall2_same_config_trans; [exact H0|].
      eapply Forall2_impl; [|exact Hf]. intros a b [Hab _]. exact Hab. }
    destruct (same_config_filters sh _ _ H0) as [Hf0 _].
    destruct (same_config_filters sh _ _ H1) as [_ Hf1].
    assert (Hlen : List.length (filter IS_AV_ENC l0)
                   = List.length (filter IS_AV_ENC (streams (of_ mux)))).
    { rewrite <- (length_map (Spec.queue_entry sh)), Hf0, length_map.
      reflexivity. }
    rewrite Hf0 in Hq. rewrite Hlen in Hi.
    assert (Hmax1 : Forall (fun o => max_frames o <= INT64_MAX) l1).
    { apply (Forall_same_config _ _ _ (fun _ _ H => H) H1 Hmax). }
    cbn [of_ streams sq_encode sq_pkt sq_mux] in Hrun.
    destruct (nb_interleaved c >? nb_av_enc c).
    + unfold sq_alloc in Hrun. destruct (alloc w2) as [w3 ok3].
      destruct ok3.
      2:{ injection Hrun as Hr _ _. unfold AVERROR, ENOMEM in Hr. lia. }
      destruct (alloc w3) as [w4 ok4]. destruct ok4; cbn [negb] in Hrun.
      2:{ injection Hrun as Hr _ _. unfold AVERROR, ENOMEM in Hr. lia. }
      destruct (add_mux_streams alloc sh w4
                  (mkSq SYNC_QUEUE_PACKETS buf_size_us_ []) l1)
        as [[[r w5] sq2] l2] eqn:E2.
      destruct r as [ret|].
      { apply add_mux_streams_early in E2. injection Hrun as -> _ _. lia. }
      destruct (add_mux_streams_content _ _ _ _ _ _ _ Hmax1 E2)
        as (Hq2 & Hi2 & Hf2).
      cbn [sq_type buf_size_us sq_streams app List.length] in Hq2, Hi2.
      injection Hrun as _ <-. cbn [of_ streams sq_encode sq_mux sq_pkt].
      split; [split|split; [|split]].
      * rewrite Hq. reflexivity.
      * rewrite (same_config_indices _ _ Hf2). exact Hi.
      * rewrite Hq2, Hf1. reflexivity.
      * reflexivity.
      * rewrite Hi2.
        rewrite <- (length_map (Spec.queue_entry sh)), Hf1, length_map.
        reflexivity.
    + injection Hrun as _ <-. cbn [of_ streams sq_encode sq_mux sq_pkt].
      split; [split|split; reflexivity].
      * rewrite Hq. reflexivity.
      * exact Hi.
  - cbn [of_ streams sq_encode sq_pkt sq_mux] in Hrun.
    destruct (same_config_filters sh _ _ H0) as [_ Hf1].
    destruct (nb_interleaved c >? nb_av_enc c).
    + unfold sq_alloc in Hrun. destruct (alloc w) as [w3 ok3].
      destruct ok3.
      2:{ injection Hrun as Hr _ _. unfold AVERROR, ENOMEM in Hr. lia. }
      destruct (alloc w3) as [w4 ok4]. destruct ok4; cbn [negb] in Hrun.
      2:{ injection Hrun as Hr _ _. unfold AVERROR, ENOMEM in Hr. lia. }
      destruct (add_mux_streams alloc sh w4
                  (mkSq SYNC_QUEUE_PACKETS buf_size_us_ []) l0)
        as [[[r w5] sq2] l2] eqn:E2.
      destruct r as [ret|].
      { apply add_mux_streams_early in E2. injection Hrun as -> _ _. lia. }
      destruct (add_mux_streams_content _ _ _ _ _ _ _ Hmax0 E2)
        as (Hq2 & Hi2 & Hf2).
      cbn [sq_type buf_size_us sq_streams app List.length] in Hq2, Hi2.
      injection Hrun as _ <-. cbn [of_ streams sq_encode sq_mux sq_pkt].
      split; [reflexivity|]. split; [|split].
      * rewrite Hq2, Hf1. reflexivity.
      * reflexivity.
      * rewrite Hi2.
        rewrite <- (length_map (Spec.queue_entry sh)), Hf1, length_map.
        reflexivity.
    + injection Hrun as _ <-. cbn. repeat split; reflexivity.
Qed.

End OutputQueues.

(** ** Output set-up: metadata specifiers and dispositions *)
Section OutputMetadata.
Import Ascii MuxMeta.

Variable strtol : string -> Z.

(** X29: [parse_meta_type] leaves the program exactly when the specifier
    starts with a character other than g, s, c and p, or with s followed by
    a character other than a colon.  When it returns, the type is the first
    character of the specifier (g for the empty one); the index is touched
    only for c and p, the stream specifier only for s, which gets what
    follows the colon, or the empty string. *)
Theorem parse_meta_type_cases (arg : string) (index : Z)
    (stream_spec : string) :
  (parse_meta_type strtol arg index stream_spec = None <->
   exists (c : ascii) (rest : string),
     arg = String c rest
     /\ (~ In c ["g"; "s"; "c"; "p"]%char
         \/ (c = "s"%char
             /\ exists (c1 : ascii) (rest1 : string),
                  rest = String c1 rest1 /\ c1 <> ":"%char)))
  /\ forall (type : ascii) (i : Z) (spec : string),
       parse_meta_type strtol arg index stream_spec = Some (type, i, spec) ->
       In type ["g"; "s"; "c"; "p"]%char
       /\ ((arg = EmptyString /\ type = "g"%char)
           \/ exists rest : string, arg = String type rest)
       /\ (type = "g"%char \/ type = "s"%char -> i = index)
       /\ (type <> "s"%char -> spec = stream_spec)
       /\ (type = "s"%char ->
           arg = String type EmptyString /\ spec = EmptyString
           \/ arg = String type (String ":" spec)).
Proof.
  unfold parse_meta_type. destruct arg as [|c rest].
  { split.
    - split; [discriminate|]. intros (c & rest & H & _). discriminate.
    - intros type i spec H. injection H as <- <- <-.
      split; [left; reflexivity|]. split; [left; split; reflexivity|].
      split; [reflexivity|]. split; [reflexivity|]. discriminate. }
  destruct (Ascii.eqb_spec c "g") as [->|Ng].
  { split.
    - split; [discriminate|]. intros (c & r & H & [Hn|[Hs _]]).
      + injection H as <- _. exfalso. apply Hn. left. reflexivity.
      + injection H as <- _. discriminate.
    - intros type i spec H. injection H as <- <- <-.
      split; [left; reflexivity|]. split; [right; eauto|].
      split; [reflexivity|]. split; [reflexivity|]. discriminate. }
  destruct (Ascii.eqb_spec c "s") as [->|Ns].
  { destruct rest as [|c1 rest1].
    - split.
      + split; [discriminate|]. intros (c & r & H & [Hn|[_ (c1 & r1 & H1 & _)]]).
        * injection H as <- _. exfalso. apply Hn. right. left. reflexivity.
        * injection H as _ <-. discriminate.
      + intros type i spec H. injection H as <- <- <-.
        split; [right; left; reflexivity|]. split; [right; eauto|].
        split; [reflexivity|]. split; [intros N; contradiction|].
        intros _. left. split; reflexivity.
    - destruct (Ascii.eqb_spec c1 ":") as [->|Nc].
      + split.
        * split; [discriminate|].
          intros (c & r & H & [Hn|[_ (c1 & r1 & H1 & Hc)]]).
          -- injection H as <- _. exfalso. apply Hn. right. left. reflexivity.
          -- injection H as _ <-. injection H1 as <- _. contradiction.
        * intros type i spec H. injection H as <- <- <-.
          split; [right; left; reflexivity|]. split; [right; eauto|].
          split; [reflexivity|]. split; [intros N; contradiction|].
          intros _. right. reflexivity.
      + split.
        * split; [|reflexivity]. intros _. exists "s"%char, (String c1 rest1).
          split; [reflexivity|]. right. split; [reflexivity|]. eauto.
        * discriminate. }
  destruct (Ascii.eqb_spec c "c") as [->|Nc].
  { cbn [orb]. split.
    - split.
      + destruct rest as [|c1 rest1]; [discriminate|].
        destruct (Ascii.eqb c1 ":"); discriminate.
      + intros (c & r & H & [Hn|[Hs _]]).
        * injection H as <- _. exfalso. apply Hn. right. right. left.
          reflexivity.
        * injection H as <- _. discriminate.
    - intros type i spec H.
      assert (H' : type = "c"%char /\ spec = stream_spec).
      { destruct rest as [|c1 rest1]; [|destruct (Ascii.eqb c1 ":")];
          injection H as <- _ <-; split; reflexivity. }
      destruct H' as [-> ->].
      split; [right; right; left; reflexivity|]. split; [right; eauto|].
      split; [intros [E|E]; discriminate|]. split; [reflexivity|].
      discriminate. }
  destruct (Ascii.eqb_spec c "p") as [->|Np].
  { cbn [orb]. split.
    - split.
      + destruct rest as [|c1 rest1]; [discriminate|].
        destruct (Ascii.eqb c1 ":"); discriminate.
      + intros (c & r & H & [Hn|[Hs _]]).
        * injection H as <- _. exfalso. apply Hn. right. right. right. left.
          reflexivity.
        * injection H as <- _. discriminate.
    - intros type i spec H.
      assert (H' : type = "p"%char /\ spec = stream_spec).
      { destruct rest as [|c1 rest1]; [|destruct (Ascii.eqb c1 ":")];
          injection H as <- _ <-; split; reflexivity. }
      destruct H' as [-> ->].
      split; [right; right; right; left; reflexivity|]. split; [right; eauto|].
      split; [intros [E|E]; discriminate|]. split; [reflexivity|].
      discriminate. }
  cbn [orb]. split.
  - split; [|reflexivity]. intros _. exists c, rest. split; [reflexivity|].
    left. intros [E|[E|[E|[E|[]]]]]; congruence.
  - discriminate.
Qed.

End OutputMetadata.

Section OutputDispositions.
Import MuxMeta.

Variable input_streams : list Z.
Variable av_opt_set : Z -> string -> Z * Z.

Lemma AVMediaType_eqb_sym (a b : AVMediaType) :
  AVMediaType_eqb a b = AVMediaType_eqb b a.
Proof. destruct a, b; reflexivity. Qed.

Lemma AVMediaType_eqb_true (a b : AVMediaType) :
  AVMediaType_eqb a b = true -> a = b.
Proof. destruct a, b; cbn; congruence. Qed.

Lemma has_default_set (d : Z) :
  truthy (Z.land (Z.lor d AV_DISPOSITION_DEFAULT) AV_DISPOSITION_DEFAULT)
  = true.
Proof.
  rewrite Z.land_lor_distr_l. unfold truthy.
  apply negb_true_iff, Z.eqb_neq. intros H.
  apply Z.lor_eq_0_iff in H. destruct H as [_ H]. discriminate H.
Qed.

Lemma attached_pic_set (d : Z) :
  Z.land (Z.lor d AV_DISPOSITION_DEFAULT) AV_DISPOSITION_ATTACHED_PIC
  = Z.land d AV_DISPOSITION_ATTACHED_PIC.
Proof.
  rewrite Z.land_lor_distr_l.
  change (Z.land AV_DISPOSITION_DEFAULT AV_DISPOSITION_ATTACHED_PIC) with 0.
  apply Z.lor_0_r.
Qed.

(** Two lists of the same streams, by type. *)
Lemma filter_type_Forall2 (R : OutputStream -> OutputStream -> Prop)
    (P Q : OutputStream -> bool) (type : AVMediaType)
    (l l' : list OutputStream) :
  (forall o o', R o o' ->
     codec_type o' = codec_type o /\ (P o = true -> Q o' = true)) ->
  Forall2 R l l' ->
  List.length (filter (fun o => AVMediaType_eqb (codec_type o) type) l')
  = List.length (filter (fun o => AVMediaType_eqb (codec_type o) type) l)
  /\ (existsb P (filter (fun o => AVMediaType_eqb (codec_type o) type) l)
      = true ->
      existsb Q (filter (fun o => AVMediaType_eqb (codec_type o) type) l')
      = true).
Proof.
  intros HR. induction 1 as [|o o' l l' Hoo _ [IH1 IH2]];
    [split; [reflexivity|intros H; exact H]|].
  destruct (HR _ _ Hoo) as [Hty HPQ]. cbn [filter]. rewrite Hty.
  destruct (AVMediaType_eqb (codec_type o) type).
  - cbn [List.length existsb]. split; [rewrite IH1; reflexivity|].
    intros H. apply orb_true_iff in H. apply orb_true_iff.
    destruct H as [H|H]; [left; apply HPQ; exact H|right; apply IH2; exact H].
  - split; assumption.
Qed.

Lemma copy_dispositions_tally (l : list OutputStream) :
  forall (t t1 : Tally) (l1 : list OutputStream),
    copy_dispositions input_streams l t = Some (l1, t1) ->
    Forall2 (fun o o1 => codec_type o1 = codec_type o
                         /\ disposition o1 = disposition o) l l1
    /\ (forall type : AVMediaType,
          nb_streams t1 type
          = nb_streams t type
            + Z.of_nat
                (List.length
                   (filter (fun o => AVMediaType_eqb (codec_type o) type) l)))
    /\ (Forall (fun o => disposition o = None) l ->
        have_manual t1 = have_manual t)
    /\ (forall type : AVMediaType,
          truthy (have_default t1 type) = true ->
          truthy (have_default t type) = true
          \/ existsb has_default
               (filter (fun o => AVMediaType_eqb (codec_type o) type) l1)
             = true).
Proof.
  induction l as [|o l IH]; intros t t1 l1 H.
  - injection H as <- <-. split; [constructor|]. split; [intros; cbn; lia|].
    split; [reflexivity|]. intros type Hd. left. exact Hd.
  - cbn [copy_dispositions] in H.
    destruct (AVMediaType_eqb (codec_type o) AVMEDIA_TYPE_UNKNOWN);
      [discriminate|].
    assert (Hnb : forall (hd : AVMediaType -> Z) (hm : Z) (rest1 : list OutputStream)
                         (type : AVMediaType),
              (forall ty,
                 nb_streams t1 ty
                 = array_set (nb_streams t) (codec_type o)
                     (nb_streams t (codec_type o) + 1) ty
                   + Z.of_nat
                       (List.length
                          (filter (fun o => AVMediaType_eqb (codec_type o) ty)
                             l))) ->
              nb_streams t1 type
              = nb_streams t type
                + Z.of_nat
                    (List.length
                       (filter (fun o => AVMediaType_eqb (codec_type o) type)
                          (o :: l)))).
    { intros _ _ _ type Hn. rewrite Hn. unfold array_set. cbn [filter].
      rewrite (AVMediaType_eqb_sym type).
      destruct (AVMediaType_eqb (codec_type o) type) eqn:Et.
      - apply AVMediaType_eqb_true in Et. subst type.
        cbn [List.length]. lia.
      - reflexivity. }
    assert (Hhm : forall hm,
              Forall (fun o => disposition o = None) (o :: l) ->
              hm = have_manual
                     {| nb_streams := nb_streams t;
                        have_default := have_default t;
                        have_manual :=
                          Z.lor (have_manual t)
                            (of_bool match disposition o with
                                     | Some _ => true | None => false end) |} ->
              hm = have_manual t).
    { intros hm Hall ->. inversion Hall as [|? ? Ho _]; subst.
      cbn [have_manual]. rewrite Ho. cbn [of_bool]. apply Z.lor_0_r. }
    destruct (source_index o >=? 0).
    + destruct (nth_error input_streams _) as [disp|]; [|discriminate].
      destruct (copy_dispositions input_streams l _) as [[rest1 t2]|] eqn:E;
        [|discriminate].
      injection H as <- <-.
      destruct (IH _ _ _ E) as (Hf & Hn & Hm & Hd).
      cbn [nb_streams have_default have_manual] in Hn, Hm, Hd.
      split; [constructor; [split; reflexivity|exact Hf]|].
      split; [intros type; apply (Hnb (fun _ => 0) 0 rest1 type Hn)|].
      split.
      { intros Hall. apply Hhm; [exact Hall|]. cbn [have_manual].
        inversion Hall; subst. auto. }
      intros type Ht. cbn [filter codec_type set_st_disposition].
      destruct (Hd type Ht) as [Hd1|Hd1].
      * destruct (truthy (Z.land disp AV_DISPOSITION_DEFAULT)) eqn:Edef.
        -- unfold array_set in Hd1.
           rewrite (AVMediaType_eqb_sym type) in Hd1.
           destruct (AVMediaType_eqb (codec_type o) type).
           ++ right. cbn [existsb]. unfold has_default at 1.
              cbn [st_disposition set_st_disposition]. rewrite Edef.
              reflexivity.
           ++ left. exact Hd1.
        -- left. exact Hd1.
      * right. destruct (AVMediaType_eqb (codec_type o) type);
          [cbn [existsb]; rewrite Hd1; apply orb_true_r|exact Hd1].
    + destruct (copy_dispositions input_streams l _) as [[rest1 t2]|] eqn:E;
        [|discriminate].
      injection H as <- <-.
      destruct (IH _ _ _ E) as (Hf & Hn & Hm & Hd).
      cbn [nb_streams have_default have_manual] in Hn, Hm, Hd.
      split; [constructor; [split; reflexivity|exact Hf]|].
      split; [intros type; apply (Hnb (fun _ => 0) 0 rest1 type Hn)|].
      split.
      { intros Hall. apply Hhm; [exact Hall|]. cbn [have_manual].
        inversion Hall; subst. auto. }
      intros type Ht. cbn [filter].
      destruct (Hd type Ht) as [Hd1|Hd1]; [left; exact Hd1|].
      right. destruct (AVMediaType_eqb (codec_type o) type);
        [cbn [existsb]; rewrite Hd1; apply orb_true_r|exact Hd1].
Qed.

Lemma mark_defaults_marks (l : list OutputStream) :
  forall nb hd : AVMediaType -> Z,
    Forall2 (fun o o' => codec_type o' = codec_type o
                         /\ attached_pic o' = attached_pic o
                         /\ (has_default o = true -> has_default o' = true))
      l (mark_defaults nb hd l)
    /\ forall type : AVMediaType,
         2 <= nb type ->
         truthy (hd type) = false ->
         existsb (fun o => negb (attached_pic o))
           (filter (fun o => AVMediaType_eqb (codec_type o) type) l) = true ->
         existsb has_default
           (filter (fun o => AVMediaType_eqb (codec_type o) type)
              (mark_defaults nb hd l)) = true.
Proof.
  induction l as [|o l IH]; intros nb hd.
  - split; [constructor|]. intros type _ _ H. discriminate H.
  - cbn [mark_defaults].
    destruct ((nb (codec_type o) <? 2) || truthy (hd (codec_type o))
              || attached_pic o) eqn:Ec.
    + destruct (IH nb hd) as [Hf Hx]. split.
      * constructor; [|exact Hf]. repeat split; auto.
      * intros type Hnb Hhd Hex. cbn [filter] in *.
        destruct (AVMediaType_eqb (codec_type o) type) eqn:Et.
        -- apply AVMediaType_eqb_true in Et. subst type.
           cbn [existsb] in *.
           destruct (Z.ltb_spec (nb (codec_type o)) 2); [lia|].
           rewrite Hhd in Ec. cbn [orb] in Ec. rewrite Ec in Hex.
           cbn [negb orb] in Hex. rewrite (Hx _ Hnb Hhd Hex).
           apply orb_true_r.
        -- apply (Hx _ Hnb Hhd Hex).
    + destruct (IH nb (array_set hd (codec_type o) 1)) as [Hf Hx]. split.
      * constructor; [|exact Hf]. split; [reflexivity|]. split.
        -- unfold attached_pic. cbn [st_disposition set_st_disposition].
           rewrite attached_pic_set. reflexivity.
        -- intros _. unfold has_default.
           cbn [st_disposition set_st_disposition]. apply has_default_set.
      * intros type Hnb Hhd Hex. cbn [filter codec_type set_st_disposition] in *.
        destruct (AVMediaType_eqb (codec_type o) type) eqn:Et.
        -- cbn [existsb]. unfold has_default at 1.
           cbn [st_disposition set_st_disposition].
           rewrite has_default_set. reflexivity.
        -- apply (Hx _ Hnb); [|exact Hex]. unfold array_set.
           rewrite AVMediaType_eqb_sym, Et. exact Hhd.
Qed.

(** X30: when the user has set no disposition, [set_dispositions] returns
    0, keeps the streams' types, and leaves every media type that has two
    streams or more, one of which at least is not an attached picture, with
    a stream marked as default. *)
Theorem set_dispositions_default (l l' : list OutputStream) (ret : Z) :
  Forall (fun o => disposition o = None) l ->
  set_dispositions input_streams av_opt_set l = Some (ret, l') ->
  ret = 0
  /\ map codec_type l' = map codec_type l
  /\ forall type : AVMediaType,
       let same :=
         filter (fun o => AVMediaType_eqb (codec_type o) type) l' in
       (2 <= List.length same)%nat ->
       existsb (fun o => negb (attached_pic o)) same = true ->
       existsb has_default same = true.
Proof.
  intros Hall Hrun. unfold set_dispositions in Hrun.
  destruct (copy_dispositions input_streams l _) as [[l1 t]|] eqn:E;
    [|discriminate].
  destruct (copy_dispositions_tally _ _ _ _ E) as (Hf & Hn & Hm & Hd).
  cbn [nb_streams have_default have_manual] in Hn, Hm, Hd.
  rewrite (Hm Hall) in Hrun. cbn [truthy Z.eqb negb] in Hrun.
  injection Hrun as <- <-. split; [reflexivity|].
  destruct (mark_defaults_marks l1 (nb_streams t) (have_default t))
    as [Hf2 Hx].
  split.
  { clear - Hf Hf2. revert Hf2.
    generalize (mark_defaults (nb_streams t) (have_default t) l1).
    induction Hf as [|o o1 l l1 [Ho _] _ IH]; intros l' Hf2;
      inversion Hf2 as [|? o' ? l0 [Ho' _] Hr]; subst; [reflexivity|].
    cbn [map]. rewrite Ho', Ho, (IH _ Hr). reflexivity. }
  intros type. cbv zeta. intros Hlen Hex.
  destruct (filter_type_Forall2 _ (fun _ => false) (fun _ => false) type _ _
              (fun o o' (H : codec_type o' = codec_type o
                             /\ disposition o' = disposition o) =>
                 conj (proj1 H) (fun E : false = true => E)) Hf)
    as [Hl1 _].
  destruct (filter_type_Forall2 _ has_default has_default type _ _
              (fun o o' H => conj (proj1 H) (proj2 (proj2 H))) Hf2)
    as [Hl2 Hdef].
  assert (Hback : existsb (fun o => negb (attached_pic o))
                    (filter (fun o => AVMediaType_eqb (codec_type o) type) l1)
                  = true).
  { clear - Hf2 Hex. revert Hex.
    induction Hf2 as [|o o' l1 l' (Ht & Ha & _) _ IH]; [intros H; exact H|].
    cbn [filter]. rewrite Ht.
    destruct (AVMediaType_eqb (codec_type o) type); [|exact IH].
    cbn [existsb]. rewrite Ha. intros H. apply orb_true_iff in H.
    apply orb_true_iff. destruct H as [H|H]; [left; exact H|right; auto]. }
  destruct (truthy (have_default t type)) eqn:Ehd.
  - destruct (Hd type Ehd) as [H0|H1]; [discriminate H0|].
    apply Hdef. exact H1.
  - apply Hx; [|exact Ehd|exact Hback].
    rewrite Hn, <- Hl1, <- Hl2. lia.
Qed.

End OutputDispositions.

(** ** The further properties at concrete inputs *)


(** Two filters that have both finished. *)
Lemma send_frame_to_filters_hides_eof_witness :
  fst (Dec.send_frame_to_filters 0 nat Inputs.closed_send_frame
         (Inputs.dec_state (Inputs.ist_video (mkQ 0 1)))
         (Inputs.video_frame 7200 0))
  <> AVERROR_EOF.
Proof.
  apply send_frame_to_filters_hides_eof. cbn. lia.
Defined.

(** Two frames at 48000 Hz after frames at 44100 Hz. *)
Lemma audio_samplerate_update_stable_witness :
  Dec.audio_samplerate_update (U := Model.libavutil)
    (fst (Dec.audio_samplerate_update (U := Model.libavutil)
            Examples.ist_44100 Examples.frame_48000))
    (Examples.audio_frame 3253 48000 (mkQ 1 48000))
  = Dec.audio_samplerate_update (U := Model.libavutil)
      Examples.ist_44100 Examples.frame_48000.
Proof.
  apply (audio_samplerate_update_stable (U := Model.libavutil)).
  reflexivity.
Defined.


(** A video decoder with two filters is flushed; the codec has nothing
    left. *)
Lemma dec_packet_flush_drains_witness :
  fst (Inputs.drained_dec_packet 1%nat
         (Inputs.dec_state (Inputs.ist_video (mkQ 0 1))) None false)
  = Returns AVERROR_EOF.
Proof.
  assert (H1 : Dec.codec_type
                 (Dec.dec_ctx
                    (Dec.ist (Inputs.dec_state (Inputs.ist_video (mkQ 0 1)))))
               <> AVMEDIA_TYPE_SUBTITLE) by (cbn; discriminate).
  assert (H2 : Examples.idle_send_packet
                 (Dec.world (Inputs.dec_state (Inputs.ist_video (mkQ 0 1))))
                 None = (1%nat, 0)) by reflexivity.
  assert (H3 : 0 <= 0 \/ 0 = AVERROR_EOF) by (left; lia).
  assert (H4 : Inputs.drained_receive_frame 1%nat
               = (2%nat, AVERROR_EOF, Dec.blank_frame)) by reflexivity.
  assert (H5 : forall (w : nat) (i e : Z) (tb : AVRational),
             0 <= snd (Examples.idle_send_eof w i e tb))
    by (intros; cbn; lia).
  destruct (dec_packet_flush_drains (U := Model.libavutil)
              [Dec.mkInputFile false] false 0 nat Examples.idle_send_packet
              Inputs.drained_receive_frame (fun _ => 0) (fun _ => true)
              Examples.idle_hwaccel Examples.idle_send_frame
              Examples.idle_send_eof Examples.idle_decode_subtitle
              (fun _ => false) (fun _ => INT64_MAX)
              Examples.idle_sub2video_update Examples.idle_add_frame
              (fun _ => true) Examples.idle_fifo_write
              Examples.idle_enc_subtitle Examples.idle_subtitle_free
              O (Inputs.dec_state (Inputs.ist_video (mkQ 0 1))) false
              1%nat 2%nat 0 Dec.blank_frame H1 H2 H3 H4 H5) as (E & _).
  exact E.
Defined.

(** The same flush, with any bound on the number of frames read. *)
Lemma dec_packet_flush_never_succeeds_witness :
  match fst (Inputs.drained_dec_packet 5%nat
               (Inputs.dec_state (Inputs.ist_video (mkQ 0 1))) None true) with
  | Returns r => r < 0
  | Exits _ | Aborts | OutOfFuel => True
  end.
Proof.
  apply (dec_packet_flush_never_succeeds (U := Model.libavutil)).
  cbn. discriminate.
Defined.

(** A subtitle that starts 2 s after the one held back: that one is passed
    on, and the new one is held back in its place. *)
Lemma process_subtitle_fix_sub_duration_witness :
  Dec.prev_sub_subtitle
    (Dec.ist (snd (fst (fst (Inputs.idle_process_subtitle
                               (Inputs.dec_state Inputs.ist_subtitle)
                               (Dec.mkSubtitle 2000000 3000 1) 1)))))
  = Dec.mkSubtitle 2000000 3000 1.
Proof.
  assert (H : Dec.fix_sub_duration
                (Dec.ist (Inputs.dec_state Inputs.ist_subtitle)) <> 0)
    by (cbn; lia).
  destruct (process_subtitle_fix_sub_duration (U := Model.libavutil) nat
              (fun _ : nat => false) Examples.idle_sub2video_update
              (fun _ => true) Examples.idle_fifo_write
              Examples.idle_enc_subtitle Examples.idle_subtitle_free
              (Inputs.dec_state Inputs.ist_subtitle)
              (Dec.mkSubtitle 2000000 3000 1) 1 H) as (E & _).
  exact E.
Defined.

(** copy_ts and a format without discontinuities: a packet one second
    before the prediction is left alone. *)
Lemma ts_discontinuity_detect_copy_ts_witness :
  snd (Demux.ts_discontinuity_detect (U := Model.libavutil)
         (F := Model.floatarith) true Examples.default_delta_threshold
         Examples.default_error_threshold Examples.demuxer_scaled
         (Examples.demux_stream AVMEDIA_TYPE_VIDEO 2 false false)
         (Examples.demux_packet 940000 940000))
  = Examples.demux_packet 940000 940000.
Proof.
  rewrite (ts_discontinuity_detect_copy_ts (U := Model.libavutil)
             (F := Model.floatarith) Examples.default_delta_threshold
             Examples.default_error_threshold Examples.demuxer_scaled
             (Examples.demux_stream AVMEDIA_TYPE_VIDEO 2 false false)
             (Examples.demux_packet 940000 940000)).
  - reflexivity.
  - left. reflexivity.
Defined.

(** A packet 40 hours after the prediction in a format without
    discontinuities: its timestamps are dropped, the offset stays. *)
Lemma ts_discontinuity_detect_plain_format_witness :
  Demux.ts_offset_discont
    (fst (Demux.ts_discontinuity_detect (U := Model.libavutil)
            (F := Model.floatarith) false Examples.default_delta_threshold
            Examples.default_error_threshold Examples.demuxer_scaled
            (Examples.demux_stream AVMEDIA_TYPE_VIDEO 2 false false)
            (Examples.demux_packet 144000000000 144000000000)))
  = 0.
Proof.
  assert (H : Z.land (Demux.iformat_flags (Demux.f Examples.demuxer_scaled))
                Demux.AVFMT_TS_DISCONT = 0) by reflexivity.
  destruct (ts_discontinuity_detect_plain_format (U := Model.libavutil)
              (F := Model.floatarith) false Examples.default_delta_threshold
              Examples.default_error_threshold Examples.demuxer_scaled
              (Examples.demux_stream AVMEDIA_TYPE_VIDEO 2 false false)
              (Examples.demux_packet 144000000000 144000000000) H)
    as (E & _).
  rewrite E. reflexivity.
Defined.

(** A packet with dts 2 s on a stream that expected 1.94 s. *)
Lemma ist_dts_update_packet_dts_witness :
  Demux.ds_dts
    (fst (Demux.ist_dts_update (U := Model.libavutil) (F := Model.floatarith)
            (Examples.demux_stream AVMEDIA_TYPE_VIDEO 1 false false)
            (Examples.demux_packet 2000000 2000000)))
  = 2000000.
Proof.
  assert (H : Demux.dts (Examples.demux_packet 2000000 2000000)
              <> AV_NOPTS_VALUE) by (vm_compute; discriminate).
  destruct (ist_dts_update_packet_dts (U := Model.libavutil)
              (F := Model.floatarith)
              (Examples.demux_stream AVMEDIA_TYPE_VIDEO 1 false false)
              (Examples.demux_packet 2000000 2000000) H) as (E & _).
  rewrite E. reflexivity.
Defined.

(** A packet of the first of three streams. *)
Lemma ts_fixup_other_streams_witness :
  exists (d' : Demux.Demuxer (F := Model.floatarith)) (pkt' : Demux.AVPacket)
         (fd : Demux.FrameData),
    Examples.fixup_default Examples.demuxer_sub2video
      (Examples.demux_packet 1000 1000) = Some (0, d', pkt', fd)
    /\ nth_error (Demux.streams (Demux.f d')) 2
       = nth_error (Demux.streams (Demux.f Examples.demuxer_sub2video)) 2.
Proof.
  assert (H1 : 0 <= Demux.stream_index (Examples.demux_packet 1000 1000))
    by (cbn; lia).
  assert (H2 : nth_error
                 (Demux.streams (Demux.f Examples.demuxer_sub2video))
                 (Z.to_nat
                    (Demux.stream_index (Examples.demux_packet 1000 1000)))
               = Some (Examples.demux_stream AVMEDIA_TYPE_VIDEO 1 false false))
    by reflexivity.
  destruct (ts_fixup_other_streams (U := Model.libavutil)
              (F := Model.floatarith) false Examples.default_delta_threshold
              Examples.default_error_threshold Examples.demuxer_sub2video
              (Examples.demux_packet 1000 1000) _ H1 H2)
    as (d' & pkt' & fd & ds' & E & _ & Hother & _).
  exists d', pkt', fd. split; [exact E|].
  apply Hother. cbn. lia.
Defined.

(** A video stream is taken into use for an encoder, twice. *)
Lemma ist_use_idempotent_witness :
  match Inputs.accepting_ist_use
          (Examples.demux_state Examples.demuxer_scaled) 0%nat
          Demux.DECODING_FOR_OST with
  | Some (_, s1) =>
      Inputs.accepting_ist_use s1 0%nat Demux.DECODING_FOR_OST = Some (0, s1)
  | None => False
  end.
Proof.
  destruct (Inputs.accepting_ist_use
              (Examples.demux_state Examples.demuxer_scaled) 0%nat
              Demux.DECODING_FOR_OST) as [[ret s1]|] eqn:E.
  - apply (ist_use_idempotent (F := Model.floatarith) true nat
             Examples.accept_add_demux_stream Examples.accept_add_dec
             Examples.accept_connect Examples.accept_dec_open
             (Examples.demux_state Examples.demuxer_scaled) s1 0%nat
             Demux.DECODING_FOR_OST ret E).
    assert (H : option_map fst
                  (Inputs.accepting_ist_use
                     (Examples.demux_state Examples.demuxer_scaled) 0%nat
                     Demux.DECODING_FOR_OST) = Some 0) by reflexivity.
    rewrite E in H. injection H as ->. lia.
  - assert (H : option_map fst
                  (Inputs.accepting_ist_use
                     (Examples.demux_state Examples.demuxer_scaled) 0%nat
                     Demux.DECODING_FOR_OST) = Some 0) by reflexivity.
    rewrite E in H. discriminate H.
Defined.

(** The filter of the first of two streams in use gives out two packets
    after the consumers of that stream are done. *)
Lemma demux_send_counts_every_eof_witness :
  fst (Demux.demux_send (F := Model.floatarith) Inputs.done_send
         Examples.keep_ts Examples.accept_bsf_send Inputs.full_bsf_receive
         2%nat (Examples.demux_state Inputs.demuxer_bsf) 0%nat None 0)
  = Returns AVERROR_EOF.
Proof.
  assert (H1 : nth_error
                 (Demux.streams
                    (Demux.f (Demux.dmx
                                (Examples.demux_state Inputs.demuxer_bsf))))
                 0%nat = Some Inputs.demux_stream_bsf) by reflexivity.
  assert (H2 : Demux.bsf Inputs.demux_stream_bsf
               = Some Inputs.bsf_microseconds) by reflexivity.
  assert (H3 : Demux.pkt_heartbeat
                 (Demux.dmx (Examples.demux_state Inputs.demuxer_bsf))
               = None) by reflexivity.
  assert (H4 : Inputs.done_send 2%nat 0
                 (Demux.set_time_base Demux.blank_packet (mkQ 1 1000000)) 0
               = (3%nat, AVERROR_EOF)) by reflexivity.
  assert (H5 : Inputs.done_send 4%nat 0
                 (Demux.set_time_base Demux.blank_packet (mkQ 1 1000000)) 0
               = (5%nat, AVERROR_EOF)) by reflexivity.
  destruct (demux_send_counts_every_eof (F := Model.floatarith) nat
              Inputs.done_send Examples.keep_ts Examples.accept_bsf_send
              Inputs.full_bsf_receive O
              (Examples.demux_state Inputs.demuxer_bsf) 0%nat
              Inputs.demux_stream_bsf Inputs.bsf_microseconds None 0
              1%nat 2%nat 3%nat 4%nat 5%nat 0 0 0 Demux.blank_packet
              Demux.blank_packet H1 H2 H3 eq_refl (Z.le_refl 0) eq_refl
              (Z.le_refl 0) H4 eq_refl (Z.le_refl 0) H5)
    as (E & _); try (cbn; unfold INT_MAX; lia).
  exact E.
Defined.

(** A subtitle stream is connected to a filter: it is marked for
    sub-to-video and the demuxer gets its heartbeat packet. *)
Lemma ist_filter_add_sub2video_witness :
  match Demux.ist_filter_add (F := Model.floatarith) true
          Examples.accept_add_demux_stream Examples.accept_add_dec
          Examples.accept_connect Examples.accept_dec_open
          Examples.accept_add_filter Examples.alloc_ok
          (Examples.demux_state Inputs.demuxer_subtitle) 0%nat 3 true with
  | Some (_, s') =>
      exists ds',
        nth_error (Demux.streams (Demux.f (Demux.dmx s'))) 0%nat = Some ds'
        /\ Demux.have_sub2video ds' = true
  | None => False
  end.
Proof.
  assert (H : option_map fst
                (Demux.ist_filter_add (F := Model.floatarith) true
                   Examples.accept_add_demux_stream Examples.accept_add_dec
                   Examples.accept_connect Examples.accept_dec_open
                   Examples.accept_add_filter Examples.alloc_ok
                   (Examples.demux_state Inputs.demuxer_subtitle) 0%nat 3
                   true) = Some 0) by reflexivity.
  destruct (Demux.ist_filter_add (F := Model.floatarith) true
              Examples.accept_add_demux_stream Examples.accept_add_dec
              Examples.accept_connect Examples.accept_dec_open
              Examples.accept_add_filter Examples.alloc_ok
              (Examples.demux_state Inputs.demuxer_subtitle) 0%nat 3 true)
    as [[ret s']|] eqn:E; [|discriminate H].
  injection H as Hret.
  assert (H1 : nth_error
                 (Demux.streams
                    (Demux.f (Demux.dmx
                                (Examples.demux_state
                                   Inputs.demuxer_subtitle))))
                 0%nat
               = Some (Examples.demux_stream AVMEDIA_TYPE_SUBTITLE 1
                         false false)) by reflexivity.
  assert (H2 : Demux.par_codec_type
                 (Demux.ist (Examples.demux_stream AVMEDIA_TYPE_SUBTITLE 1
                               false false))
               = AVMEDIA_TYPE_SUBTITLE) by reflexivity.
  assert (H3 : forall hb : Demux.AVPacket,
             Demux.pkt_heartbeat
               (Demux.dmx (Examples.demux_state Inputs.demuxer_subtitle))
             = Some hb -> Demux.size hb = 0)
    by (intros hb Hhb; discriminate Hhb).
  assert (H4 : 0 <= ret) by lia.
  exact (proj2 (ist_filter_add_sub2video (F := Model.floatarith) true nat
                  Examples.accept_add_demux_stream Examples.accept_add_dec
                  Examples.accept_connect Examples.accept_dec_open
                  Examples.accept_add_filter Examples.alloc_ok
                  (Examples.demux_state Inputs.demuxer_subtitle) s' 0%nat
                  (Examples.demux_stream AVMEDIA_TYPE_SUBTITLE 1 false
                     false)
                  3 ret true H1 H2 H3 E H4)).
Defined.

(** A program with a stream in use and a program whose only stream is
    unused. *)
Lemma discard_unused_programs_marks_witness :
  exists programs' : list DemuxThread.AVProgram,
    DemuxThread.discard_unused_programs (F := Model.floatarith)
      Inputs.streams_audio_unused Inputs.two_programs = Some programs'
    /\ Forall2
         (fun p p' =>
            DemuxThread.program_stream_index p'
            = DemuxThread.program_stream_index p
            /\ (DemuxThread.program_discard p' = Demux.AVDISCARD_ALL
                \/ DemuxThread.program_discard p'
                   = DemuxThread.AVDISCARD_DEFAULT)
            /\ (DemuxThread.program_discard p' = Demux.AVDISCARD_ALL <->
                Forall (fun k => exists ds,
                                   nth_error Inputs.streams_audio_unused k
                                   = Some ds
                                   /\ Demux.discard ds = true)
                  (DemuxThread.program_stream_index p)))
         Inputs.two_programs programs'.
Proof.
  apply (discard_unused_programs_marks (F := Model.floatarith)
           Inputs.streams_audio_unused Inputs.two_programs).
  repeat (apply Forall_cons || apply Forall_nil); cbn; lia.
Defined.

(** The audio stream of a file whose video stream is in use. *)
Lemma ist_find_unused_usable_witness :
  exists (ds : Demux.DemuxStream) (ret : Z) (s' : Demux.State nat),
    nth_error
      (Demux.streams (Demux.f (Demux.dmx Inputs.state_audio_unused))) 1%nat
    = Some ds
    /\ Demux.par_codec_type (Demux.ist ds) = AVMEDIA_TYPE_AUDIO
    /\ Demux.ist_use (F := Model.floatarith) true
         Examples.accept_add_demux_stream Examples.accept_add_dec
         Examples.accept_connect Examples.accept_dec_open
         Inputs.state_audio_unused 1%nat 0 = Some (ret, s')
    /\ (ret = 0
        \/ (ret < 0 /\ Demux.sch_idx_stream ds < 0
            /\ ret = snd (Examples.accept_add_demux_stream
                            (Demux.world Inputs.state_audio_unused)
                            (Demux.file_index
                               (Demux.f
                                  (Demux.dmx Inputs.state_audio_unused))))))
    /\ (0 <= ret ->
        Demux.nb_streams_used (Demux.dmx s')
        = Demux.nb_streams_used (Demux.dmx Inputs.state_audio_unused) + 1
        /\ exists ds1 : Demux.DemuxStream,
             nth_error (Demux.streams (Demux.f (Demux.dmx s'))) 1%nat
             = Some ds1
             /\ Demux.discard ds1 = false
             /\ Demux.streamcopy_needed ds1 = true).
Proof.
  assert (H1 : DemuxThread.ist_find_unused (F := Model.floatarith)
                 (Demux.streams
                    (Demux.f (Demux.dmx Inputs.state_audio_unused)))
                 AVMEDIA_TYPE_AUDIO = Some 1%nat) by reflexivity.
  assert (H2 : - 2147483648
               <= Demux.nb_streams_used
                    (Demux.dmx Inputs.state_audio_unused) + 1
               <= INT_MAX) by (cbn; unfold INT_MAX; lia).
  exact (proj2 (ist_find_unused_usable (F := Model.floatarith) true nat
                  Examples.accept_add_demux_stream Examples.accept_add_dec
                  Examples.accept_connect Examples.accept_dec_open
                  Inputs.state_audio_unused AVMEDIA_TYPE_AUDIO 1%nat H1 H2)).
Defined.

(** An output with an encoder is added to the only stream of a file. *)
Lemma ist_output_add_records_witness :
  exists (ret : Z) (s' : Demux.State nat) (ds' : Demux.DemuxStream),
    Demux.ist_output_add (F := Model.floatarith) true
      Examples.accept_add_demux_stream Examples.accept_add_dec
      Examples.accept_connect Examples.accept_dec_open Examples.alloc_ok
      (Examples.demux_state Examples.demuxer_scaled) 0%nat 7 true
    = Some (ret, s')
    /\ nth_error (Demux.streams (Demux.f (Demux.dmx s'))) 0%nat = Some ds'
    /\ Demux.filters (Demux.ist ds')
       = Demux.filters
           (Demux.ist (Examples.demux_stream AVMEDIA_TYPE_VIDEO 2 false
                         false))
    /\ (ret < 0 ->
        Demux.outputs (Demux.ist ds')
        = Demux.outputs
            (Demux.ist (Examples.demux_stream AVMEDIA_TYPE_VIDEO 2 false
                          false)))
    /\ (0 <= ret ->
        Demux.outputs (Demux.ist ds')
        = Demux.outputs
            (Demux.ist (Examples.demux_stream AVMEDIA_TYPE_VIDEO 2 false
                          false)) ++ [7]
        /\ ret = (if true then Demux.sch_idx_dec ds'
                  else Demux.sch_idx_stream ds')
        /\ Demux.discard ds' = false).
Proof.
  assert (H1 : nth_error
                 (Demux.streams
                    (Demux.f (Demux.dmx
                                (Examples.demux_state
                                   Examples.demuxer_scaled)))) 0%nat
               = Some (Examples.demux_stream AVMEDIA_TYPE_VIDEO 2 false
                         false)) by reflexivity.
  exact (ist_output_add_records (F := Model.floatarith) true nat
           Examples.accept_add_demux_stream Examples.accept_add_dec
           Examples.accept_connect Examples.accept_dec_open
           Examples.alloc_ok
           (Examples.demux_state Examples.demuxer_scaled) 0%nat
           (Examples.demux_stream AVMEDIA_TYPE_VIDEO 2 false false) 7 true
           H1).
Defined.

(** An encoded video stream limited to 100 frames next to a copied audio
    stream: the queue of frames holds the video stream, the queue of
    packets both. *)
Lemma setup_sync_queues_queue_contents_witness :
  let r := MuxInit.setup_sync_queues Examples.alloc_ok O
             Examples.muxer_video_limit 10000000 in
  (MuxInit.sq_encode (MuxInit.of_ (snd r))
   = Some (MuxInit.mkSq MuxInit.SYNC_QUEUE_FRAMES 10000000
             [MuxInit.mkSqStream true (Some 100)])
   /\ map MuxInit.sq_idx_encode
        (filter MuxInit.IS_AV_ENC (MuxInit.streams (MuxInit.of_ (snd r))))
      = [0])
  /\ MuxInit.sq_mux (snd r)
     = Some (MuxInit.mkSq MuxInit.SYNC_QUEUE_PACKETS 10000000
               [MuxInit.mkSqStream true (Some 100);
                MuxInit.mkSqStream false None])
  /\ MuxInit.sq_pkt (snd r) = true
  /\ map MuxInit.sq_idx_mux
       (filter (fun o => MuxInit.IS_INTERLEAVED (MuxInit.codec_type o))
          (MuxInit.streams (MuxInit.of_ (snd r))))
     = [0; 1].
Proof.
  cbv zeta.
  assert (Hmax : Forall (fun o => MuxInit.max_frames o <= INT64_MAX)
                   (MuxInit.streams
                      (MuxInit.of_ Examples.muxer_video_limit))).
  { repeat constructor; cbn; unfold INT64_MAX; lia. }
  assert (Hwants : MuxInit.wants_sync_queues
                     (MuxInit.shortest
                        (MuxInit.of_ Examples.muxer_video_limit))
                     (fold_left MuxInit.count_stream
                        (MuxInit.streams
                           (MuxInit.of_ Examples.muxer_video_limit))
                        (MuxInit.mkCounts 0 0 false false)) = true)
    by reflexivity.
  exact (setup_sync_queues_queue_contents nat Examples.alloc_ok O
           (snd (fst (MuxInit.setup_sync_queues Examples.alloc_ok O
                        Examples.muxer_video_limit 10000000)))
           Examples.muxer_video_limit
           (snd (MuxInit.setup_sync_queues Examples.alloc_ok O
                   Examples.muxer_video_limit 10000000))
           10000000 Hmax Hwants eq_refl).
Defined.

(** Two audio streams without a default among the inputs: the first one
    becomes the default. *)
Lemma set_dispositions_default_witness :
  0 = 0
  /\ map MuxMeta.codec_type
       [MuxMeta.mkOutputStream AVMEDIA_TYPE_AUDIO None 0 1;
        MuxMeta.mkOutputStream AVMEDIA_TYPE_AUDIO None 1 0]
     = map MuxMeta.codec_type Inputs.two_audio_streams
  /\ forall type : AVMediaType,
       let same :=
         filter (fun o => AVMediaType_eqb (MuxMeta.codec_type o) type)
           [MuxMeta.mkOutputStream AVMEDIA_TYPE_AUDIO None 0 1;
            MuxMeta.mkOutputStream AVMEDIA_TYPE_AUDIO None 1 0] in
       (2 <= List.length same)%nat ->
       existsb (fun o => negb (MuxMeta.attached_pic o)) same = true ->
       existsb MuxMeta.has_default same = true.
Proof.
  assert (Hall : Forall (fun o => MuxMeta.disposition o = None)
                   Inputs.two_audio_streams)
    by (repeat constructor).
  exact (set_dispositions_default [0; 0] Inputs.keep_disposition
           Inputs.two_audio_streams
           [MuxMeta.mkOutputStream AVMEDIA_TYPE_AUDIO None 0 1;
            MuxMeta.mkOutputStream AVMEDIA_TYPE_AUDIO None 1 0]
           0 Hall eq_refl).
Defined.
